(* ===== verification/_CoqProject ===== *)
-Q . S2P
Prelude.v
Types.v
Geometry.v
Widgets.v
Storage.v
Auth.v
Header.v
Verify.v
EntryPoints.v
VerifyFocus.v
Friends.v
Notifications.v
ProfileView.v
Settings.v
Profile.v
Dom.v
Editor.v
Projector.v
EditorChrome.v
Dashboard.v
ProfileRender.v
Menus.v
DashboardNav.v
Message.v
Markup.v
ViewMarkup.v
HeaderStatus.v
PageHeader.v
Landing.v
LandingNav.v
Scenarios.v
AuthScenarios.v
SocialScenarios.v
PageScenarios.v
