(* ===== verification/Prelude.v ===== *)
(** * A verification development for the Mesa gaming platform front end

    The repository is a browser front end written in TypeScript
    (src/src/*.ts).  Every page keeps its state in the browser's
    [localStorage]/[sessionStorage] and in the DOM; there is no server.
    The part with real structure is the profile-banner editor
    (src/src/banner-editor.ts, class [BannerEditor]), a drag-and-drop
    canvas with an edit session (snapshot on entry, commit or roll back on
    exit), widget management under a cap of six, scale/stretch and text
    style controls clamped to fixed ranges, and a save path that writes the
    user record into two storage blobs.  Around it, the authentication
    pages (auth.service.ts, verify.ts) register users and log them in
    through a six-digit code kept in [sessionStorage], the social pages
    (friends.ts, user-profile-view.ts) edit friend lists, subscriptions and
    notifications, and the dashboard, profile and settings pages
    (dashboard.ts, profile.ts, settings.ts) host the editor and edit the
    user record and the settings object ['mesaSettings'].  All pages share two blobs of [localStorage]: the user
    list ['mesaDatabase'] and the logged-in user ['mesaCurrentUser'];
    every handler parses them when it runs and writes whole copies back,
    so the order of its reads and writes decides what survives.

    ** Library layout (files in dependency order)

    - [Prelude] (this file): the JavaScript primitives the code relies on,
      modelled once: numbers as rationals [Q] with [Math.max]/[Math.min]
      clamping and [Math.round]; the falsy-default idiom [x || d];
      [String.prototype.startsWith]/[replace]/[trim]; [Array.find],
      [findIndex], [indexOf], [splice].  Notation scope [js_scope], the
      hint database [mesa], the tactic [qclamp] for clamp arithmetic.
    - [Types]: the data model of src/src/types.ts ([BannerPosition],
      [TextStyle], [BannerElement], [BannerLayout], [ProfileWidget],
      [User], [UserNotification], [Database], the constants
      [DEFAULT_BANNER_LAYOUT], [STICKERS], [BANNER_FONTS]) with decidable
      equality instances.
    - [Geometry]: [clampPosition] and the pointer-delta computation of
      [onPointerMove] (the "Geometry Engine" of the spec), with the
      setoid of positions up to [Qeq] and its [Proper] instances.
    - [Widgets]: the pure list-level parts of the editor's operations:
      element lookup ([getElementPosition], [setElementPosition]), the
      widget constructors of [addTextWidget]/[addGifWidget]/
      [addStickerWidget], the scale/stretch/font-size arithmetic, the
      [Object.assign] merge of [changeTextStyle].

    - [Storage]: the [localStorage]/[sessionStorage] keys of [StorageKeys]
      (types.ts) with the values stored under them (['mesaSettings'] as
      a record of optional properties), the writes of single
      keys, and the [findIndex]-then-assign update of a user in
      [Database.users]; the class [UserRepository] with its get/save laws
      (the repository contract of spec.md, section 9) and its [Database]
      instance.
    - [Auth] (Module [Auth], auth.service.ts): the database helpers, the
      e-mail regular expression as a backtracking matcher, the password
      rules, the verification code ([Math.floor(...).toString()] as
      stdpp's [pretty]), [verifyCode], [checkAuth], the Steam login and
      the registration and login submit handlers over a [Browser] (the two
      storages, the form message, the alerts, the page navigated to).
      Theorems: the matcher accepts exactly the [local@domain.tld] shape;
      every code has six digits; a successful registration is found by the
      next login; the Steam login enters any account owning the drawn
      address; an expired code stays rejected.
    - [Header] (Module [Header]): the header code every signed-in page
      repeats: the sign-in check, the online-status switch of the profile
      drop-down (which writes ['mesaSettings'] on every page load), the
      logout and the stored theme.
    - [Verify] (Module [Verify], verify.ts): the verification page
      ([init], the digit filter of the inputs, submit, resend) and
      [flow_step], which drives all the authentication pages by a list of
      [PageEvent]s.  Theorems: no event sequence makes two accounts share
      an address; only Steam or a correct unexpired code logs the browser
      in; logging in with the right password and typing the code shown
      completes the login.
    - [EntryPoints] (Module [EntryPoints], login.ts and register.ts):
      each page's submit and Steam button as a dispatcher to [Auth]; a
      run of either page is a run of [Verify.flow_step] on the matching
      events, so the flow's theorems cover the two pages.
    - [VerifyFocus] (Module [VerifyFocus], verify.ts): the focus of the
      code inputs: the three listeners of each input in their order, the
      Backspace move, the focus of the first input after a wrong code or
      a resend, and keys typed into the focused input.  Theorem: the
      focus listener reads the value before the digit filter empties it,
      so a letter leaves a gap and the code is refused as incomplete.
    - [Friends] (Module [Friends], friends.ts): search, the three lists,
      [removeFriend], [unsubscribe], logout, and friendship as a relation
      on the database ([is_friend], with a boolean checker of its
      symmetry).  Theorems, in a Section whose hypotheses say the page's
      user object is its own database record: [removeFriend] keeps
      friendship symmetric; [unsubscribe] removes the subscription; the
      search shows at most eight other users.
    - [Notifications] (Module [Notifications]): the notification
      drop-down that dashboard.ts and user-profile-view.ts both carry, as
      a [Panel] (the page's [currentUser] object, the badge, the list)
      with its handlers (refresh, accept/decline, mark all read).  A
      Section states the hypotheses of accepting a request once.
      Theorems: accepting makes both users friends; marking all read
      leaves nothing unread.
    - [ProfileView] (Module [ProfileView], user-profile-view.ts): the
      friend and subscribe buttons and [updateCurrentUser], in the order
      of their storage reads and writes, with a notification panel
      embedded in the page's state.  Theorems: the friend removal of this
      page writes back a stale copy of the database and breaks symmetry;
      subscribing twice is a round trip.
    - [Settings] (Module [Settings], settings.ts): [loadSettings],
      [saveSettings], the form (selects with their option values, check
      boxes) and its read and write, the theme, and the listeners.
      Theorems: on a browser without saved settings the header's write
      hides the defaults and the first save turns the notification
      switches off; load then save is the identity on complete settings;
      a save keeps the online status; deleting the account leaves it in
      the database, where it logs in again.
    - [Profile] (Module [Profile], profile.ts): [saveProfile] as the
      spread [{...user, ...updates}] of a [Patch], [loadProfile], the
      upload, banner-URL, remove and submit handlers over the page's
      load-time [user].  Theorems: a submit keeps logins unique; a
      successful submit writes the load-time snapshot over the record
      (an interleaving with another tab loses a friendship).
    - [Dom]: the part of the page the editor reads and writes: the
      [.banner-element] nodes of [#bannerCanvas] with their handles (node
      identity, needed because [dragState.element] holds a node across
      events), the toolbar, the popovers and the two text inputs.
    - [Editor] (Module [Editor]): the class [BannerEditor] as a record
      [Editor] (its fields, the DOM, the storage, the alerts shown, and a
      [crashed] flag for the uncaught [TypeError] of [exitEditMode] with no
      snapshot), one definition per method ([init], [enterEditMode],
      [exitEditMode], [saveLayout], [resetLayout], [onPointerDown/Move/Up],
      [addTextWidget]/[addGifWidget]/[addStickerWidget],
      [deleteSelectedElement], [changeWidgetScale/Stretch],
      [changeTextStyle], [changeTextFontSize], the render methods), the
      listeners of [bindEvents] as an [Event] type dispatched by [step], and
      [run] over event sequences.  The theorems: drag ends at the clamped
      pointer position; cancel restores the snapshot; save then load gives
      the saved layout and widgets; the cap of six holds on every reachable
      state (by induction on [reachable]); repeated scale clicks stay in
      [[0.3, 3]]; delete removes a selected widget from model and DOM and
      leaves core elements.
    - [Projector] (Module [Projector], banner-editor.ts): the revert
      sequence of [exitEditMode] ([removeWidgetElements], [applyLayout],
      [renderAllWidgets]) as one function of the layout, the widgets and
      the DOM.  Theorem: it is idempotent (spec section 4.4) when the
      layout's element ids and the page's non-widget node ids are
      distinct, the widget nodes compared up to their fresh handles.
    - [EditorChrome] (Module [EditorChrome], banner-editor.ts): the font
      selector and the sticker grid that [init] fills, their listeners as
      editor events, and the browser's display of a select's value.
      Theorems: every grid button draws on the canvas the glyph it shows;
      a font option chosen for a text element is shown again by the
      select when the element is selected again.
    - [Dashboard] (Module [Dashboard], dashboard.ts): the sign-in check,
      the user data, the statistics ([winRate], the subscriber count of
      the friends page's scan), the play and tournament buttons, and the
      page as one state holding one storage and the one [userData] object
      that the banner editor ([this.user]) and the notification panel
      ([currentUser]) share; [dash_step] hands both to the component an
      event is for.  Theorems: the win rate is a percentage; accepting a
      request then saving the banner keeps the friendship, because of the
      sharing.
    - [ProfileRender] (Module [ProfileRender], user-profile-view.ts):
      what the profile view draws: the header, the banner ([renderBanner]
      with [createBannerElement], [applyTextStyle], [createWidgetElement]),
      the account statistics, the games list with its ranks, the game
      selector as a state machine ([stats_step]) with the per-game block,
      the bio, the mock match history and its rows, the search, the
      side bar logout and the share button; [viewPage] composes them
      after [ProfileView.init].  [Math.random()] is a stream of values in
      [[0, 1)] read in call order, [toFixed] a rounding.  Theorems: after
      a Save in any reachable editor the own profile shows exactly the
      saved visible elements and widgets as the editor draws them; the
      match history is of its declared type (every array read in range);
      the per-game block is bounded (win rate at most 52%); the selector
      keeps one block shown and shows the last selection; seven of the
      twelve mock rows contradict their result; the view draws what the
      dashboard, the editor and the friends search compute.
    - [Menus] (Module [Menus], dashboard.ts and user-profile-view.ts):
      the three header menus (profile drop-down, search results,
      notifications) with their click listeners, dispatched as the DOM
      does (element, then document unless stopped).  Theorems: a click
      that reaches the document leaves at most one menu open; the toggle
      and the bell stop their click, so all three menus can be open.
    - [DashboardNav] (Module [DashboardNav], dashboard.ts): the side bar
      and game cards ([activate]: one active item), the chat and match
      alerts, the mobile menu.  Theorem: the mobile menu button exists
      exactly once after a narrow load or resize, never twice.
    - [Message] (Module [Message], verify.ts, profile.ts, settings.ts,
      auth.service.ts): the [#formMessage] element over time: its text
      and class list, a clock in milliseconds, and the pending
      [setTimeout] callbacks of [showMessage] that remove the [show]
      class.  Theorem: a message alone stays visible exactly 5000 ms, but
      a second one shown [d] ms after it is hidden after [5000 - d] ms by
      the first one's callback (see findings).
    - [Markup] (Module [Markup], friends.ts and dashboard.ts): the HTML
      templates written into [innerHTML], character for character: the
      friend cards with their action buttons, the empty states, the
      search results of the friends page and of the page header, the
      notification items; Module [FriendsUI]: the friends page's tabs,
      its two menus' open/close listeners, its search listener with the
      HTML it writes, and the lists' HTML after [Friends.init].  Theorem:
      no template escapes what it interpolates, so every listed nickname
      and sender name occurs verbatim in the markup (with a nickname
      saved through the profile form as a witness: stored markup
      injection, see findings).
    - [ViewMarkup] (Module [ViewMarkup], user-profile-view.ts): the
      markup of the profile view that [ProfileRender] keeps as data: the
      rank medal SVG with its colour table, the games list cards, the
      notification items, the actions bar, the view's own
      [formatTimeAgo]; and the double encoding of the file's text (UTF-8
      read as Mac OS Roman and encoded again).  Theorem: the view's
      [formatTimeAgo] is the dashboard's, double encoded, for every
      elapsed time.
    - [HeaderStatus] (Module [HeaderStatus], dashboard.ts and
      user-profile-view.ts): the display of the status switch of the
      profile drop-down (the dots, the text, the icon, the check box) and
      the drop-down's avatar and name, over [Header.updateStatus]'s
      storage write; the literals of each page are a parameter, the
      profile view's stored double-encoded.  Theorems: whatever clicks on
      the check box, every status element shows the stored status and
      each click flips it; the profile view shows the other pages' texts
      read as Mac OS Roman.
    - [PageHeader] (Module [PageHeader], settings.ts, the same code as
      profile.ts): the header of a page as one state (browser, drop-down,
      status elements, search box) and one step per event (clicks
      dispatched element then document, the status check box, the search
      input with the HTML it writes, the two logouts).  Theorem: no event
      but a confirmed logout changes the database, the signed-in flag,
      the current user, the session or the location.
    - [Landing] (Module [Landing], main.ts): the tournament filter with
      its [setTimeout] callbacks as a queue of timers ([fire], [advance]),
      the scroll animations (cards hidden at [init], shown by the
      observer), the active navigation link, the join alert and the live
      indicator; [landing_step] runs filter clicks, intersections and
      waits in order; [fire] and [advance] model the browser's timer
      queue, not code of main.ts.  Theorems: a filter click followed by
      a wait of 300 ms runs every callback it queued and leaves each
      card shown or hidden as the filter asks; a hide callback of
      an earlier filter, still queued when "Все" is clicked, hides a
      card under the "all" filter (see findings).
    - [LandingNav] (Module [LandingNav], main.ts): the anchors' smooth
      scrolling and the scroll spy, which interact through the scroll
      offset (a click scrolls, the [scroll] event marks a link), with
      [querySelector]'s [SyntaxError] on a fragment that cannot start an
      identifier (empty, a digit first, a lone '-' or '-' then a
      digit); the
      tournament cards' join and details listeners with their alerts and
      console lines.  Theorems: a click on a section's link marks exactly
      its links when no section starts within 200 pixels below it; a
      section starting more than 200 pixels below the furthest scroll
      offset is never marked (see findings).
    - [Scenarios], [AuthScenarios], [SocialScenarios], [PageScenarios]:
      concrete pages,
      users and databases, the witnesses of the theorems with hypotheses,
      and evaluated scenarios that exhibit the findings (font-size clicks,
      sticker rendering, pointer ids, duplicate [Date.now] ids, save then
      cancel, the double-encoded labels of the profile page, a wrong
      code followed by the right one on the verification page, markup
      saved as a nickname and found by another user's search, the
      projector run twice, a sticker-grid click, a font chosen and shown
      again, a landing page whose last section is never marked, a header
      session with cancelled logouts).

    ** Modelling choices

    - A JavaScript [number] is a rational [Q].  Floating-point rounding is
      not modelled; the code rounds scale factors explicitly with
      [Math.round(x * 10) / 10], which is modelled exactly
      ([math_round x = floor (x + 1/2)]).  NaN and the infinities are not
      modelled: they arise only from a zero-sized canvas (see findings).
    - Optional fields ([?:] in TypeScript) are [option]s; the idiom
      [x || d] on a number is [js_num_or] (0 and undefined are falsy), on a
      string [js_str_or] ("" and undefined are falsy).
    - [JSON.parse(JSON.stringify(x))] deep copies are value copies: the
      model has value semantics, and object identity is kept explicitly
      only where the code depends on it (DOM nodes held across events,
      the dashboard's [userData] shared by two components, a page's
      load-time user object that later saves write back).  The banner
      editor's widgets are values too, although [init] copies
      [profileWidgets] shallowly, so that until a save or cancel its
      widget objects are the user object's (see findings); no theorem
      depends on that sharing.
      A stored blob is the value itself: [JSON.parse] of what
      [JSON.stringify] wrote gives it back.  An object a handler found in
      a parsed array and mutates in place is an [update_first] of that
      array.
    - Strings are the UTF-8 bytes of the text.  [s.length] counts UTF-16
      units ([js_length]); [toLowerCase] and the [\s] class are modelled on
      ASCII (non-ASCII letters are not folded, non-ASCII spaces are not
      white space).
    - [Date.now()], [Math.random()] and the answers to [confirm] are
      arguments of the handlers that use them; a navigation started by a
      [setTimeout] is taken as done.

    ** Bounds and fuel

    Every handler is a finite composition of structural list functions,
    and the runs are [fold_left]s over the event list.  The one use of
    fuel is [Landing.fire], which pops the earliest due timer once per
    unit of fuel; [Landing.advance] gives it the length of the queue,
    which is enough because every firing removes one timer and a
    callback queues none (the lemma [fire_drains] proves the queue
    empty after a wait past every due time, and [filter_settles] uses
    the same bound).  [Message.wait] needs no fuel: it runs
    the callbacks due by the new time with one [filter].  Claims about repeated clicks quantify
    over every click count ([Nat.iter n]).  The values of [Math.random()]
    are a stream [nat -> Q] assumed in [[0, 1)], so the bounds proved on
    the mock statistics hold for every run.

    ** Not modelled (see PROJECT.json)

    The Vite configuration (vite.config.ts), which is not program
    behaviour.  Code repeated verbatim across pages (the header's search,
    drop-down and theme in dashboard.ts, profile.ts, settings.ts,
    friends.ts and user-profile-view.ts; [showMessage]) is modelled once
    and the map names one copy.  Within the modelled pages:
    the HTML of the profile view's statistics blocks, match rows and
    search results beyond the data they show (the other templates are
    in [Markup] and [ViewMarkup]), and the date and locale formatting,
    which are parameters.  Smooth scrolling is modelled by the offset it
    ends at, and [querySelector] takes a fragment as an identifier
    unless it starts as no identifier can (CSS escapes are not
    modelled).
    The pages' HTML is not in the repository: the settings form's
    option values are a parameter, and a key typed into a code input is
    appended to its value (caret at the end, no [maxlength]).  [FileReader] is modelled by the data URL it
    yields, and an awaited handler runs to its end before the next
    event.  Pointer capture, CSS layout and animation are outside the
    model.
*)

From Stdlib Require Export QArith Qround Qminmax Lqa String.
From stdpp Require Export base list strings decidable.

Open Scope Q_scope.

Declare Scope js_scope.
Delimit Scope js_scope with js.

(** ** Numbers *)

(** [Math.min], [Math.max] and the clamp [Math.max(lo, Math.min(hi, x))]
    that the editor writes in every bounded control. *)
Definition math_min (a b : Q) : Q := Qmin a b.
Definition math_max (a b : Q) : Q := Qmax a b.
Definition clamp (lo hi x : Q) : Q := math_max lo (math_min hi x).

(** [Math.round]: the nearest integer, halves rounded towards +infinity. *)
Definition math_round (x : Q) : Q := inject_Z (Qfloor (x + (1 # 2))).

(** [x || d] on a [number | undefined]: [0] and [undefined] are falsy. *)
Definition js_num_or (o : option Q) (d : Q) : Q :=
  match o with
  | Some q => if Qeq_bool q 0 then d else q
  | None => d
  end.

(** [x || d] on a [string | undefined]: [""] and [undefined] are falsy. *)
Definition js_str_or (o : option string) (d : string) : string :=
  match o with
  | Some s => if String.eqb s "" then d else s
  | None => d
  end.

(** [s || undefined] on a string, as in [(e.target).value || undefined]. *)
Definition js_str_or_undef (s : string) : option string :=
  if String.eqb s "" then None else Some s.

Notation "o '||' d" := (js_num_or o d) (at level 50, left associativity) : js_scope.

#[export] Instance Q_eq_dec : EqDecision Q.
Proof. intros [a b] [c d]. unfold Decision. decide equality; apply decide; apply _. Defined.

#[export] Instance Qle_decision : RelDecision Qle.
Proof. intros a b. destruct (Qlt_le_dec b a); [right; lra | left; assumption]. Defined.

#[export] Instance Qlt_decision : RelDecision Qlt.
Proof. intros a b. destruct (Qlt_le_dec a b); [left; assumption | right; lra]. Defined.

#[export] Instance Qeq_decision : RelDecision Qeq.
Proof. intros a b. apply Qeq_dec. Defined.

(** ** Strings *)

(** [s.startsWith(p)]. *)
Definition starts_with (p s : string) : bool := String.prefix p s.

(** [s.replace(pat, rep)] with a string pattern: only the first
    occurrence is replaced. *)
Definition replace_first (pat rep s : string) : string :=
  match String.index 0 pat s with
  | Some n =>
      String.append (String.substring 0 n s)
        (String.append rep
           (String.substring (n + String.length pat)
              (String.length s - (n + String.length pat)) s))
  | None => s
  end.

(** White space removed by [String.prototype.trim], restricted to the ASCII
    white-space characters (tab, line feed, vertical tab, form feed,
    carriage return, space). *)
Definition is_js_space (c : Ascii.ascii) : bool :=
  let n := Ascii.nat_of_ascii c in
  (Nat.eqb n 32 || (Nat.leb 9 n && Nat.leb n 13))%bool.

Fixpoint trim_start (s : string) : string :=
  match s with
  | EmptyString => EmptyString
  | String c s' => if is_js_space c then trim_start s' else s
  end.

Fixpoint string_rev (s : string) : string :=
  match s with
  | EmptyString => EmptyString
  | String c s' => String.append (string_rev s') (String c EmptyString)
  end.

Definition trim (s : string) : string :=
  string_rev (trim_start (string_rev (trim_start s))).

(** [s.length]: JavaScript counts UTF-16 code units, the model holds the
    UTF-8 bytes of the string.  A continuation byte ([0x80]-[0xBF]) adds
    nothing, the lead byte of a four-byte sequence ([0xF0]-[0xF7], a
    character outside the BMP, a surrogate pair in UTF-16) adds two, every
    other byte one; on valid UTF-8 this is the JavaScript length. *)
Definition utf16_units (c : Ascii.ascii) : nat :=
  let n := Ascii.nat_of_ascii c in
  if (Nat.leb 128 n && Nat.leb n 191)%bool then 0
  else if Nat.leb 240 n then 2 else 1.

Fixpoint js_length (s : string) : nat :=
  match s with
  | EmptyString => 0
  | String c s' => utf16_units c + js_length s'
  end.

(** A character class tested on every character of a string, and on one. *)
(** [s.endsWith(suffix)]. *)
Definition ends_with (suffix s : string) : bool :=
  (Nat.leb (String.length suffix) (String.length s) &&
   String.eqb (substring (String.length s - String.length suffix) (String.length suffix) s) suffix)%bool.

Fixpoint str_forallb (p : Ascii.ascii -> bool) (s : string) : bool :=
  match s with
  | EmptyString => true
  | String c s' => (p c && str_forallb p s')%bool
  end.

Fixpoint str_existsb (p : Ascii.ascii -> bool) (s : string) : bool :=
  match s with
  | EmptyString => false
  | String c s' => (p c || str_existsb p s')%bool
  end.

(** ** Arrays *)

Section Arrays.
Context {A : Type}.

(** [arr.findIndex(p)], with [-1] as [None]. *)
Fixpoint find_index (p : A -> bool) (l : list A) : option nat :=
  match l with
  | [] => None
  | x :: l' => if p x then Some 0%nat else S <$> find_index p l'
  end.

(** The object [arr.find(p)] returns is mutated in place: the first
    element satisfying [p] is replaced by [f] of it. *)
Fixpoint update_first (p : A -> bool) (f : A -> A) (l : list A) : list A :=
  match l with
  | [] => []
  | x :: l' => if p x then f x :: l' else x :: update_first p f l'
  end.

(** [arr.splice(i, 1)] for an index found by [indexOf]/[findIndex]. *)
Fixpoint remove_at (i : nat) (l : list A) : list A :=
  match l, i with
  | [], _ => []
  | _ :: l', O => l'
  | x :: l', S i' => x :: remove_at i' l'
  end.
End Arrays.

(** [arr.indexOf(x)] on an array of strings. *)
Definition index_of (x : string) (l : list string) : option nat :=
  find_index (String.eqb x) l.

(** [arr.includes(x)] on an array of strings. *)
Definition includes (x : string) (l : list string) : bool :=
  existsb (String.eqb x) l.

(** ** Generic lemmas *)

Create HintDb mesa.

Lemma clamp_bounds (lo hi x : Q) : lo <= hi -> lo <= clamp lo hi x <= hi.
Proof.
  unfold clamp, math_max, math_min. intros Hle.
  pose proof (Q.le_min_l hi x). pose proof (Q.le_max_l lo (Qmin hi x)).
  pose proof (Q.max_spec lo (Qmin hi x)). lra.
Qed.

Lemma clamp_id (lo hi x : Q) : lo <= x -> x <= hi -> clamp lo hi x == x.
Proof.
  unfold clamp, math_max, math_min. intros H1 H2.
  rewrite (Q.min_r hi x) by exact H2. apply Q.max_r. exact H1.
Qed.

Lemma clamp_hi (lo hi x : Q) : lo <= hi -> hi <= x -> clamp lo hi x == hi.
Proof.
  unfold clamp, math_max, math_min. intros H1 H2.
  rewrite (Q.min_l hi x) by exact H2. apply Q.max_r. exact H1.
Qed.

Lemma clamp_lo (lo hi x : Q) : lo <= hi -> x <= lo -> clamp lo hi x == lo.
Proof.
  unfold clamp, math_max, math_min. intros H1 H2.
  apply Q.max_l. pose proof (Q.le_min_r hi x). lra.
Qed.

#[export] Instance clamp_proper : Proper (Qeq ==> Qeq ==> Qeq ==> Qeq) clamp.
Proof.
  intros a a' Ha b b' Hb c c' Hc. unfold clamp, math_max, math_min.
  rewrite Ha, Hb, Hc. reflexivity.
Qed.

(** [Math.round] of an integer-valued rational is that integer. *)
Lemma math_round_Z (z : Z) : math_round (inject_Z z) == inject_Z z.
Proof.
  unfold math_round. set (f := Qfloor (inject_Z z + (1 # 2))).
  pose proof (Qfloor_le (inject_Z z + (1 # 2))) as H1.
  pose proof (Qlt_floor (inject_Z z + (1 # 2))) as H2. fold f in H1, H2.
  rewrite inject_Z_plus in H2.
  assert (Hf : (f < z + 1)%Z /\ (z < f + 1)%Z).
  { rewrite !Zlt_Qlt, !inject_Z_plus. replace (inject_Z 1) with 1 in * by reflexivity. lra. }
  replace f with z by lia. reflexivity.
Qed.

#[export] Instance math_round_proper : Proper (Qeq ==> Qeq) math_round.
Proof. intros a b H. unfold math_round. rewrite H. reflexivity. Qed.

Lemma math_round_mono (a b : Q) : a <= b -> math_round a <= math_round b.
Proof. intros H. unfold math_round. rewrite <- Zle_Qle. apply Qfloor_resp_le. lra. Qed.

(** Between two integers, [Math.round] stays between them. *)
Lemma math_round_between (lo hi : Z) (a : Q) :
  inject_Z lo <= a <= inject_Z hi -> inject_Z lo <= math_round a <= inject_Z hi.
Proof.
  intros [H1 H2]. apply math_round_mono in H1, H2.
  rewrite math_round_Z in H1, H2. split; assumption.
Qed.

Lemma math_round_spec (x : Q) : x - (1 # 2) < math_round x <= x + (1 # 2).
Proof.
  unfold math_round. pose proof (Qfloor_le (x + (1 # 2))).
  pose proof (Qlt_floor (x + (1 # 2))). rewrite inject_Z_plus in H0.
  replace (inject_Z 1) with 1 in H0 by reflexivity. lra.
Qed.

Lemma js_num_or_nonzero (q d : Q) : ~ q == 0 -> js_num_or (Some q) d = q.
Proof.
  intros Hq. simpl. destruct (Qeq_bool q 0) eqn:E; [|reflexivity].
  apply Qeq_bool_iff in E. contradiction.
Qed.

Lemma starts_with_replace_first (p s : string) :
  starts_with p s = true ->
  replace_first p "" s = String.substring (String.length p) (String.length s - String.length p) s.
Proof.
  unfold starts_with, replace_first. intros Hp.
  assert (Hi : String.index 0 p s = Some 0%nat).
  { destruct p; [destruct s; reflexivity|].
    destruct s; [discriminate|]. simpl. simpl in Hp. rewrite Hp. reflexivity. }
  rewrite Hi. destruct s; reflexivity.
Qed.

Lemma find_index_Some {A} (p : A -> bool) (l : list A) (i : nat) :
  find_index p l = Some i -> exists x, l !! i = Some x /\ p x = true.
Proof.
  revert i. induction l as [|x l IH]; intros i; simpl; [discriminate|].
  destruct (p x) eqn:Hx.
  - intros [= <-]. eauto.
  - destruct (find_index p l) as [j|] eqn:Hj; simpl; [|discriminate].
    intros [= <-]. simpl. apply IH. reflexivity.
Qed.

Lemma find_index_None {A} (p : A -> bool) (l : list A) :
  find_index p l = None -> Forall (fun x => p x = false) l.
Proof.
  induction l as [|x l IH]; simpl; [constructor|].
  destruct (p x) eqn:Hx; [discriminate|].
  destruct (find_index p l); simpl; [discriminate|]. intros _. constructor; auto.
Qed.

Lemma length_update_first {A} (p : A -> bool) (f : A -> A) (l : list A) :
  length (update_first p f l) = length l.
Proof. induction l as [|x l IH]; simpl; [reflexivity|]. destruct (p x); simpl; auto. Qed.

Lemma update_first_notin {A} (p : A -> bool) (f : A -> A) (l : list A) :
  Forall (fun x => p x = false) l -> update_first p f l = l.
Proof. induction 1 as [|x l Hx _ IH]; simpl; [reflexivity|]. rewrite Hx, IH. reflexivity. Qed.

Lemma Forall_update_first {A} (P : A -> Prop) (p : A -> bool) (f : A -> A) (l : list A) :
  (forall x, P x -> P (f x)) -> Forall P l -> Forall P (update_first p f l).
Proof.
  intros Hf. induction 1 as [|x l Hx Hl IH]; simpl; [constructor|].
  destruct (p x); constructor; auto.
Qed.

Lemma find_update_first_same {A} (p : A -> bool) (f : A -> A) (l : list A) (a : A) :
  (forall b, p (f b) = p b) -> List.find p l = Some a ->
  List.find p (update_first p f l) = Some (f a).
Proof.
  intros Hp. induction l as [|b l IH]; simpl; [discriminate|].
  destruct (p b) eqn:Hb.
  - intros [= <-]. simpl. rewrite Hp, Hb. reflexivity.
  - intros H. simpl. rewrite Hb. apply IH, H.
Qed.

Lemma find_update_first_other {A} (p q : A -> bool) (f : A -> A) (l : list A) :
  (forall b, q (f b) = q b) -> (forall b, p b = true -> q b = false) ->
  List.find q (update_first p f l) = List.find q l.
Proof.
  intros Hq Hpq. induction l as [|b l IH]; simpl; [reflexivity|].
  destruct (p b) eqn:Hb; simpl.
  - rewrite Hq, (Hpq b Hb). reflexivity.
  - rewrite IH. reflexivity.
Qed.

Lemma In_firstn {A} (x : A) (n : nat) (l : list A) : In x (firstn n l) -> In x l.
Proof. intros H. rewrite <- (firstn_skipn n l). apply in_or_app. left. exact H. Qed.

(** Writing [x] at index [i] keeps the [Some] images of a list free of
    duplicates when no other position has the image of [x]: the lemma
    behind every uniqueness check of the form [db.users.find(u => u.key
    === key && u.id !== user.id)] followed by [db.users[idx] = user]. *)
Lemma NoDup_omap_insert {A B} (f : A -> option B) (l : list A) (i : nat) (x : A) :
  NoDup (omap f l) ->
  (forall y j v, f x = Some y -> j <> i -> l !! j = Some v -> f v <> Some y) ->
  NoDup (omap f (<[i := x]> l)).
Proof.
  revert i. induction l as [|a l IH]; intros i Hnd Hx; [constructor|].
  destruct i as [|i]; simpl in *.
  - assert (Hl : NoDup (omap f l)).
    { destruct (f a); [apply list.NoDup_cons in Hnd; tauto | exact Hnd]. }
    destruct (f x) as [y|] eqn:Hfx; [|exact Hl].
    apply list.NoDup_cons. split; [|exact Hl].
    intros (v & Hv & Hfv)%list_elem_of_omap. apply list_elem_of_lookup in Hv as [j Hj].
    exact (Hx y (S j) v eq_refl ltac:(lia) Hj Hfv).
  - assert (IH' : NoDup (omap f l) -> NoDup (omap f (<[i:=x]> l))).
    { intros Hl. apply IH; [exact Hl|]. intros y j v Hy Hj Hv. exact (Hx y (S j) v Hy ltac:(lia) Hv). }
    destruct (f a) as [z|] eqn:Hfa; [|exact (IH' Hnd)].
    apply list.NoDup_cons in Hnd as [Hz Hnd]. apply list.NoDup_cons. split; [|exact (IH' Hnd)].
    intros (w & Hw & Hfw)%list_elem_of_omap. apply list_elem_of_lookup in Hw as [j Hj].
    apply list_lookup_insert_Some in Hj as [(-> & <- & _) | (_ & Hj)].
    + exact (Hx z 0%nat a Hfw ltac:(lia) eq_refl Hfa).
    + apply Hz, list_elem_of_omap. exists w. split; [eapply list_elem_of_lookup_2; eauto | exact Hfw].
Qed.

(** [Math.floor] of a number known to lie in [[a, b)] lies in [[a, b - 1]]:
    the range of every [Math.floor(Math.random() * n + c)]. *)
Lemma Qfloor_range (q : Q) (a b : Z) :
  inject_Z a <= q -> q < inject_Z b -> (a <= Qfloor q < b)%Z.
Proof.
  intros Ha Hb. split.
  - rewrite <- (Qfloor_Z a). apply Qfloor_resp_le, Ha.
  - rewrite Zlt_Qlt. eapply Qle_lt_trans; [apply Qfloor_le | exact Hb].
Qed.

(** [arr[i % arr.length]] of a non-empty array is never [undefined]. *)
Lemma nth_error_mod_Some {A} (l : list A) (i : nat) :
  l <> [] -> is_Some (nth_error l (i mod length l)).
Proof.
  intros Hl. destruct (nth_error l (i mod length l)) eqn:E; [eexists; reflexivity|].
  apply nth_error_None in E. destruct l; [congruence|].
  pose proof (Nat.mod_upper_bound i (length (a :: l)) ltac:(simpl; lia)). lia.
Qed.

(** ** Strings built by template literals and [join('')] *)

Lemma string_append_cons (c : Ascii.ascii) (a b : string) :
  String.append (String c a) b = String c (String.append a b).
Proof. reflexivity. Qed.

Lemma string_append_assoc (a b c : string) :
  String.append (String.append a b) c = String.append a (String.append b c).
Proof. induction a as [|ch a IH]; [reflexivity|]. rewrite !string_append_cons, IH. reflexivity. Qed.

(** [String.concat ""] (what [.join('')] builds) around one element. *)
Lemma concat_empty_split (l1 l2 : list string) (x : string) :
  String.concat "" (l1 ++ x :: l2) =
    String.append (String.concat "" l1) (String.append x (String.concat "" l2)).
Proof.
  assert (Hsep : forall y l, String.concat "" (y :: l) = String.append y (String.concat "" l)).
  { intros y [|z l]; [|reflexivity]. induction y as [|c y IHy]; [reflexivity|]. cbn [String.concat] in *.
    rewrite string_append_cons, <- IHy. reflexivity. }
  induction l1 as [|y l1 IH]; cbn [app].
  - rewrite Hsep. reflexivity.
  - rewrite !Hsep, IH, string_append_assoc. reflexivity.
Qed.

Lemma concat_empty_cons (x : string) (l : list string) :
  String.concat "" (x :: l) = String.append x (String.concat "" l).
Proof. exact (concat_empty_split [] l x). Qed.

Lemma js_length_append (a b : string) : js_length (String.append a b) = (js_length a + js_length b)%nat.
Proof. induction a as [|c a IH]; [reflexivity|]. rewrite string_append_cons. cbn [js_length]. rewrite IH. lia. Qed.

(** An ASCII character is one UTF-16 unit. *)
Lemma utf16_units_ascii (c : Ascii.ascii) : (Ascii.nat_of_ascii c < 128)%nat -> utf16_units c = 1%nat.
Proof.
  intros Hc. unfold utf16_units.
  replace (Nat.leb 128 (Ascii.nat_of_ascii c)) with false by (symmetry; apply Nat.leb_gt; lia).
  replace (Nat.leb 240 (Ascii.nat_of_ascii c)) with false by (symmetry; apply Nat.leb_gt; lia). reflexivity.
Qed.

Lemma substring_prefix (x b : string) :
  String.substring 0 (String.length x) (String.append x b) = x.
Proof.
  induction x as [|c x IH]; [destruct b; reflexivity|].
  rewrite string_append_cons. change (String c (String.substring 0 (String.length x) (String.append x b)) = String c x).
  rewrite IH. reflexivity.
Qed.

Lemma substring_app (a x b : string) :
  String.substring (String.length a) (String.length x) (String.append a (String.append x b)) = x.
Proof.
  induction a as [|ch a IH]; [exact (substring_prefix x b)|].
  rewrite string_append_cons. exact IH.
Qed.

(** A string occurs in any string built around it. *)
Lemma index_app (a x b : string) : exists k, String.index 0 x (String.append a (String.append x b)) = Some k.
Proof.
  destruct (String.index 0 x (String.append a (String.append x b))) as [k|] eqn:E; [eauto|].
  destruct x as [|c x].
  - destruct a, b; cbn in E; discriminate.
  - exfalso. apply (String.index_correct3 0 (String.length a) _ _ E); [discriminate | lia | apply substring_app].
Qed.

(** [x] occurs verbatim in [s]. *)
Definition occurs_in (x s : string) : Prop := exists a b, s = String.append a (String.append x b).

Lemma occurs_refl (x : string) : occurs_in x x.
Proof.
  exists EmptyString, EmptyString. change (x = String.append x EmptyString).
  induction x as [|c x IH]; [reflexivity|]. rewrite string_append_cons, <- IH. reflexivity.
Qed.

(** What occurs in an element of a [.join('')] occurs in the join. *)
Lemma occurs_concat (x y : string) (l : list string) :
  In y l -> occurs_in x y -> occurs_in x (String.concat "" l).
Proof.
  intros Hin (a & b & ->). apply in_split in Hin as (l1 & l2 & ->).
  rewrite concat_empty_split, !string_append_assoc.
  exists (String.append (String.concat "" l1) a), (String.append b (String.concat "" l2)).
  rewrite !string_append_assoc. reflexivity.
Qed.

Lemma occurs_trans (x y z : string) : occurs_in x y -> occurs_in y z -> occurs_in x z.
Proof.
  intros (a & b & ->) (c & d & ->). exists (String.append c a), (String.append b d).
  rewrite !string_append_assoc. reflexivity.
Qed.

(** [occurs_in] is what [String.index] finds. *)
Lemma occurs_index (x s : string) : occurs_in x s -> exists k, String.index 0 x s = Some k.
Proof. intros (a & b & ->). apply index_app. Qed.

(** [In] of an element written in a literal list. *)
Ltac solve_In := cbn [In]; repeat first [left; reflexivity | right].

(** The element [x] of a template [String.concat "" l] occurs in it. *)
Ltac occurs_elem x := apply (occurs_concat _ x); [solve_In | apply occurs_refl].

#[export] Hint Resolve clamp_bounds Forall_update_first occurs_refl : mesa.
Create HintDb mesa_rw.
#[export] Hint Rewrite @length_update_first : mesa_rw.

(** [qclamp] closes linear goals over [Q] that mention clamps, after
    exposing the bounds of every [clamp] in sight. *)
Ltac qclamp :=
  repeat match goal with
         | |- context [clamp ?lo ?hi ?x] =>
             let H := fresh "Hc" in
             assert (H : lo <= clamp lo hi x <= hi) by (apply clamp_bounds; lra);
             revert H; generalize (clamp lo hi x); intros ? ?
         end;
  lra.
