(* ===== verification/Types.v ===== *)
(** * The data model of src/src/types.ts

    One Rocq type per TypeScript interface or union, with the source's
    field names (prefixed where two interfaces share a name), optional
    fields as [option]s, numbers as [Q].  The constants
    [DEFAULT_BANNER_LAYOUT], [STICKERS] and [BANNER_FONTS] are transcribed
    value for value.  Every type gets an [EqDecision] instance, so that
    [decide] and [bool_decide] compare records. *)

From S2P Require Import Prelude.

(** ** Banner layout *)

Record BannerPosition := mkPos { x : Q; y : Q }.

Record TextStyle := mkTextStyle {
  color : option string;
  fontFamily : option string;
  fontSize : option Q;
}.

Inductive BannerElementType :=
| ET_avatar | ET_username | ET_subtitle | ET_stats | ET_widget.

Record BannerElement := mkElement {
  el_id : string;
  el_type : BannerElementType;
  position : BannerPosition;
  zIndex : Q;
  visible : bool;
  textStyle : option TextStyle;
}.

Record BannerLayout := mkLayout {
  version : Q;
  canvasHeight : Q;
  elements : list BannerElement;
}.

Definition BANNER_FONTS : list string :=
  [ "Inter, sans-serif"; "Georgia, serif"; "Courier New, monospace";
    "Impact, sans-serif"; "Comic Sans MS, cursive"; "Trebuchet MS, sans-serif";
    "Arial Black, sans-serif"; "Palatino, serif" ].

Definition DEFAULT_BANNER_LAYOUT : BannerLayout :=
  {| version := 1; canvasHeight := 400;
     elements :=
       [ mkElement "avatar" ET_avatar (mkPos 3 35) 10 true None;
         mkElement "username" ET_username (mkPos 18 52) 10 true
           (Some (mkTextStyle None None (Some 32)));
         mkElement "subtitle" ET_subtitle (mkPos 18 62) 10 true
           (Some (mkTextStyle None None (Some 16)));
         mkElement "stats" ET_stats (mkPos 3 78) 10 true None ] |}.

(** ** Profile widgets *)

Inductive WidgetType := WT_text | WT_gif | WT_sticker.

(** The legacy [position: 'left' | 'right'] field. *)
Inductive WidgetSide := Side_left | Side_right.

Record ProfileWidget := mkWidget {
  w_id : string;
  w_type : WidgetType;
  content : string;
  w_position : WidgetSide;
  canvasPosition : option BannerPosition;
  w_zIndex : option Q;
  scale : option Q;
  stretchX : option Q;
  stretchY : option Q;
}.

(** [STICKERS: Record<string, string>], in the order of the source. *)
Definition STICKERS : list (string * string) :=
  [ ("trophy", "🏆"); ("fire", "🔥"); ("sword", "⚔️"); ("star", "⭐");
    ("crown", "👑"); ("lightning", "⚡"); ("skull", "💀"); ("rocket", "🚀");
    ("gem", "💎"); ("shield", "🛡️"); ("target", "🎯"); ("medal", "🎖️");
    ("controller", "🎮"); ("globe", "🌍"); ("chess", "♟️"); ("heart", "❤️") ].

(** ** Users, notifications, database *)

Inductive NotificationType := NT_friend_request | NT_subscription | NT_friend_accepted.

Record UserNotification := mkNotification {
  n_id : string;
  n_type : NotificationType;
  fromUserId : string;
  fromUserName : string;
  fromUserAvatar : option string;
  read : bool;
  n_createdAt : string;
}.

Record User := mkUser {
  id : string;
  nickname : string;
  login : option string;
  email : string;
  password : string;
  level : Q;
  elo : Q;
  wins : Q;
  losses : Q;
  gamesPlayed : Q;
  registeredAt : string;
  emailVerified : bool;
  avatar : option string;
  bio : option string;
  bannerImage : option string;
  bannerVideo : option string;
  profileWidgets : option (list ProfileWidget);
  bannerLayout : option BannerLayout;
  friends : option (list string);
  subscriptions : option (list string);
  groups : option (list string);
  notifications : option (list UserNotification);
  achievements : option (list string);
}.

Record Session := mkSession {
  s_id : string;
  userId : string;
  s_createdAt : string;
  s_expiresAt : string;
}.

Record Database := mkDatabase { users : list User; sessions : list Session }.

Record VerificationData := mkVerification {
  v_email : string;
  code : string;
  expiresAt : Q;
}.

Record PendingLogin := mkPendingLogin { p_userId : string; p_email : string }.

(** [ValidationResult]: [message] is optional. *)
Record ValidationResult := mkValidation { valid : bool; v_message : option string }.

Record CreateUserData := mkCreateUserData {
  cu_nickname : string;
  cu_email : string;
  cu_password : string;
}.

Inductive MessageType := MT_success | MT_error | MT_info.

(** [FormMessage]. *)
Record FormMessage := mkFormMessage { fm_text : string; fm_type : MessageType }.

(** The tournament, match and statistics types of types.ts.  No page
    reads them (the dashboard's and the landing page's tournaments and
    matches are HTML); they are the declared shapes of that data. *)
Module MockTypes.

Inductive TournamentStatus := TS_upcoming | TS_live | TS_registration.

Inductive Game := G_warcraft3 | G_starwars | G_coh | G_all.

Record Tournament := mkTournament {
  t_id : string;
  title : string;
  t_game : Game;
  status : TournamentStatus;
  prize : string;
  players : Q;
  maxPlayers : Q;
  startDate : string;
  format : string;
  entryFee : option string;
}.

Inductive MatchResult := MR_win | MR_loss | MR_draw | MR_live.

Record Match := mkMatch {
  m_id : string;
  player1 : string;
  player2 : string;
  result : MatchResult;
  m_game : Game;
  date : string;
  score : option string;
}.

Record UserStats := mkUserStats {
  us_elo : Q;
  us_wins : Q;
  us_losses : Q;
  us_winRate : Q;
  us_gamesPlayed : Q;
  us_level : Q;
}.

(** The strings of the union types. *)
Definition game_name (g : Game) : string :=
  match g with
  | G_warcraft3 => "Warcraft III" | G_starwars => "Star Wars: EaW"
  | G_coh => "Company of Heroes" | G_all => "All"
  end.

Definition status_name (t : TournamentStatus) : string :=
  match t with TS_upcoming => "upcoming" | TS_live => "live" | TS_registration => "registration" end.

Definition result_name (r : MatchResult) : string :=
  match r with MR_win => "win" | MR_loss => "loss" | MR_draw => "draw" | MR_live => "live" end.

#[export] Instance Game_eq_dec : EqDecision Game.
Proof. solve_decision. Defined.
#[export] Instance TournamentStatus_eq_dec : EqDecision TournamentStatus.
Proof. solve_decision. Defined.
#[export] Instance MatchResult_eq_dec : EqDecision MatchResult.
Proof. solve_decision. Defined.

End MockTypes.

(** ** Field updates of [User] used by the handlers
    ([user.f = v] on the object). *)

Definition set_banner (u : User) (l : option BannerLayout) (ws : option (list ProfileWidget)) : User :=
  {| id := id u; nickname := nickname u; login := login u; email := email u;
     password := password u; level := level u; elo := elo u; wins := wins u;
     losses := losses u; gamesPlayed := gamesPlayed u; registeredAt := registeredAt u;
     emailVerified := emailVerified u; avatar := avatar u; bio := bio u;
     bannerImage := bannerImage u; bannerVideo := bannerVideo u;
     profileWidgets := ws; bannerLayout := l; friends := friends u;
     subscriptions := subscriptions u; groups := groups u;
     notifications := notifications u; achievements := achievements u |}.

Definition set_social (u : User) (fr subs : option (list string))
    (ns : option (list UserNotification)) : User :=
  {| id := id u; nickname := nickname u; login := login u; email := email u;
     password := password u; level := level u; elo := elo u; wins := wins u;
     losses := losses u; gamesPlayed := gamesPlayed u; registeredAt := registeredAt u;
     emailVerified := emailVerified u; avatar := avatar u; bio := bio u;
     bannerImage := bannerImage u; bannerVideo := bannerVideo u;
     profileWidgets := profileWidgets u; bannerLayout := bannerLayout u; friends := fr;
     subscriptions := subs; groups := groups u;
     notifications := ns; achievements := achievements u |}.

(** ** Decidable equality *)

#[export] Instance BannerPosition_eq_dec : EqDecision BannerPosition.
Proof. solve_decision. Defined.
#[export] Instance TextStyle_eq_dec : EqDecision TextStyle.
Proof. solve_decision. Defined.
#[export] Instance BannerElementType_eq_dec : EqDecision BannerElementType.
Proof. solve_decision. Defined.
#[export] Instance BannerElement_eq_dec : EqDecision BannerElement.
Proof. solve_decision. Defined.
#[export] Instance BannerLayout_eq_dec : EqDecision BannerLayout.
Proof. solve_decision. Defined.
#[export] Instance WidgetType_eq_dec : EqDecision WidgetType.
Proof. solve_decision. Defined.
#[export] Instance WidgetSide_eq_dec : EqDecision WidgetSide.
Proof. solve_decision. Defined.
#[export] Instance ProfileWidget_eq_dec : EqDecision ProfileWidget.
Proof. solve_decision. Defined.
#[export] Instance NotificationType_eq_dec : EqDecision NotificationType.
Proof. solve_decision. Defined.
#[export] Instance UserNotification_eq_dec : EqDecision UserNotification.
Proof. solve_decision. Defined.
#[export] Instance User_eq_dec : EqDecision User.
Proof. solve_decision. Defined.
#[export] Instance Session_eq_dec : EqDecision Session.
Proof. solve_decision. Defined.
#[export] Instance Database_eq_dec : EqDecision Database.
Proof. solve_decision. Defined.
#[export] Instance ValidationResult_eq_dec : EqDecision ValidationResult.
Proof. solve_decision. Defined.
#[export] Instance MessageType_eq_dec : EqDecision MessageType.
Proof. solve_decision. Defined.

Lemma set_banner_id (u : User) l ws : id (set_banner u l ws) = id u.
Proof. reflexivity. Qed.

Lemma set_banner_same (u : User) : set_banner u (bannerLayout u) (profileWidgets u) = u.
Proof. destruct u; reflexivity. Qed.

#[export] Hint Resolve set_banner_id : mesa.
