(* ===== verification/Geometry.v ===== *)
(** * The geometry engine: [clampPosition] and the drag delta

    From [BannerEditor.onPointerMove] and [BannerEditor.clampPosition]
    (src/src/banner-editor.ts): a move event's pointer delta, measured from
    the pointer position captured at drag start, is converted to a
    percentage of the canvas size and added to the element position
    captured at drag start; the result is clamped to x in [0,90] and
    y in [0,85].

    Positions are compared up to [Qeq] ([pos_eq]), an equivalence coarser
    than [=]; [clampPosition] and [drag_position] respect it. *)

From S2P Require Import Prelude Types.

Module Geometry.

(** A pointer position in client pixels ([e.clientX], [e.clientY]). *)
Record Point := mkPoint { clientX : Q; clientY : Q }.

(** The canvas box of [canvas.getBoundingClientRect()]. *)
Record Rect := mkRect { width : Q; height : Q }.

(** [clampPosition(pos)]. *)
Definition clampPosition (pos : BannerPosition) : BannerPosition :=
  {| x := math_max 0 (math_min 90 (x pos));
     y := math_max 0 (math_min 85 (y pos)) |}.

(** The position computed by [onPointerMove] for a move to [e], from the
    drag's [startPointer] and [startPosition]. *)
Definition drag_position (startPointer : Point) (startPosition : BannerPosition)
    (canvasRect : Rect) (e : Point) : BannerPosition :=
  let dx := clientX e - clientX startPointer in
  let dy := clientY e - clientY startPointer in
  let dxPercent := (dx / width canvasRect) * 100 in
  let dyPercent := (dy / height canvasRect) * 100 in
  let newX := x startPosition + dxPercent in
  let newY := y startPosition + dyPercent in
  clampPosition {| x := newX; y := newY |}.

(** The box the clamp keeps positions in, as a predicate and as a test. *)
Definition in_bounds (p : BannerPosition) : Prop :=
  0 <= x p <= 90 /\ 0 <= y p <= 85.

Definition in_boundsb (p : BannerPosition) : bool :=
  Qle_bool 0 (x p) && Qle_bool (x p) 90 && Qle_bool 0 (y p) && Qle_bool (y p) 85.

Definition pos_eq (p q : BannerPosition) : Prop := x p == x q /\ y p == y q.

#[export] Instance pos_eq_equiv : Equivalence pos_eq.
Proof.
  split.
  - intros p. split; reflexivity.
  - intros p q [H1 H2]. split; symmetry; assumption.
  - intros p q r [H1 H2] [H3 H4]. split; etransitivity; eauto.
Qed.

#[export] Instance in_bounds_dec p : Decision (in_bounds p).
Proof. unfold in_bounds. apply _. Defined.

Lemma in_boundsb_spec (p : BannerPosition) : in_boundsb p = true <-> in_bounds p.
Proof.
  unfold in_boundsb, in_bounds. rewrite !andb_true_iff, !Qle_bool_iff. tauto.
Qed.

Lemma clamp_x (p : BannerPosition) : x (clampPosition p) = clamp 0 90 (x p).
Proof. reflexivity. Qed.

Lemma clamp_y (p : BannerPosition) : y (clampPosition p) = clamp 0 85 (y p).
Proof. reflexivity. Qed.

#[export] Instance clampPosition_proper : Proper (pos_eq ==> pos_eq) clampPosition.
Proof.
  intros p q [Hx Hy]. split; rewrite ?clamp_x, ?clamp_y; rewrite ?Hx, ?Hy; reflexivity.
Qed.

#[export] Instance in_bounds_proper : Proper (pos_eq ==> iff) in_bounds.
Proof. intros p q [Hx Hy]. unfold in_bounds. rewrite Hx, Hy. reflexivity. Qed.

(** Whatever it is given, [clampPosition] returns a position in the box. *)
Lemma clampPosition_in_bounds (p : BannerPosition) : in_bounds (clampPosition p).
Proof.
  unfold in_bounds. rewrite clamp_x, clamp_y.
  split; apply clamp_bounds; lra.
Qed.

(** On a position already in the box, [clampPosition] is the identity. *)
Lemma clampPosition_id (p : BannerPosition) : in_bounds p -> pos_eq (clampPosition p) p.
Proof.
  intros [[H1 H2] [H3 H4]]. split; rewrite ?clamp_x, ?clamp_y; apply clamp_id; assumption.
Qed.

Lemma clampPosition_idem (p : BannerPosition) :
  pos_eq (clampPosition (clampPosition p)) (clampPosition p).
Proof. apply clampPosition_id, clampPosition_in_bounds. Qed.

Lemma drag_position_in_bounds sp spos r e : in_bounds (drag_position sp spos r e).
Proof. apply clampPosition_in_bounds. Qed.

#[export] Hint Resolve clampPosition_in_bounds drag_position_in_bounds : mesa.

#[export] Instance drag_position_proper :
  Proper (eq ==> pos_eq ==> eq ==> eq ==> pos_eq) drag_position.
Proof.
  intros sp ? <- p q [Hx Hy] r ? <- e ? <-. unfold drag_position.
  apply clampPosition_proper. split; simpl; [rewrite Hx | rewrite Hy]; reflexivity.
Qed.

Section Drag.
Variable canvasRect : Rect.
Hypothesis width_pos : 0 < width canvasRect.
Hypothesis height_pos : 0 < height canvasRect.

(** A pointer back at the drag's start pointer puts the element back at
    its (clamped) start position: the position is recomputed from the
    start of the drag, not accumulated. *)
Lemma drag_position_at_start (sp : Point) (spos : BannerPosition) :
  pos_eq (drag_position sp spos canvasRect sp) (clampPosition spos).
Proof.
  unfold drag_position. apply clampPosition_proper.
  split; simpl; field; apply Qnot_eq_sym, Qlt_not_eq; assumption.
Qed.

(** On a canvas of positive size, every position of the box is
    reached: for any start pointer and start position, moving the
    pointer by [(target - start) * size / 100] puts the element exactly
    at [target]. *)
Lemma drag_position_onto (sp : Point) (spos target : BannerPosition) :
  in_bounds target ->
  pos_eq (drag_position sp spos canvasRect
            (mkPoint (clientX sp + (x target - x spos) * width canvasRect / 100)
                     (clientY sp + (y target - y spos) * height canvasRect / 100)))
         target.
Proof.
  intros Hin. unfold drag_position.
  transitivity (clampPosition target); [|apply clampPosition_id, Hin].
  apply clampPosition_proper.
  split; simpl; field; apply Qnot_eq_sym, Qlt_not_eq; assumption.
Qed.
End Drag.

End Geometry.
