(* ===== verification/Widgets.v ===== *)
(** * Element lookup and widget arithmetic of the banner editor

    The parts of [BannerEditor] (src/src/banner-editor.ts) that compute on
    the layout and the widget list without touching the DOM:
    - [getElementPosition] / [setElementPosition]: a core element is found
      by id in [layout.elements]; an id ["widget-" ^ wid] names the widget
      [wid]; the object [find] returns is mutated in place ([update_first]);
    - the widget literals built by [addTextWidget], [addGifWidget],
      [addStickerWidget];
    - the scale/stretch step [Math.round(clamp(cur + delta) * 10) / 10],
      the font-size step, the [Object.assign] merge of [changeTextStyle];
    - [createWidgetContent]'s sticker lookup [STICKERS[key] || key], which
      reads a JavaScript object and so sees [Object.prototype]'s members;
    - [applyWidgetTransform]'s combined transform. *)

From S2P Require Import Prelude Types Geometry.

Module Widgets.

(** ** Element ids *)

Definition WIDGET_PREFIX : string := "widget-".

(** [elementId.startsWith('widget-')] and [elementId.replace('widget-', '')]. *)
Definition is_widget_element (eid : string) : bool := starts_with WIDGET_PREFIX eid.
Definition widget_id_of (eid : string) : string := replace_first WIDGET_PREFIX "" eid.

(** [`widget-${widget.id}`], the [data-element-id] of a widget's node. *)
Definition widget_element_id (w : ProfileWidget) : string := String.append WIDGET_PREFIX (w_id w).

Definition find_core (layout : BannerLayout) (eid : string) : option BannerElement :=
  List.find (fun e => String.eqb (el_id e) eid) (elements layout).

Definition find_widget (ws : list ProfileWidget) (wid : string) : option ProfileWidget :=
  List.find (fun w => String.eqb (w_id w) wid) ws.

(** [getElementPosition(elementId)]. *)
Definition getElementPosition (layout : BannerLayout) (ws : list ProfileWidget)
    (eid : string) : BannerPosition :=
  match find_core layout eid with
  | Some e => position e
  | None =>
      if is_widget_element eid then
        match find_widget ws (widget_id_of eid) with
        | Some w => match canvasPosition w with Some p => p | None => mkPos 50 50 end
        | None => mkPos 50 50
        end
      else mkPos 50 50
  end.

Definition set_el_position (pos : BannerPosition) (e : BannerElement) : BannerElement :=
  mkElement (el_id e) (el_type e) pos (zIndex e) (visible e) (textStyle e).

Definition set_el_textStyle (ts : TextStyle) (e : BannerElement) : BannerElement :=
  mkElement (el_id e) (el_type e) (position e) (zIndex e) (visible e) (Some ts).

Definition with_elements (l : BannerLayout) (es : list BannerElement) : BannerLayout :=
  mkLayout (version l) (canvasHeight l) es.

Definition set_canvasPosition (pos : BannerPosition) (w : ProfileWidget) : ProfileWidget :=
  mkWidget (w_id w) (w_type w) (content w) (w_position w) (Some pos) (w_zIndex w)
    (scale w) (stretchX w) (stretchY w).

Definition set_scale (s : Q) (w : ProfileWidget) : ProfileWidget :=
  mkWidget (w_id w) (w_type w) (content w) (w_position w) (canvasPosition w) (w_zIndex w)
    (Some s) (stretchX w) (stretchY w).

Definition set_stretchX (s : Q) (w : ProfileWidget) : ProfileWidget :=
  mkWidget (w_id w) (w_type w) (content w) (w_position w) (canvasPosition w) (w_zIndex w)
    (scale w) (Some s) (stretchY w).

Definition set_stretchY (s : Q) (w : ProfileWidget) : ProfileWidget :=
  mkWidget (w_id w) (w_type w) (content w) (w_position w) (canvasPosition w) (w_zIndex w)
    (scale w) (stretchX w) (Some s).

(** [setElementPosition(elementId, pos)]: the layout and the widget list
    after the in-place update. *)
Definition setElementPosition (layout : BannerLayout) (ws : list ProfileWidget)
    (eid : string) (pos : BannerPosition) : BannerLayout * list ProfileWidget :=
  match find_core layout eid with
  | Some _ =>
      (with_elements layout
         (update_first (fun e => String.eqb (el_id e) eid) (set_el_position pos)
            (elements layout)), ws)
  | None =>
      if is_widget_element eid then
        (layout, update_first (fun w => String.eqb (w_id w) (widget_id_of eid))
                   (set_canvasPosition pos) ws)
      else (layout, ws)
  end.

(** ** New widgets *)

(** The cap of [if (this.widgets.length >= 6)]. *)
Definition MAX_WIDGETS : nat := 6.

(** The literal of [addTextWidget]; [now] is [Date.now().toString()]. *)
Definition newTextWidget (now text : string) : ProfileWidget :=
  mkWidget now WT_text text Side_left (Some (mkPos 40 45)) (Some 20) None None None.

Definition newGifWidget (now url : string) : ProfileWidget :=
  mkWidget now WT_gif url Side_left (Some (mkPos 50 40)) (Some 20) None None None.

Definition newStickerWidget (now stickerKey : string) : ProfileWidget :=
  mkWidget now WT_sticker stickerKey Side_left (Some (mkPos 45 45)) (Some 20) None None None.

(** ** Scale, stretch and font size *)

(** [Math.round(Math.max(0.3, Math.min(3, current + delta)) * 10) / 10]. *)
Definition scale_step (current delta : Q) : Q :=
  math_round (math_max 0.3 (math_min 3 (current + delta)) * 10) / 10.

(** The resize controls apply only to stickers and GIFs. *)
Definition resizable (w : ProfileWidget) : bool :=
  match w_type w with WT_sticker | WT_gif => true | WT_text => false end.

Inductive Axis := Axis_x | Axis_y.

(** The update of [changeWidgetScale] on the widget found. *)
Definition scaled (delta : Q) (w : ProfileWidget) : ProfileWidget :=
  set_scale (scale_step (js_num_or (scale w) 1) delta) w.

(** The update of [changeWidgetStretch] on the widget found. *)
Definition stretched (axis : Axis) (delta : Q) (w : ProfileWidget) : ProfileWidget :=
  match axis with
  | Axis_x => set_stretchX (scale_step (js_num_or (stretchX w) 1) delta) w
  | Axis_y => set_stretchY (scale_step (js_num_or (stretchY w) 1) delta) w
  end.

(** [const defaultSize = id === 'username' ? 32 : 16]. *)
Definition defaultFontSize (eid : string) : Q := if String.eqb eid "username" then 32 else 16.

(** [Math.max(10, Math.min(72, current + delta))]. *)
Definition font_step (current delta : Q) : Q := math_max 10 (math_min 72 (current + delta)).

(** The [Partial<TextStyle>] of [changeTextStyle]: a key is present
    ([Some]) with a value that may be [undefined] ([Some None]). *)
Record TextStyleUpdate := mkUpdate {
  upd_color : option (option string);
  upd_fontFamily : option (option string);
  upd_fontSize : option (option Q);
}.

Definition pick {A} (u : option A) (old : A) : A := match u with Some v => v | None => old end.

(** [Object.assign(style, updates)]. *)
Definition assign (ts : TextStyle) (u : TextStyleUpdate) : TextStyle :=
  mkTextStyle (pick (upd_color u) (color ts)) (pick (upd_fontFamily u) (fontFamily ts))
    (pick (upd_fontSize u) (fontSize ts)).

Definition empty_style : TextStyle := mkTextStyle None None None.

(** ** Sticker glyphs: a property read on an object literal *)

(** What [obj[key]] yields on the object literal [STICKERS]: an own
    string property, a member inherited from [Object.prototype] (a
    function, or the prototype object itself for [__proto__]), or
    [undefined]. *)
Inductive JsValue := JStr (s : string) | JFun (name : string) | JObj | JUndef.

Definition OBJECT_PROTOTYPE_MEMBERS : list (string * string) :=
  [ ("constructor", "Object"); ("hasOwnProperty", "hasOwnProperty");
    ("isPrototypeOf", "isPrototypeOf"); ("propertyIsEnumerable", "propertyIsEnumerable");
    ("toLocaleString", "toLocaleString"); ("toString", "toString"); ("valueOf", "valueOf");
    ("__defineGetter__", "__defineGetter__"); ("__defineSetter__", "__defineSetter__");
    ("__lookupGetter__", "__lookupGetter__"); ("__lookupSetter__", "__lookupSetter__") ].

Fixpoint assoc (k : string) (l : list (string * string)) : option string :=
  match l with
  | [] => None
  | (k', v) :: l' => if String.eqb k k' then Some v else assoc k l'
  end.

Definition object_get (own : list (string * string)) (k : string) : JsValue :=
  match assoc k own with
  | Some v => JStr v
  | None =>
      if String.eqb k "__proto__" then JObj
      else match assoc k OBJECT_PROTOTYPE_MEMBERS with
           | Some n => JFun n
           | None => JUndef
           end
  end.

Definition js_truthy (v : JsValue) : bool :=
  match v with JStr s => negb (String.eqb s "") | JFun _ | JObj => true | JUndef => false end.

(** The text a value becomes when assigned to [textContent]. *)
Definition js_to_text (v : JsValue) : string :=
  match v with
  | JStr s => s
  | JFun n => "function " ++ n ++ "() { [native code] }"
  | JObj => "[object Object]"
  | JUndef => "undefined"
  end.

(** [STICKERS[widget.content] || widget.content]. *)
Definition stickerGlyph (key : string) : string :=
  let v := object_get STICKERS key in
  if js_truthy v then js_to_text v else key.

(** ** The widget transform of [applyWidgetTransform] *)

(** [Some (sx, sy)] for [transform = `scale(${scale * sx}, ${scale * sy})`],
    [None] for [transform = '']. *)
Definition widgetTransform (w : ProfileWidget) : option (Q * Q) :=
  let s := js_num_or (scale w) 1 in
  let sx := js_num_or (stretchX w) 1 in
  let sy := js_num_or (stretchY w) 1 in
  if negb (Qeq_bool s 1) || negb (Qeq_bool sx 1) || negb (Qeq_bool sy 1)
  then Some (s * sx, s * sy) else None.

(** ** Lemmas *)

#[export] Instance scale_step_proper : Proper (Qeq ==> Qeq ==> Qeq) scale_step.
Proof.
  intros a a' Ha b b' Hb. unfold scale_step.
  change (math_max 0.3 (math_min 3 (a + b))) with (clamp 0.3 3 (a + b)).
  change (math_max 0.3 (math_min 3 (a' + b'))) with (clamp 0.3 3 (a' + b')).
  rewrite Ha, Hb. reflexivity.
Qed.

(** A step always lands in [[0.3, 3]]. *)
Lemma scale_step_bounds (current delta : Q) : 0.3 <= scale_step current delta <= 3.
Proof.
  unfold scale_step.
  change (math_max 0.3 (math_min 3 (current + delta))) with (clamp 0.3 3 (current + delta)).
  assert (Hc : 0.3 <= clamp 0.3 3 (current + delta) <= 3) by (apply clamp_bounds; lra).
  generalize dependent (clamp 0.3 3 (current + delta)). intros v Hc.
  assert (Hr : inject_Z 3 <= math_round (v * 10) <= inject_Z 30).
  { apply math_round_between. change (inject_Z 3) with (3 # 1).
    change (inject_Z 30) with (30 # 1). lra. }
  change (inject_Z 3) with (3 # 1) in Hr. change (inject_Z 30) with (30 # 1) in Hr.
  unfold Qdiv. replace (Qinv 10) with (1 # 10) by reflexivity. lra.
Qed.

(** A step whose unclamped result is a tenth inside the range is exact. *)
Lemma scale_step_exact (current delta : Q) (z : Z) :
  (current + delta) * 10 == inject_Z z -> 0.3 <= current + delta <= 3 ->
  scale_step current delta == current + delta.
Proof.
  intros Hz Hr. unfold scale_step.
  change (math_max 0.3 (math_min 3 (current + delta))) with (clamp 0.3 3 (current + delta)).
  rewrite (clamp_id 0.3 3 (current + delta)) by lra.
  rewrite Hz, math_round_Z, <- Hz. field.
Qed.

(** At or past the top of the range a step gives 3, at or past the bottom
    0.3. *)
Lemma scale_step_top (current delta : Q) : 3 <= current + delta -> scale_step current delta == 3.
Proof.
  intros H. unfold scale_step.
  change (math_max 0.3 (math_min 3 (current + delta))) with (clamp 0.3 3 (current + delta)).
  rewrite (clamp_hi 0.3 3 (current + delta)) by lra.
  change (3 * 10) with (inject_Z 30). rewrite math_round_Z. reflexivity.
Qed.

Lemma scale_step_bottom (current delta : Q) : current + delta <= 0.3 -> scale_step current delta == 0.3.
Proof.
  intros H. unfold scale_step.
  change (math_max 0.3 (math_min 3 (current + delta))) with (clamp 0.3 3 (current + delta)).
  rewrite (clamp_lo 0.3 3 (current + delta)) by lra.
  assert (E : 0.3 * 10 == inject_Z 3) by (vm_compute; reflexivity).
  rewrite E, math_round_Z. reflexivity.
Qed.

Lemma font_step_bounds (current delta : Q) : 10 <= font_step current delta <= 72.
Proof. apply (clamp_bounds 10 72). lra. Qed.

Lemma find_core_set (layout : BannerLayout) (eid : string) (pos : BannerPosition) (e : BannerElement) :
  find_core layout eid = Some e ->
  find_core (with_elements layout
     (update_first (fun e => String.eqb (el_id e) eid) (set_el_position pos) (elements layout))) eid
  = Some (set_el_position pos e).
Proof. apply find_update_first_same. reflexivity. Qed.

(** Reading back an element's position after [setElementPosition] gives
    the position written, for core elements and for widgets alike. *)
Lemma getElementPosition_setElementPosition (layout : BannerLayout) (ws : list ProfileWidget)
    (eid : string) (pos : BannerPosition) :
  (is_Some (find_core layout eid) \/
   (is_widget_element eid = true /\ is_Some (find_widget ws (widget_id_of eid)))) ->
  let '(layout', ws') := setElementPosition layout ws eid pos in
  getElementPosition layout' ws' eid = pos.
Proof.
  intros Hex. unfold setElementPosition.
  destruct (find_core layout eid) as [e|] eqn:He.
  - unfold getElementPosition. rewrite (find_core_set _ _ _ e He). reflexivity.
  - destruct Hex as [[? ?]|[Hw [w Hfw]]]; [congruence|].
    rewrite Hw. unfold getElementPosition. rewrite He, Hw. unfold find_widget in *.
    rewrite (find_update_first_same _ _ _ w) by (reflexivity || exact Hfw). reflexivity.
Qed.

Lemma assign_empty (ts : TextStyle) : assign ts (mkUpdate None None None) = ts.
Proof. destruct ts; reflexivity. Qed.

Lemma assign_color (ts : TextStyle) (c : option string) :
  assign ts (mkUpdate (Some c) None None) = mkTextStyle c (fontFamily ts) (fontSize ts).
Proof. reflexivity. Qed.

#[export] Hint Resolve scale_step_bounds font_step_bounds : mesa.

Lemma assoc_In (k v : string) (l : list (string * string)) : assoc k l = Some v -> In (k, v) l.
Proof.
  induction l as [|[k' v'] l IH]; simpl; [discriminate|].
  destruct (String.eqb k k') eqn:E.
  - intros [= <-]. left. apply String.eqb_eq in E. subst. reflexivity.
  - intros H. right. apply IH, H.
Qed.

Lemma STICKERS_nonempty : Forall (fun kv => snd kv <> "") STICKERS.
Proof. repeat constructor; discriminate. Qed.

(** A sticker key of [STICKERS] renders as its glyph; a key that is
    neither one of them nor a member of [Object.prototype] renders as the
    key itself. *)
Theorem stickerGlyph_spec (key : string) :
  (forall g, assoc key STICKERS = Some g -> stickerGlyph key = g) /\
  (assoc key STICKERS = None -> key <> "__proto__" ->
   assoc key OBJECT_PROTOTYPE_MEMBERS = None -> stickerGlyph key = key).
Proof.
  unfold stickerGlyph, object_get. split.
  - intros g Hg. rewrite Hg. simpl.
    pose proof (proj1 (Forall_forall _ _) STICKERS_nonempty (key, g) (assoc_In _ _ _ Hg)) as Hne.
    simpl in Hne. destruct (String.eqb g "") eqn:E; [apply String.eqb_eq in E; contradiction|].
    reflexivity.
  - intros Hs Hp Hm. rewrite Hs, Hm.
    destruct (String.eqb key "__proto__") eqn:E; [apply String.eqb_eq in E; contradiction|].
    reflexivity.
Qed.

(** [STICKERS] is an object literal, so [STICKERS[key]] also finds
    the members of [Object.prototype]: a sticker whose key is ["toString"]
    or ["constructor"] renders as the source text of a native function,
    not as the key the spec promises for unknown keys. *)
Theorem stickerGlyph_prototype_keys :
  stickerGlyph "toString" = "function toString() { [native code] }" /\
  stickerGlyph "constructor" = "function Object() { [native code] }" /\
  stickerGlyph "__proto__" = "[object Object]".
Proof. repeat split; reflexivity. Qed.

(** Clicking "scale up" [n] times from the default scale 1 gives
    [min 3 (1 + n/10)]: each click adds exactly 0.1 until the cap, and at
    the cap further clicks keep 3. *)
Theorem scale_up_clicks (n : nat) :
  Nat.iter n (fun s => scale_step s 0.1) 1 == Qmin 3 (1 + inject_Z (Z.of_nat n) / 10).
Proof.
  induction n as [|n IH].
  - reflexivity.
  - simpl Nat.iter. rewrite IH. rewrite Nat2Z.inj_succ, <- Z.add_1_r, inject_Z_plus.
    set (q := inject_Z (Z.of_nat n)).
    assert (Hq : 0 <= q) by (unfold q; change 0 with (inject_Z 0); rewrite <- Zle_Qle; lia).
    destruct (Qlt_le_dec q 20) as [Hlt|Hge].
    + assert (Hle : q + 1 <= 20).
      { unfold q in *. change 20 with (inject_Z 20) in *. change 1 with (inject_Z 1).
        rewrite <- inject_Z_plus, <- Zle_Qle. rewrite <- Zlt_Qlt in Hlt. lia. }
      rewrite (Q.min_r 3 (1 + q / 10)) by (unfold Qdiv; replace (/ 10) with (1 # 10) by reflexivity; lra).
      rewrite (Q.min_r 3 (1 + (q + inject_Z 1) / 10))
        by (unfold Qdiv; replace (/ 10) with (1 # 10) by reflexivity; change (inject_Z 1) with 1; lra).
      rewrite (scale_step_exact _ _ (Z.of_nat n + 11)).
      * field.
      * rewrite inject_Z_plus. fold q. change (inject_Z 11) with 11. field.
      * unfold Qdiv; replace (/ 10) with (1 # 10) by reflexivity; lra.
    + rewrite (Q.min_l 3 (1 + q / 10)) by (unfold Qdiv; replace (/ 10) with (1 # 10) by reflexivity; lra).
      rewrite (Q.min_l 3 (1 + (q + inject_Z 1) / 10))
        by (unfold Qdiv; replace (/ 10) with (1 # 10) by reflexivity; change (inject_Z 1) with 1; lra).
      apply scale_step_top. lra.
Qed.

End Widgets.
