(* ===== verification/Storage.v ===== *)
(** * Browser storage

    The keys of [StorageKeys] (src/src/types.ts) with the values the code
    stores under them.  Every write is [setItem(key, JSON.stringify(v))]
    and every read [JSON.parse(getItem(key))]; with value semantics this
    round trip is the identity, so a key holds the value itself ([None] for
    a missing key).  ['mesaSettings'] holds the object [SettingsObject]
    below, each of its properties possibly absent. *)

From S2P Require Import Prelude Types.

(** The object stored under ['mesaSettings'] (interface [UserSettings] of
    src/src/settings.ts).  Every property is optional: the profile
    drop-downs of the pages write [{onlineStatus}] alone into a missing
    key, and [JSON.parse] returns what was written, whatever its
    declared type. *)
Record SettingsObject := mkSettings {
  language : option string;
  theme : option string;
  matchNotifications : option bool;
  tournamentNotifications : option bool;
  friendMessages : option bool;
  soundNotifications : option bool;
  profileVisibility : option string;
  statsVisibility : option string;
  onlineStatus : option bool;
}.

#[export] Instance SettingsObject_eq_dec : EqDecision SettingsObject.
Proof. solve_decision. Defined.

(** The object literal [{}]. *)
Definition emptySettings : SettingsObject :=
  mkSettings None None None None None None None None None.

Record LocalStorage := mkLocal {
  ls_database : option Database;      (** ['mesaDatabase'] *)
  ls_currentUser : option User;       (** ['mesaCurrentUser'] *)
  ls_loggedIn : option string;        (** ['mesaLoggedIn'] *)
  ls_settings : option SettingsObject; (** ['mesaSettings'] *)
}.

Record SessionStorage := mkSessionStorage {
  ss_verification : option VerificationData;   (** ['mesaVerification'] *)
  ss_pendingLogin : option PendingLogin;       (** ['mesaPendingLogin'] *)
}.

Definition set_currentUser (ls : LocalStorage) (u : User) : LocalStorage :=
  mkLocal (ls_database ls) (Some u) (ls_loggedIn ls) (ls_settings ls).

Definition set_database (ls : LocalStorage) (db : Database) : LocalStorage :=
  mkLocal (Some db) (ls_currentUser ls) (ls_loggedIn ls) (ls_settings ls).

(** [db.users.findIndex(u => u.id === uid)]. *)
Definition user_index (db : Database) (uid : string) : option nat :=
  find_index (fun u => String.eqb (id u) uid) (users db).

(** [db.users[idx] = u]. *)
Definition set_user_at (db : Database) (idx : nat) (u : User) : Database :=
  mkDatabase (<[idx := u]> (users db)) (sessions db).

(** [db.users.find(u => u.id === uid)]. *)
Definition find_user (db : Database) (uid : string) : option User :=
  List.find (fun u => String.eqb (id u) uid) (users db).

Lemma user_index_find (db : Database) (uid : string) (i : nat) :
  user_index db uid = Some i -> exists u, users db !! i = Some u /\ id u = uid.
Proof.
  unfold user_index. intros H. apply find_index_Some in H as [u [Hu Hid]].
  exists u. split; [exact Hu|]. apply String.eqb_eq, Hid.
Qed.

Lemma set_user_at_lookup (db : Database) (i : nat) (u : User) :
  (i < length (users db))%nat -> users (set_user_at db i u) !! i = Some u.
Proof. intros H. unfold set_user_at. simpl. apply list_lookup_insert_eq, H. Qed.

(** Writing a user at the index [findIndex] found for its id, then looking
    the id up with [find], gives back the user written. *)
Lemma find_user_set_user_at (db : Database) (u : User) (i : nat) :
  user_index db (id u) = Some i -> find_user (set_user_at db i u) (id u) = Some u.
Proof.
  unfold user_index, find_user, set_user_at. simpl. generalize (users db) as us.
  intros us. revert i. induction us as [|v us IH]; intros i; simpl; [discriminate|].
  destruct (String.eqb (id v) (id u)) eqn:Hv.
  - intros [= <-]. simpl. rewrite String.eqb_refl. reflexivity.
  - destruct (find_index _ us) as [j|] eqn:Hj; simpl; [|discriminate].
    intros [= <-]. simpl. rewrite Hv. apply IH. reflexivity.
Qed.

(** ** Writes of single keys *)

(** [localStorage.setItem(LOGGED_IN, v)] / [removeItem]. *)
Definition set_loggedIn (ls : LocalStorage) (v : option string) : LocalStorage :=
  mkLocal (ls_database ls) (ls_currentUser ls) v (ls_settings ls).

(** [localStorage.removeItem(CURRENT_USER)]. *)
Definition clear_currentUser (ls : LocalStorage) : LocalStorage :=
  mkLocal (ls_database ls) None (ls_loggedIn ls) (ls_settings ls).

(** [localStorage.setItem('mesaSettings', ...)] / [removeItem]. *)
Definition set_settings (ls : LocalStorage) (v : option SettingsObject) : LocalStorage :=
  mkLocal (ls_database ls) (ls_currentUser ls) (ls_loggedIn ls) v.

(** [sessionStorage.setItem(VERIFICATION, ...)] / [removeItem]. *)
Definition set_verification (ss : SessionStorage) (v : option VerificationData) : SessionStorage :=
  mkSessionStorage v (ss_pendingLogin ss).

(** [sessionStorage.setItem(PENDING_LOGIN, ...)] / [removeItem]. *)
Definition set_pendingLogin (ss : SessionStorage) (p : option PendingLogin) : SessionStorage :=
  mkSessionStorage (ss_verification ss) p.

(** ** The user repository

    spec.md (section 9) asks that persistence sit behind a repository
    with [get(userId)] and [save(user)] contracts.  The code has no such
    interface, but every handler that writes a user back repeats one
    pattern, [idx = db.users.findIndex(u => u.id === user.id); if (idx !==
    -1) db.users[idx] = user]: [save_user] below.  The class states the
    contract, the [Database] instance discharges it, and the social
    handlers are reasoned about through it. *)

Class UserRepository (S : Type) := {
  repo_get : S -> string -> option User;
  repo_save : S -> User -> S;
}.

Class UserRepositoryLaws (S : Type) `{UserRepository S} := {
  repo_get_save_same : forall s u, is_Some (repo_get s (id u)) -> repo_get (repo_save s u) (id u) = Some u;
  repo_get_save_other : forall s u i, i <> id u -> repo_get (repo_save s u) i = repo_get s i;
  repo_save_missing : forall s u, repo_get s (id u) = None -> repo_save s u = s;
}.

Definition save_user (db : Database) (u : User) : Database :=
  match user_index db (id u) with
  | Some idx => set_user_at db idx u
  | None => db
  end.

#[export] Instance Database_repository : UserRepository Database := {
  repo_get := find_user;
  repo_save := save_user;
}.

Lemma find_user_index (db : Database) (uid : string) :
  find_user db uid = None <-> user_index db uid = None.
Proof.
  unfold find_user, user_index. generalize (users db) as us. intros us.
  induction us as [|v us IH]; simpl; [tauto|]. destruct (String.eqb (id v) uid); [split; discriminate|].
  rewrite IH. destruct (find_index _ us); simpl; split; discriminate || reflexivity.
Qed.

Lemma find_user_set_other (db : Database) (u : User) (i : nat) (uid : string) :
  user_index db (id u) = Some i -> uid <> id u -> find_user (set_user_at db i u) uid = find_user db uid.
Proof.
  unfold user_index, find_user, set_user_at. simpl. generalize (users db) as us. intros us.
  revert i. induction us as [|v us IH]; intros i; simpl; [discriminate|].
  destruct (String.eqb (id v) (id u)) eqn:Hv.
  - intros [= <-] Hne. simpl. apply String.eqb_eq in Hv.
    destruct (String.eqb (id u) uid) eqn:Hu; [apply String.eqb_eq in Hu; congruence|].
    replace (String.eqb (id v) uid) with false; [reflexivity|].
    symmetry. apply String.eqb_neq. congruence.
  - destruct (find_index _ us) as [j|] eqn:Hj; simpl; [|discriminate].
    intros [= <-] Hne. simpl. destruct (String.eqb (id v) uid); [reflexivity|]. apply IH; auto.
Qed.

#[export] Instance Database_repository_laws : UserRepositoryLaws Database.
Proof.
  split; simpl; unfold save_user.
  - intros db u [v Hv]. destruct (user_index db (id u)) as [i|] eqn:Hi.
    + apply find_user_set_user_at, Hi.
    + apply find_user_index in Hi. congruence.
  - intros db u uid Hne. destruct (user_index db (id u)) as [i|] eqn:Hi; [|reflexivity].
    apply find_user_set_other; assumption.
  - intros db u Hnone. apply find_user_index in Hnone. rewrite Hnone. reflexivity.
Qed.
