(* ===== verification/Auth.v ===== *)
(** * The authentication service (src/src/auth.service.ts)

    The database helpers over the ['mesaDatabase'] blob, the two validators
    (the e-mail regular expression as a backtracking matcher, the password
    rules in the order the code checks them), the verification code and
    its expiry, and the submit handlers of the registration and login
    forms over a [Browser] state: the two storages, the form message, the
    alerts shown and the page the browser is sent to.  [Date.now()] and
    [Math.random()] are arguments of the handlers that call them. *)

From Stdlib Require Import Ascii.
From stdpp Require Import pretty.
From S2P Require Import Prelude Types Storage.

Module Auth.

(** ** Case folding *)

(** [String.prototype.toLowerCase] on the ASCII letters; other characters
    are kept (the model does not fold non-ASCII letters). *)
Definition lower_char (c : Ascii.ascii) : Ascii.ascii :=
  let n := Ascii.nat_of_ascii c in
  if (Nat.leb 65 n && Nat.leb n 90)%bool then Ascii.ascii_of_nat (n + 32) else c.

Fixpoint toLowerCase (s : string) : string :=
  match s with
  | EmptyString => EmptyString
  | String c s' => String (lower_char c) (toLowerCase s')
  end.

(** ** Database functions *)

Definition emptyDb : Database := mkDatabase [] [].

Definition initDatabase (ls : LocalStorage) : LocalStorage :=
  match ls_database ls with
  | Some _ => ls
  | None => set_database ls emptyDb
  end.

Definition getDatabase (ls : LocalStorage) : Database :=
  match ls_database ls with
  | Some db => db
  | None => emptyDb
  end.

Definition saveDatabase (ls : LocalStorage) (db : Database) : LocalStorage :=
  set_database ls db.

Definition email_matches (addr : string) (u : User) : bool :=
  String.eqb (toLowerCase (email u)) (toLowerCase addr).

Definition findUserByEmail (ls : LocalStorage) (addr : string) : option User :=
  List.find (email_matches addr) (users (getDatabase ls)).

(** [createUser]: [uid] is ['user_' + Date.now() + '_' + random], [now] is
    [new Date().toISOString()]. *)
Definition createUser (ls : LocalStorage) (uid now : string) (d : CreateUserData)
    : LocalStorage * User :=
  let db := getDatabase ls in
  let newUser :=
    {| id := uid; nickname := cu_nickname d; login := None;
       email := toLowerCase (cu_email d); password := cu_password d;
       level := 1; elo := 1000; wins := 0; losses := 0; gamesPlayed := 0;
       registeredAt := now; emailVerified := false; avatar := None; bio := None;
       bannerImage := None; bannerVideo := None; profileWidgets := None;
       bannerLayout := None; friends := None; subscriptions := None;
       groups := None; notifications := None; achievements := None |} in
  (saveDatabase ls (mkDatabase (users db ++ [newUser]) (sessions db)), newUser).

(** ** [validateEmail]: [/^[^\s@]+@[^\s@]+\.[^\s@]+$/.test(email)] *)

(** A character of the class [[^\s@]]. *)
Definition clean_char (c : Ascii.ascii) : bool :=
  (negb (is_js_space c) && negb (Ascii.eqb c "@"%char))%bool.

(** [[^\s@]+] followed by what [k] accepts of the rest: the matcher tries
    every length of the run, as the regular-expression engine backtracks. *)
Fixpoint clean_plus (k : string -> bool) (s : string) : bool :=
  match s with
  | EmptyString => false
  | String c s' => (clean_char c && (k s' || clean_plus k s'))%bool
  end.

(** A literal character followed by what [k] accepts. *)
Definition lit (c : Ascii.ascii) (k : string -> bool) (s : string) : bool :=
  match s with
  | EmptyString => false
  | String c' s' => (Ascii.eqb c c' && k s')%bool
  end.

(** [$]: the end of the input. *)
Definition at_end (s : string) : bool :=
  match s with EmptyString => true | String _ _ => false end.

Definition validateEmail (addr : string) : bool :=
  clean_plus (lit "@" (clean_plus (lit "." (clean_plus at_end)))) addr.

(** ** [validatePassword] *)

Definition is_ascii_letter (c : Ascii.ascii) : bool :=
  let n := Ascii.nat_of_ascii c in
  ((Nat.leb 65 n && Nat.leb n 90) || (Nat.leb 97 n && Nat.leb n 122))%bool.

Definition is_ascii_digit (c : Ascii.ascii) : bool :=
  let n := Ascii.nat_of_ascii c in (Nat.leb 48 n && Nat.leb n 57)%bool.

(** The special characters the class of [englishOnlyRegex] admits beside
    letters and digits, in the order of the source; character 34 is the
    double quote. *)
Definition password_specials : string :=
  String.append "!@#$%^&*()_+-=[]{};':" (String (Ascii.ascii_of_nat 34) "\|,.<>/?").

Definition english_only_char (c : Ascii.ascii) : bool :=
  (is_ascii_letter c || is_ascii_digit c || str_existsb (Ascii.eqb c) password_specials)%bool.

Definition PASSWORD_CHARSET_MESSAGE : string :=
  "Пароль должен содержать только английские буквы, цифры и спецсимволы!".
Definition PASSWORD_LENGTH_MESSAGE : string :=
  "Пароль должен содержать минимум 8 символов!".
Definition PASSWORD_CLASSES_MESSAGE : string :=
  "Пароль должен содержать хотя бы одну букву и одну цифру!".

Definition validatePassword (pw : string) : ValidationResult :=
  if negb (str_forallb english_only_char pw) then
    mkValidation false (Some PASSWORD_CHARSET_MESSAGE)
  else if Nat.ltb (js_length pw) 8 then
    mkValidation false (Some PASSWORD_LENGTH_MESSAGE)
  else if negb (str_existsb is_ascii_letter pw && str_existsb is_ascii_digit pw)%bool then
    mkValidation false (Some PASSWORD_CLASSES_MESSAGE)
  else mkValidation true None.

(** ** Verification code *)

(** [Math.floor(100000 + Math.random() * 900000).toString()], with [r] the
    value [Math.random()] returned. *)
Definition generateVerificationCode (r : Q) : string :=
  pretty (Qfloor (100000 + r * 900000)).

(** Five minutes in milliseconds. *)
Definition CODE_LIFETIME : Q := 5 * 60 * 1000.

(** ** The page: storages, form message, alerts, navigation *)

Record Browser := mkBrowser {
  local : LocalStorage;
  session : SessionStorage;
  formMessage : option (string * MessageType);  (** [#formMessage] text and type *)
  alerts : list string;                          (** [alert(...)] calls, latest first *)
  location : option string;                      (** [window.location.href] assigned *)
}.

Definition with_local (b : Browser) (ls : LocalStorage) : Browser :=
  mkBrowser ls (session b) (formMessage b) (alerts b) (location b).

Definition with_session (b : Browser) (ss : SessionStorage) : Browser :=
  mkBrowser (local b) ss (formMessage b) (alerts b) (location b).

(** [showMessage(text, type)]; the timer that hides it again is in
    [Message]. *)
Definition showMessage (b : Browser) (text : string) (ty : MessageType) : Browser :=
  mkBrowser (local b) (session b) (Some (text, ty)) (alerts b) (location b).

Definition alert (b : Browser) (text : string) : Browser :=
  mkBrowser (local b) (session b) (formMessage b) (text :: alerts b) (location b).

(** [window.location.href = page], directly or from a [setTimeout]
    callback: the model takes the navigation as done. *)
Definition redirect (b : Browser) (page : string) : Browser :=
  mkBrowser (local b) (session b) (formMessage b) (alerts b) (Some page).

Definition nl : string := String (Ascii.ascii_of_nat 10) EmptyString.

(** ** Verification codes *)

Definition sendVerificationCode (b : Browser) (addr code : string) (now : Q) : Browser * bool :=
  let verificationData := mkVerification addr code (now + CODE_LIFETIME) in
  let b1 := with_session b (set_verification (session b) (Some verificationData)) in
  (alert b1 (String.concat EmptyString
     ["📧 Код подтверждения отправлен на "; addr; nl; nl; "Ваш код: "; code; nl; nl;
      "(В реальной версии код придёт на почту)"]),
   true).

Definition CODE_NOT_FOUND : string := "Код подтверждения не найден!".
Definition CODE_EXPIRED : string := "Срок действия кода истёк!".
Definition WRONG_EMAIL : string := "Неверный email!".
Definition WRONG_CODE : string := "Неверный код!".

Definition invalid (msg : string) : ValidationResult := mkValidation false (Some msg).

Definition verifyCode (ss : SessionStorage) (addr entered : string) (now : Q)
    : SessionStorage * ValidationResult :=
  match ss_verification ss with
  | None => (ss, invalid CODE_NOT_FOUND)
  | Some v =>
      if Qlt_le_dec (expiresAt v) now then (set_verification ss None, invalid CODE_EXPIRED)
      else if negb (String.eqb (toLowerCase (v_email v)) (toLowerCase addr)) then (ss, invalid WRONG_EMAIL)
      else if negb (String.eqb (code v) entered) then (ss, invalid WRONG_CODE)
      else (ss, mkValidation true None)
  end.

(** ** [checkAuth] *)

(** [path.split('/').pop()]: the text after the last slash. *)
Fixpoint last_segment_go (s acc : string) : string :=
  match s with
  | EmptyString => acc
  | String c s' =>
      if Ascii.eqb c "/"%char then last_segment_go s' EmptyString
      else last_segment_go s' (String.append acc (String c EmptyString))
  end.

Definition last_segment (path : string) : string := last_segment_go path EmptyString.

Definition is_true_flag (v : option string) : bool :=
  match v with Some s => String.eqb s "true" | None => false end.

(** The page [checkAuth] sends the browser to, if any; the second test
    runs after the first assignment, so the later one wins. *)
Definition checkAuth (loggedIn : option string) (pathname : string) : option string :=
  let currentPage := last_segment pathname in
  let r1 := if (is_true_flag loggedIn &&
                (String.eqb currentPage "login.html" || String.eqb currentPage "register.html"))%bool
            then Some "dashboard.html" else None in
  if (negb (is_true_flag loggedIn) && String.eqb currentPage "dashboard.html")%bool
  then Some "login.html" else r1.

(** ** [loginWithSteam] *)

(** [r1], [r2] are the two [Math.random()] values of the e-mail and
    nickname, [rnd36] the base-36 text of the third one, [uid] and [now]
    what [createUser] draws. *)
Definition steamEmail (r1 : Q) : string :=
  String.concat EmptyString ["steam"; pretty (Qfloor (r1 * 10000)); "@steamcommunity.com"].

Definition loginWithSteam (b : Browser) (r1 r2 : Q) (rnd36 uid now : string) : Browser :=
  let ls := initDatabase (local b) in
  let steamEmail := steamEmail r1 in
  let '(ls1, user) :=
    match findUserByEmail ls steamEmail with
    | Some u => (ls, u)
    | None =>
        createUser ls uid now
          (mkCreateUserData (String.append "SteamPlayer" (pretty (Qfloor (r2 * 1000))))
             steamEmail (String.append "steam_" rnd36))
    end in
  let ls2 := set_loggedIn (set_currentUser ls1 user) (Some "true") in
  redirect (showMessage (with_local b ls2) "Вход через Steam успешен! Перенаправление..." MT_success)
    "dashboard.html".

(** ** Registration *)

(** The fields of [#registerForm] when it is submitted. *)
Record RegisterForm := mkRegisterForm {
  f_nickname : string;
  f_email : string;
  f_password : string;
  f_confirmPassword : string;
  f_terms : bool;
}.

Definition NICKNAME_MESSAGE : string := "Никнейм должен содержать минимум 3 символа!".
Definition EMAIL_FORMAT_MESSAGE : string := "Неверный формат email!".
Definition EMAIL_TAKEN_MESSAGE : string := "Пользователь с таким email уже существует!".
Definition PASSWORD_FALLBACK_MESSAGE : string := "Ошибка валидации пароля".
Definition PASSWORD_MISMATCH_MESSAGE : string := "Пароли не совпадают!".
Definition TERMS_MESSAGE : string := "Вы должны принять правила платформы!".
Definition REGISTERED_MESSAGE : string := "Регистрация успешна! Перенаправление на вход...".

(** The [submit] listener of [handleRegistration]. *)
Definition onRegisterSubmit (b : Browser) (f : RegisterForm) (uid now : string) : Browser :=
  let nick := trim (f_nickname f) in
  let addr := trim (f_email f) in
  let pw := f_password f in
  if Nat.ltb (js_length nick) 3 then showMessage b NICKNAME_MESSAGE MT_error
  else if negb (validateEmail addr) then showMessage b EMAIL_FORMAT_MESSAGE MT_error
  else match findUserByEmail (local b) addr with
  | Some _ => showMessage b EMAIL_TAKEN_MESSAGE MT_error
  | None =>
    let passwordValidation := validatePassword pw in
    if negb (valid passwordValidation) then
      showMessage b (js_str_or (v_message passwordValidation) PASSWORD_FALLBACK_MESSAGE) MT_error
    else if negb (String.eqb pw (f_confirmPassword f)) then
      showMessage b PASSWORD_MISMATCH_MESSAGE MT_error
    else if negb (f_terms f) then showMessage b TERMS_MESSAGE MT_error
    else
      let ls := initDatabase (local b) in
      let ls' := fst (createUser ls uid now (mkCreateUserData nick addr pw)) in
      redirect (showMessage (with_local b ls') REGISTERED_MESSAGE MT_success) "login.html"
  end.

(** ** Login *)

Definition USER_NOT_FOUND_MESSAGE : string := "Пользователь с таким email не найден!".
Definition WRONG_PASSWORD_MESSAGE : string := "Неверный пароль!".
Definition CODE_SENT_MESSAGE : string := "Код подтверждения отправлен на ваш email!".

(** The [submit] listener of [handleLogin]; [r] is the [Math.random()]
    value of the code, [now] the [Date.now()] of the expiry. *)
Definition onLoginSubmit (b : Browser) (email0 pw : string) (r now : Q) : Browser :=
  let addr := trim email0 in
  let b0 := with_local b (initDatabase (local b)) in
  match findUserByEmail (local b0) addr with
  | None => showMessage b0 USER_NOT_FOUND_MESSAGE MT_error
  | Some user =>
      if negb (String.eqb (password user) pw) then showMessage b0 WRONG_PASSWORD_MESSAGE MT_error
      else
        let verificationCode := generateVerificationCode r in
        let b1 := fst (sendVerificationCode b0 addr verificationCode now) in
        let pendingLogin := mkPendingLogin (id user) addr in
        let b2 := with_session b1 (set_pendingLogin (session b1) (Some pendingLogin)) in
        redirect (showMessage b2 CODE_SENT_MESSAGE MT_success) "verify.html"
  end.

(** ** Reference definitions *)

(** The language of [/^[^\s@]+@[^\s@]+\.[^\s@]+$/]: three non-empty runs of
    the class [[^\s@]] separated by ["@"] and ["."]. *)
Definition clean (s : string) : Prop :=
  s <> EmptyString /\ str_forallb clean_char s = true.

Definition email_shape (addr : string) : Prop :=
  exists a b c, addr = String.append a (String "@" (String.append b (String "." c)))
    /\ clean a /\ clean b /\ clean c.

(** No two users of the database share an e-mail address up to case:
    [findUserByEmail] then finds the one user of an address. *)
Definition emails_unique (db : Database) : Prop :=
  NoDup (map (fun u => toLowerCase (email u)) (users db)).

(** ** Lemmas: the e-mail matcher *)

Lemma clean_plus_spec (k : string -> bool) (s : string) :
  clean_plus k s = true <->
  exists a r, s = String.append a r /\ clean a /\ k r = true.
Proof.
  induction s as [|c s IH]; simpl.
  - split; [discriminate|]. intros (a & r & Ha & [Hne _] & _).
    destruct a; [contradiction | discriminate].
  - rewrite !andb_true_iff, orb_true_iff, IH. split.
    + intros [Hc [Hk | (a & r & -> & [Hne Ha] & Hk)]].
      * exists (String c EmptyString), s. unfold clean; simpl; rewrite Hc. auto.
      * exists (String c a), r. unfold clean; simpl; rewrite Hc, Ha. auto.
    + intros ([|c' a] & r & Hs & [Hne Ha] & Hk); [contradiction|].
      simpl in Hs, Ha. injection Hs as <- ->. apply andb_true_iff in Ha as [Hc Ha].
      split; [exact Hc|]. destruct a as [|c'' a]; [left; exact Hk|].
      right. exists (String c'' a), r. repeat split; try discriminate; auto.
Qed.

Lemma lit_spec (c : Ascii.ascii) (k : string -> bool) (s : string) :
  lit c k s = true <-> exists r, s = String c r /\ k r = true.
Proof.
  destruct s as [|c' s]; simpl.
  - split; [discriminate|]. intros (r & H & _). discriminate.
  - rewrite andb_true_iff, Ascii.eqb_eq. split.
    + intros [-> Hk]. eauto.
    + intros (r & Hs & Hk). injection Hs as -> ->. auto.
Qed.

Lemma at_end_spec (s : string) : at_end s = true <-> s = EmptyString.
Proof. destruct s; simpl; split; intros H; (reflexivity || discriminate). Qed.

Lemma append_empty_r (s : string) : String.append s EmptyString = s.
Proof. induction s as [|c s IH]; [reflexivity | exact (f_equal (String c) IH)]. Qed.

(** C15: [validateEmail] accepts exactly the strings of the form
    [local@domain.tld] with three non-empty parts free of white space and
    of ["@"]: the backtracking matcher of the regular expression is
    equivalent to the declarative description of its language. *)
Theorem validateEmail_spec (addr : string) :
  validateEmail addr = true <-> email_shape addr.
Proof.
  unfold validateEmail, email_shape.
  setoid_rewrite clean_plus_spec; setoid_rewrite lit_spec;
    setoid_rewrite clean_plus_spec; setoid_rewrite lit_spec;
    setoid_rewrite clean_plus_spec; setoid_rewrite at_end_spec.
  split.
  - intros (a & r & -> & Ha & r1 & -> & b & r2 & -> & Hb & r3 & -> & c & r4 & -> & Hc & ->).
    exists a, b, c. rewrite append_empty_r. auto.
  - intros (a & b & c & -> & Ha & Hb & Hc).
    eexists a, _; split; [reflexivity|]; split; [exact Ha|].
    eexists; split; [reflexivity|]. eexists b, _; split; [reflexivity|]; split; [exact Hb|].
    eexists; split; [reflexivity|]. exists c, EmptyString.
    rewrite append_empty_r. auto.
Qed.

(** ** Lemmas: case folding and lookup *)

Lemma lower_char_idem (c : Ascii.ascii) : lower_char (lower_char c) = lower_char c.
Proof.
  unfold lower_char; cbv zeta.
  destruct (Nat.leb 65 (Ascii.nat_of_ascii c) && Nat.leb (Ascii.nat_of_ascii c) 90)%bool eqn:H;
    [|rewrite H; reflexivity].
  apply andb_true_iff in H as [H1 H2]. apply Nat.leb_le in H1, H2.
  rewrite Ascii.nat_ascii_embedding by (pose proof (Ascii.nat_ascii_bounded c); lia).
  replace (Nat.leb (Ascii.nat_of_ascii c + 32) 90) with false by (symmetry; apply Nat.leb_gt; lia).
  rewrite andb_false_r. reflexivity.
Qed.

Lemma toLowerCase_idem (s : string) : toLowerCase (toLowerCase s) = toLowerCase s.
Proof. induction s as [|c s IH]; simpl; [reflexivity|]. rewrite lower_char_idem, IH. reflexivity. Qed.

Lemma getDatabase_initDatabase (ls : LocalStorage) : getDatabase (initDatabase ls) = getDatabase ls.
Proof. destruct ls as [[db|] ? ? ?]; reflexivity. Qed.

Lemma email_matches_lower (a a' : string) (u : User) :
  toLowerCase a = toLowerCase a' -> email_matches a u = email_matches a' u.
Proof. unfold email_matches. intros ->. reflexivity. Qed.

Lemma find_snoc {A} (p : A -> bool) (l : list A) (x : A) :
  List.find p l = None -> p x = true -> List.find p (l ++ [x]) = Some x.
Proof.
  induction l as [|y l IH]; simpl; [intros _ ->; reflexivity|].
  destruct (p y); [discriminate|]. exact IH.
Qed.

Lemma findUserByEmail_none (ls : LocalStorage) (addr : string) (u : User) :
  findUserByEmail ls addr = None -> In u (users (getDatabase ls)) ->
  toLowerCase (email u) <> toLowerCase addr.
Proof.
  unfold findUserByEmail. intros Hf Hin. pose proof (find_none _ _ Hf u Hin) as Hu.
  unfold email_matches in Hu. intros E. rewrite E, String.eqb_refl in Hu. discriminate.
Qed.

#[export] Hint Rewrite toLowerCase_idem getDatabase_initDatabase : mesa_rw.

(** ** Lemmas: registration *)

Lemma initDatabase_createUser (ls : LocalStorage) uid now d :
  initDatabase (fst (createUser ls uid now d)) = fst (createUser ls uid now d).
Proof. reflexivity. Qed.

Lemma findUserByEmail_createUser (ls : LocalStorage) uid now d (addr : string) :
  findUserByEmail ls addr = None ->
  toLowerCase (cu_email d) = toLowerCase addr ->
  findUserByEmail (fst (createUser ls uid now d)) addr = Some (snd (createUser ls uid now d)).
Proof.
  unfold findUserByEmail. intros Hnone Hlow. simpl. apply find_snoc; [exact Hnone|].
  unfold email_matches. simpl. rewrite toLowerCase_idem, Hlow. apply String.eqb_refl.
Qed.

(** A registration that shows the success message passed every guard and
    appended the new user. *)
Lemma onRegisterSubmit_success (b : Browser) (f : RegisterForm) uid now :
  formMessage (onRegisterSubmit b f uid now) = Some (REGISTERED_MESSAGE, MT_success) ->
  findUserByEmail (local b) (trim (f_email f)) = None /\
  local (onRegisterSubmit b f uid now) =
    fst (createUser (initDatabase (local b)) uid now
           (mkCreateUserData (trim (f_nickname f)) (trim (f_email f)) (f_password f))) /\
  location (onRegisterSubmit b f uid now) = Some "login.html".
Proof. unfold onRegisterSubmit. repeat case_match; simpl; intros Hm; try congruence; auto. Qed.

(** ** Lemmas: the verification code *)

Lemma verification_code_range (r : Q) :
  0 <= r < 1 -> (100000 <= Qfloor (100000 + r * 900000) <= 999999)%Z.
Proof.
  intros [H0 H1].
  pose proof (Qfloor_le (100000 + r * 900000)) as Hle.
  pose proof (Qlt_floor (100000 + r * 900000)) as Hlt.
  set (z := Qfloor (100000 + r * 900000)) in *.
  rewrite inject_Z_plus in Hlt. change (inject_Z 1) with 1 in Hlt.
  assert (Hlo : inject_Z 99999 < inject_Z z)
    by (change (inject_Z 99999) with (99999 # 1); lra).
  assert (Hhi : inject_Z z < inject_Z 1000000)
    by (change (inject_Z 1000000) with (1000000 # 1); lra).
  rewrite <- Zlt_Qlt in Hlo, Hhi. lia.
Qed.

Lemma pretty_N_char_digit (x : N) : is_ascii_digit (pretty_N_char x) = true.
Proof. unfold pretty_N_char. repeat case_match; reflexivity. Qed.

(** A number of six decimal digits prints as six digit characters. *)
Lemma pretty_six_digits (z : Z) :
  (100000 <= z <= 999999)%Z ->
  String.length (pretty z) = 6%nat /\ str_forallb is_ascii_digit (pretty z) = true.
Proof.
  intros Hz. destruct z as [|p|p]; try lia.
  change (pretty (Z.pos p)) with (pretty (N.pos p)). unfold pretty, pretty_N.
  set (x := N.pos p). assert (Hx : (100000 <= x <= 999999)%N) by lia.
  rewrite decide_False by lia.
  do 6 (rewrite pretty_N_go_step by (rewrite ?N.Div0.div_div; try apply N.div_str_pos; lia)).
  assert (H6 : ((((((x `div` 10) `div` 10) `div` 10) `div` 10) `div` 10) `div` 10 = 0)%N)
    by (rewrite !N.Div0.div_div; apply N.div_small; lia).
  rewrite H6, pretty_N_go_0. split; [reflexivity|]. simpl. rewrite !pretty_N_char_digit. reflexivity.
Qed.

(** C16: for every value [0 <= r < 1] of [Math.random()], the code
    [generateVerificationCode] builds is a string of exactly six decimal
    digits, the form the verification page's six inputs accept. *)
Theorem generateVerificationCode_six_digits (r : Q) :
  0 <= r < 1 ->
  String.length (generateVerificationCode r) = 6%nat /\
  str_forallb is_ascii_digit (generateVerificationCode r) = true.
Proof. intros Hr. apply pretty_six_digits, verification_code_range, Hr. Qed.

(** C17: registration then login.  After a registration that succeeds
    (it shows its success message), a login with the same address up to
    case and surrounding white space and the same password finds the new
    account: it stores the pending login of the new user id, stores a code
    that expires five minutes later, and sends the browser to the
    verification page. *)
Theorem register_then_login (b : Browser) (f : RegisterForm) (uid now em : string) (r t : Q) :
  formMessage (onRegisterSubmit b f uid now) = Some (REGISTERED_MESSAGE, MT_success) ->
  toLowerCase (trim em) = toLowerCase (trim (f_email f)) ->
  let b2 := onLoginSubmit (onRegisterSubmit b f uid now) em (f_password f) r t in
  location b2 = Some "verify.html" /\
  ss_pendingLogin (session b2) = Some (mkPendingLogin uid (trim em)) /\
  ss_verification (session b2) =
    Some (mkVerification (trim em) (generateVerificationCode r) (t + CODE_LIFETIME)).
Proof.
  intros Hok Hlow. apply onRegisterSubmit_success in Hok as (Hnone & Hlocal & _).
  unfold onLoginSubmit. simpl. rewrite Hlocal, initDatabase_createUser.
  rewrite findUserByEmail_createUser; [|unfold findUserByEmail in *; rewrite getDatabase_initDatabase;
    unfold email_matches in *; rewrite Hlow; exact Hnone | simpl; symmetry; exact Hlow].
  simpl. rewrite String.eqb_refl. simpl. auto.
Qed.

(** C18: [loginWithSteam] draws the e-mail [steam<n>@steamcommunity.com]
    with [n] random below 10000 and, when an account with that address
    exists, logs the browser into it: no password or Steam identity is
    checked, so a Steam login lands in whichever account owns the drawn
    address. *)
Theorem steam_login_existing_account (b : Browser) (r1 r2 : Q) (rnd36 uid now : string) (u : User) :
  findUserByEmail (local b) (steamEmail r1) = Some u ->
  ls_currentUser (local (loginWithSteam b r1 r2 rnd36 uid now)) = Some u /\
  ls_loggedIn (local (loginWithSteam b r1 r2 rnd36 uid now)) = Some "true" /\
  location (loginWithSteam b r1 r2 rnd36 uid now) = Some "dashboard.html".
Proof.
  intros Hu. unfold loginWithSteam.
  assert (E : findUserByEmail (initDatabase (local b)) (steamEmail r1) = Some u)
    by (unfold findUserByEmail; rewrite getDatabase_initDatabase; exact Hu).
  rewrite E. simpl. auto.
Qed.

(** C19: an expired code is final.  When the stored code has expired,
    [verifyCode] answers that it expired and removes it, and every later
    call, whatever the address, code and time, answers that no code is
    found. *)
Theorem verifyCode_expired (ss : SessionStorage) (v : VerificationData)
    (addr entered addr' entered' : string) (now now' : Q) :
  ss_verification ss = Some v -> expiresAt v < now ->
  snd (verifyCode ss addr entered now) = invalid CODE_EXPIRED /\
  verifyCode (fst (verifyCode ss addr entered now)) addr' entered' now' =
    (fst (verifyCode ss addr entered now), invalid CODE_NOT_FOUND).
Proof.
  intros Hv Hexp.
  assert (E : verifyCode ss addr entered now = (set_verification ss None, invalid CODE_EXPIRED)).
  { unfold verifyCode. rewrite Hv. destruct (Qlt_le_dec (expiresAt v) now); [reflexivity | lra]. }
  rewrite E. split; reflexivity.
Qed.

(** the password check refuses special characters its message
    admits.  The comment and the message of [validatePassword] say a
    password may hold English letters, digits and special characters; the
    character class omits the tilde, the backquote and the space, so such
    a password gets the character-set message, while the same password
    with [!] passes. *)
Example password_special_characters :
  validatePassword "abc~1234" = mkValidation false (Some PASSWORD_CHARSET_MESSAGE) /\
  validatePassword (String.append "abc" (String (Ascii.ascii_of_nat 96) "1234")) =
    mkValidation false (Some PASSWORD_CHARSET_MESSAGE) /\
  validatePassword "abc 1234" = mkValidation false (Some PASSWORD_CHARSET_MESSAGE) /\
  validatePassword "abc!1234" = mkValidation true None.
Proof. vm_compute. repeat split. Qed.

End Auth.
