(* ===== verification/Header.v ===== *)
(** * The page header shared by the signed-in pages

    dashboard.ts, profile.ts, settings.ts and user-profile-view.ts each
    carry a copy of the same header code: the sign-in check, the
    online-status switch of the profile drop-down (which writes the
    [onlineStatus] property of ['mesaSettings'] on every page load), the
    logout of the drop-down and the theme read from ['mesaSettings'].
    The copies are identical; this file translates the one of
    src/src/settings.ts (the theme, which settings.ts handles in its own
    way, from src/src/dashboard.ts), and the page modules call it.  The
    header's elements ([#userProfileToggle], [#profileDropdown]) are taken
    as present, as they are on every page that loads this code.  What the
    status switch shows is in [HeaderStatus]; the header of the settings
    and profile pages as one state and step is in [PageHeader]. *)

From S2P Require Import Prelude Types Storage Auth.
Import Auth.

Module Header.

(** [checkAuth()] of profile.ts and settings.ts: the flag must be the
    string ['true'] and a current user must be stored; otherwise the page
    goes to the login page. *)
Definition checkAuth (b : Browser) : Browser * option User :=
  match ls_loggedIn (local b) with
  | Some flag =>
      if String.eqb flag "true" then
        match ls_currentUser (local b) with
        | Some u => (b, Some u)
        | None => (redirect b "login.html", None)
        end
      else (redirect b "login.html", None)
  | None => (redirect b "login.html", None)
  end.

(** [JSON.parse(localStorage.getItem('mesaSettings') || '{}')]. *)
Definition stored_settings (ls : LocalStorage) : SettingsObject :=
  match ls_settings ls with
  | Some s => s
  | None => emptySettings
  end.

(** [s.onlineStatus = online] on the parsed object. *)
Definition with_onlineStatus (s : SettingsObject) (online : bool) : SettingsObject :=
  mkSettings (language s) (theme s) (matchNotifications s) (tournamentNotifications s)
    (friendMessages s) (soundNotifications s) (profileVisibility s) (statsVisibility s)
    (Some online).

(** [settings.onlineStatus !== false]. *)
Definition isOnline (s : SettingsObject) : bool :=
  match onlineStatus s with
  | Some false => false
  | _ => true
  end.

(** [updateStatus(online)]: the dots, the text and the check box show
    [online] (the model keeps the shown status), and the property is
    written back. *)
Definition updateStatus (ls : LocalStorage) (online : bool) : LocalStorage * bool :=
  (set_settings ls (Some (with_onlineStatus (stored_settings ls) online)), online).

(** The state changes of [setupProfileDropdown(user)] on page load: the
    stored status is read and [updateStatus(isOnline)] writes it back,
    creating ['mesaSettings'] when it is missing.  The drop-down's open
    and close listeners are modelled with the other header menus in
    [Menus]. *)
Definition setupProfileDropdown (ls : LocalStorage) : LocalStorage * bool :=
  updateStatus ls (isOnline (stored_settings ls)).

(** The [change] listener of the status check box. *)
Definition onStatusChange (ls : LocalStorage) (checked : bool) : LocalStorage * bool :=
  updateStatus ls checked.

(** The logout of the drop-down and of the side bar; [ok] is the answer to
    [confirm('Вы уверены, что хотите выйти?')]. *)
Definition logout (ok : bool) (b : Browser) : Browser :=
  if ok then
    redirect (with_session (with_local b (clear_currentUser (set_loggedIn (local b) None)))
                (mkSessionStorage None None)) "index.html"
  else b.

(** [applyTheme()] of dashboard.ts (and of profile.ts, friends.ts and
    user-profile-view.ts): [cur] is [document.documentElement.dataset.theme]
    before.  A truthy theme other than ['default'] is set; nothing is ever
    removed. *)
Definition applyTheme (ls : LocalStorage) (cur : option string) : option string :=
  match ls_settings ls with
  | Some s =>
      match theme s with
      | Some t => if (String.eqb t "" || String.eqb t "default")%bool then cur else Some t
      | None => cur
      end
  | None => cur
  end.

(** ** Lemmas *)

Lemma stored_settings_set (ls : LocalStorage) (s : SettingsObject) :
  stored_settings (set_settings ls (Some s)) = s.
Proof. reflexivity. Qed.

Lemma setupProfileDropdown_settings (ls : LocalStorage) :
  stored_settings (fst (setupProfileDropdown ls)) =
    with_onlineStatus (stored_settings ls) (isOnline (stored_settings ls)).
Proof. reflexivity. Qed.

(** The page-load write changes no other key. *)
Lemma setupProfileDropdown_other_keys (ls : LocalStorage) :
  let ls' := fst (setupProfileDropdown ls) in
  ls_database ls' = ls_database ls /\ ls_currentUser ls' = ls_currentUser ls /\
  ls_loggedIn ls' = ls_loggedIn ls.
Proof. repeat split. Qed.

Lemma isOnline_with (s : SettingsObject) (o : bool) : isOnline (with_onlineStatus s o) = o.
Proof. destruct o; reflexivity. Qed.

#[export] Hint Rewrite stored_settings_set isOnline_with : mesa_rw.

End Header.
