(* ===== verification/Verify.v ===== *)
(** * The verification page (src/src/verify.ts) and the login flow

    [init] reads the pending login the login form stored and binds the
    listeners to it; the model keeps it, with the values of the six
    [.code-input] fields, in a [VerifyPage].  The input listener keeps the
    digits of what was typed, the submit listener checks the joined code
    against ['mesaVerification'] and logs the user in, the resend button
    stores a fresh code.  The focus moves between inputs, which decide
    the input a key goes to, are in [VerifyFocus].

    [Flow] puts the pages together: the registration and login forms of
    auth.service.ts, the Steam button and the verification page, driven by
    a list of [PageEvent]s. *)

From stdpp Require Import pretty.
From S2P Require Import Prelude Types Storage Auth.

Module Verify.
Import Auth.

Record VerifyPage := mkVerifyPage {
  loginData : PendingLogin;       (** the [PendingLogin] parsed by [init] *)
  codeInputs : list string;       (** the values of the [.code-input] fields *)
}.

(** [init()] with [n] code inputs on the page: without a pending login the
    browser is sent back to the login page. *)
Definition init (b : Browser) (n : nat) : Browser * option VerifyPage :=
  match ss_pendingLogin (session b) with
  | None => (redirect b "login.html", None)
  | Some loginData => (b, Some (mkVerifyPage loginData (repeat EmptyString n)))
  end.

(** [value.replace(/[^0-9]/g, '')]. *)
Fixpoint digits_only (s : string) : string :=
  match s with
  | EmptyString => EmptyString
  | String c s' => if is_ascii_digit c then String c (digits_only s') else digits_only s'
  end.

(** The [input] event of input [index] whose value became [typed]: the
    second listener keeps its digits. *)
Definition onCodeInput (pg : VerifyPage) (index : nat) (typed : string) : VerifyPage :=
  mkVerifyPage (loginData pg) (<[index := digits_only typed]> (codeInputs pg)).

(** [codeInputs.forEach(input => input.value = '')]. *)
Definition clearInputs (pg : VerifyPage) : VerifyPage :=
  mkVerifyPage (loginData pg) (map (fun _ => EmptyString) (codeInputs pg)).

Definition INCOMPLETE_CODE_MESSAGE : string := "Введите полный 6-значный код!".
Definition SESSION_EXPIRED_MESSAGE : string := "Сессия истекла. Пожалуйста, войдите снова.".
Definition DB_MISSING_MESSAGE : string := "Ошибка: база данных не найдена!".
Definition USER_MISSING_MESSAGE : string := "Ошибка: пользователь не найден!".
Definition LOGIN_SUCCESS_MESSAGE : string := "Вход выполнен успешно! Перенаправление...".

(** The [submit] listener of [setupVerifyForm], at time [now]. *)
Definition onVerifySubmit (b : Browser) (pg : VerifyPage) (now : Q) : Browser * VerifyPage :=
  let entered := String.concat EmptyString (codeInputs pg) in
  if negb (Nat.eqb (js_length entered) 6) then (showMessage b INCOMPLETE_CODE_MESSAGE MT_error, pg)
  else match ss_verification (session b) with
  | None => (redirect (showMessage b SESSION_EXPIRED_MESSAGE MT_error) "login.html", pg)
  | Some verificationData =>
      if Qlt_le_dec (expiresAt verificationData) now then
        (showMessage (with_session b (set_verification (session b) None)) CODE_EXPIRED MT_error, pg)
      else if negb (String.eqb (code verificationData) entered) then
        (showMessage b WRONG_CODE MT_error, clearInputs pg)
      else match ls_database (local b) with
      | None => (showMessage b DB_MISSING_MESSAGE MT_error, pg)
      | Some db =>
          match List.find (fun u => String.eqb (id u) (p_userId (loginData pg))) (users db) with
          | None => (showMessage b USER_MISSING_MESSAGE MT_error, pg)
          | Some user =>
              let ls := set_loggedIn (set_currentUser (local b) user) (Some "true") in
              let ss := set_pendingLogin (set_verification (session b) None) None in
              (redirect (showMessage (with_session (with_local b ls) ss) LOGIN_SUCCESS_MESSAGE MT_success)
                 "dashboard.html", pg)
          end
      end
  end.

(** The [click] listener of [setupResendButton]: [r] is the
    [Math.random()] value, [now] the [Date.now()]. *)
Definition onResend (b : Browser) (pg : VerifyPage) (r now : Q) : Browser * VerifyPage :=
  let verificationCode := pretty (Qfloor (100000 + r * 900000)) in
  let verificationData := mkVerification (p_email (loginData pg)) verificationCode (now + CODE_LIFETIME) in
  let b1 := with_session b (set_verification (session b) (Some verificationData)) in
  let b2 := alert b1 (String.concat EmptyString
              ["📧 Новый код отправлен на "; p_email (loginData pg); nl; nl; "Ваш код: ";
               verificationCode; nl; nl; "(В реальной версии код придёт на почту)"]) in
  (showMessage b2 "Код успешно отправлен!" MT_success, clearInputs pg).

(** ** The login flow across pages *)

Inductive PageEvent :=
| EvRegister (f : RegisterForm) (uid now : string)
| EvLogin (email0 pw : string) (r now : Q)
| EvSteam (r1 r2 : Q) (rnd36 uid now : string)
| EvOpenVerify (n : nat)
| EvCodeInput (index : nat) (typed : string)
| EvVerifySubmit (now : Q)
| EvResend (r now : Q).

Record Flow := mkFlow {
  browser : Browser;
  verifyPage : option VerifyPage;   (** the verification page, once [init] bound it *)
}.

Definition on_page (st : Flow) (f : VerifyPage -> Browser * VerifyPage) : Flow :=
  match verifyPage st with
  | Some pg => let '(b, pg') := f pg in mkFlow b (Some pg')
  | None => st
  end.

Definition flow_step (st : Flow) (ev : PageEvent) : Flow :=
  let b := browser st in
  match ev with
  | EvRegister f uid now => mkFlow (onRegisterSubmit b f uid now) (verifyPage st)
  | EvLogin em pw r now => mkFlow (onLoginSubmit b em pw r now) (verifyPage st)
  | EvSteam r1 r2 rnd36 uid now => mkFlow (loginWithSteam b r1 r2 rnd36 uid now) (verifyPage st)
  | EvOpenVerify n => let '(b', pg) := init b n in mkFlow b' pg
  | EvCodeInput i typed =>
      match verifyPage st with
      | Some pg => mkFlow b (Some (onCodeInput pg i typed))
      | None => st
      end
  | EvVerifySubmit now => on_page st (fun pg => onVerifySubmit b pg now)
  | EvResend r now => on_page st (fun pg => onResend b pg r now)
  end.

Definition flow_run (st : Flow) (evs : list PageEvent) : Flow := fold_left flow_step evs st.

(** Typing a code into the inputs, one character per input from the
    first. *)
Fixpoint type_code_from (i : nat) (s : string) : list PageEvent :=
  match s with
  | EmptyString => []
  | String c s' => EvCodeInput i (String c EmptyString) :: type_code_from (S i) s'
  end.

(** The values of the inputs after [type_code_from]: one character each. *)
Fixpoint code_chars (s : string) : list string :=
  match s with
  | EmptyString => []
  | String c s' => String c EmptyString :: code_chars s'
  end.

(** ** Lemmas: what each handler leaves alone *)

Lemma loggedIn_initDatabase (ls : LocalStorage) : ls_loggedIn (initDatabase ls) = ls_loggedIn ls.
Proof. unfold initDatabase. case_match; reflexivity. Qed.

Lemma users_initDatabase (ls : LocalStorage) : users (getDatabase (initDatabase ls)) = users (getDatabase ls).
Proof. rewrite getDatabase_initDatabase. reflexivity. Qed.

(** [page_tac] opens a handler and closes the goals that hold on every
    branch after the storage writes are computed. *)
Ltac page_tac :=
  repeat (case_match || (progress simpl) || rewrite loggedIn_initDatabase);
  try reflexivity.

Lemma loggedIn_register b f uid now :
  ls_loggedIn (local (onRegisterSubmit b f uid now)) = ls_loggedIn (local b).
Proof. unfold onRegisterSubmit. page_tac. Qed.

Lemma loggedIn_login b em pw r now :
  ls_loggedIn (local (onLoginSubmit b em pw r now)) = ls_loggedIn (local b).
Proof. unfold onLoginSubmit. page_tac. Qed.

Lemma loggedIn_resend b pg r now : ls_loggedIn (local (fst (onResend b pg r now))) = ls_loggedIn (local b).
Proof. reflexivity. Qed.

Lemma loggedIn_init b n : ls_loggedIn (local (fst (init b n))) = ls_loggedIn (local b).
Proof. unfold init. page_tac. Qed.

(** The verification submit sets the flag only on its success path. *)
Lemma onVerifySubmit_loggedIn b pg now :
  ls_loggedIn (local (fst (onVerifySubmit b pg now))) = ls_loggedIn (local b) \/
  (exists v, ss_verification (session b) = Some v /\ now <= expiresAt v /\
     code v = String.concat EmptyString (codeInputs pg) /\
     ls_loggedIn (local (fst (onVerifySubmit b pg now))) = Some "true").
Proof.
  unfold onVerifySubmit. repeat case_match; simpl; auto.
  right. eexists; split; [reflexivity|]. split; [assumption|].
  split; [|reflexivity]. apply String.eqb_eq. apply negb_false_iff. assumption.
Qed.

(** ** Lemmas: the database through the pages *)

Lemma createUser_unique (ls : LocalStorage) uid now d :
  emails_unique (getDatabase ls) -> findUserByEmail ls (cu_email d) = None ->
  emails_unique (getDatabase (fst (createUser ls uid now d))).
Proof.
  unfold emails_unique. intros Hnd Hnone. simpl. rewrite map_app. apply list.NoDup_app.
  split; [exact Hnd|]. split; [|apply list.NoDup_singleton].
  intros x Hx. rewrite list_elem_of_In, in_map_iff in Hx. destruct Hx as (u & <- & Hu).
  cbn [map]. rewrite list_elem_of_singleton; simpl; rewrite toLowerCase_idem.
  exact (findUserByEmail_none _ _ _ Hnone Hu).
Qed.

Lemma findUserByEmail_lower (ls : LocalStorage) (a a' : string) :
  toLowerCase a = toLowerCase a' -> findUserByEmail ls a = findUserByEmail ls a'.
Proof. unfold findUserByEmail, email_matches. intros ->. reflexivity. Qed.

Lemma findUserByEmail_initDatabase (ls : LocalStorage) (a : string) :
  findUserByEmail (initDatabase ls) a = findUserByEmail ls a.
Proof. unfold findUserByEmail. rewrite getDatabase_initDatabase. reflexivity. Qed.

Lemma unique_register b f uid now :
  emails_unique (getDatabase (local b)) ->
  emails_unique (getDatabase (local (onRegisterSubmit b f uid now))).
Proof.
  intros Hu. unfold onRegisterSubmit. repeat case_match; try exact Hu.
  apply createUser_unique; rewrite ?getDatabase_initDatabase, ?findUserByEmail_initDatabase; assumption.
Qed.

Lemma unique_login b em pw r now :
  emails_unique (getDatabase (local b)) ->
  emails_unique (getDatabase (local (onLoginSubmit b em pw r now))).
Proof. intros Hu. unfold onLoginSubmit. repeat case_match; simpl; rewrite getDatabase_initDatabase; exact Hu. Qed.

Lemma getDatabase_set_loggedIn (ls : LocalStorage) v : getDatabase (set_loggedIn ls v) = getDatabase ls.
Proof. reflexivity. Qed.

Lemma getDatabase_set_currentUser (ls : LocalStorage) u : getDatabase (set_currentUser ls u) = getDatabase ls.
Proof. reflexivity. Qed.

Lemma unique_steam b r1 r2 rnd36 uid now :
  emails_unique (getDatabase (local b)) ->
  emails_unique (getDatabase (local (loginWithSteam b r1 r2 rnd36 uid now))).
Proof.
  intros Hu. unfold loginWithSteam.
  destruct (findUserByEmail (initDatabase (local b)) (steamEmail r1)) as [u|] eqn:Hf;
    [|rewrite (surjective_pairing (createUser _ _ _ _))];
    cbn [local redirect showMessage with_local];
    rewrite getDatabase_set_loggedIn, getDatabase_set_currentUser.
  - rewrite getDatabase_initDatabase. exact Hu.
  - apply createUser_unique; [rewrite getDatabase_initDatabase; exact Hu | exact Hf].
Qed.

Lemma unique_submit b pg now :
  emails_unique (getDatabase (local b)) ->
  emails_unique (getDatabase (local (fst (onVerifySubmit b pg now)))).
Proof. intros Hu. unfold onVerifySubmit. repeat case_match; simpl; exact Hu. Qed.

Lemma flow_step_unique (st : Flow) (ev : PageEvent) :
  emails_unique (getDatabase (local (browser st))) ->
  emails_unique (getDatabase (local (browser (flow_step st ev)))).
Proof.
  intros Hu. destruct ev; simpl.
  - apply unique_register, Hu.
  - apply unique_login, Hu.
  - apply unique_steam, Hu.
  - try unfold init. destruct (ss_pendingLogin (session (browser st))); exact Hu.
  - case_match; exact Hu.
  - unfold on_page. case_match; [|exact Hu].
    rewrite (surjective_pairing (onVerifySubmit _ _ _)). apply unique_submit, Hu.
  - unfold on_page. case_match; [|exact Hu].
    rewrite (surjective_pairing (onResend _ _ _ _)). exact Hu.
Qed.

(** C20: whatever the pages do (registrations, logins, Steam logins, code
    entry, verification, resends, in any order), no two accounts of the
    database come to share an e-mail address up to case. *)
Theorem flow_emails_unique (st : Flow) (evs : list PageEvent) :
  emails_unique (getDatabase (local (browser st))) ->
  emails_unique (getDatabase (local (browser (flow_run st evs)))).
Proof.
  unfold flow_run. revert st. induction evs as [|ev evs IH]; intros st Hu; simpl; [exact Hu|].
  apply IH, flow_step_unique, Hu.
Qed.

(** C21: the browser becomes logged in (['mesaLoggedIn'] becomes
    ['true']) only by the Steam button or by a verification submit on the
    verification page whose joined inputs equal the stored code before it
    expires. *)
Theorem flow_step_login_guard (st : Flow) (ev : PageEvent) :
  ls_loggedIn (local (browser st)) <> Some "true" ->
  ls_loggedIn (local (browser (flow_step st ev))) = Some "true" ->
  (exists r1 r2 rnd36 uid now, ev = EvSteam r1 r2 rnd36 uid now) \/
  (exists now pg v, ev = EvVerifySubmit now /\ verifyPage st = Some pg /\
     ss_verification (session (browser st)) = Some v /\ now <= expiresAt v /\
     code v = String.concat EmptyString (codeInputs pg)).
Proof.
  intros Hoff Hon. destruct ev as [f uid now|em pw r now|r1 r2 rnd36 uid now|n|i typed|now|r now];
    simpl in Hon.
  - rewrite loggedIn_register in Hon. contradiction.
  - rewrite loggedIn_login in Hon. contradiction.
  - left. eauto 6.
  - pose proof (loggedIn_init (browser st) n) as E.
    destruct (init (browser st) n). simpl in *. congruence.
  - destruct (verifyPage st); contradiction.
  - unfold on_page in Hon. destruct (verifyPage st) as [pg|] eqn:Hpg; [|contradiction].
    destruct (onVerifySubmit_loggedIn (browser st) pg now) as [E | (v & Hv & Hle & Hc & _)].
    + destruct (onVerifySubmit (browser st) pg now). simpl in *. congruence.
    + right. eauto 8.
  - unfold on_page in Hon. destruct (verifyPage st) as [pg|]; [|contradiction].
    pose proof (loggedIn_resend (browser st) pg r now) as E.
    destruct (onResend (browser st) pg r now). simpl in *. congruence.
Qed.

(** ** Lemmas: typing and submitting a code *)

Lemma flow_run_app (st : Flow) (l1 l2 : list PageEvent) :
  flow_run st (l1 ++ l2) = flow_run (flow_run st l1) l2.
Proof. apply fold_left_app. Qed.

Lemma concat_code_chars (s : string) : String.concat EmptyString (code_chars s) = s.
Proof.
  induction s as [|c s IH]; [reflexivity|]. simpl.
  destruct s as [|c' s']; [reflexivity|]. simpl in IH |- *. rewrite IH. reflexivity.
Qed.

Lemma js_length_digits (s : string) :
  str_forallb is_ascii_digit s = true -> js_length s = String.length s.
Proof.
  induction s as [|c s IH]; simpl; [reflexivity|]. intros [Hc Hs]%andb_true_iff.
  rewrite IH by exact Hs. unfold utf16_units, is_ascii_digit in *.
  apply andb_true_iff in Hc as [H1 H2]. apply Nat.leb_le in H1, H2.
  replace (Nat.leb 128 (Ascii.nat_of_ascii c)) with false by (symmetry; apply Nat.leb_gt; lia).
  replace (Nat.leb 240 (Ascii.nat_of_ascii c)) with false by (symmetry; apply Nat.leb_gt; lia).
  reflexivity.
Qed.

(** Typing the digits of [s] one per input, from the first empty input
    on, fills the inputs with them. *)
Lemma type_code_fills (b : Browser) (ld : PendingLogin) (pre : list string) (s : string) :
  str_forallb is_ascii_digit s = true ->
  flow_run (mkFlow b (Some (mkVerifyPage ld (pre ++ repeat EmptyString (String.length s)))))
    (type_code_from (length pre) s)
  = mkFlow b (Some (mkVerifyPage ld (pre ++ code_chars s))).
Proof.
  revert pre. induction s as [|c s IH]; intros pre Hd; [reflexivity|].
  apply andb_true_iff in Hd as [Hc Hs].
  specialize (IH (pre ++ [String c EmptyString]) Hs).
  rewrite length_app, Nat.add_1_r, <- !app_assoc in IH. simpl in IH.
  etransitivity; [|exact IH].
  unfold flow_run. simpl. unfold onCodeInput. simpl. rewrite Hc.
  rewrite insert_app_r_alt by lia. rewrite Nat.sub_diag. reflexivity.
Qed.

Lemma ls_database_initDatabase (ls : LocalStorage) :
  ls_database (initDatabase ls) = Some (getDatabase ls).
Proof. destruct ls as [[db|] ? ? ?]; reflexivity. Qed.

(** The login form with the right password stores the code and the
    pending login and leaves the database as [initDatabase] made it. *)
Lemma onLoginSubmit_ok (b : Browser) (em pw : string) (u : User) (r now : Q) :
  findUserByEmail (local b) (trim em) = Some u -> password u = pw ->
  local (onLoginSubmit b em pw r now) = initDatabase (local b) /\
  ss_verification (session (onLoginSubmit b em pw r now)) =
    Some (mkVerification (trim em) (generateVerificationCode r) (now + CODE_LIFETIME)) /\
  ss_pendingLogin (session (onLoginSubmit b em pw r now)) = Some (mkPendingLogin (id u) (trim em)).
Proof.
  intros Hu Hpw. unfold onLoginSubmit. cbn [local with_local].
  rewrite findUserByEmail_initDatabase, Hu, Hpw, String.eqb_refl. simpl. auto.
Qed.

(** C22: logging in completes.  When the address typed in the login form
    finds an account [u] (the first with its id) and the password is its
    password, then the login submit, opening the verification page,
    typing the six digits the alert showed and submitting before the code
    expires logs the browser into [u]: ['mesaCurrentUser'] holds [u],
    ['mesaLoggedIn'] is ['true'], the session keys are removed and the
    browser goes to the dashboard. *)
Theorem login_flow_completes (b : Browser) (em pw : string) (u : User) (r now t : Q) :
  findUserByEmail (local b) (trim em) = Some u -> password u = pw ->
  List.find (fun v => String.eqb (id v) (id u)) (users (getDatabase (local b))) = Some u ->
  0 <= r < 1 -> t <= now + CODE_LIFETIME ->
  let st := flow_run (mkFlow b None)
              ([EvLogin em pw r now; EvOpenVerify 6] ++
               type_code_from 0 (generateVerificationCode r) ++ [EvVerifySubmit t]) in
  ls_currentUser (local (browser st)) = Some u /\
  ls_loggedIn (local (browser st)) = Some "true" /\
  location (browser st) = Some "dashboard.html" /\
  ss_verification (session (browser st)) = None /\
  ss_pendingLogin (session (browser st)) = None.
Proof.
  intros Hu Hpw Hid Hr Ht. cbv zeta. rewrite !flow_run_app.
  destruct (onLoginSubmit_ok b em pw u r now Hu Hpw) as (Hl & Hv & Hp).
  set (b1 := onLoginSubmit b em pw r now) in *.
  set (code := generateVerificationCode r).
  destruct (generateVerificationCode_six_digits r Hr) as [Hlen Hdig].
  assert (E : flow_run (mkFlow b None) [EvLogin em pw r now; EvOpenVerify 6] =
              mkFlow b1 (Some (mkVerifyPage (mkPendingLogin (id u) (trim em))
                                 ([] ++ repeat EmptyString (String.length code))))).
  { unfold flow_run. cbn [fold_left flow_step browser]. unfold init. fold b1. rewrite Hp.
    unfold code. rewrite Hlen. reflexivity. }
  rewrite E. rewrite (type_code_fills b1 _ [] code Hdig).
  unfold flow_run. cbn [fold_left flow_step on_page verifyPage browser app].
  unfold onVerifySubmit. cbn [codeInputs loginData]. rewrite concat_code_chars.
  unfold code. rewrite js_length_digits, Hlen by exact Hdig. simpl. rewrite Hv. simpl.
  destruct (Qlt_le_dec (now + CODE_LIFETIME) t) as [Hlt|_]; [lra|].
  rewrite String.eqb_refl. simpl. rewrite Hl, ls_database_initDatabase. simpl.
  rewrite Hid. simpl. auto.
Qed.

End Verify.
