(* ===== verification/EntryPoints.v ===== *)
(** * The entry points of the login and register pages (src/src/login.ts, src/src/register.ts)

    Each page's script binds the form handler of the auth service
    ([handleLogin] or [handleRegistration]: the submit listener
    [Auth.onLoginSubmit] or [Auth.onRegisterSubmit]) and, when the page
    has a [.steam-btn], a click listener that cancels the link and calls
    [loginWithSteam].  A page is a dispatcher of its two events; each
    event is the matching event of the page flow of [Verify], so the
    flow's theorems cover what these pages do ([login_page_flow],
    [register_page_flow]). *)

From S2P Require Import Prelude Types Storage Auth Verify.

Module EntryPoints.
Import Auth Verify.

(** The events of the login page. *)
Inductive LoginEvent :=
| LE_submit (email pw : string) (r now : Q)                (** the form's submit *)
| LE_steam (r1 r2 : Q) (rnd36 uid now : string).           (** a click on [.steam-btn] *)

(** The events of the register page. *)
Inductive RegisterEvent :=
| RE_submit (f : RegisterForm) (uid now : string)
| RE_steam (r1 r2 : Q) (rnd36 uid now : string).

(** login.ts: [handleLogin()] and the Steam button's listener, bound
    when the page has the button ([hasSteam]). *)
Definition login_page_step (hasSteam : bool) (b : Browser) (ev : LoginEvent) : Browser :=
  match ev with
  | LE_submit em pw r now => onLoginSubmit b em pw r now
  | LE_steam r1 r2 rnd36 uid now => if hasSteam then loginWithSteam b r1 r2 rnd36 uid now else b
  end.

(** register.ts: [handleRegistration()] and the Steam button's listener. *)
Definition register_page_step (hasSteam : bool) (b : Browser) (ev : RegisterEvent) : Browser :=
  match ev with
  | RE_submit f uid now => onRegisterSubmit b f uid now
  | RE_steam r1 r2 rnd36 uid now => if hasSteam then loginWithSteam b r1 r2 rnd36 uid now else b
  end.

(** The flow events a page event is, none for a click on a missing
    button. *)
Definition login_flow_events (hasSteam : bool) (ev : LoginEvent) : list PageEvent :=
  match ev with
  | LE_submit em pw r now => [EvLogin em pw r now]
  | LE_steam r1 r2 rnd36 uid now => if hasSteam then [EvSteam r1 r2 rnd36 uid now] else []
  end.

Definition register_flow_events (hasSteam : bool) (ev : RegisterEvent) : list PageEvent :=
  match ev with
  | RE_submit f uid now => [EvRegister f uid now]
  | RE_steam r1 r2 rnd36 uid now => if hasSteam then [EvSteam r1 r2 rnd36 uid now] else []
  end.

(** ** The pages refine the flow *)

Section PageFlow.

Context {E : Type} (step : Browser -> E -> Browser) (flow_events : E -> list PageEvent).

(** Each event is its flow events, which leave the verification page
    alone. *)
Hypothesis step_flow : forall b vp ev,
  fold_left flow_step (flow_events ev) (mkFlow b vp) = mkFlow (step b ev) vp.

Lemma page_flow (evs : list E) : forall b vp,
  fold_left step evs b = browser (flow_run (mkFlow b vp) (flat_map flow_events evs)).
Proof.
  induction evs as [|ev evs IH]; intros b vp; [reflexivity|].
  unfold flow_run. cbn [flat_map fold_left]. rewrite fold_left_app, step_flow. apply IH.
Qed.

End PageFlow.

(** A run of the login page is the run of the flow on its events: the
    browser after the page's events is the flow's. *)
Lemma login_page_flow (hasSteam : bool) (b : Browser) (vp : option VerifyPage) (evs : list LoginEvent) :
  fold_left (login_page_step hasSteam) evs b =
  browser (flow_run (mkFlow b vp) (flat_map (login_flow_events hasSteam) evs)).
Proof. apply page_flow. intros b' vp' []; [| destruct hasSteam]; reflexivity. Qed.

Lemma register_page_flow (hasSteam : bool) (b : Browser) (vp : option VerifyPage) (evs : list RegisterEvent) :
  fold_left (register_page_step hasSteam) evs b =
  browser (flow_run (mkFlow b vp) (flat_map (register_flow_events hasSteam) evs)).
Proof. apply page_flow. intros b' vp' []; [| destruct hasSteam]; reflexivity. Qed.

End EntryPoints.
