(* ===== verification/VerifyFocus.v ===== *)
(** * Typing the code: the focus of the verification page (src/src/verify.ts)

    [setupCodeInputs] gives every [.code-input] three listeners, in this
    order: an [input] listener that moves the focus to the next input
    when the value has one character, a [keydown] listener that moves it
    back on Backspace in an empty input, and an [input] listener that
    keeps the digits of the value ([Verify.onCodeInput]).  The submit
    listener focuses the first input after a wrong code, and so does the
    resend button.  A key typed goes to the focused input: the browser
    appends its character to the value (the caret at the end; the page's
    HTML, which could set a [maxlength], is not in the repository) and
    fires [input].

    Because the focus listener runs before the digit filter, it reads the
    unfiltered value: a letter moves the focus on and leaves its input
    empty ([letter_leaves_gap]). *)

From S2P Require Import Prelude Types Storage Auth Verify.
From Stdlib Require Import Lia.

Module VerifyFocus.
Import Auth Verify.

Record Entry := mkEntry {
  e_browser : Browser;
  e_page : VerifyPage;
  e_focus : nat;            (** the index of the focused [.code-input] *)
}.

(** [emailDisplay.textContent] set by [init]. *)
Definition emailDisplayText (ld : PendingLogin) : string :=
  String.append "Введите код, отправленный на " (p_email ld).

(** The first [input] listener of input [index], on the value [value]
    ([codeInputs.length] is [n]). *)
Definition autoFocus (focus n index : nat) (value : string) : nat :=
  if (Nat.eqb (js_length value) 1 && Nat.ltb index (n - 1))%bool then S index else focus.

(** The [input] event of the focused input, whose value became [v]: the
    focus listener, then the digit filter. *)
Definition onInput (e : Entry) (v : string) : Entry :=
  let i := e_focus e in
  let f := autoFocus (e_focus e) (length (codeInputs (e_page e))) i v in
  mkEntry (e_browser e) (onCodeInput (e_page e) i v) f.

(** The value of the focused input. *)
Definition focused_value (e : Entry) : string :=
  match nth_error (codeInputs (e_page e)) (e_focus e) with Some v => v | None => EmptyString end.

(** A character key: the browser appends it to the focused input's value
    and fires [input]. *)
Definition onKey (e : Entry) (c : Ascii.ascii) : Entry :=
  onInput e (String.append (focused_value e) (String c EmptyString)).

(** The [keydown] listener of the focused input. *)
Definition onKeydown (e : Entry) (key : string) : Entry :=
  if (String.eqb key "Backspace" && String.eqb (focused_value e) "" && Nat.ltb 0 (e_focus e))%bool
  then mkEntry (e_browser e) (e_page e) (pred (e_focus e))
  else e.

(** The condition of the wrong-code branch of the submit listener, the
    one that clears the inputs and focuses the first. *)
Definition wrong_code (b : Browser) (pg : VerifyPage) (now : Q) : bool :=
  let entered := String.concat EmptyString (codeInputs pg) in
  Nat.eqb (js_length entered) 6 &&
  match ss_verification (session b) with
  | Some vd => if Qlt_le_dec (expiresAt vd) now then false else negb (String.eqb (code vd) entered)
  | None => false
  end.

Definition onSubmit (e : Entry) (now : Q) : Entry :=
  let '(b', pg') := onVerifySubmit (e_browser e) (e_page e) now in
  mkEntry b' pg' (if wrong_code (e_browser e) (e_page e) now then 0%nat else e_focus e).

Definition onResendClick (e : Entry) (r now : Q) : Entry :=
  let '(b', pg') := onResend (e_browser e) (e_page e) r now in
  mkEntry b' pg' 0%nat.

Inductive EntryEvent :=
| KE_click (i : nat)            (** the user clicks input [i] *)
| KE_key (c : Ascii.ascii)
| KE_keydown (key : string)
| KE_submit (now : Q)
| KE_resend (r now : Q).

Definition entry_step (e : Entry) (ev : EntryEvent) : Entry :=
  match ev with
  | KE_click i => if Nat.ltb i (length (codeInputs (e_page e))) then mkEntry (e_browser e) (e_page e) i else e
  | KE_key c => onKey e c
  | KE_keydown key => onKeydown e key
  | KE_submit now => onSubmit e now
  | KE_resend r now => onResendClick e r now
  end.

Definition entry_run (e : Entry) (evs : list EntryEvent) : Entry := fold_left entry_step evs e.

(** What one key leaves in its input. *)
Definition key_value (c : Ascii.ascii) : string := digits_only (String c EmptyString).

(** ** Lemmas *)

Lemma js_length_key_value (c : Ascii.ascii) :
  (Ascii.nat_of_ascii c < 128)%nat -> js_length (key_value c) = if is_ascii_digit c then 1%nat else 0%nat.
Proof.
  intros Hc. unfold key_value. cbn [digits_only]. destruct (is_ascii_digit c); [|reflexivity].
  cbn [js_length]. rewrite utf16_units_ascii by exact Hc. reflexivity.
Qed.

(** The joined code counts the digits typed. *)
Lemma js_length_key_values (cs : list Ascii.ascii) :
  Forall (fun c => Ascii.nat_of_ascii c < 128)%nat cs ->
  js_length (String.concat "" (map key_value cs)) = length (List.filter is_ascii_digit cs).
Proof.
  induction 1 as [|c cs Hc _ IH]; [reflexivity|]. cbn [map List.filter].
  rewrite concat_empty_cons, js_length_append, IH, js_length_key_value by exact Hc.
  destruct (is_ascii_digit c); reflexivity.
Qed.

(** A key typed into the first of the empty inputs fills it and moves the
    focus on, except from the last input. *)
Lemma onKey_fresh (b : Browser) (ld : PendingLogin) (prefix : list string) (k : nat) (c : Ascii.ascii) :
  (Ascii.nat_of_ascii c < 128)%nat ->
  onKey (mkEntry b (mkVerifyPage ld (prefix ++ repeat EmptyString (S k))) (length prefix)) c =
  mkEntry b (mkVerifyPage ld ((prefix ++ [key_value c]) ++ repeat EmptyString k))
    (if Nat.eqb k 0 then length prefix else S (length prefix)).
Proof.
  intros Hc. unfold onKey, onInput, focused_value, autoFocus. cbn [e_page e_focus e_browser codeInputs].
  rewrite nth_error_app2, Nat.sub_diag by lia. cbn [nth_error repeat].
  change (String.append EmptyString (String c EmptyString)) with (String c EmptyString).
  replace (js_length (String c EmptyString)) with 1%nat
    by (cbn [js_length]; rewrite utf16_units_ascii by exact Hc; reflexivity).
  rewrite length_app. cbn [length]. rewrite repeat_length. unfold onCodeInput. cbn [loginData codeInputs].
  rewrite insert_app_r_alt, Nat.sub_diag by lia. cbn [insert list_insert]. rewrite <- app_assoc. f_equal.
  destruct k as [|k]; cbn [Nat.eqb Nat.eqb andb].
  - replace (length prefix <? length prefix + 1 - 1)%nat with false by (symmetry; apply Nat.ltb_ge; lia).
    reflexivity.
  - replace (length prefix <? length prefix + S (S k) - 1)%nat with true by (symmetry; apply Nat.ltb_lt; lia).
    reflexivity.
Qed.

(** Keys typed one after the other from the first of the empty inputs
    go one per input, and the focus ends on the input of the last key. *)
Lemma type_fresh (b : Browser) (ld : PendingLogin) (cs : list Ascii.ascii) : forall prefix,
  Forall (fun c => Ascii.nat_of_ascii c < 128)%nat cs -> cs <> [] ->
  entry_run (mkEntry b (mkVerifyPage ld (prefix ++ repeat EmptyString (length cs))) (length prefix)) (map KE_key cs) =
  mkEntry b (mkVerifyPage ld (prefix ++ map key_value cs)) (length prefix + length cs - 1).
Proof.
  induction cs as [|c cs IH]; intros prefix Hasc Hne; [congruence|]. inversion Hasc as [|? ? Hc Hcs]; subst.
  unfold entry_run. cbn [map fold_left length entry_step]. rewrite onKey_fresh by exact Hc.
  destruct cs as [|c' cs].
  - cbn. rewrite !app_nil_r. f_equal. lia.
  - pose proof (IH (prefix ++ [key_value c]) Hcs ltac:(discriminate)) as H.
    unfold entry_run in H. rewrite length_app in H. cbn [length Nat.eqb] in H |- *.
    replace (length prefix + 1)%nat with (S (length prefix)) in H by lia.
    rewrite H, <- app_assoc. cbn [app]. f_equal. lia.
Qed.

Lemma filter_length_lt {A} (p : A -> bool) (l : list A) :
  existsb (fun x => negb (p x)) l = true -> (length (List.filter p l) < length l)%nat.
Proof.
  induction l as [|x l IH]; cbn; [discriminate|]. pose proof (List.filter_length_le p l) as Hle.
  destruct (p x); cbn; [intros H; specialize (IH H); lia | intros _; lia].
Qed.

(** C10: The focus listener runs before the digit filter and reads the
    unfiltered value: six keys typed from the first input, one per
    input, leave each input with its key's digits, so a letter leaves
    its input empty while the focus moves on and the digits after it
    shift; the submit then refuses the code as incomplete. *)
Theorem letter_leaves_gap (b : Browser) (ld : PendingLogin) (cs : list Ascii.ascii) (now : Q) :
  Forall (fun c => Ascii.nat_of_ascii c < 128)%nat cs -> length cs = 6%nat ->
  let e := entry_run (mkEntry b (mkVerifyPage ld (repeat EmptyString 6)) 0) (map KE_key cs) in
  codeInputs (e_page e) = map key_value cs /\ e_focus e = 5%nat /\
  (existsb (fun c => negb (is_ascii_digit c)) cs = true ->
   formMessage (e_browser (onSubmit e now)) = Some (INCOMPLETE_CODE_MESSAGE, MT_error) /\
   codeInputs (e_page (onSubmit e now)) = map key_value cs).
Proof.
  intros Hasc Hlen e.
  assert (He : e = mkEntry b (mkVerifyPage ld (map key_value cs)) 5).
  { pose proof (type_fresh b ld cs [] Hasc ltac:(intros ->; discriminate)) as H.
    cbn [app length] in H. rewrite Hlen in H. exact H. }
  rewrite He. split; [reflexivity | split; [reflexivity|]]. intros Hletter.
  pose proof (filter_length_lt _ _ Hletter) as Hlt.
  unfold onSubmit, onVerifySubmit, wrong_code. cbn [e_browser e_page codeInputs].
  rewrite js_length_key_values by exact Hasc.
  replace (Nat.eqb (length (List.filter is_ascii_digit cs)) 6) with false by (symmetry; apply Nat.eqb_neq; lia).
  split; reflexivity.
Qed.

End VerifyFocus.
