(* ===== verification/Friends.v ===== *)
(** * The friends page (src/src/friends.ts)

    The page parses ['mesaCurrentUser'] once ([checkAuth]) and keeps that
    object, [currentUser], for its whole life: the remove and unsubscribe
    buttons mutate it, write it to ['mesaCurrentUser'], write it over its
    entry of ['mesaDatabase'] and, for a removed friend, also remove the
    current user from the friend's list in the database.  The page's
    lists are computed from the user object and the database; the HTML
    they are rendered to is not modelled, only the users each list shows
    and the counters. *)

From S2P Require Import Prelude Types Storage Auth.

Module Friends.
Import Auth.

(** ** Helpers *)

Definition getLevelBadgeClass (level : Q) : string :=
  if Qle_bool level 3 then "level-1-3"
  else if Qle_bool level 6 then "level-4-6"
  else "level-7-10".

(** [arr || []] on an optional array: an array, even empty, is truthy. *)
Definition js_list_or {A} (o : option (list A)) : list A :=
  match o with Some l => l | None => [] end.

Definition friends_of (u : User) : list string := js_list_or (friends u).
Definition subscriptions_of (u : User) : list string := js_list_or (subscriptions u).

(** [user.friends = fr] and [user.subscriptions = subs] on the object. *)
Definition set_friends (u : User) (fr : list string) : User :=
  set_social u (Some fr) (subscriptions u) (notifications u).
Definition set_subscriptions (u : User) (subs : list string) : User :=
  set_social u (friends u) (Some subs) (notifications u).

(** [checkAuth()]: the parsed current user, or [None] when the page sends
    the browser to [index.html] ([mesaLoggedIn] missing or empty). *)
Definition checkAuth (ls : LocalStorage) : option User :=
  match ls_loggedIn ls with
  | Some flag => if String.eqb flag "" then None else ls_currentUser ls
  | None => None
  end.

(** ** Search *)

(** [hay.includes(needle)]. *)
Definition str_includes (needle hay : string) : bool :=
  match String.index 0 needle hay with Some _ => true | None => false end.

(** The filter of [setupSearch]: another user whose nickname or login,
    lower-cased, contains the query ([u.nickname && ...]: an empty
    nickname or login does not match). *)
Definition search_match (query : string) (cur u : User) : bool :=
  (negb (String.eqb (id u) (id cur)) &&
   ((negb (String.eqb (nickname u) "") && str_includes query (toLowerCase (nickname u))) ||
    match login u with
    | Some l => negb (String.eqb l "") && str_includes query (toLowerCase l)
    | None => false
    end))%bool.

Inductive SearchResults :=
| SR_closed                      (** fewer than two characters: list emptied and closed *)
| SR_unchanged                   (** no database: the listener returns *)
| SR_open (found : list User).   (** the users listed, [[]] for "nothing found" *)

Definition onSearchInput (ls : LocalStorage) (cur : User) (value : string) : SearchResults :=
  let query := toLowerCase (trim value) in
  if Nat.ltb (js_length query) 2 then SR_closed
  else match ls_database ls with
  | None => SR_unchanged
  | Some db => SR_open (firstn 8 (List.filter (search_match query cur) (users db)))
  end.

(** ** The three lists *)

Inductive ListView :=
| LV_empty                       (** the empty state *)
| LV_unchanged                   (** no database: the list is left as it was *)
| LV_users (us : list User).     (** the cards shown *)

(** A counter and the list; [None] when the counter is not written. *)
Definition ListState : Type := option nat * ListView.

(** [ids.map(id => db.users.find(u => u.id === id)).filter(u => u !== undefined)]. *)
Definition users_of_ids (db : Database) (ids : list string) : list User :=
  omap (find_user db) ids.

Definition loadFriends (ls : LocalStorage) (cur : User) : ListState :=
  let fr := friends_of cur in
  if Nat.eqb (length fr) 0 then (Some 0%nat, LV_empty)
  else match ls_database ls with
  | None => (Some (length fr), LV_unchanged)
  | Some db => (Some (length fr), LV_users (users_of_ids db fr))
  end.

(** The users whose subscriptions contain [cur]: the full scan of
    [loadSubscribers]. *)
Definition subscribers (db : Database) (uid : string) : list User :=
  List.filter (fun u => includes uid (subscriptions_of u)) (users db).

Definition loadSubscribers (ls : LocalStorage) (cur : User) : ListState :=
  match ls_database ls with
  | None => (None, LV_unchanged)
  | Some db =>
      let subs := subscribers db (id cur) in
      if Nat.eqb (length subs) 0 then (Some 0%nat, LV_empty) else (Some (length subs), LV_users subs)
  end.

Definition loadSubscriptions (ls : LocalStorage) (cur : User) : ListState :=
  let subs := subscriptions_of cur in
  if Nat.eqb (length subs) 0 then (Some 0%nat, LV_empty)
  else match ls_database ls with
  | None => (Some (length subs), LV_unchanged)
  | Some db => (Some (length subs), LV_users (users_of_ids db subs))
  end.

Definition loadGroups (cur : User) : ListState :=
  (Some (length (js_list_or (groups cur))), LV_empty).

(** ** The page and its actions *)

Record FriendsPage := mkFriendsPage {
  fp_local : LocalStorage;
  fp_user : User;                 (** the [currentUser] object of [init] *)
  fp_friends : ListState;
  fp_subscribers : ListState;
  fp_subscriptions : ListState;
  fp_groups : ListState;
}.

(** [init()]: [None] when [checkAuth] redirects. *)
Definition init (ls : LocalStorage) : option FriendsPage :=
  match checkAuth ls with
  | None => None
  | Some cur =>
      Some (mkFriendsPage ls cur (loadFriends ls cur) (loadSubscribers ls cur)
              (loadSubscriptions ls cur) (loadGroups cur))
  end.

(** The in-place removal of [uid] from the friends of the user object
    [db.users.find(u => u.id === targetId)] returned. *)
Definition drop_friend (uid : string) (t : User) : User :=
  match friends t with
  | Some tf =>
      match index_of uid tf with
      | Some tIdx => set_friends t (remove_at tIdx tf)
      | None => t
      end
  | None => t
  end.

(** [removeFriend(currentUser, targetId)]; [ok] is the answer to
    [confirm('Удалить из друзей?')]. *)
Definition removeFriend (ok : bool) (p : FriendsPage) (targetId : string) : FriendsPage :=
  if negb ok then p else
  let cur := fp_user p in
  let fr := friends_of cur in
  match index_of targetId fr with
  | None => p
  | Some idx =>
      let cur' := set_friends cur (remove_at idx fr) in
      let ls1 := set_currentUser (fp_local p) cur' in
      let ls2 :=
        match ls_database ls1 with
        | None => ls1
        | Some db =>
            let db1 := match user_index db (id cur') with
                       | Some currentIdx => set_user_at db currentIdx cur'
                       | None => db
                       end in
            let db2 := mkDatabase (update_first (fun u => String.eqb (id u) targetId)
                                     (drop_friend (id cur')) (users db1)) (sessions db1) in
            set_database ls1 db2
        end in
      mkFriendsPage ls2 cur' (loadFriends ls2 cur') (fp_subscribers p) (fp_subscriptions p) (fp_groups p)
  end.

Definition unsubscribe (p : FriendsPage) (targetId : string) : FriendsPage :=
  let cur := fp_user p in
  let subs := subscriptions_of cur in
  match index_of targetId subs with
  | None => p
  | Some idx =>
      let cur' := set_subscriptions cur (remove_at idx subs) in
      let ls1 := set_currentUser (fp_local p) cur' in
      let ls2 :=
        match ls_database ls1 with
        | None => ls1
        | Some db =>
            let db1 := match user_index db (id cur') with
                       | Some currentIdx => set_user_at db currentIdx cur'
                       | None => db
                       end in
            set_database ls1 db1
        end in
      mkFriendsPage ls2 cur' (fp_friends p) (loadSubscribers ls2 cur') (loadSubscriptions ls2 cur')
        (fp_groups p)
  end.

(** The logout entry of the profile drop-down, [ok] the [confirm] answer. *)
Definition logout (ok : bool) (ls : LocalStorage) : LocalStorage :=
  if ok then clear_currentUser (set_loggedIn ls None) else ls.

(** ** Friendship in the database *)

(** [b] is in the friend list of the first user with id [a]. *)
Definition is_friend (db : Database) (a b : string) : bool :=
  match find_user db a with
  | Some u => includes b (friends_of u)
  | None => false
  end.

Definition friendship_symmetric (db : Database) : Prop :=
  forall a b, is_friend db a b = is_friend db b a.

(** No friend list holds an id twice ([accept] pushes only absent ids). *)
Definition friend_lists_nodup (db : Database) : Prop :=
  Forall (fun u => NoDup (friends_of u)) (users db).

(** ** Lemmas: arrays of ids *)

Lemma includes_false (y : string) (l : list string) : includes y l = false <-> y ∉ l.
Proof.
  unfold includes. rewrite list_elem_of_In. split.
  - intros H Hin. assert (existsb (String.eqb y) l = true) as E
      by (apply existsb_exists; exists y; split; [exact Hin | apply String.eqb_refl]). congruence.
  - intros Hn. apply not_true_is_false. intros (z & Hz & E)%existsb_exists.
    apply String.eqb_eq in E. subst. contradiction.
Qed.

Lemma index_of_None (x : string) (l : list string) : index_of x l = None -> includes x l = false.
Proof.
  unfold index_of, includes. induction l as [|z l IH]; simpl; [reflexivity|].
  destruct (String.eqb x z); [discriminate|]. destruct (find_index _ l); [discriminate|]. auto.
Qed.

Lemma includes_remove_at (x y : string) (l : list string) (i : nat) :
  NoDup l -> index_of x l = Some i ->
  includes y (remove_at i l) = (includes y l && negb (String.eqb y x))%bool.
Proof.
  unfold index_of. revert i. induction l as [|z l IH]; intros i Hnd; simpl; [discriminate|].
  apply list.NoDup_cons in Hnd as [Hz Hnd].
  destruct (String.eqb_spec x z) as [<-|Hxz].
  - intros [= <-]. cbn [remove_at]. destruct (String.eqb_spec y x) as [->|Hyx].
    + rewrite andb_false_r. apply includes_false, Hz.
    + unfold includes. cbn [existsb]. destruct (existsb _ _); reflexivity.
  - destruct (find_index _ l) as [j|] eqn:Hj; simpl; [|discriminate]. intros [= <-].
    cbn [remove_at]. unfold includes in IH |- *. cbn [existsb]. rewrite (IH j Hnd eq_refl).
    destruct (String.eqb y z) eqn:E1, (String.eqb y x) eqn:E2, (existsb (String.eqb y) l);
      try reflexivity.
    all: apply String.eqb_eq in E1, E2; congruence.
Qed.

Lemma elem_of_remove_at (x : string) (i : nat) (l : list string) : x ∈ remove_at i l -> x ∈ l.
Proof.
  revert i. induction l as [|w l IH]; intros [|i]; simpl; try tauto.
  - intros H. apply elem_of_cons. right. exact H.
  - rewrite !elem_of_cons. intros [->|H]; [left; reflexivity | right; eapply IH, H].
Qed.

Lemma NoDup_remove_at (l : list string) (i : nat) : NoDup l -> NoDup (remove_at i l).
Proof.
  revert i. induction l as [|z l IH]; intros i Hnd; [destruct i; constructor|].
  apply list.NoDup_cons in Hnd as [Hz Hnd]. destruct i as [|i]; simpl; [exact Hnd|].
  apply list.NoDup_cons. split; [|apply IH, Hnd].
  intros Hin. apply Hz. eapply elem_of_remove_at, Hin.
Qed.

(** ** Lemmas: the database after an in-place update *)

Lemma find_user_update_first (db : Database) (t k : string) (f : User -> User) :
  (forall u, id (f u) = id u) ->
  find_user (mkDatabase (update_first (fun u => String.eqb (id u) t) f (users db)) (sessions db)) k =
  if String.eqb k t then option_map f (find_user db t) else find_user db k.
Proof.
  intros Hf. unfold find_user. simpl. destruct (String.eqb_spec k t) as [->|Hkt].
  - destruct (List.find _ (users db)) as [a|] eqn:Ha; simpl.
    + apply find_update_first_same; [intros b; rewrite Hf; reflexivity | exact Ha].
    + rewrite update_first_notin; [exact Ha|]. apply Forall_forall. intros x Hx.
      exact (find_none _ _ Ha x Hx).
  - apply find_update_first_other; [intros b; rewrite Hf; reflexivity|].
    intros b Hb. apply String.eqb_eq in Hb. apply String.eqb_neq. congruence.
Qed.

Lemma id_drop_friend (uid : string) (t : User) : id (drop_friend uid t) = id t.
Proof. unfold drop_friend. repeat case_match; reflexivity. Qed.

Lemma id_set_friends (u : User) fr : id (set_friends u fr) = id u.
Proof. reflexivity. Qed.

Lemma friends_of_set_friends (u : User) fr : friends_of (set_friends u fr) = fr.
Proof. reflexivity. Qed.

(** Removing [uid] from a friend list it may or may not be in. *)
Lemma includes_drop_friend (uid y : string) (t : User) :
  NoDup (friends_of t) ->
  includes y (friends_of (drop_friend uid t)) = (includes y (friends_of t) && negb (String.eqb y uid))%bool.
Proof.
  unfold drop_friend, friends_of. intros Hnd.
  destruct (friends t) as [tf|] eqn:Ht; simpl in Hnd |- *; rewrite ?Ht; [|reflexivity].
  destruct (index_of uid tf) as [ti|] eqn:Hti.
  - apply includes_remove_at; assumption.
  - simpl. rewrite Ht. destruct (String.eqb_spec y uid) as [->|]; simpl.
    + rewrite andb_false_r. apply index_of_None, Hti.
    + rewrite andb_true_r. reflexivity.
Qed.

Lemma friend_lists_nodup_find (db : Database) (k : string) (u : User) :
  friend_lists_nodup db -> find_user db k = Some u -> NoDup (friends_of u).
Proof.
  unfold friend_lists_nodup, find_user. intros Hnd Hf.
  apply find_some in Hf as [Hin _]. rewrite Forall_forall in Hnd. apply Hnd, Hin.
Qed.

Lemma user_index_Some (db : Database) (uid : string) (u : User) :
  find_user db uid = Some u -> exists i, user_index db uid = Some i.
Proof.
  intros Hf. destruct (user_index db uid) as [i|] eqn:Hi; [eauto|].
  apply find_user_index in Hi. congruence.
Qed.

(** A decision procedure for [friendship_symmetric]: every friend [b]
    listed by the record [find_user] returns for [id u] lists [id u]
    back. *)
Definition friendship_symmetric_b (db : Database) : bool :=
  forallb (fun u =>
    match find_user db (id u) with
    | Some u' => forallb (fun b => is_friend db b (id u')) (friends_of u')
    | None => true
    end) (users db).

Lemma find_user_some_id (db : Database) (k : string) (u : User) :
  find_user db k = Some u -> id u = k /\ In u (users db).
Proof.
  unfold find_user. intros Hf. apply find_some in Hf as [Hin Hk].
  apply String.eqb_eq in Hk. auto.
Qed.

Lemma is_friend_sym_b (db : Database) (a b : string) :
  friendship_symmetric_b db = true -> is_friend db a b = true -> is_friend db b a = true.
Proof.
  unfold friendship_symmetric_b. intros Hall Hab. unfold is_friend in Hab.
  destruct (find_user db a) as [u|] eqn:Hu; [|discriminate].
  destruct (find_user_some_id db a u Hu) as [<- Hin].
  rewrite forallb_forall in Hall. specialize (Hall u Hin). rewrite Hu in Hall.
  rewrite forallb_forall in Hall. apply Hall.
  unfold includes in Hab. apply existsb_exists in Hab as (z & Hz & E).
  apply String.eqb_eq in E. subst. exact Hz.
Qed.

Lemma friendship_symmetric_b_spec (db : Database) :
  friendship_symmetric_b db = true -> friendship_symmetric db.
Proof.
  intros H a b. destruct (is_friend db a b) eqn:Hab.
  - symmetry. apply is_friend_sym_b; assumption.
  - destruct (is_friend db b a) eqn:Hba; [|reflexivity].
    rewrite (is_friend_sym_b db b a H Hba) in Hab. discriminate.
Qed.

(** ** [removeFriend] on a page whose user object is its database record *)

Section RemoveFriend.
Variable p : FriendsPage.
Variable targetId : string.
Variable db : Database.
Let cur := fp_user p.
Hypothesis Hdb : ls_database (fp_local p) = Some db.
Hypothesis Hcur : find_user db (id cur) = Some cur.
Hypothesis Hne : targetId <> id cur.
Hypothesis Hnd : friend_lists_nodup db.
Hypothesis Hsym : friendship_symmetric db.

(** The pair whose friendship the removal ends. *)
Definition unfriended (a b : string) : bool :=
  ((String.eqb a (id cur) && String.eqb b targetId) ||
   (String.eqb a targetId && String.eqb b (id cur)))%bool.

Lemma removeFriend_database (idx : nat) :
  index_of targetId (friends_of cur) = Some idx ->
  exists ci, user_index db (id cur) = Some ci /\
    ls_database (fp_local (removeFriend true p targetId)) =
      Some (mkDatabase (update_first (fun u => String.eqb (id u) targetId) (drop_friend (id cur))
              (users (set_user_at db ci (set_friends cur (remove_at idx (friends_of cur))))))
              (sessions (set_user_at db ci (set_friends cur (remove_at idx (friends_of cur)))))).
Proof.
  intros Hidx. destruct (user_index_Some db (id cur) cur Hcur) as [ci Hci].
  exists ci. split; [exact Hci|]. unfold removeFriend. simpl. fold cur. rewrite Hidx. simpl.
  rewrite Hdb. simpl. rewrite Hci. reflexivity.
Qed.

Lemma removeFriend_is_friend (a b : string) :
  is_friend (getDatabase (fp_local (removeFriend true p targetId))) a b =
  (is_friend db a b && negb (unfriended a b))%bool.
Proof.
  unfold unfriended. destruct (index_of targetId (friends_of cur)) as [idx|] eqn:Hidx.
  - destruct (removeFriend_database idx Hidx) as (ci & Hci & Hres).
    unfold getDatabase. rewrite Hres. unfold is_friend.
    rewrite find_user_update_first by apply id_drop_friend.
    destruct (String.eqb_spec a targetId) as [->|Hat].
    + rewrite find_user_set_other by (exact Hci || exact Hne).
      rewrite (proj2 (String.eqb_neq targetId (id cur))) by exact Hne. simpl.
      destruct (find_user db targetId) as [tu|] eqn:Htu; simpl; [|reflexivity].
      rewrite includes_drop_friend by exact (friend_lists_nodup_find db targetId tu Hnd Htu).
      rewrite ?andb_true_r, ?orb_false_r; reflexivity.
    + destruct (String.eqb_spec a (id cur)) as [->|Hac].
      * pose proof (find_user_set_user_at db (set_friends cur (remove_at idx (friends_of cur))) ci Hci) as E.
        change (id (set_friends cur ?x)) with (id cur) in E. rewrite E, friends_of_set_friends, Hcur. simpl.
        rewrite (includes_remove_at targetId b (friends_of cur) idx)
          by (exact (friend_lists_nodup_find db _ cur Hnd Hcur) || exact Hidx).
        rewrite ?andb_true_r, ?orb_false_r; reflexivity.
      * rewrite find_user_set_other by (exact Hci || exact Hac). simpl.
        rewrite ?andb_true_r, ?orb_false_r; reflexivity.
  - unfold removeFriend. simpl. fold cur. rewrite Hidx. fold cur.
    assert (E : is_friend db (id cur) targetId = false).
    { unfold is_friend. rewrite Hcur. apply index_of_None, Hidx. }
    unfold getDatabase. rewrite Hdb.
    destruct (is_friend db a b) eqn:Hab; [|reflexivity].
    destruct (String.eqb_spec a (id cur)) as [Ea|]; destruct (String.eqb_spec b targetId) as [Eb|];
    destruct (String.eqb_spec a targetId) as [Ea'|]; destruct (String.eqb_spec b (id cur)) as [Eb'|];
    simpl; try reflexivity; try congruence.
    all: subst; rewrite Hsym in Hab; congruence.
Qed.

Lemma unfriended_sym (a b : string) : unfriended a b = unfriended b a.
Proof.
  unfold unfriended.
  destruct (String.eqb a (id cur)), (String.eqb b targetId), (String.eqb a targetId),
    (String.eqb b (id cur)); reflexivity.
Qed.

(** C23: [removeFriend] on the friends page keeps friendship symmetric.
    When the page's user object is its own database record, friend lists
    have no duplicates and friendship is symmetric, confirming the removal
    of a friend leaves friendship symmetric, with the two users no longer
    friends of each other in the database. *)
Theorem removeFriend_keeps_symmetry :
  let db' := getDatabase (fp_local (removeFriend true p targetId)) in
  friendship_symmetric db' /\ is_friend db' (id cur) targetId = false /\
  is_friend db' targetId (id cur) = false.
Proof.
  split; [|split].
  - intros a b. rewrite !removeFriend_is_friend, Hsym, unfriended_sym. reflexivity.
  - rewrite removeFriend_is_friend. unfold unfriended. rewrite !String.eqb_refl.
    simpl. apply andb_false_r.
  - rewrite removeFriend_is_friend. unfold unfriended. rewrite !String.eqb_refl, orb_true_r.
    apply andb_false_r.
Qed.

End RemoveFriend.

(** the search lists at most eight users, never the current user,
    each of them a user of the database whose nickname or login contains
    the lower-cased query; a query shorter than two characters closes the
    list. *)
Theorem search_results_bounded (ls : LocalStorage) (cur : User) (value : string) (found : list User) :
  onSearchInput ls cur value = SR_open found ->
  (length found <= 8)%nat /\
  Forall (fun u => id u <> id cur /\
                   (exists db, ls_database ls = Some db /\ In u (users db)) /\
                   search_match (toLowerCase (trim value)) cur u = true) found.
Proof.
  unfold onSearchInput. case_match; [discriminate|].
  destruct (ls_database ls) as [db|] eqn:Hdb; [|discriminate]. intros [= <-].
  split; [apply firstn_le_length|].
  apply Forall_forall. intros u Hu. apply In_firstn in Hu.
  apply filter_In in Hu as [Hin Hm]. repeat split; [|eauto|exact Hm].
  unfold search_match in Hm. apply andb_true_iff in Hm as [Hne _].
  apply negb_true_iff, String.eqb_neq in Hne. exact Hne.
Qed.

Lemma subscriptions_of_set (u : User) subs : subscriptions_of (set_subscriptions u subs) = subs.
Proof. reflexivity. Qed.

(** [unsubscribe], when the page's user object is its database
    record and its subscriptions have no duplicates, leaves a database
    whose record for the current user (the page's new user object) does
    not follow the target, so the subscriber scan of the target no longer
    finds it. *)
Theorem unsubscribe_removes (p : FriendsPage) (targetId : string) (db : Database) :
  ls_database (fp_local p) = Some db ->
  find_user db (id (fp_user p)) = Some (fp_user p) ->
  NoDup (subscriptions_of (fp_user p)) ->
  let p' := unsubscribe p targetId in
  find_user (getDatabase (fp_local p')) (id (fp_user p)) = Some (fp_user p') /\
  includes targetId (subscriptions_of (fp_user p')) = false /\
  ~ In (fp_user p') (subscribers (getDatabase (fp_local p')) targetId).
Proof.
  intros Hdb Hcur Hnd. cbv zeta.
  enough (E : find_user (getDatabase (fp_local (unsubscribe p targetId))) (id (fp_user p))
                = Some (fp_user (unsubscribe p targetId)) /\
              includes targetId (subscriptions_of (fp_user (unsubscribe p targetId))) = false).
  { destruct E as [E1 E2]. split; [exact E1|]. split; [exact E2|].
    unfold subscribers. rewrite filter_In. intros [_ H]. congruence. }
  unfold unsubscribe. destruct (index_of targetId (subscriptions_of (fp_user p))) as [idx|] eqn:Hidx.
  - destruct (user_index_Some db _ _ Hcur) as [ci Hci]. simpl. rewrite Hdb. simpl. rewrite Hci.
    split.
    + exact (find_user_set_user_at db (set_subscriptions (fp_user p) (remove_at idx _)) ci Hci).
    + rewrite subscriptions_of_set, (includes_remove_at targetId targetId _ idx Hnd Hidx),
        String.eqb_refl. apply andb_false_r.
  - unfold getDatabase. rewrite Hdb. split; [exact Hcur | apply index_of_None, Hidx].
Qed.


End Friends.
