(* ===== verification/Notifications.v ===== *)
(** * The notification drop-down (src/src/dashboard.ts, setupNotifications)

    dashboard.ts and user-profile-view.ts carry the same
    [setupNotifications(currentUser)]: a bell with an unread badge, a list
    with accept and decline buttons on friend requests, and a mark-all-read
    on opening.  Its closures share the page's [currentUser] object, the
    badge and the list elements; the model gathers them in a [Panel], the
    handlers below are the dashboard's, and each page embeds a panel in
    its state.  Every handler re-reads ['mesaCurrentUser'] and
    ['mesaDatabase'] when it runs and writes them back. *)

From S2P Require Import Prelude Types Storage Auth Friends.

Module Notifications.
Import Auth Friends.

Definition notifications_of (u : User) : list UserNotification := js_list_or (notifications u).

Definition set_notifications (u : User) (ns : list UserNotification) : User :=
  set_social u (friends u) (subscriptions u) (Some ns).

(** ** The panel *)

Record Panel := mkPanel {
  np_local : LocalStorage;
  np_currentUser : User;            (** the page's [currentUser] object *)
  np_badge : option nat;            (** [#notificationBadge]: the count, [None] when hidden *)
  np_list : list UserNotification;  (** the items of [#notificationList] *)
  np_open : bool;                   (** the [open] class of the drop-down *)
}.

Definition with_local (np : Panel) (ls : LocalStorage) : Panel :=
  mkPanel ls (np_currentUser np) (np_badge np) (np_list np) (np_open np).

Definition with_currentUser (np : Panel) (u : User) : Panel :=
  mkPanel (np_local np) u (np_badge np) (np_list np) (np_open np).

Definition with_view (np : Panel) (badge : option nat) (l : list UserNotification) : Panel :=
  mkPanel (np_local np) (np_currentUser np) badge l (np_open np).

Definition with_open (np : Panel) (o : bool) : Panel :=
  mkPanel (np_local np) (np_currentUser np) (np_badge np) (np_list np) o.

(** ** The handlers *)

Definition unreadCount (ns : list UserNotification) : nat :=
  length (List.filter (fun n => negb (read n)) ns).

(** [refreshNotifications()]: re-reads ['mesaCurrentUser']. *)
Definition refreshNotifications (np : Panel) : Panel :=
  match ls_currentUser (np_local np) with
  | None => np
  | Some user =>
      let ns := notifications_of user in
      let badge := if Nat.ltb 0 (unreadCount ns) then Some (unreadCount ns) else None in
      with_view np badge ns
  end.

(** The [friend_accepted] notification [accept] puts first in the
    requester's list; [nowId] is [Date.now().toString()], [nowIso] the
    ISO date. *)
Definition acceptedNotification (user : User) (nowId nowIso : string) : UserNotification :=
  mkNotification (String.append nowId "_acc") NT_friend_accepted (id user) (nickname user)
    (avatar user) false nowIso.

(** The in-place update of the requester object [db.users.find] returned. *)
Definition accept_requester (user : User) (nowId nowIso : string) (requester : User) : User :=
  let fr := friends_of requester in
  let fr' := if includes (id user) fr then fr else fr ++ [id user] in
  let r1 := set_friends requester fr' in
  set_notifications r1 (acceptedNotification user nowId nowIso :: notifications_of r1).

(** [handleNotificationAction(notifId, action, fromUserId)]. *)
Definition handleNotificationAction (np : Panel) (notifId action : string)
    (fromUserId : option string) (nowId nowIso : string) : Panel :=
  match ls_currentUser (np_local np) with
  | None => np
  | Some user0 =>
      match ls_database (np_local np) with
      | None => np
      | Some db =>
          let '(user1, db1) :=
            match fromUserId with
            | Some from =>
                if (String.eqb action "accept" && negb (String.eqb from ""))%bool then
                  let fr := friends_of user0 in
                  let user1 := set_friends user0 (if includes from fr then fr else fr ++ [from]) in
                  (user1, mkDatabase (update_first (fun u => String.eqb (id u) from)
                                        (accept_requester user1 nowId nowIso) (users db)) (sessions db))
                else (user0, db)
            | None => (user0, db)
            end in
          let user2 := set_notifications user1
                         (List.filter (fun n => negb (String.eqb (n_id n) notifId)) (notifications_of user1)) in
          let ls1 := set_currentUser (np_local np) user2 in
          let db2 := match user_index db1 (id user2) with
                     | Some idx => set_user_at db1 idx user2
                     | None => db1
                     end in
          let ls2 := set_database ls1 db2 in
          let cur := set_social (np_currentUser np) (friends user2) (subscriptions (np_currentUser np))
                       (notifications user2) in
          refreshNotifications (with_currentUser (with_local np ls2) cur)
      end
  end.

(** [markAllRead()]. *)
Definition markAllRead (np : Panel) : Panel :=
  match ls_currentUser (np_local np) with
  | None => np
  | Some user =>
      match notifications user with
      | None | Some [] => np
      | Some ns =>
          if negb (existsb (fun n => negb (read n)) ns) then np
          else
            let ns' := map (fun n => mkNotification (n_id n) (n_type n) (fromUserId n)
                                       (fromUserName n) (fromUserAvatar n) true (n_createdAt n)) ns in
            let user' := set_notifications user ns' in
            let ls1 := set_currentUser (np_local np) user' in
            let ls2 := match ls_database ls1 with
                       | Some db =>
                           match user_index db (id user') with
                           | Some idx => set_database ls1 (set_user_at db idx user')
                           | None => ls1
                           end
                       | None => ls1
                       end in
            let cur := set_notifications (np_currentUser np) (js_list_or (notifications user')) in
            with_view (with_currentUser (with_local np ls2) cur) None (np_list np)
      end
  end.

(** The [click] listener of [#notificationBtn]. *)
Definition onNotificationButton (np : Panel) : Panel :=
  let isOpen := negb (np_open np) in
  let np1 := with_open np isOpen in
  if isOpen then markAllRead np1 else np1.

(** ** Lemmas *)

Lemma includes_push (x : string) (l : list string) :
  includes x (if includes x l then l else l ++ [x]) = true.
Proof.
  destruct (includes x l) eqn:H; [exact H|]. unfold includes. rewrite existsb_app. simpl.
  rewrite String.eqb_refl. apply orb_true_r.
Qed.

Lemma id_accept_requester (user : User) nowId nowIso (r : User) :
  id (accept_requester user nowId nowIso r) = id r.
Proof. reflexivity. Qed.

Lemma id_handleNotificationAction (np : Panel) notifId action from nowId nowIso :
  id (np_currentUser (handleNotificationAction np notifId action from nowId nowIso)) = id (np_currentUser np).
Proof. unfold handleNotificationAction, refreshNotifications. repeat case_match; reflexivity. Qed.

(** *** Accepting a friend request

    The hypotheses shared by the lemmas on [accept]: ['mesaCurrentUser']
    holds [user], whose record is in the database, and the requester
    [from] is another user of the database. *)
Section Accept.
Variables (np : Panel) (db : Database) (user r : User) (notifId from nowId nowIso : string).
Hypothesis Hu : ls_currentUser (np_local np) = Some user.
Hypothesis Hdb : ls_database (np_local np) = Some db.
Hypothesis Hrec : is_Some (find_user db (id user)).
Hypothesis Hr : find_user db from = Some r.
Hypothesis Hne : from <> id user.
Hypothesis Hempty : from <> "".

Let np' := handleNotificationAction np notifId "accept" (Some from) nowId nowIso.
Let db' := getDatabase (np_local np').

(** What [accept] writes: the user record [user2] in both keys, holding
    [from], the requester holding the user, and the page's object
    carrying [user2]'s friends and notifications. *)
Lemma accept_outcome :
  exists user2, ls_currentUser (np_local np') = Some user2 /\ find_user db' (id user) = Some user2 /\
    id user2 = id user /\
    is_friend db' (id user) from = true /\ is_friend db' from (id user) = true /\
    friends (np_currentUser np') = friends user2 /\
    notifications (np_currentUser np') = notifications user2 /\
    Forall (fun n => n_id n <> notifId) (notifications_of user2).
Proof.
  destruct Hrec as [v Hv]. unfold db', np', handleNotificationAction. rewrite Hu, Hdb.
  rewrite (proj2 (String.eqb_neq from "")) by exact Hempty. simpl.
  set (user1 := set_friends user _).
  set (db1 := mkDatabase (update_first _ (accept_requester user1 nowId nowIso) (users db)) (sessions db)).
  assert (E1 : forall k, find_user db1 k = if String.eqb k from
                 then option_map (accept_requester user1 nowId nowIso) (find_user db from) else find_user db k)
    by (intros k; apply find_user_update_first, id_accept_requester).
  set (user2 := set_notifications user1 _).
  assert (Hi : exists i, user_index db1 (id user2) = Some i).
  { apply (user_index_Some db1 _ v). rewrite E1. change (id user2) with (id user).
    rewrite (proj2 (String.eqb_neq (id user) from)) by congruence. exact Hv. }
  destruct Hi as [i Hi]. change (id user2) with (id user) in Hi. rewrite Hi.
  assert (G2 : find_user (set_user_at db1 i user2) (id user) = Some user2)
    by exact (find_user_set_user_at db1 user2 i Hi).
  cbn [getDatabase ls_database set_database ls_currentUser set_currentUser np_local np_currentUser].
  exists user2. split; [reflexivity|]. split; [exact G2|]. split; [reflexivity|].
  split; [|split; [|split; [reflexivity|split; [reflexivity|]]]].
  - unfold is_friend. rewrite G2. apply includes_push.
  - unfold is_friend. rewrite find_user_set_other by (exact Hi || exact Hne).
    rewrite E1, String.eqb_refl, Hr. simpl. unfold accept_requester. simpl. apply includes_push.
  - unfold notifications_of. cbn. apply Forall_forall. intros n Hn.
    apply filter_In in Hn as [_ Hn]. apply negb_true_iff, String.eqb_neq in Hn. exact Hn.
Qed.

(** accepting a friend request makes the two users friends in the
    database.  [accept] leaves each of the two in the other's friend
    list, ['mesaCurrentUser'] equal to the database record of [user], and
    the page's user object without the answered notification. *)
Theorem accept_makes_friends :
  is_friend db' (id user) from = true /\ is_friend db' from (id user) = true /\
  ls_currentUser (np_local np') = find_user db' (id user) /\
  Forall (fun n => n_id n <> notifId) (notifications_of (np_currentUser np')).
Proof.
  destruct accept_outcome as (user2 & Hc & Hf & _ & F1 & F2 & _ & Hn & Hall).
  split; [exact F1|]. split; [exact F2|]. split; [rewrite Hc, Hf; reflexivity|].
  unfold notifications_of in *. rewrite Hn. exact Hall.
Qed.

End Accept.

Lemma unreadCount_all_read (ns : list UserNotification) :
  unreadCount (map (fun n => mkNotification (n_id n) (n_type n) (fromUserId n) (fromUserName n)
                                (fromUserAvatar n) true (n_createdAt n)) ns) = 0%nat.
Proof. induction ns as [|n ns IH]; [reflexivity|]. exact IH. Qed.

Lemma unreadCount_zero (ns : list UserNotification) :
  existsb (fun n => negb (read n)) ns = false -> unreadCount ns = 0%nat.
Proof.
  unfold unreadCount. induction ns as [|n ns IH]; simpl; [reflexivity|].
  destruct (read n); simpl; [exact IH | discriminate].
Qed.

(** opening the notification drop-down marks everything read: after
    [markAllRead], the user in ['mesaCurrentUser'] has no unread
    notification; when there was one, the badge is hidden and the user's
    database record, if it has one, is the same object as
    ['mesaCurrentUser']. *)
Theorem markAllRead_clears (np : Panel) (user : User) :
  ls_currentUser (np_local np) = Some user ->
  let np' := markAllRead np in
  (exists u', ls_currentUser (np_local np') = Some u' /\ unreadCount (notifications_of u') = 0%nat) /\
  ((0 < unreadCount (notifications_of user))%nat ->
   np_badge np' = None /\
   forall db, ls_database (np_local np) = Some db -> is_Some (find_user db (id user)) ->
     find_user (getDatabase (np_local np')) (id user) = ls_currentUser (np_local np')).
Proof.
  intros Hu. cbv zeta. unfold markAllRead. rewrite Hu.
  unfold notifications_of. destruct (notifications user) as [[|n ns]|] eqn:Hn; simpl.
  - split; [exists user; rewrite Hu, Hn; auto | intros H; inversion H].
  - destruct (negb (read n) || existsb (fun n => negb (read n)) ns)%bool eqn:Hex; simpl.
    + destruct (ls_database (np_local np)) as [db0|] eqn:Hdb0;
        [destruct (user_index db0 (id user)) as [i0|] eqn:Hi0|]; simpl;
        (split; [eexists; split; [reflexivity | apply (unreadCount_all_read (n :: ns))]
                | intros _; split; [reflexivity|]]).
      * intros db Hdb _. assert (db = db0) as -> by congruence.
        exact (find_user_set_user_at db0 (set_notifications user _) i0 Hi0).
      * intros db Hdb [v Hv]. assert (db = db0) as -> by congruence.
        destruct (user_index_Some db0 _ v Hv). congruence.
      * intros db Hdb. congruence.
    + split.
      * exists user. rewrite Hu, Hn. split; [reflexivity|]. apply unreadCount_zero. exact Hex.
      * rewrite (unreadCount_zero (n :: ns) Hex). intros H; inversion H.
  - split; [exists user; rewrite Hu, Hn; auto | intros H; inversion H].
Qed.

End Notifications.
