(* ===== verification/ProfileView.v ===== *)
(** * Social actions of the profile page (src/src/user-profile-view.ts)

    The page parses ['mesaCurrentUser'] once ([checkAuth]) into
    [currentUser] and shows a profile: another user's record from the
    database, or the current user's own.  Modelled: the friend and
    subscribe buttons of [setupActionsBar] with their labels, the
    notification drop-down of [setupNotifications] and
    [updateCurrentUser].  Every
    handler reads the storage keys it needs when it runs and writes them
    back, so the order of reads and writes is kept as the code has it.

    The notification drop-down is the panel of [Notifications], embedded
    in the page's state; [init] also runs the header's status write
    ([Header.setupProfileDropdown]).  What the page draws (banner,
    statistics, match history, bio) is in [ProfileRender].  The Russian labels of this file are stored double-encoded
    in the source (see [FRIEND_ADD_TEXT]); the model keeps
    the source's bytes. *)

From S2P Require Import Prelude Types Storage Auth Header Friends Notifications.

Module ProfileView.
Import Auth Friends Notifications.

(** [checkAuth()] of this page: the flag must be exactly ['true']. *)
Definition checkAuth (ls : LocalStorage) : option User :=
  if is_true_flag (ls_loggedIn ls) then ls_currentUser ls else None.

(** [updateCurrentUser(user)]. *)
Definition updateCurrentUser (ls : LocalStorage) (u : User) : LocalStorage :=
  let ls1 := set_currentUser ls u in
  match ls_database ls1 with
  | Some db =>
      match user_index db (id u) with
      | Some idx => set_database ls1 (set_user_at db idx u)
      | None => ls1
      end
  | None => ls1
  end.

(** ** The action buttons *)

Inductive FriendButton := FB_add | FB_friends | FB_pending.

(** The labels, as the bytes of the source (lines 978, 981, 984). *)
Definition FRIEND_ADD_TEXT : string := "‚ûï –î–æ–±–∞–≤–∏—Ç—å –≤ –¥—Ä—É–∑—å—è".
Definition FRIEND_ADDED_TEXT : string := "‚úì –í –¥—Ä—É–∑—å—è—Ö".
Definition FRIEND_PENDING_TEXT : string := "‚è≥ –ó–∞–ø—Ä–æ—Å –æ—Ç–ø—Ä–∞–≤–ª–µ–Ω".
Definition SUBSCRIBED_TEXT : string := "‚úì –í—ã –ø–æ–¥–ø–∏—Å–∞–Ω—ã".
Definition SUBSCRIBE_TEXT : string := "üîî –ü–æ–¥–ø–∏—Å–∞—Ç—å—Å—è".

Definition friendButtonClass (b : FriendButton) : string :=
  match b with FB_add => "btn-friend" | FB_friends | FB_pending => "btn-friend added" end.

Definition friendButtonText (b : FriendButton) : string :=
  match b with
  | FB_add => FRIEND_ADD_TEXT
  | FB_friends => FRIEND_ADDED_TEXT
  | FB_pending => FRIEND_PENDING_TEXT
  end.

Definition is_request_from (uid : string) (n : UserNotification) : bool :=
  match n_type n with
  | NT_friend_request => String.eqb (fromUserId n) uid
  | _ => false
  end.

(** The state [setupActionsBar] gives the friend button. *)
Definition friendButtonFor (cur profile : User) : FriendButton :=
  if includes (id profile) (friends_of cur) then FB_friends
  else if existsb (is_request_from (id cur)) (notifications_of profile) then FB_pending
  else FB_add.

(** ** The page *)

Record ProfileView := mkProfileView {
  pv_local : LocalStorage;
  pv_currentUser : User;            (** the [currentUser] object of [init] *)
  pv_profileUser : User;            (** the profile shown *)
  pv_friendBtn : FriendButton;
  pv_subscribed : bool;             (** the [subscribed] class of [#subscribeBtn] *)
  pv_badge : option nat;            (** [#notificationBadge]: the count, [None] when hidden *)
  pv_list : list UserNotification;  (** the items of [#notificationList] *)
  pv_open : bool;                   (** the [open] class of the drop-down *)
}.

Definition with_local (pv : ProfileView) (ls : LocalStorage) : ProfileView :=
  mkProfileView ls (pv_currentUser pv) (pv_profileUser pv) (pv_friendBtn pv) (pv_subscribed pv)
    (pv_badge pv) (pv_list pv) (pv_open pv).

Definition with_currentUser (pv : ProfileView) (u : User) : ProfileView :=
  mkProfileView (pv_local pv) u (pv_profileUser pv) (pv_friendBtn pv) (pv_subscribed pv)
    (pv_badge pv) (pv_list pv) (pv_open pv).

Definition with_friendBtn (pv : ProfileView) (b : FriendButton) : ProfileView :=
  mkProfileView (pv_local pv) (pv_currentUser pv) (pv_profileUser pv) b (pv_subscribed pv)
    (pv_badge pv) (pv_list pv) (pv_open pv).

Definition with_subscribed (pv : ProfileView) (s : bool) : ProfileView :=
  mkProfileView (pv_local pv) (pv_currentUser pv) (pv_profileUser pv) (pv_friendBtn pv) s
    (pv_badge pv) (pv_list pv) (pv_open pv).

(** ** Notifications *)

(** The drop-down of this page is the panel of [Notifications]; its
    closures share [currentUser], the badge and the list with the page. *)
Definition panel (pv : ProfileView) : Panel :=
  mkPanel (pv_local pv) (pv_currentUser pv) (pv_badge pv) (pv_list pv) (pv_open pv).

Definition with_panel (pv : ProfileView) (np : Panel) : ProfileView :=
  mkProfileView (np_local np) (np_currentUser np) (pv_profileUser pv) (pv_friendBtn pv)
    (pv_subscribed pv) (np_badge np) (np_list np) (np_open np).

Definition refreshNotifications (pv : ProfileView) : ProfileView :=
  with_panel pv (Notifications.refreshNotifications (panel pv)).

Definition handleNotificationAction (pv : ProfileView) (notifId action : string)
    (fromUserId : option string) (nowId nowIso : string) : ProfileView :=
  with_panel pv (Notifications.handleNotificationAction (panel pv) notifId action fromUserId nowId nowIso).

Definition markAllRead (pv : ProfileView) : ProfileView :=
  with_panel pv (Notifications.markAllRead (panel pv)).

Definition onNotificationButton (pv : ProfileView) : ProfileView :=
  with_panel pv (Notifications.onNotificationButton (panel pv)).

(** ** The friend and subscribe buttons *)

(** The [friend_request] notification the friend button puts first in the
    target's list. *)
Definition requestNotification (cur : User) (nowId nowIso : string) : UserNotification :=
  mkNotification (String.append nowId "_fr") NT_friend_request (id cur) (nickname cur)
    (avatar cur) false nowIso.

Definition subscriptionNotification (cur : User) (nowId nowIso : string) : UserNotification :=
  mkNotification (String.append nowId "_sub") NT_subscription (id cur) (nickname cur)
    (avatar cur) false nowIso.

(** [targetUser] is an element of [db.users]: the handler mutates it in
    place ([update_first]) and then also assigns it at [findIndex]. *)
Definition write_target (db : Database) (pid : string) (target' : User) : Database :=
  let db1 := mkDatabase (update_first (fun u => String.eqb (id u) pid) (fun _ => target') (users db))
               (sessions db) in
  match user_index db1 pid with
  | Some dbIdx => set_user_at db1 dbIdx target'
  | None => db1
  end.

(** The [click] listener of [#friendBtn].  The database is parsed first;
    on the removal path [updateCurrentUser] then writes the current user
    into ['mesaDatabase'], and the handler afterwards writes back the copy
    it parsed at the start. *)
Definition onFriendClick (pv : ProfileView) (nowId nowIso : string) : ProfileView :=
  let pid := id (pv_profileUser pv) in
  match ls_database (pv_local pv) with
  | None => pv
  | Some db =>
      match find_user db pid with
      | None => pv
      | Some targetUser =>
          let cur := pv_currentUser pv in
          let fr := friends_of cur in
          if includes pid fr then
            let fr' := match index_of pid fr with Some idx => remove_at idx fr | None => fr end in
            let cur' := set_friends cur fr' in
            let ls1 := updateCurrentUser (pv_local pv) cur' in
            let target' := drop_friend (id cur') targetUser in
            let ls2 := set_database ls1 (write_target db pid target') in
            with_friendBtn (with_currentUser (with_local pv ls2) cur') FB_add
          else if existsb (is_request_from (id cur)) (notifications_of targetUser) then pv
          else
            let target' := set_notifications targetUser
                             (requestNotification cur nowId nowIso :: notifications_of targetUser) in
            let ls1 := set_database (pv_local pv) (write_target db pid target') in
            with_friendBtn (with_local pv ls1) FB_pending
      end
  end.

(** The [click] listener of [#subscribeBtn]. *)
Definition onSubscribeClick (pv : ProfileView) (nowId nowIso : string) : ProfileView :=
  let cur := pv_currentUser pv in
  let pid := id (pv_profileUser pv) in
  let subs := subscriptions_of cur in
  let '(subs', subscribed, ls1) :=
    match index_of pid subs with
    | None =>
        let ls1 :=
          match ls_database (pv_local pv) with
          | Some db =>
              match find_user db pid with
              | Some targetUser =>
                  let target' := set_notifications targetUser
                                   (subscriptionNotification cur nowId nowIso :: notifications_of targetUser) in
                  set_database (pv_local pv) (write_target db pid target')
              | None => pv_local pv
              end
          | None => pv_local pv
          end in
        (subs ++ [pid], true, ls1)
    | Some idx => (remove_at idx subs, false, pv_local pv)
    end in
  let cur' := set_subscriptions cur subs' in
  with_subscribed (with_currentUser (with_local pv (updateCurrentUser ls1 cur')) cur') subscribed.

(** ** [init] *)

(** The profile to show for the [id] parameter [viewId]. *)
Definition profileFor (ls : LocalStorage) (cur : User) (viewId : option string) : User :=
  match viewId with
  | Some v =>
      if (negb (String.eqb v "") && negb (String.eqb v (id cur)))%bool then
        match ls_database ls with
        | Some db => match find_user db v with Some found => found | None => cur end
        | None => cur
        end
      else cur
  | None => cur
  end.

Definition init (ls : LocalStorage) (viewId : option string) : option ProfileView :=
  match checkAuth ls with
  | None => None
  | Some cur =>
      let '(ls1, _) := Header.setupProfileDropdown ls in
      let profileUser := profileFor ls1 cur viewId in
      Some (refreshNotifications
              (mkProfileView ls1 cur profileUser (friendButtonFor cur profileUser)
                 (includes (id profileUser) (subscriptions_of cur)) None [] false))
  end.

(** ** Lemmas *)

Lemma find_update_first_const (us : list User) (pid k : string) (t' : User) :
  id t' = pid ->
  List.find (fun u => String.eqb (id u) k) (update_first (fun u => String.eqb (id u) pid) (fun _ => t') us) =
  if String.eqb k pid then option_map (fun _ => t') (List.find (fun u => String.eqb (id u) pid) us)
  else List.find (fun u => String.eqb (id u) k) us.
Proof.
  intros Ht. induction us as [|u us IH]; simpl.
  - destruct (String.eqb k pid); reflexivity.
  - destruct (String.eqb_spec (id u) pid) as [Hu|Hu]; simpl.
    + rewrite Ht. destruct (String.eqb_spec pid k) as [->|Hk].
      * rewrite String.eqb_refl. reflexivity.
      * rewrite (proj2 (String.eqb_neq k pid)) by congruence.
        rewrite (proj2 (String.eqb_neq (id u) k)) by congruence. reflexivity.
    + destruct (String.eqb_spec (id u) k) as [<-|Hk]; [|exact IH].
      rewrite (proj2 (String.eqb_neq (id u) pid)) by exact Hu. reflexivity.
Qed.

Lemma find_user_write_target (db : Database) (pid k : string) (t' : User) :
  id t' = pid ->
  find_user (write_target db pid t') k =
  if String.eqb k pid then option_map (fun _ => t') (find_user db pid) else find_user db k.
Proof.
  intros Ht. unfold write_target.
  set (db1 := mkDatabase (update_first (fun u => String.eqb (id u) pid) (fun _ => t') (users db)) (sessions db)).
  assert (E1 : forall j, find_user db1 j =
                 if String.eqb j pid then option_map (fun _ => t') (find_user db pid) else find_user db j)
    by (intros j; apply find_update_first_const, Ht).
  destruct (user_index db1 pid) as [i|] eqn:Hi; [|apply E1].
  rewrite <- Ht in Hi. destruct (String.eqb_spec k pid) as [->|Hk].
  - rewrite <- Ht at 1. rewrite find_user_set_user_at by exact Hi.
    pose proof (E1 pid) as E. rewrite String.eqb_refl in E.
    destruct (find_user db pid); [reflexivity|]. simpl in E.
    apply find_user_index in E. rewrite Ht in Hi. congruence.
  - rewrite find_user_set_other by (exact Hi || congruence).
    rewrite E1. rewrite (proj2 (String.eqb_neq k pid)) by exact Hk. reflexivity.
Qed.

Lemma currentUser_updateCurrentUser (ls : LocalStorage) (u : User) :
  ls_currentUser (updateCurrentUser ls u) = Some u.
Proof. unfold updateCurrentUser. simpl. repeat case_match; reflexivity. Qed.

Lemma index_of_includes (x : string) (l : list string) :
  includes x l = true -> exists i, index_of x l = Some i.
Proof.
  intros H. destruct (index_of x l) as [i|] eqn:Hi; [eauto|].
  rewrite (index_of_None x l Hi) in H. discriminate.
Qed.

(** C25: removing a friend from the profile page loses a write.  The
    handler parses ['mesaDatabase'], then [updateCurrentUser] writes the
    current user without the friend into it, then the handler writes back
    its earlier copy with only the friend's list changed.  From a database
    where the two users are friends (each record without duplicate
    friends, the page's user object being its record), the click leaves
    a database where the current user still lists the friend and the
    friend no longer lists the current user, so friendship is no longer
    symmetric, while ['mesaCurrentUser'] holds the user without the
    friend. *)
Theorem profile_unfriend_loses_write (pv : ProfileView) (db : Database) (t : User) (nowId nowIso : string) :
  ls_database (pv_local pv) = Some db ->
  find_user db (id (pv_currentUser pv)) = Some (pv_currentUser pv) ->
  find_user db (id (pv_profileUser pv)) = Some t ->
  id (pv_profileUser pv) <> id (pv_currentUser pv) ->
  is_friend db (id (pv_currentUser pv)) (id (pv_profileUser pv)) = true ->
  friend_lists_nodup db ->
  let pv' := onFriendClick pv nowId nowIso in
  let db' := getDatabase (pv_local pv') in
  is_friend db' (id (pv_currentUser pv)) (id (pv_profileUser pv)) = true /\
  is_friend db' (id (pv_profileUser pv)) (id (pv_currentUser pv)) = false /\
  ~ friendship_symmetric db' /\
  exists u', ls_currentUser (pv_local pv') = Some u' /\ includes (id (pv_profileUser pv)) (friends_of u') = false.
Proof.
  intros Hdb Hcur Ht Hne Hf Hnd. cbv zeta.
  set (cur := pv_currentUser pv) in *. set (pid := id (pv_profileUser pv)) in *.
  assert (Hin : includes pid (friends_of cur) = true) by (unfold is_friend in Hf; rewrite Hcur in Hf; exact Hf).
  destruct (index_of_includes _ _ Hin) as [idx Hidx].
  pose proof (friend_lists_nodup_find db _ cur Hnd Hcur) as Hndc.
  pose proof (friend_lists_nodup_find db _ t Hnd Ht) as Hndt.
  unfold onFriendClick. fold pid. rewrite Hdb, Ht. fold cur. rewrite Hin, Hidx. cbn [pv_local with_local with_currentUser with_friendBtn].
  set (cur' := set_friends cur (remove_at idx (friends_of cur))).
  assert (Hdb' : forall k, find_user (getDatabase (set_database (updateCurrentUser (pv_local pv) cur')
                   (write_target db pid (drop_friend (id cur') t)))) k =
                 if String.eqb k pid then option_map (fun _ => drop_friend (id cur') t) (find_user db pid)
                 else find_user db k)
    by (intros k; apply find_user_write_target; rewrite id_drop_friend; apply find_user_some_id in Ht; apply Ht).
  assert (F1 : is_friend (getDatabase (set_database (updateCurrentUser (pv_local pv) cur')
                   (write_target db pid (drop_friend (id cur') t)))) (id cur) pid = true).
  { unfold is_friend. rewrite Hdb', (proj2 (String.eqb_neq (id cur) pid)) by congruence. rewrite Hcur. exact Hin. }
  assert (F2 : is_friend (getDatabase (set_database (updateCurrentUser (pv_local pv) cur')
                   (write_target db pid (drop_friend (id cur') t)))) pid (id cur) = false).
  { unfold is_friend. rewrite Hdb', String.eqb_refl, Ht. simpl.
    rewrite includes_drop_friend by exact Hndt. rewrite String.eqb_refl. apply andb_false_r. }
  split; [exact F1|]. split; [exact F2|]. split.
  - intros Hsym. rewrite Hsym, F2 in F1. discriminate.
  - exists cur'. split; [apply currentUser_updateCurrentUser|].
    unfold cur'. rewrite friends_of_set_friends, (includes_remove_at pid pid _ idx Hndc Hidx), String.eqb_refl.
    apply andb_false_r.
Qed.

Lemma index_of_includes_Some (x : string) (l : list string) (i : nat) :
  index_of x l = Some i -> includes x l = false -> False.
Proof.
  unfold index_of, includes. revert i. induction l as [|y l IH]; intros i; simpl; [discriminate|].
  destruct (String.eqb x y) eqn:Hxy; simpl.
  - intros _ H. discriminate H.
  - destruct (find_index _ l) as [j|]; [|discriminate]. intros _ H. exact (IH j eq_refl H).
Qed.

Lemma index_of_snoc_absent (x : string) (l : list string) :
  includes x l = false -> index_of x (l ++ [x]) = Some (length l).
Proof.
  unfold includes, index_of. induction l as [|y l IH]; simpl; intros H.
  - rewrite String.eqb_refl. reflexivity.
  - apply orb_false_iff in H as [Hy H]. rewrite Hy, (IH H). reflexivity.
Qed.

Lemma remove_at_snoc {A} (l : list A) (x : A) : remove_at (length l) (l ++ [x]) = l.
Proof. induction l as [|y l IH]; simpl; [reflexivity|]. rewrite IH. reflexivity. Qed.

(** C28: subscribing and unsubscribing is a round trip on the
    subscription list: from a profile the user does not follow, two
    clicks on the subscribe button leave the page's user object and
    ['mesaCurrentUser'] with the subscription list it had, and the button
    in the unsubscribed state. *)
Theorem subscribe_twice_restores (pv : ProfileView) (nowId nowIso nowId' nowIso' : string) :
  includes (id (pv_profileUser pv)) (subscriptions_of (pv_currentUser pv)) = false ->
  let pv2 := onSubscribeClick (onSubscribeClick pv nowId nowIso) nowId' nowIso' in
  subscriptions_of (pv_currentUser pv2) = subscriptions_of (pv_currentUser pv) /\
  ls_currentUser (pv_local pv2) = Some (pv_currentUser pv2) /\
  pv_subscribed pv2 = false.
Proof.
  intros Hn. cbv zeta. set (pid := id (pv_profileUser pv)) in *. set (cur := pv_currentUser pv) in *.
  assert (H0 : index_of pid (subscriptions_of cur) = None).
  { destruct (index_of pid (subscriptions_of cur)) eqn:E; [|reflexivity].
    exfalso. exact (index_of_includes_Some _ _ _ E Hn). }
  set (pv1 := onSubscribeClick pv nowId nowIso).
  assert (P1 : pv_currentUser pv1 = set_subscriptions cur (subscriptions_of cur ++ [pid]) /\
               pv_profileUser pv1 = pv_profileUser pv).
  { unfold pv1, onSubscribeClick. fold cur pid. rewrite H0. split; reflexivity. }
  destruct P1 as [C1 Pr1]. unfold onSubscribeClick. rewrite C1, Pr1. fold pid.
  rewrite subscriptions_of_set, (index_of_snoc_absent pid _ Hn). cbn [pv_currentUser pv_local pv_subscribed
    with_subscribed with_currentUser with_local].
  rewrite subscriptions_of_set, remove_at_snoc. split; [reflexivity|].
  split; [apply currentUser_updateCurrentUser | reflexivity].
Qed.

End ProfileView.
