(* ===== verification/Settings.v ===== *)
(** * The settings page (src/src/settings.ts)

    The page loads the object of ['mesaSettings'] ([loadSettings], with
    its defaults when the key is missing) into a form of three selects,
    four check boxes and two more selects, applies its theme, and saves
    the form back on the save button.  Its header writes the online
    status first (module [Header]).  The selects are modelled with their
    option values: assigning a value no option has leaves none selected,
    and the select then reads as [""], as the DOM does.  The page's HTML
    is not part of the repository, so the options are a parameter of the
    form. *)

From S2P Require Import Prelude Types Storage Auth Header Verify.
Import Auth Header Verify.

Module Settings.

(** ** The stored object *)

(** The literal [loadSettings] returns when the key is missing. *)
Definition defaultSettings : SettingsObject :=
  mkSettings (Some "ru") (Some "default") (Some true) (Some true) (Some true) (Some false)
    (Some "all") (Some "all") (Some true).

(** [loadSettings()]: the parsed object when the key is present. *)
Definition loadSettings (ls : LocalStorage) : SettingsObject :=
  match ls_settings ls with
  | Some s => s
  | None => defaultSettings
  end.

(** [saveSettings(settings)]. *)
Definition saveSettings (ls : LocalStorage) (s : SettingsObject) : LocalStorage :=
  set_settings ls (Some s).

(** ** The form *)

Record Select := mkSelect {
  sel_options : list string;   (** the values of its [<option>]s *)
  sel_value : string;          (** [select.value] *)
}.

(** [select.value = v]. *)
Definition select_assign (sel : Select) (v : string) : Select :=
  mkSelect (sel_options sel) (if bool_decide (v ∈ sel_options sel) then v else "").

(** [String(v)] of a property that may be [undefined]. *)
Definition js_string_of (v : option string) : string :=
  match v with Some s => s | None => "undefined" end.

(** A check box's [checked = v]: [undefined] converts to [false]. *)
Definition js_bool_of (v : option bool) : bool :=
  match v with Some b => b | None => false end.

(** The form's elements, [None] when [getElementById] finds none. *)
Record SettingsForm := mkSettingsForm {
  settingLanguage : option Select;
  settingTheme : option Select;
  settingMatchNotif : option bool;
  settingTournamentNotif : option bool;
  settingFriendMessages : option bool;
  settingSoundNotif : option bool;
  settingProfileVisibility : option Select;
  settingStatsVisibility : option Select;
}.

(** [if (el) el.value = v] and [if (el) el.checked = v]. *)
Definition set_select (el : option Select) (v : option string) : option Select :=
  option_map (fun sel => select_assign sel (js_string_of v)) el.

Definition set_checkbox (el : option bool) (v : option bool) : option bool :=
  option_map (fun _ => js_bool_of v) el.

(** [applySettingsToForm(settings)]. *)
Definition applySettingsToForm (s : SettingsObject) (f : SettingsForm) : SettingsForm :=
  mkSettingsForm
    (set_select (settingLanguage f) (language s))
    (set_select (settingTheme f) (theme s))
    (set_checkbox (settingMatchNotif f) (matchNotifications s))
    (set_checkbox (settingTournamentNotif f) (tournamentNotifications s))
    (set_checkbox (settingFriendMessages f) (friendMessages s))
    (set_checkbox (settingSoundNotif f) (soundNotifications s))
    (set_select (settingProfileVisibility f) (profileVisibility s))
    (set_select (settingStatsVisibility f) (statsVisibility s)).

(** [el?.value || dflt]. *)
Definition select_or (el : option Select) (dflt : string) : string :=
  match el with
  | Some sel => if String.eqb (sel_value sel) "" then dflt else sel_value sel
  | None => dflt
  end.

(** [el?.checked ?? dflt]. *)
Definition checked_or (el : option bool) (dflt : bool) : bool :=
  match el with Some c => c | None => dflt end.

(** [readSettingsFromForm()]: the online status comes from storage. *)
Definition readSettingsFromForm (f : SettingsForm) (ls : LocalStorage) : SettingsObject :=
  mkSettings
    (Some (select_or (settingLanguage f) "ru"))
    (Some (select_or (settingTheme f) "default"))
    (Some (checked_or (settingMatchNotif f) true))
    (Some (checked_or (settingTournamentNotif f) true))
    (Some (checked_or (settingFriendMessages f) true))
    (Some (checked_or (settingSoundNotif f) false))
    (Some (select_or (settingProfileVisibility f) "all"))
    (Some (select_or (settingStatsVisibility f) "all"))
    (Some (match onlineStatus (stored_settings ls) with Some o => o | None => true end)).

(** [applyTheme(theme)] of settings.ts: ['default'] removes
    [data-theme], anything else is set, [undefined] as the string
    ['undefined']. *)
Definition applyTheme (t : option string) : option string :=
  match t with
  | Some "default" => None
  | _ => Some (js_string_of t)
  end.

(** ** The page *)

Record SettingsPage := mkSettingsPage {
  sp_user : User;              (** the user [checkAuth] returned *)
  sp_form : SettingsForm;
  sp_online : bool;            (** the status the header shows *)
  sp_theme : option string;    (** [document.documentElement.dataset.theme] *)
}.

Definition SAVED_MESSAGE : string := "Настройки сохранены!".

Definition CHANGE_EMAIL_ALERT : string :=
  String.concat EmptyString ["Изменение email"; nl; nl;
    "Это демо-функция. В реальной версии откроется форма изменения email с подтверждением."].

Definition CHANGE_PASSWORD_ALERT : string :=
  String.concat EmptyString ["Изменение пароля"; nl; nl;
    "Это демо-функция. В реальной версии откроется форма изменения пароля."].

(** [init()] on a page whose form is [f]: the sign-in check, the header's
    status write, then the settings loaded into the form and the theme.
    The header text, the search and the e-mail line change no state. *)
Definition init (b : Browser) (f : SettingsForm) : Browser * option SettingsPage :=
  match checkAuth b with
  | (b', None) => (b', None)
  | (b', Some user) =>
      let '(ls1, online) := setupProfileDropdown (local b') in
      let b1 := with_local b' ls1 in
      let settings := loadSettings ls1 in
      (b1, Some (mkSettingsPage user (applySettingsToForm settings f) online
                   (applyTheme (theme settings))))
  end.

(** The [change] listener of the theme select, attached when the select
    exists: the user picks option [v]. *)
Definition onThemeChange (pg : SettingsPage) (v : string) : SettingsPage :=
  let f := sp_form pg in
  match settingTheme f with
  | None => pg
  | Some sel =>
      let sel' := select_assign sel v in
      let f' := mkSettingsForm (settingLanguage f) (Some sel') (settingMatchNotif f)
                  (settingTournamentNotif f) (settingFriendMessages f) (settingSoundNotif f)
                  (settingProfileVisibility f) (settingStatsVisibility f) in
      mkSettingsPage (sp_user pg) f' (sp_online pg) (applyTheme (Some (sel_value sel')))
  end.

(** The [click] listener of the save button. *)
Definition onSave (b : Browser) (pg : SettingsPage) : Browser * SettingsPage :=
  let newSettings := readSettingsFromForm (sp_form pg) (local b) in
  let b1 := with_local b (saveSettings (local b) newSettings) in
  (showMessage b1 SAVED_MESSAGE MT_success,
   mkSettingsPage (sp_user pg) (sp_form pg) (sp_online pg) (applyTheme (theme newSettings))).

(** The header's status check box on this page. *)
Definition onStatusChange (b : Browser) (pg : SettingsPage) (checked : bool) : Browser * SettingsPage :=
  let '(ls1, online) := Header.onStatusChange (local b) checked in
  (with_local b ls1, mkSettingsPage (sp_user pg) (sp_form pg) online (sp_theme pg)).

Definition onChangeEmail (b : Browser) : Browser := alert b CHANGE_EMAIL_ALERT.

Definition onChangePassword (b : Browser) : Browser := alert b CHANGE_PASSWORD_ALERT.

(** The delete button: [c1] and [c2] are the answers to the two
    [confirm] dialogs (the second is asked only after a yes). *)
Definition onDeleteAccount (b : Browser) (c1 c2 : bool) : Browser :=
  if (c1 && c2)%bool then
    let ls := set_settings (clear_currentUser (set_loggedIn (local b) None)) None in
    redirect (with_session (with_local b ls) (mkSessionStorage None None)) "index.html"
  else b.

(** ** Conditions on the page's form *)

(** A select that exists and has no option with the value ['undefined']. *)
Definition select_ready (el : option Select) : bool :=
  match el with
  | Some sel => negb (bool_decide ("undefined" ∈ sel_options sel))
  | None => false
  end.

Definition present {A} (el : option A) : bool :=
  match el with Some _ => true | None => false end.

(** Every element of the form exists, and no select offers ['undefined']. *)
Definition form_ready (f : SettingsForm) : bool :=
  select_ready (settingLanguage f) && select_ready (settingTheme f) &&
  present (settingMatchNotif f) && present (settingTournamentNotif f) &&
  present (settingFriendMessages f) && present (settingSoundNotif f) &&
  select_ready (settingProfileVisibility f) && select_ready (settingStatsVisibility f).

(** A select that exists and offers the non-empty value [v]. *)
Definition select_fits (el : option Select) (v : option string) : bool :=
  match el, v with
  | Some sel, Some x => bool_decide (x ∈ sel_options sel) && negb (String.eqb x "")
  | _, _ => false
  end.

Definition checkbox_fits (el : option bool) (v : option bool) : bool :=
  match el, v with Some _, Some _ => true | _, _ => false end.

(** The stored object has every property, and the form can show each. *)
Definition form_fits (f : SettingsForm) (s : SettingsObject) : bool :=
  select_fits (settingLanguage f) (language s) && select_fits (settingTheme f) (theme s) &&
  checkbox_fits (settingMatchNotif f) (matchNotifications s) &&
  checkbox_fits (settingTournamentNotif f) (tournamentNotifications s) &&
  checkbox_fits (settingFriendMessages f) (friendMessages s) &&
  checkbox_fits (settingSoundNotif f) (soundNotifications s) &&
  select_fits (settingProfileVisibility f) (profileVisibility s) &&
  select_fits (settingStatsVisibility f) (statsVisibility s) &&
  present (onlineStatus s).

(** What the first save of a fresh browser stores. *)
Definition lostDefaults : SettingsObject :=
  mkSettings (Some "ru") (Some "default") (Some false) (Some false) (Some false) (Some false)
    (Some "all") (Some "all") (Some true).

(** ** Lemmas *)

Lemma select_or_undefined (el : option Select) (d : string) :
  select_ready el = true -> select_or (set_select el None) d = d.
Proof.
  destruct el as [sel|]; [|discriminate]. simpl. intros H.
  rewrite bool_decide_eq_false_2; [reflexivity|]. apply negb_true_iff, bool_decide_eq_false in H. exact H.
Qed.

Lemma select_or_fits (el : option Select) (v : option string) (d : string) :
  select_fits el v = true -> Some (select_or (set_select el v) d) = v.
Proof.
  destruct el as [sel|], v as [x|]; try discriminate. simpl.
  intros [Hin Hne]%andb_true_iff. apply bool_decide_eq_true in Hin.
  rewrite bool_decide_eq_true_2 by exact Hin. simpl. rewrite (negb_true_iff _) in Hne. rewrite Hne. reflexivity.
Qed.

Lemma checked_or_fits (el : option bool) (v : option bool) (d : bool) :
  checkbox_fits el v = true -> Some (checked_or (set_checkbox el v) d) = v.
Proof. destruct el, v; simpl; congruence. Qed.

Lemma with_onlineStatus_same (s : SettingsObject) (o : bool) :
  onlineStatus s = Some o -> with_onlineStatus s (isOnline s) = s.
Proof. destruct s as [? ? ? ? ? ? ? ? os]. simpl. intros ->. destruct o; reflexivity. Qed.

Lemma form_fits_online (f : SettingsForm) (s : SettingsObject) :
  form_fits f s = true -> exists o, onlineStatus s = Some o.
Proof. unfold form_fits. rewrite !andb_true_iff. intros (_ & H). destruct (onlineStatus s); eauto; discriminate. Qed.

(** The form shows a fitting object and reads it back. *)
Lemma read_apply_fits (f : SettingsForm) (s : SettingsObject) (ls : LocalStorage) :
  form_fits f s = true -> onlineStatus (stored_settings ls) = onlineStatus s ->
  readSettingsFromForm (applySettingsToForm s f) ls = s.
Proof.
  intros Hf Hon. destruct (form_fits_online f s Hf) as [o Ho].
  unfold form_fits in Hf. rewrite !andb_true_iff in Hf.
  destruct Hf as ((((((((H1 & H2) & H3) & H4) & H5) & H6) & H7) & H8) & _).
  unfold readSettingsFromForm, applySettingsToForm. cbn [settingLanguage settingTheme settingMatchNotif
    settingTournamentNotif settingFriendMessages settingSoundNotif settingProfileVisibility settingStatsVisibility].
  rewrite (select_or_fits _ _ _ H1), (select_or_fits _ _ _ H2), (checked_or_fits _ _ _ H3),
    (checked_or_fits _ _ _ H4), (checked_or_fits _ _ _ H5), (checked_or_fits _ _ _ H6),
    (select_or_fits _ _ _ H7), (select_or_fits _ _ _ H8), Hon, Ho.
  rewrite <- Ho. destruct s; reflexivity.
Qed.

Lemma findUserByEmail_same_db (ls ls' : LocalStorage) (a : string) :
  ls_database ls' = ls_database ls -> findUserByEmail ls' a = findUserByEmail ls a.
Proof. intros H. unfold findUserByEmail, getDatabase. rewrite H. reflexivity. Qed.

(** ** Properties *)

(** C31: on a browser that never saved settings, the settings page loses
    its defaults.  The header's status write runs before [loadSettings],
    so the key holds [{onlineStatus: true}] alone and the defaults
    literal is never used: the check boxes come up unchecked (the
    default of the match notifications is [true]), the theme is set to
    the string ['undefined'], and a save stores [false] for all four
    notification switches. *)
Theorem settings_defaults_lost (b : Browser) (u : User) (f : SettingsForm) :
  ls_loggedIn (local b) = Some "true" -> ls_currentUser (local b) = Some u ->
  ls_settings (local b) = None -> form_ready f = true ->
  exists b1 pg, init b f = (b1, Some pg) /\
    matchNotifications (loadSettings (local b)) = Some true /\
    settingMatchNotif (sp_form pg) = Some false /\ sp_theme pg = Some "undefined" /\
    ls_settings (local (fst (onSave b1 pg))) = Some lostDefaults.
Proof.
  intros Hin Hu Hs Hf. unfold init, checkAuth. rewrite Hin, Hu. simpl.
  unfold setupProfileDropdown, updateStatus, stored_settings. rewrite Hs. simpl.
  eexists _, _. split; [reflexivity|].
  split; [unfold loadSettings; rewrite Hs; reflexivity|].
  destruct f as [l t m tn fm sn pv sv]. unfold form_ready in Hf. simpl in Hf.
  rewrite !andb_true_iff in Hf. destruct Hf as (((((((H1 & H2) & H3) & H4) & H5) & H6) & H7) & H8).
  destruct m, tn, fm, sn; try discriminate.
  do 2 (split; [reflexivity|]). unfold onSave, readSettingsFromForm, lostDefaults. simpl.
  rewrite !select_or_undefined by assumption. reflexivity.
Qed.

(** opening the settings page and saving without a change leaves
    ['mesaSettings'] as it was, when it holds every property and the form
    offers each stored value: the form shows the stored object and reads
    it back, and the header rewrites the same status. *)
Theorem settings_load_save_identity (b : Browser) (u : User) (f : SettingsForm) (s : SettingsObject) :
  ls_loggedIn (local b) = Some "true" -> ls_currentUser (local b) = Some u ->
  ls_settings (local b) = Some s -> form_fits f s = true ->
  exists b1 pg, init b f = (b1, Some pg) /\ ls_settings (local (fst (onSave b1 pg))) = Some s.
Proof.
  intros Hin Hu Hs Hf. destruct (form_fits_online f s Hf) as [o Ho].
  unfold init, checkAuth. rewrite Hin, Hu. simpl.
  unfold setupProfileDropdown, updateStatus, stored_settings. rewrite Hs. simpl.
  rewrite (with_onlineStatus_same s o Ho).
  eexists _, _. split; [reflexivity|]. simpl. f_equal.
  apply read_apply_fits; [exact Hf|]. reflexivity.
Qed.

(** C33: the save button keeps the online status: the status the header
    shows after a save is the one stored before, whatever the form
    holds, so switching to offline survives any later save. *)
Theorem onSave_keeps_status (b : Browser) (pg : SettingsPage) :
  isOnline (stored_settings (local (fst (onSave b pg)))) = isOnline (stored_settings (local b)).
Proof.
  unfold onSave, readSettingsFromForm, isOnline. simpl.
  destruct (onlineStatus (stored_settings (local b))) as [[|]|]; reflexivity.
Qed.

(** C34: deleting the account does not delete it.  After both
    confirmations the page signs out and forgets the settings, but the
    account stays in ['mesaDatabase']: the same address and password log
    in again, with a new code and the pending login of the same id. *)
Theorem delete_account_keeps_record (b : Browser) (em pw : string) (u : User) (r now : Q) :
  findUserByEmail (local b) (trim em) = Some u -> password u = pw ->
  let b' := onDeleteAccount b true true in
  ls_loggedIn (local b') = None /\ ls_currentUser (local b') = None /\
  ls_database (local b') = ls_database (local b) /\
  ss_pendingLogin (session (onLoginSubmit b' em pw r now)) = Some (mkPendingLogin (id u) (trim em)).
Proof.
  intros Hu Hpw b'. assert (Hdb : ls_database (local b') = ls_database (local b)) by reflexivity.
  split; [reflexivity|]. split; [reflexivity|]. split; [exact Hdb|].
  apply (onLoginSubmit_ok b' em pw u r now); [|exact Hpw].
  rewrite (findUserByEmail_same_db _ _ _ Hdb). exact Hu.
Qed.

End Settings.
