(* ===== verification/Profile.v ===== *)
(** * The profile settings page (src/src/profile.ts)

    The page copies the signed-in user into the local variable [user]
    once, at load, fills the form and the previews from it, and every
    later change goes through [saveProfile(user, updates)], which writes
    [{...user, ...updates}] to ['mesaCurrentUser'] and over the user's
    record in ['mesaDatabase'].  The model keeps that variable as
    [pp_user]: every field a save does not name comes from it, not from
    storage.  [FileReader] is modelled by the data URL it produces (the
    [File] record below); the page is taken to be idle while it reads, so
    the awaited handlers run to their end before the next event. *)

From Stdlib Require Import Ascii.
From S2P Require Import Prelude Types Storage Auth Header Friends.
Import Auth Header.

Module Profile.

(** ** [saveProfile] *)

(** The keys a [Partial<User>] of this page names; [Some None] is a key
    present with the value [undefined]. *)
Record Patch := mkPatch {
  pt_nickname : option string;
  pt_login : option (option string);
  pt_bio : option (option string);
  pt_avatar : option (option string);
  pt_bannerImage : option (option string);
  pt_bannerVideo : option (option string);
}.

Definition noPatch : Patch := mkPatch None None None None None None.

Definition override {A} (v : option A) (old : A) : A :=
  match v with Some x => x | None => old end.

(** [{ ...user, ...updates }]. *)
Definition apply_patch (u : User) (p : Patch) : User :=
  {| id := id u; nickname := override (pt_nickname p) (nickname u);
     login := override (pt_login p) (login u); email := email u;
     password := password u; level := level u; elo := elo u; wins := wins u;
     losses := losses u; gamesPlayed := gamesPlayed u; registeredAt := registeredAt u;
     emailVerified := emailVerified u; avatar := override (pt_avatar p) (avatar u);
     bio := override (pt_bio p) (bio u);
     bannerImage := override (pt_bannerImage p) (bannerImage u);
     bannerVideo := override (pt_bannerVideo p) (bannerVideo u);
     profileWidgets := profileWidgets u; bannerLayout := bannerLayout u;
     friends := friends u; subscriptions := subscriptions u; groups := groups u;
     notifications := notifications u; achievements := achievements u |}.

(** [saveProfile(user, updates)]: returns the storage and the new
    [user]. *)
Definition saveProfile (ls : LocalStorage) (user : User) (p : Patch) : LocalStorage * User :=
  let updatedUser := apply_patch user p in
  let ls1 := set_currentUser ls updatedUser in
  match ls_database ls1 with
  | Some db =>
      match user_index db (id user) with
      | Some idx => (set_database ls1 (set_user_at db idx updatedUser), updatedUser)
      | None => (ls1, updatedUser)
      end
  | None => (ls1, updatedUser)
  end.

(** ** Helpers *)

(** [isVideoUrl(url)]. *)
Definition isVideoUrl (url : string) : bool :=
  let lower := toLowerCase url in
  (ends_with ".mp4" lower || ends_with ".webm" lower || ends_with ".mov" lower ||
   Friends.str_includes "video/mp4" lower || Friends.str_includes "video/webm" lower)%bool.

(** [/^[a-z0-9_]+$/]: a login character. *)
Definition login_char (c : Ascii.ascii) : bool :=
  let n := Ascii.nat_of_ascii c in
  ((Nat.leb 97 n && Nat.leb n 122) || is_ascii_digit c || Ascii.eqb c "_"%char)%bool.

Definition login_pattern (s : string) : bool :=
  negb (String.eqb s "") && str_forallb login_char s.

(** A file of an [<input type="file">]: its [size] in bytes, its [type],
    and the data URL [readAsDataURL] gives. *)
Record File := mkFile {
  file_size : N;
  file_type : string;
  file_data : string;
}.

(** ** The page *)

(** The banner preview: a [<video>] shown with a source, a background
    image, or neither. *)
Inductive Preview :=
| PV_blank
| PV_video (src : string)
| PV_background (url : string).

#[export] Instance Preview_eq_dec : EqDecision Preview.
Proof. solve_decision. Defined.

Record ProfilePage := mkProfilePage {
  pp_user : User;            (** the page's [let user] *)
  pp_nickname : string;      (** [#nickname] value *)
  pp_login : string;         (** [#userLogin] value *)
  pp_bio : string;           (** [#bio] value *)
  pp_bioCounter : nat;       (** [#bioCounter] text *)
  pp_avatar : option string; (** [#avatarPreview] source *)
  pp_banner : Preview;
  pp_bannerUrl : string;     (** [#bannerUrlInput] value *)
}.

Definition with_user (pg : ProfilePage) (u : User) : ProfilePage :=
  mkProfilePage u (pp_nickname pg) (pp_login pg) (pp_bio pg) (pp_bioCounter pg) (pp_avatar pg)
    (pp_banner pg) (pp_bannerUrl pg).

Definition with_previews (pg : ProfilePage) (av : option string) (pv : Preview) (url : string)
    : ProfilePage :=
  mkProfilePage (pp_user pg) (pp_nickname pg) (pp_login pg) (pp_bio pg) (pp_bioCounter pg) av pv url.

(** [loadProfile(user)] on a page whose previews are [av], [pv] and
    [url] before: the banner branch follows the code, and a user without
    banner leaves the preview as it was. *)
Definition loadProfile (user : User) (av : option string) (pv : Preview) (url : string) : ProfilePage :=
  let bioText := js_str_or (bio user) "" in
  let av' := match avatar user with Some a => if String.eqb a "" then av else Some a | None => av end in
  let '(pv', url') :=
    match bannerVideo user with
    | Some v =>
        if String.eqb v "" then
          match bannerImage user with
          | Some i => if String.eqb i "" then (pv, url) else (PV_background i, url)
          | None => (pv, url)
          end
        else ((if isVideoUrl v then PV_video v else PV_background v), v)
    | None =>
        match bannerImage user with
        | Some i => if String.eqb i "" then (pv, url) else (PV_background i, url)
        | None => (pv, url)
        end
    end in
  mkProfilePage user (nickname user) (js_str_or (login user) "") bioText (js_length bioText)
    av' pv' url'.

Definition AVATAR_TOO_LARGE : string := "Аватар не должен превышать 2MB!".
Definition AVATAR_UPDATED : string := "Аватар обновлён!".
Definition BANNER_TOO_LARGE : string := "Файл не должен превышать 10MB!".
Definition VIDEO_BANNER_SET : string := "Видео-шапка установлена!".
Definition BANNER_UPDATED : string := "Шапка обновлена!".
Definition BANNER_RESET : string := "Шапка сброшена".
Definition NICKNAME_SHORT : string := "Никнейм минимум 3 символа!".
Definition LOGIN_SHORT : string := "Логин минимум 3 символа!".
Definition LOGIN_CHARSET : string := "Логин может содержать только латиницу, цифры и _".
Definition LOGIN_TAKEN : string := "Этот логин уже занят!".
Definition PROFILE_SAVED : string := "Профиль сохранён!".

(** Run [saveProfile] on the page's [user] and keep the new one. *)
Definition save_page (b : Browser) (pg : ProfilePage) (p : Patch) : Browser * ProfilePage :=
  let '(ls, u) := saveProfile (local b) (pp_user pg) p in
  (with_local b ls, with_user pg u).

(** [init()]: [th] is [dataset.theme] before; the page starts with the
    previews [av], [pv], [url] of its HTML. *)
Definition init (b : Browser) (th : option string) (av : option string) (pv : Preview) (url : string)
    : Browser * option (ProfilePage * option string) :=
  match checkAuth b with
  | (b', None) => (b', None)
  | (b', Some user) =>
      let th' := Header.applyTheme (local b') th in
      let pg := loadProfile user av pv url in
      let '(ls1, _) := setupProfileDropdown (local b') in
      (with_local b' ls1, Some (pg, th'))
  end.

(** The [input] listener of the bio: [updateBioCounter()]. *)
Definition onBioInput (pg : ProfilePage) (v : string) : ProfilePage :=
  mkProfilePage (pp_user pg) (pp_nickname pg) (pp_login pg) v (js_length v) (pp_avatar pg)
    (pp_banner pg) (pp_bannerUrl pg).

(** The [change] listener of the avatar input. *)
Definition onAvatarChange (b : Browser) (pg : ProfilePage) (file : option File) : Browser * ProfilePage :=
  match file with
  | None => (b, pg)
  | Some f =>
      if N.ltb (2 * 1024 * 1024) (file_size f) then (showMessage b AVATAR_TOO_LARGE MT_error, pg)
      else
        let pg1 := with_previews pg (Some (file_data f)) (pp_banner pg) (pp_bannerUrl pg) in
        let '(b1, pg2) := save_page b pg1 (mkPatch None None None (Some (Some (file_data f))) None None) in
        (showMessage b1 AVATAR_UPDATED MT_success, pg2)
  end.

(** The [change] listener of the banner input. *)
Definition onBannerChange (b : Browser) (pg : ProfilePage) (file : option File) : Browser * ProfilePage :=
  match file with
  | None => (b, pg)
  | Some f =>
      if N.ltb (10 * 1024 * 1024) (file_size f) then (showMessage b BANNER_TOO_LARGE MT_error, pg)
      else if String.prefix "video/" (file_type f) then
        let pg1 := with_previews pg (pp_avatar pg) (PV_video (file_data f)) (pp_bannerUrl pg) in
        let '(b1, pg2) := save_page b pg1 (mkPatch None None None None (Some None) (Some (Some (file_data f)))) in
        (showMessage b1 VIDEO_BANNER_SET MT_success, pg2)
      else
        let pg1 := with_previews pg (pp_avatar pg) (PV_background (file_data f)) (pp_bannerUrl pg) in
        let '(b1, pg2) := save_page b pg1 (mkPatch None None None None (Some (Some (file_data f))) (Some None)) in
        (showMessage b1 BANNER_UPDATED MT_success, pg2)
  end.

(** [applyUrl()], run by the apply button and by Enter in the URL input. *)
Definition applyUrl (b : Browser) (pg : ProfilePage) : Browser * ProfilePage :=
  let url := trim (pp_bannerUrl pg) in
  if String.eqb url "" then (b, pg)
  else
    let pv := if isVideoUrl url then PV_video url else PV_background url in
    let pg1 := with_previews pg (pp_avatar pg) pv (pp_bannerUrl pg) in
    let '(b1, pg2) := save_page b pg1 (mkPatch None None None None (Some None) (Some (Some url))) in
    (showMessage b1 BANNER_UPDATED MT_success, pg2).

(** The [click] listener of the remove-banner button. *)
Definition onRemoveBanner (b : Browser) (pg : ProfilePage) : Browser * ProfilePage :=
  let pg1 := with_previews pg (pp_avatar pg) PV_blank "" in
  let '(b1, pg2) := save_page b pg1 (mkPatch None None None None (Some None) (Some None)) in
  (showMessage b1 BANNER_RESET MT_info, pg2).

(** [db.users.find(u => u.login === login && u.id !== user.id)]. *)
Definition login_taken (db : Database) (user : User) (l : string) : bool :=
  match List.find (fun u => (match login u with Some x => String.eqb x l | None => false end &&
                             negb (String.eqb (id u) (id user)))%bool) (users db) with
  | Some _ => true
  | None => false
  end.

(** The [submit] listener of the profile form. *)
Definition onSubmit (b : Browser) (pg : ProfilePage) : Browser * ProfilePage :=
  let nick := trim (pp_nickname pg) in
  let lg := toLowerCase (trim (pp_login pg)) in
  let bioText := trim (pp_bio pg) in
  if Nat.ltb (js_length nick) 3 then (showMessage b NICKNAME_SHORT MT_error, pg)
  else if negb (String.eqb lg "") && Nat.ltb (js_length lg) 3 then (showMessage b LOGIN_SHORT MT_error, pg)
  else if negb (String.eqb lg "") && negb (login_pattern lg) then (showMessage b LOGIN_CHARSET MT_error, pg)
  else if negb (String.eqb lg "") &&
          match ls_database (local b) with Some db => login_taken db (pp_user pg) lg | None => false end
  then (showMessage b LOGIN_TAKEN MT_error, pg)
  else
    let '(b1, pg1) := save_page b pg (mkPatch (Some nick) (Some (js_str_or_undef lg)) (Some (Some bioText))
                                        None None None) in
    (showMessage b1 PROFILE_SAVED MT_success, pg1).

(** ** Lemmas *)

Lemma id_apply_patch (u : User) (p : Patch) : id (apply_patch u p) = id u.
Proof. reflexivity. Qed.

Lemma saveProfile_database (ls : LocalStorage) (u : User) (p : Patch) :
  ls_database (fst (saveProfile ls u p)) = option_map (fun db => save_user db (apply_patch u p)) (ls_database ls).
Proof.
  unfold saveProfile, save_user, set_currentUser. simpl. destruct (ls_database ls) as [db|]; [|reflexivity].
  simpl. destruct (user_index db (id u)); reflexivity.
Qed.

Lemma saveProfile_currentUser (ls : LocalStorage) (u : User) (p : Patch) :
  ls_currentUser (fst (saveProfile ls u p)) = Some (apply_patch u p) /\
  snd (saveProfile ls u p) = apply_patch u p.
Proof.
  unfold saveProfile, set_currentUser. simpl. destruct (ls_database ls) as [db|]; [|auto].
  destruct (user_index db (id u)); auto.
Qed.

Lemma saveProfile_loggedIn (ls : LocalStorage) (u : User) (p : Patch) :
  ls_loggedIn (fst (saveProfile ls u p)) = ls_loggedIn ls /\ ls_settings (fst (saveProfile ls u p)) = ls_settings ls.
Proof.
  unfold saveProfile, set_currentUser. simpl. destruct (ls_database ls) as [db|]; [|auto].
  destruct (user_index db (id u)); auto.
Qed.

Lemma save_page_spec (b : Browser) (pg : ProfilePage) (p : Patch) :
  save_page b pg p = (with_local b (fst (saveProfile (local b) (pp_user pg) p)),
                      with_user pg (apply_patch (pp_user pg) p)).
Proof.
  unfold save_page. destruct (saveProfile_currentUser (local b) (pp_user pg) p) as [_ H].
  destruct (saveProfile (local b) (pp_user pg) p). simpl in *. subst. reflexivity.
Qed.

(** The patch of a submit that passes its checks. *)
Definition submit_patch (pg : ProfilePage) : Patch :=
  mkPatch (Some (trim (pp_nickname pg))) (Some (js_str_or_undef (toLowerCase (trim (pp_login pg)))))
    (Some (Some (trim (pp_bio pg)))) None None None.

(** The submit either shows an error and changes nothing, or its checks
    passed and it saves the form. *)
Lemma onSubmit_cases (b : Browser) (pg : ProfilePage) :
  (exists m, onSubmit b pg = (showMessage b m MT_error, pg)) \/
  (let lg := toLowerCase (trim (pp_login pg)) in
   (lg <> "" -> forall db, ls_database (local b) = Some db -> login_taken db (pp_user pg) lg = false) /\
   onSubmit b pg =
     (showMessage (with_local b (fst (saveProfile (local b) (pp_user pg) (submit_patch pg)))) PROFILE_SAVED MT_success,
      with_user pg (apply_patch (pp_user pg) (submit_patch pg)))).
Proof.
  unfold onSubmit. cbv zeta.
  repeat (case_match; [left; eexists; reflexivity|]).
  right. split.
  - intros Hne db Hdb. rewrite Hdb in *. apply String.eqb_neq in Hne. rewrite Hne in *.
    simpl in *. assumption.
  - rewrite save_page_spec. reflexivity.
Qed.

(** No other user holds the login when [login_taken] is false. *)
Lemma login_taken_false (db : Database) (u : User) (l : string) (v : User) :
  login_taken db u l = false -> v ∈ users db -> login v = Some l -> id v = id u.
Proof.
  unfold login_taken. intros Ht Hv Hl. destruct (List.find _ (users db)) eqn:Hf; [discriminate|].
  apply list_elem_of_In in Hv. pose proof (find_none _ _ Hf v Hv) as H. simpl in H.
  rewrite Hl, String.eqb_refl in H. simpl in H. apply negb_false_iff, String.eqb_eq in H. exact H.
Qed.

(** The login uniqueness of [save_user] after a passed check. *)
Lemma save_user_logins_unique (db : Database) (u : User) :
  NoDup (map id (users db)) -> NoDup (omap login (users db)) ->
  (forall l v, login u = Some l -> v ∈ users db -> login v = Some l -> id v = id u) ->
  NoDup (omap login (users (save_user db u))).
Proof.
  intros Hids Hnd Hfree. unfold save_user. destruct (user_index db (id u)) as [i|] eqn:Hi; [|exact Hnd].
  destruct (user_index_find db (id u) i Hi) as (w & Hw & Hwid).
  apply NoDup_omap_insert; [exact Hnd|]. intros l j v Hl Hj Hv Hvl.
  apply Hj. apply (NoDup_lookup (map id (users db)) j i (id u) Hids).
  - rewrite list_lookup_fmap, Hv. simpl. f_equal. apply (Hfree l v Hl); [|exact Hvl].
    eapply list_elem_of_lookup_2; eauto.
  - rewrite list_lookup_fmap, Hw. simpl. f_equal. exact Hwid.
Qed.

(** ** Properties *)

(** C35: logins stay unique.  When no two records of ['mesaDatabase']
    share an id or a login, a submit of the profile form keeps the logins
    free of duplicates: the check [u.login === login && u.id !== user.id]
    runs on the lower-cased login the save writes. *)
Theorem onSubmit_logins_unique (b : Browser) (pg : ProfilePage) (db db' : Database) :
  ls_database (local b) = Some db -> NoDup (map id (users db)) -> NoDup (omap login (users db)) ->
  ls_database (local (fst (onSubmit b pg))) = Some db' -> NoDup (omap login (users db')).
Proof.
  intros Hdb Hids Hnd Hdb'.
  destruct (onSubmit_cases b pg) as [[m Heq] | (Hfree & Heq)]; rewrite Heq in Hdb'; simpl in Hdb'.
  - rewrite Hdb in Hdb'. injection Hdb' as <-. exact Hnd.
  - rewrite saveProfile_database, Hdb in Hdb'. injection Hdb' as <-.
    apply save_user_logins_unique; [exact Hids | exact Hnd |].
    intros l v Hl Hv Hvl. simpl in Hl. unfold js_str_or_undef in Hl.
    destruct (String.eqb _ "") eqn:He; [discriminate|]. injection Hl as <-.
    apply String.eqb_neq in He. exact (login_taken_false db _ _ v (Hfree He db Hdb) Hv Hvl).
Qed.

(** C36: the profile form writes its load-time snapshot.  A successful
    submit replaces the user's record in ['mesaDatabase'] and
    ['mesaCurrentUser'] by the object the page read when it was opened,
    with the three form fields changed: the friends, subscriptions and
    notifications the record gained in the meantime (from another tab)
    are lost. *)
Theorem profile_submit_writes_snapshot (b : Browser) (pg : ProfilePage) (db : Database) (i : nat) :
  ls_database (local b) = Some db -> user_index db (id (pp_user pg)) = Some i ->
  formMessage (fst (onSubmit b pg)) = Some (PROFILE_SAVED, MT_success) ->
  exists db' u', ls_database (local (fst (onSubmit b pg))) = Some db' /\
    find_user db' (id (pp_user pg)) = Some u' /\
    ls_currentUser (local (fst (onSubmit b pg))) = Some u' /\
    friends u' = friends (pp_user pg) /\ subscriptions u' = subscriptions (pp_user pg) /\
    notifications u' = notifications (pp_user pg) /\ nickname u' = trim (pp_nickname pg).
Proof.
  intros Hdb Hi Hmsg.
  destruct (onSubmit_cases b pg) as [[m Heq] | (_ & Heq)]; rewrite Heq in *; simpl in Hmsg.
  - discriminate.
  - cbn [fst local showMessage with_local]. rewrite saveProfile_database, Hdb. simpl.
    destruct (saveProfile_currentUser (local b) (pp_user pg) (submit_patch pg)) as [Hc _].
    eexists _, _. split; [reflexivity|]. split.
    + unfold save_user. rewrite id_apply_patch, Hi.
      exact (find_user_set_user_at db (apply_patch (pp_user pg) (submit_patch pg)) i Hi).
    + rewrite Hc. repeat split.
Qed.

End Profile.
