(* ===== verification/Dom.v ===== *)
(** * The DOM the banner editor reads and writes

    The editor (src/src/banner-editor.ts) renders by mutating DOM nodes in
    place, and it holds a node across events ([dragState.element]), so the
    model keeps node identity: every node of the canvas carries a [handle],
    allocated from [nextHandle] when [document.createElement] builds a
    widget node.  Writes through a handle whose node has been removed from
    the canvas change nothing visible (a detached node).

    Modelled: the [.banner-element] children of [#bannerCanvas] in
    document order ([data-element-id], [data-element-type="widget"],
    [style.display/left/top/zIndex], the [selected] and [dragging]
    classes, the styled text child [.profile-name]/[.profile-subtitle] of
    the username/subtitle nodes, the [.profile-widget] content child of a
    widget node with its [transform]); the [edit-mode] class of
    [#profileBanner]; the toolbar controls; the three popovers; the two
    text inputs.  Not modelled: CSS layout, the sticker grid buttons and
    font options built once by [init]. *)

From S2P Require Import Prelude Types Widgets.

Module Dom.

(** The nested text element of a username/subtitle node and its inline
    style ([style.color], [style.fontFamily], [style.fontSize]) with the
    [custom-color] class.  An empty string is a cleared property. *)
Record TextEl := mkTextEl {
  t_class : string;            (** ["profile-name"] or ["profile-subtitle"] *)
  t_customColor : bool;
  t_color : string;
  t_fontFamily : string;
  t_fontSize : option Q;       (** [Some n] for [`${n}px`], [None] for [''] *)
}.

(** The [.profile-widget] child built by [createWidgetContent]: its kind
    class, its text (the [textContent], or the [img.src] of a GIF) and its
    transform ([Some (a, b)] for [scale(a, b)], [None] for ['']). *)
Record Content := mkContent {
  c_type : WidgetType;
  c_text : string;
  c_transform : option (Q * Q);
}.

Record Node := mkNode {
  handle : nat;
  data_element_id : string;
  is_widget_node : bool;        (** [data-element-type="widget"] *)
  display_none : bool;          (** [style.display = 'none'] *)
  left : option Q;              (** [style.left = `${x}%`] *)
  top : option Q;               (** [style.top = `${y}%`] *)
  z_index : option Q;
  selected : bool;
  dragging : bool;
  textEl : option TextEl;
  widgetContent : option Content;
}.

Record Toolbar := mkToolbar {
  deleteDisabled : bool;        (** [#toolbarDeleteSelected.disabled] *)
  resizeShown : bool;           (** [#toolbarResize] displayed *)
  textStyleShown : bool;        (** [#toolbarTextStyle] displayed *)
  scaleValue : Q;               (** [#toolbarScaleValue]: [`${n}%`] *)
  stretchXValue : Q;
  stretchYValue : Q;
  colorValue : string;          (** [#toolbarTextColor.value] *)
  fontValue : string;           (** [#toolbarFontFamily.value] *)
  fontSizeValue : Q;            (** [#toolbarFontSizeValue]: [`${n}px`] *)
}.

Inductive Popover := bannerStickerPicker | bannerGifInput | bannerTextInput.

Record Dom := mkDom {
  canvas : list Node;
  nextHandle : nat;
  bannerEditMode : bool;        (** [edit-mode] class of [#profileBanner] *)
  toolbar : Toolbar;
  stickerPickerShown : bool;
  gifInputShown : bool;
  textInputShown : bool;
  textValue : string;           (** [#bannerTextValue.value] *)
  gifUrl : string;              (** [#bannerGifUrl.value] *)
}.

(** ** Field updates *)

Definition with_canvas (d : Dom) (c : list Node) : Dom :=
  mkDom c (nextHandle d) (bannerEditMode d) (toolbar d) (stickerPickerShown d)
    (gifInputShown d) (textInputShown d) (textValue d) (gifUrl d).

Definition with_toolbar (d : Dom) (t : Toolbar) : Dom :=
  mkDom (canvas d) (nextHandle d) (bannerEditMode d) t (stickerPickerShown d)
    (gifInputShown d) (textInputShown d) (textValue d) (gifUrl d).

Definition with_editMode (d : Dom) (b : bool) : Dom :=
  mkDom (canvas d) (nextHandle d) b (toolbar d) (stickerPickerShown d)
    (gifInputShown d) (textInputShown d) (textValue d) (gifUrl d).

Definition with_popovers (d : Dom) (sp gi ti : bool) : Dom :=
  mkDom (canvas d) (nextHandle d) (bannerEditMode d) (toolbar d) sp gi ti
    (textValue d) (gifUrl d).

Definition with_inputs (d : Dom) (tv gu : string) : Dom :=
  mkDom (canvas d) (nextHandle d) (bannerEditMode d) (toolbar d) (stickerPickerShown d)
    (gifInputShown d) (textInputShown d) tv gu.

Definition set_position (pos : BannerPosition) (z : Q) (n : Node) : Node :=
  mkNode (handle n) (data_element_id n) (is_widget_node n) (display_none n)
    (Some (x pos)) (Some (y pos)) (Some z) (selected n) (dragging n) (textEl n) (widgetContent n).

Definition set_left_top (pos : BannerPosition) (n : Node) : Node :=
  mkNode (handle n) (data_element_id n) (is_widget_node n) (display_none n)
    (Some (x pos)) (Some (y pos)) (z_index n) (selected n) (dragging n) (textEl n) (widgetContent n).

Definition set_display_none (b : bool) (n : Node) : Node :=
  mkNode (handle n) (data_element_id n) (is_widget_node n) b
    (left n) (top n) (z_index n) (selected n) (dragging n) (textEl n) (widgetContent n).

Definition set_selected (b : bool) (n : Node) : Node :=
  mkNode (handle n) (data_element_id n) (is_widget_node n) (display_none n)
    (left n) (top n) (z_index n) b (dragging n) (textEl n) (widgetContent n).

Definition set_dragging (b : bool) (n : Node) : Node :=
  mkNode (handle n) (data_element_id n) (is_widget_node n) (display_none n)
    (left n) (top n) (z_index n) (selected n) b (textEl n) (widgetContent n).

Definition set_textEl (t : TextEl) (n : Node) : Node :=
  mkNode (handle n) (data_element_id n) (is_widget_node n) (display_none n)
    (left n) (top n) (z_index n) (selected n) (dragging n) (Some t) (widgetContent n).

Definition set_content (c : Content) (n : Node) : Node :=
  mkNode (handle n) (data_element_id n) (is_widget_node n) (display_none n)
    (left n) (top n) (z_index n) (selected n) (dragging n) (textEl n) (Some c).

(** ** Queries and in-place updates *)

(** [canvas.querySelector(`[data-element-id="${eid}"]`)]: the first node
    in document order. *)
Definition query (d : Dom) (eid : string) : option Node :=
  List.find (fun n => String.eqb (data_element_id n) eid) (canvas d).

(** Mutating the node [querySelector] returned. *)
Definition update_query (d : Dom) (eid : string) (f : Node -> Node) : Dom :=
  with_canvas d (update_first (fun n => String.eqb (data_element_id n) eid) f (canvas d)).

(** Mutating a node held by reference. *)
Definition update_handle (d : Dom) (h : nat) (f : Node -> Node) : Dom :=
  with_canvas d (update_first (fun n => Nat.eqb (handle n) h) f (canvas d)).

Definition node_of_handle (d : Dom) (h : nat) : option Node :=
  List.find (fun n => Nat.eqb (handle n) h) (canvas d).

(** [el.remove()] on a node held by reference. *)
Definition remove_handle (d : Dom) (h : nat) : Dom :=
  with_canvas d (List.filter (fun n => negb (Nat.eqb (handle n) h)) (canvas d)).

(** [canvas.appendChild(el)] of a node just created with the next handle. *)
Definition append_node (d : Dom) (mk : nat -> Node) : Dom :=
  mkDom (canvas d ++ [mk (nextHandle d)]) (S (nextHandle d)) (bannerEditMode d) (toolbar d)
    (stickerPickerShown d) (gifInputShown d) (textInputShown d) (textValue d) (gifUrl d).

(** [removeWidgetElements()]: every [data-element-type="widget"] node. *)
Definition removeWidgetElements (d : Dom) : Dom :=
  with_canvas d (List.filter (fun n => negb (is_widget_node n)) (canvas d)).

(** [hideAllPopovers()]. *)
Definition hideAllPopovers (d : Dom) : Dom := with_popovers d false false false.

(** [showPopover(id)]. *)
Definition showPopover (d : Dom) (p : Popover) : Dom :=
  match p with
  | bannerStickerPicker => with_popovers d true false false
  | bannerGifInput => with_popovers d false true false
  | bannerTextInput => with_popovers d false false true
  end.

End Dom.
