(* ===== verification/Editor.v ===== *)
(** * The banner editor: state, handlers, events

    [class BannerEditor] of src/src/banner-editor.ts.  The record [Editor]
    holds the class's fields ([user], [isEditMode], [layout], [widgets],
    [layoutSnapshot], [widgetsSnapshot], [dragState], [selectedElementId])
    together with what the handlers write outside the object: the DOM
    ([Dom.Dom]), [localStorage] and the [alert] messages shown.  Each
    method is one definition of the same name; the listeners [init]
    registers are the constructors of [Event], dispatched by [step].

    The second half of the file proves the editor's properties: the edit
    session (snapshot, cancel, save and its round trip through storage),
    the widget cap, the drag protocol, scale and delete.

    An uncaught [TypeError] ends the handler; the one the model can reach
    (cancelling before any edit session, when [layoutSnapshot] is still
    undefined) sets [crashed], after which the model stops. *)

From S2P Require Import Prelude Types Geometry Widgets Storage Dom.
Import Geometry Widgets Dom.

Module Editor.

(** ** State *)

Record DragState := mkDrag {
  active : bool;
  d_elementId : option string;
  startPointer : Point;
  startPosition : BannerPosition;
  d_element : option nat;      (** the dragged node, by reference *)
}.

Definition drag_idle : DragState := mkDrag false None (mkPoint 0 0) (mkPos 0 0) None.

Record Editor := mkEditor {
  user : User;
  isEditMode : bool;
  layout : BannerLayout;
  widgets : list ProfileWidget;
  layoutSnapshot : option BannerLayout;   (** [undefined] until the first [enterEditMode] *)
  widgetsSnapshot : list ProfileWidget;
  dragState : DragState;
  selectedElementId : option string;
  dom : Dom;
  storage : LocalStorage;
  alerts : list string;
  crashed : bool;
}.

(** ** Field updates *)

Definition with_dom (e : Editor) (d : Dom) : Editor :=
  mkEditor (user e) (isEditMode e) (layout e) (widgets e) (layoutSnapshot e)
    (widgetsSnapshot e) (dragState e) (selectedElementId e) d (storage e) (alerts e) (crashed e).

Definition with_model (e : Editor) (l : BannerLayout) (ws : list ProfileWidget) : Editor :=
  mkEditor (user e) (isEditMode e) l ws (layoutSnapshot e)
    (widgetsSnapshot e) (dragState e) (selectedElementId e) (dom e) (storage e) (alerts e) (crashed e).

Definition with_selected (e : Editor) (s : option string) : Editor :=
  mkEditor (user e) (isEditMode e) (layout e) (widgets e) (layoutSnapshot e)
    (widgetsSnapshot e) (dragState e) s (dom e) (storage e) (alerts e) (crashed e).

Definition with_drag (e : Editor) (ds : DragState) : Editor :=
  mkEditor (user e) (isEditMode e) (layout e) (widgets e) (layoutSnapshot e)
    (widgetsSnapshot e) ds (selectedElementId e) (dom e) (storage e) (alerts e) (crashed e).

Definition with_alert (e : Editor) (msg : string) : Editor :=
  mkEditor (user e) (isEditMode e) (layout e) (widgets e) (layoutSnapshot e)
    (widgetsSnapshot e) (dragState e) (selectedElementId e) (dom e) (storage e)
    (alerts e ++ [msg]) (crashed e).

Definition with_user_storage (e : Editor) (u : User) (ls : LocalStorage) : Editor :=
  mkEditor u (isEditMode e) (layout e) (widgets e) (layoutSnapshot e)
    (widgetsSnapshot e) (dragState e) (selectedElementId e) (dom e) ls (alerts e) (crashed e).

Definition with_mode (e : Editor) (b : bool) : Editor :=
  mkEditor (user e) b (layout e) (widgets e) (layoutSnapshot e)
    (widgetsSnapshot e) (dragState e) (selectedElementId e) (dom e) (storage e) (alerts e) (crashed e).

Definition with_snapshot (e : Editor) (l : BannerLayout) (ws : list ProfileWidget) : Editor :=
  mkEditor (user e) (isEditMode e) (layout e) (widgets e) (Some l)
    ws (dragState e) (selectedElementId e) (dom e) (storage e) (alerts e) (crashed e).

Definition with_crash (e : Editor) : Editor :=
  mkEditor (user e) (isEditMode e) (layout e) (widgets e) (layoutSnapshot e)
    (widgetsSnapshot e) (dragState e) (selectedElementId e) (dom e) (storage e) (alerts e) true.

(** ** Rendering helpers *)

Definition is_text_type (t : BannerElementType) : bool :=
  match t with ET_username | ET_subtitle => true | _ => false end.

(** The class [applyTextStyleToElement] looks for. *)
Definition text_class_for (t : BannerElementType) : string :=
  match t with ET_username => "profile-name" | _ => "profile-subtitle" end.

(** [if (style.fontSize)] on a number. *)
Definition js_num_truthy (o : option Q) : option Q :=
  match o with Some q => if Qeq_bool q 0 then None else Some q | None => None end.

Definition styled_text (style : TextStyle) (t : TextEl) : TextEl :=
  mkTextEl (t_class t)
    (match color style with Some c => negb (String.eqb c "") | None => false end)
    (js_str_or (color style) "")
    (js_str_or (fontFamily style) "")
    (js_num_truthy (fontSize style)).

(** [applyTextStyleToElement(el, style, type)]. *)
Definition applyTextStyleToElement (n : Node) (style : TextStyle) (ty : BannerElementType) : Node :=
  match textEl n with
  | Some t => if String.eqb (t_class t) (text_class_for ty) then set_textEl (styled_text style t) n else n
  | None => n
  end.

(** One iteration of [applyLayout]'s loop ([if (!domEl) continue] is the
    no-op of [update_query] on a missing node). *)
Definition applyElement (d : Dom) (elDef : BannerElement) : Dom :=
  update_query d (el_id elDef) (fun n =>
    let n1 := set_position (position elDef) (zIndex elDef) (set_display_none (negb (visible elDef)) n) in
    if is_text_type (el_type elDef) then
      match textStyle elDef with
      | Some ts => applyTextStyleToElement n1 ts (el_type elDef)
      | None => n1
      end
    else n1).

Definition applyLayout (l : BannerLayout) (d : Dom) : Dom := fold_left applyElement (elements l) d.

(** [createWidgetContent(widget)], before [applyWidgetTransform]. *)
Definition createWidgetContent (w : ProfileWidget) : Content :=
  mkContent (w_type w)
    (match w_type w with
     | WT_text => content w
     | WT_sticker => stickerGlyph (content w)
     | WT_gif => content w
     end) None.

Definition applyWidgetTransform (c : Content) (w : ProfileWidget) : Content :=
  mkContent (c_type c) (c_text c) (widgetTransform w).

(** The node [renderWidgetOnCanvas] builds, with handle [h]. *)
Definition widgetNode (w : ProfileWidget) (h : nat) : Node :=
  let pos := match canvasPosition w with Some p => p | None => mkPos 50 50 end in
  mkNode h (widget_element_id w) true false (Some (x pos)) (Some (y pos))
    (Some (js_num_or (w_zIndex w) 20)) false false None
    (Some (applyWidgetTransform (createWidgetContent w) w)).

Definition renderWidgetOnCanvas (d : Dom) (w : ProfileWidget) : Dom := append_node d (widgetNode w).

Definition renderAllWidgets (ws : list ProfileWidget) (d : Dom) : Dom :=
  fold_left renderWidgetOnCanvas ws d.

(** ** Toolbar displays *)

Definition updateScaleDisplay (t : Toolbar) (s : Q) : Toolbar :=
  mkToolbar (deleteDisabled t) (resizeShown t) (textStyleShown t) (math_round (s * 100))
    (stretchXValue t) (stretchYValue t) (colorValue t) (fontValue t) (fontSizeValue t).

Definition updateStretchDisplay (t : Toolbar) (sx sy : Q) : Toolbar :=
  mkToolbar (deleteDisabled t) (resizeShown t) (textStyleShown t) (scaleValue t)
    (math_round (sx * 100)) (math_round (sy * 100)) (colorValue t) (fontValue t) (fontSizeValue t).

Definition updateTextStyleDisplay (l : BannerLayout) (eid : string) (t : Toolbar) : Toolbar :=
  match find_core l eid with
  | None => t
  | Some elDef =>
      let style := match textStyle elDef with Some s => s | None => empty_style end in
      mkToolbar (deleteDisabled t) (resizeShown t) (textStyleShown t) (scaleValue t)
        (stretchXValue t) (stretchYValue t)
        (js_str_or (color style) (if String.eqb eid "username" then "#f97316" else "#94a3b8"))
        (js_str_or (fontFamily style) "")
        (js_num_or (fontSize style) (defaultFontSize eid))
  end.

Definition set_sections (t : Toolbar) (delDisabled resize textStyle : bool) : Toolbar :=
  mkToolbar delDisabled resize textStyle (scaleValue t) (stretchXValue t) (stretchYValue t)
    (colorValue t) (fontValue t) (fontSizeValue t).

(** ** Selection *)

(** [deselectAll()]. *)
Definition deselectAll (e : Editor) : Editor :=
  let d := dom e in
  let d1 := with_canvas d (map (set_selected false) (canvas d)) in
  let d2 := with_toolbar d1 (set_sections (toolbar d1) true false false) in
  with_dom (with_selected e None) d2.

(** [selectElement(elementId)]. *)
Definition selectElement (e : Editor) (eid : string) : Editor :=
  let e1 := with_selected (deselectAll e) (Some eid) in
  let d := update_query (dom e1) eid (set_selected true) in
  let t := toolbar d in
  let del := negb (is_widget_element eid) in
  let t' :=
    if is_widget_element eid then
      match find_widget (widgets e1) (widget_id_of eid) with
      | Some w =>
          if resizable w then
            updateStretchDisplay
              (updateScaleDisplay (set_sections t del true false) (js_num_or (scale w) 1))
              (js_num_or (stretchX w) 1) (js_num_or (stretchY w) 1)
          else set_sections t del false false
      | None => set_sections t del false false
      end
    else if (String.eqb eid "username" || String.eqb eid "subtitle")%bool then
      updateTextStyleDisplay (layout e1) eid (set_sections t del false true)
    else set_sections t del false false in
  with_dom e1 (with_toolbar d t').

(** ** Edit session *)

(** [loadLayout()]: the user's layout when it has a truthy [version]. *)
Definition loadLayout (u : User) : BannerLayout :=
  match bannerLayout u with
  | Some l => if Qeq_bool (version l) 0 then DEFAULT_BANNER_LAYOUT else l
  | None => DEFAULT_BANNER_LAYOUT
  end.

(** [this.user.profileWidgets ? [...this.user.profileWidgets] : []]. *)
Definition loadWidgets (u : User) : list ProfileWidget :=
  match profileWidgets u with Some ws => ws | None => [] end.

(** [new BannerEditor(user)] followed by [init()], on the page's DOM [d0]
    and storage [ls0]. *)
Definition init (u : User) (d0 : Dom) (ls0 : LocalStorage) : Editor :=
  let l := loadLayout u in
  let ws := loadWidgets u in
  mkEditor u false l ws None [] drag_idle None (renderAllWidgets ws (applyLayout l d0)) ls0 [] false.

(** [enterEditMode()]. *)
Definition enterEditMode (e : Editor) : Editor :=
  let e1 := with_mode e true in
  let e2 := with_dom e1 (with_editMode (dom e1) true) in
  with_snapshot e2 (layout e2) (widgets e2).

(** [saveLayout()]: the user object gets the layout and widgets, and is
    written to [mesaCurrentUser] and over its entry in [mesaDatabase]. *)
Definition saveLayout (e : Editor) : Editor :=
  let u := set_banner (user e) (Some (layout e)) (Some (widgets e)) in
  let ls1 := set_currentUser (storage e) u in
  let ls2 :=
    match ls_database ls1 with
    | Some db =>
        match user_index db (id u) with
        | Some idx => set_database ls1 (set_user_at db idx u)
        | None => ls1
        end
    | None => ls1
    end in
  with_user_storage e u ls2.

(** [exitEditMode(save)]. *)
Definition exitEditMode (e : Editor) (save : bool) : Editor :=
  let e1 := with_mode e false in
  let e2 := with_selected (with_dom e1 (with_editMode (dom e1) false)) None in
  let e3 := deselectAll (with_dom e2 (hideAllPopovers (dom e2))) in
  if save then saveLayout e3
  else
    match layoutSnapshot e3 with
    | Some snap =>
        let e4 := with_model e3 snap (widgetsSnapshot e3) in
        with_dom e4 (renderAllWidgets (widgets e4)
                       (applyLayout (layout e4) (removeWidgetElements (dom e4))))
    | None =>
        (* [this.layout = undefined]; [removeWidgetElements] runs, then
           [applyLayout] throws on [undefined.elements]. *)
        with_crash (with_dom (with_model e3 (layout e3) (widgetsSnapshot e3))
                      (removeWidgetElements (dom e3)))
    end.

(** [toggleEditMode()]. *)
Definition toggleEditMode (e : Editor) : Editor :=
  if isEditMode e then exitEditMode e false else enterEditMode e.

(** [resetLayout()], with the answer of the [confirm] dialog. *)
Definition resetLayout (e : Editor) (confirmed : bool) : Editor :=
  if negb confirmed then e
  else
    let e1 := with_model e DEFAULT_BANNER_LAYOUT [] in
    let e2 := with_dom e1 (applyLayout DEFAULT_BANNER_LAYOUT (removeWidgetElements (dom e1))) in
    deselectAll e2.

(** ** Drag and drop *)

(** Where a [pointerdown] lands: [closest('.banner-element')] is null, is
    a node outside [#bannerCanvas], or is the canvas node [h]. *)
Inductive PointerTarget := PT_none | PT_outside | PT_node (h : nat).

(** [onPointerDown(e)].  [setPointerCapture] is not modelled: nothing in
    the code reads the capture. *)
Definition onPointerDown (e : Editor) (tgt : PointerTarget) (p : Point) : Editor :=
  if negb (isEditMode e) then e
  else
    match tgt with
    | PT_none => let e1 := deselectAll e in with_dom e1 (hideAllPopovers (dom e1))
    | PT_outside => e
    | PT_node h =>
        match node_of_handle (dom e) h with
        | None => e
        | Some n =>
            let eid := data_element_id n in
            let e1 := selectElement e eid in
            let currentPos := getElementPosition (layout e1) (widgets e1) eid in
            let e2 := with_drag e1 (mkDrag true (Some eid) p currentPos (Some h)) in
            with_dom e2 (update_handle (dom e2) h (set_dragging true))
        end
    end.

(** [onPointerMove(e)]; [canvasRect] is [canvas.getBoundingClientRect()]
    at the time of the event.  The event's pointer id is not consulted. *)
Definition onPointerMove (e : Editor) (p : Point) (canvasRect : Rect) : Editor :=
  let ds := dragState e in
  if negb (active ds) then e
  else
    match d_element ds with
    | None => e
    | Some h =>
        let newPos := drag_position (startPointer ds) (startPosition ds) canvasRect p in
        let e1 := with_dom e (update_handle (dom e) h (set_left_top newPos)) in
        match d_elementId ds with
        | Some eid =>
            let '(l, ws) := setElementPosition (layout e1) (widgets e1) eid newPos in
            with_model e1 l ws
        | None => e1
        end
    end.

(** [onPointerUp(e)]. *)
Definition onPointerUp (e : Editor) : Editor :=
  let ds := dragState e in
  if negb (active ds) then e
  else
    let e1 := match d_element ds with
              | Some h => with_dom e (update_handle (dom e) h (set_dragging false))
              | None => e
              end in
    with_drag e1 drag_idle.

(** ** Widgets *)

Definition WIDGET_LIMIT_MESSAGE : string := "Максимум 6 виджетов!".

(** The common tail of the three [add*Widget] methods: the cap check, the
    push, the render; [finish] is what the method does to the DOM after. *)
Definition addWidget (e : Editor) (w : ProfileWidget) (finish : Dom -> Dom) : Editor :=
  if Nat.leb MAX_WIDGETS (length (widgets e)) then with_alert e WIDGET_LIMIT_MESSAGE
  else
    let e1 := with_model e (layout e) (widgets e ++ [w]) in
    with_dom e1 (finish (renderWidgetOnCanvas (dom e1) w)).

(** [addTextWidget()]; [now] is [Date.now().toString()]. *)
Definition addTextWidget (e : Editor) (now : string) : Editor :=
  let text := trim (textValue (dom e)) in
  if String.eqb text "" then e
  else addWidget e (newTextWidget now text)
         (fun d => hideAllPopovers (with_inputs d "" (gifUrl d))).

Definition addGifWidget (e : Editor) (now : string) : Editor :=
  let url := trim (gifUrl (dom e)) in
  if String.eqb url "" then e
  else addWidget e (newGifWidget now url)
         (fun d => hideAllPopovers (with_inputs d (textValue d) "")).

Definition addStickerWidget (e : Editor) (now stickerKey : string) : Editor :=
  addWidget e (newStickerWidget now stickerKey) hideAllPopovers.

(** [deleteSelectedElement()]. *)
Definition deleteSelectedElement (e : Editor) : Editor :=
  match selectedElementId e with
  | Some sel =>
      if is_widget_element sel then
        let wid := widget_id_of sel in
        let e1 := with_model e (layout e)
                    (List.filter (fun w => negb (String.eqb (w_id w) wid)) (widgets e)) in
        let d := match query (dom e1) sel with
                 | Some n => remove_handle (dom e1) (handle n)
                 | None => dom e1
                 end in
        deselectAll (with_dom e1 d)
      else e
  | None => e
  end.

(** The DOM part of [changeWidgetScale]/[changeWidgetStretch]: the
    selected node's content gets the widget's transform. *)
Definition retransform (d : Dom) (sel : string) (w : ProfileWidget) : Dom :=
  update_query d sel (fun n =>
    match widgetContent n with
    | Some c => set_content (applyWidgetTransform c w) n
    | None => n
    end).

(** The guards shared by the two resize handlers: a selected widget, of
    kind sticker or GIF. *)
Definition selected_resizable (e : Editor) : option (string * ProfileWidget) :=
  match selectedElementId e with
  | Some sel =>
      if is_widget_element sel then
        match find_widget (widgets e) (widget_id_of sel) with
        | Some w => if resizable w then Some (sel, w) else None
        | None => None
        end
      else None
  | None => None
  end.

(** [changeWidgetScale(delta)]. *)
Definition changeWidgetScale (e : Editor) (delta : Q) : Editor :=
  match selected_resizable e with
  | Some (sel, w) =>
      let newScale := scale_step (js_num_or (scale w) 1) delta in
      let w' := set_scale newScale w in
      let e1 := with_model e (layout e)
                  (update_first (fun v => String.eqb (w_id v) (widget_id_of sel)) (scaled delta)
                     (widgets e)) in
      let d := retransform (dom e1) sel w' in
      with_dom e1 (with_toolbar d (updateScaleDisplay (toolbar d) newScale))
  | None => e
  end.

(** [changeWidgetStretch(axis, delta)]. *)
Definition changeWidgetStretch (e : Editor) (axis : Axis) (delta : Q) : Editor :=
  match selected_resizable e with
  | Some (sel, w) =>
      let w' := stretched axis delta w in
      let e1 := with_model e (layout e)
                  (update_first (fun v => String.eqb (w_id v) (widget_id_of sel))
                     (stretched axis delta) (widgets e)) in
      let d := retransform (dom e1) sel w' in
      with_dom e1 (with_toolbar d (updateStretchDisplay (toolbar d)
                                     (js_num_or (stretchX w') 1) (js_num_or (stretchY w') 1)))
  | None => e
  end.

(** ** Text style *)

(** The guards shared by the two text-style handlers: the selection is
    [username] or [subtitle] and names an element of the layout. *)
Definition selected_text_element (e : Editor) : option (string * BannerElement) :=
  match selectedElementId e with
  | Some sel =>
      if (String.eqb sel "username" || String.eqb sel "subtitle")%bool then
        match find_core (layout e) sel with
        | Some elDef => Some (sel, elDef)
        | None => None
        end
      else None
  | None => None
  end.

(** Writing a new style on the element [sel]: the in-place update of
    [elDef.textStyle] and [applyTextStyleToElement] on its node. *)
Definition restyle (e : Editor) (sel : string) (ty : BannerElementType) (style : TextStyle) : Editor :=
  let e1 := with_model e
              (with_elements (layout e)
                 (update_first (fun el => String.eqb (el_id el) sel) (set_el_textStyle style)
                    (elements (layout e)))) (widgets e) in
  with_dom e1 (update_query (dom e1) sel (fun n => applyTextStyleToElement n style ty)).

Definition style_or_empty (elDef : BannerElement) : TextStyle :=
  match textStyle elDef with Some s => s | None => empty_style end.

(** [changeTextStyle(updates)]. *)
Definition changeTextStyle (e : Editor) (updates : TextStyleUpdate) : Editor :=
  match selected_text_element e with
  | Some (sel, elDef) => restyle e sel (el_type elDef) (assign (style_or_empty elDef) updates)
  | None => e
  end.

(** [changeTextFontSize(delta)]. *)
Definition changeTextFontSize (e : Editor) (delta : Q) : Editor :=
  match selected_text_element e with
  | Some (sel, elDef) =>
      let style := style_or_empty elDef in
      let current := js_num_or (fontSize style) (defaultFontSize sel) in
      let style' := mkTextStyle (color style) (fontFamily style) (Some (font_step current delta)) in
      let e1 := restyle e sel (el_type elDef) style' in
      with_dom e1 (with_toolbar (dom e1) (updateTextStyleDisplay (layout e1) sel (toolbar (dom e1))))
  | None => e
  end.

(** ** Events *)

(** The listeners registered by [init()], one constructor each (the
    [Enter] key in an input triggers the same handler as its button;
    [EvInputText]/[EvInputGif] are the user typing into the inputs). *)
Inductive Event :=
| EvToggleEdit
| EvShowPopover (p : Popover)
| EvDeleteSelected
| EvSave
| EvCancel
| EvReset (confirmed : bool)
| EvTextAdd (now : string)
| EvGifAdd (now : string)
| EvSticker (now stickerKey : string)
| EvScale (up : bool)
| EvStretch (axis : Axis) (up : bool)
| EvTextColor (value : string)
| EvFontFamily (value : string)
| EvFontSize (up : bool)
| EvPointerDown (target : PointerTarget) (pointerId : Z) (p : Point)
| EvPointerMove (pointerId : Z) (p : Point) (canvasRect : Rect)
| EvPointerUp (pointerId : Z)
| EvInputText (s : string)
| EvInputGif (s : string).

Definition step (e : Editor) (ev : Event) : Editor :=
  if crashed e then e
  else
    match ev with
    | EvToggleEdit => toggleEditMode e
    | EvShowPopover p => with_dom e (showPopover (dom e) p)
    | EvDeleteSelected => deleteSelectedElement e
    | EvSave => exitEditMode e true
    | EvCancel => exitEditMode e false
    | EvReset c => resetLayout e c
    | EvTextAdd now => addTextWidget e now
    | EvGifAdd now => addGifWidget e now
    | EvSticker now k => addStickerWidget e now k
    | EvScale up => changeWidgetScale e (if up then 0.1 else -0.1)
    | EvStretch a up => changeWidgetStretch e a (if up then 0.1 else -0.1)
    | EvTextColor v => changeTextStyle e (mkUpdate (Some (Some v)) None None)
    | EvFontFamily v => changeTextStyle e (mkUpdate None (Some (js_str_or_undef v)) None)
    | EvFontSize up => changeTextFontSize e (if up then 2 else -2)
    | EvPointerDown tgt _ p => onPointerDown e tgt p
    | EvPointerMove _ p r => onPointerMove e p r
    | EvPointerUp _ => onPointerUp e
    | EvInputText s => with_dom e (with_inputs (dom e) s (gifUrl (dom e)))
    | EvInputGif s => with_dom e (with_inputs (dom e) (textValue (dom e)) s)
    end.

Definition run (e : Editor) (evs : list Event) : Editor := fold_left step evs e.


(** ** Event classes, reachability, invariants *)

(** Events that do not end the session ([toggle] ends it when editing). *)
Definition in_session (ev : Event) : bool :=
  match ev with EvToggleEdit | EvSave | EvCancel => false | _ => true end.

(** Editors reachable from [init] by events. *)
Inductive reachable : Editor -> Prop :=
| reach_init u d ls : reachable (init u d ls)
| reach_step e ev : reachable e -> reachable (step e ev).

(** What no in-session event changes. *)
Definition frame (e : Editor) : option BannerLayout * list ProfileWidget * bool * bool :=
  (layoutSnapshot e, widgetsSnapshot e, isEditMode e, crashed e).

(** The element named [eid] exists: a core element, or a widget. *)
Definition element_exists (l : BannerLayout) (ws : list ProfileWidget) (eid : string) : Prop :=
  is_Some (find_core l eid) \/
  (is_widget_element eid = true /\ is_Some (find_widget ws (widget_id_of eid))).

Definition mv (m : Z * Point * Rect) : Event := let '(pid, p, r) := m in EvPointerMove pid p r.

(** The layout's [version] is never 0, in the layout or in the snapshot. *)
Definition version_ok (e : Editor) : Prop :=
  ~ version (layout e) == 0 /\ (forall l, layoutSnapshot e = Some l -> ~ version l == 0).

Definition cap_ok (e : Editor) : Prop :=
  (length (widgets e) <= MAX_WIDGETS)%nat /\ (length (widgetsSnapshot e) <= MAX_WIDGETS)%nat.

(** ** Properties *)

(** ** The session frame *)

Lemma frame_deselectAll e : frame (deselectAll e) = frame e.
Proof. reflexivity. Qed.

Lemma frame_selectElement e eid : frame (selectElement e eid) = frame e.
Proof. reflexivity. Qed.

Lemma frame_addWidget e w f : frame (addWidget e w f) = frame e.
Proof. unfold addWidget. case_match; reflexivity. Qed.

Lemma frame_restyle e sel ty st : frame (restyle e sel ty st) = frame e.
Proof. reflexivity. Qed.

Create HintDb frame_rw.
#[local] Hint Rewrite frame_deselectAll frame_selectElement frame_addWidget frame_restyle : frame_rw.

Ltac frame_tac :=
  repeat (case_match || (progress simpl) || (progress autorewrite with frame_rw));
  try reflexivity.

Lemma frame_step e ev : in_session ev = true -> frame (step e ev) = frame e.
Proof.
  intros Hev. unfold step. destruct (crashed e); [reflexivity|].
  destruct ev; try discriminate; simpl.
  all: unfold resetLayout, addTextWidget, addGifWidget, addStickerWidget,
         deleteSelectedElement, changeWidgetScale, changeWidgetStretch, changeTextStyle,
         changeTextFontSize, onPointerDown, onPointerMove, onPointerUp.
  all: frame_tac.
Qed.

Lemma frame_run e evs : Forall (fun ev => in_session ev = true) evs -> frame (run e evs) = frame e.
Proof.
  revert e. induction evs as [|ev evs IH]; intros e Hall; [reflexivity|].
  inversion Hall as [|? ? Hev Hrest]; subst. simpl.
  rewrite IH by exact Hrest. apply frame_step, Hev.
Qed.

Lemma crashed_in_session e ev : in_session ev = true -> crashed (step e ev) = crashed e.
Proof. intros H. pose proof (frame_step e ev H) as Hf. unfold frame in Hf. congruence. Qed.

(** ** Cancel *)

(** [step] of a live editor is the handler of the event. *)
Lemma step_live (e : Editor) (ev : Event) : crashed e = false ->
  step e ev = match ev with
              | EvToggleEdit => toggleEditMode e
              | EvSave => exitEditMode e true
              | EvCancel => exitEditMode e false
              | _ => step e ev
              end.
Proof. intros H. destruct ev; try reflexivity; unfold step; rewrite H; reflexivity. Qed.

Lemma step_move (e : Editor) pid p r : crashed e = false ->
  step e (EvPointerMove pid p r) = onPointerMove e p r.
Proof. intros H. unfold step. rewrite H. reflexivity. Qed.

Lemma step_down (e : Editor) tgt pid p : crashed e = false ->
  step e (EvPointerDown tgt pid p) = onPointerDown e tgt p.
Proof. intros H. unfold step. rewrite H. reflexivity. Qed.

Lemma run_cons (e : Editor) ev evs : run e (ev :: evs) = run (step e ev) evs.
Proof. reflexivity. Qed.

Lemma run_app (e : Editor) evs1 evs2 : run e (evs1 ++ evs2) = run (run e evs1) evs2.
Proof. apply fold_left_app. Qed.

Lemma run_single (e : Editor) ev : run e [ev] = step e ev.
Proof. reflexivity. Qed.

Lemma toggle_enter (e : Editor) : isEditMode e = false -> toggleEditMode e = enterEditMode e.
Proof. intros H. unfold toggleEditMode. rewrite H. reflexivity. Qed.

Lemma exitEditMode_cancel (e : Editor) (snap : BannerLayout) :
  layoutSnapshot e = Some snap ->
  let e' := exitEditMode e false in
  layout e' = snap /\ widgets e' = widgetsSnapshot e /\ selectedElementId e' = None /\
  isEditMode e' = false /\ crashed e' = crashed e.
Proof. intros H. unfold exitEditMode. cbn. rewrite H. cbn. repeat split. Qed.


(** C2: Entering the edit session, doing anything that does not end it,
    then cancelling gives back exactly the layout and the widget list the
    editor had before the session; the selection is cleared and the editor
    is back in view mode. *)
Theorem cancel_restores (e : Editor) (evs : list Event) :
  crashed e = false -> isEditMode e = false ->
  Forall (fun ev => in_session ev = true) evs ->
  let e' := step (run (step e EvToggleEdit) evs) EvCancel in
  layout e' = layout e /\ widgets e' = widgets e /\
  selectedElementId e' = None /\ isEditMode e' = false /\ crashed e' = false.
Proof.
  intros Hc Hm Hall. cbv zeta.
  pose proof (frame_run (step e EvToggleEdit) evs Hall) as Hf.
  rewrite step_live, (toggle_enter e Hm) in Hf by exact Hc.
  unfold frame in Hf. simpl in Hf. injection Hf as Hsnap Hws Hmode Hcr.
  rewrite Hc in Hcr. rewrite (step_live e EvToggleEdit Hc), (toggle_enter e Hm).
  rewrite (step_live _ EvCancel Hcr).
  destruct (exitEditMode_cancel _ _ Hsnap) as (H1 & H2 & H3 & H4 & H5).
  rewrite Hws in H2. rewrite Hcr in H5. auto.
Qed.

(** ** Drag *)


Lemma layout_selectElement e eid : layout (selectElement e eid) = layout e.
Proof. reflexivity. Qed.

Lemma widgets_selectElement e eid : widgets (selectElement e eid) = widgets e.
Proof. reflexivity. Qed.

Lemma onPointerDown_node (e : Editor) (h : nat) (n : Node) (p : Point) :
  isEditMode e = true -> node_of_handle (dom e) h = Some n ->
  let e' := onPointerDown e (PT_node h) p in
  dragState e' = mkDrag true (Some (data_element_id n)) p
                   (getElementPosition (layout e) (widgets e) (data_element_id n)) (Some h) /\
  layout e' = layout e /\ widgets e' = widgets e.
Proof. intros Hm Hn. unfold onPointerDown. rewrite Hm, Hn. repeat split. Qed.

Lemma setElementPosition_exists (l : BannerLayout) (ws : list ProfileWidget) (eid : string)
    (pos : BannerPosition) :
  element_exists l ws eid ->
  element_exists (fst (setElementPosition l ws eid pos)) (snd (setElementPosition l ws eid pos)) eid.
Proof.
  intros Hex. unfold setElementPosition.
  destruct (find_core l eid) as [el|] eqn:Hc.
  - left. simpl. rewrite (find_core_set _ _ _ el Hc). eauto.
  - destruct Hex as [[? ?]|[Hw [w Hf]]]; [congruence|]. rewrite Hw. simpl. right.
    split; [exact Hw|]. unfold find_widget in *.
    rewrite (find_update_first_same _ _ _ w) by (reflexivity || exact Hf). eauto.
Qed.

(** One move of an active drag: the drag state is kept, the element gets
    the position computed from the drag start. *)
Lemma onPointerMove_active (e : Editor) (eid : string) (sp : Point) (spos : BannerPosition)
    (h : nat) (p : Point) (r : Rect) :
  dragState e = mkDrag true (Some eid) sp spos (Some h) ->
  element_exists (layout e) (widgets e) eid ->
  let e' := onPointerMove e p r in
  dragState e' = dragState e /\ element_exists (layout e') (widgets e') eid /\
  getElementPosition (layout e') (widgets e') eid = drag_position sp spos r p.
Proof.
  intros Hd Hex. unfold onPointerMove. rewrite Hd. cbn -[setElementPosition getElementPosition].
  pose proof (getElementPosition_setElementPosition (layout e) (widgets e) eid
                (drag_position sp spos r p) Hex) as Hget.
  pose proof (setElementPosition_exists (layout e) (widgets e) eid (drag_position sp spos r p) Hex)
    as Hex'.
  destruct (setElementPosition (layout e) (widgets e) eid (drag_position sp spos r p)) as [l ws].
  repeat split; assumption.
Qed.


Lemma run_moves (e : Editor) (eid : string) (sp : Point) (spos : BannerPosition) (h : nat)
    (ms : list (Z * Point * Rect)) :
  crashed e = false -> dragState e = mkDrag true (Some eid) sp spos (Some h) ->
  element_exists (layout e) (widgets e) eid ->
  let e' := run e (map mv ms) in
  crashed e' = false /\ dragState e' = dragState e /\ element_exists (layout e') (widgets e') eid.
Proof.
  revert e. induction ms as [|[[pid p] r] ms IH]; intros e Hc Hd Hex; [auto|].
  simpl. rewrite (step_move e pid p r Hc).
  destruct (onPointerMove_active e eid sp spos h p r Hd Hex) as (Hd' & Hex' & _).
  assert (Hc' : crashed (onPointerMove e p r) = crashed e).
  { unfold onPointerMove. rewrite Hd. cbn -[setElementPosition].
    destruct (setElementPosition _ _ _ _). reflexivity. }
  rewrite <- Hd'. apply IH; congruence.
Qed.

(** C1: In edit mode, a pointer-down on a canvas node followed by any
    moves (of any pointer) and a last move to [p] leaves the element at the
    position computed from its position at drag start and the pointer's
    total displacement [p - p0], clamped: it lies in x in [0,90],
    y in [0,85] however far the pointer went, and intermediate moves do not
    accumulate. *)
Theorem drag_final_position (e : Editor) (h : nat) (n : Node) (pid0 pid : Z) (p0 p : Point)
    (r : Rect) (ms : list (Z * Point * Rect)) :
  crashed e = false -> isEditMode e = true -> node_of_handle (dom e) h = Some n ->
  element_exists (layout e) (widgets e) (data_element_id n) ->
  let eid := data_element_id n in
  let e' := run e (EvPointerDown (PT_node h) pid0 p0 :: map mv ms ++ [EvPointerMove pid p r]) in
  getElementPosition (layout e') (widgets e') eid =
    drag_position p0 (getElementPosition (layout e) (widgets e) eid) r p /\
  in_bounds (getElementPosition (layout e') (widgets e') eid).
Proof.
  intros Hc Hm Hn Hex. cbv zeta. rewrite run_cons, run_app, run_single.
  rewrite (step_down e (PT_node h) pid0 p0 Hc).
  destruct (onPointerDown_node e h n p0 Hm Hn) as (Hd & Hl & Hw).
  set (e1 := onPointerDown e (PT_node h) p0) in *.
  assert (Hc1 : crashed e1 = false).
  { pose proof (crashed_in_session e (EvPointerDown (PT_node h) pid0 p0) eq_refl) as H.
    rewrite (step_down _ _ _ _ Hc) in H. fold e1 in H. congruence. }
  assert (Hex1 : element_exists (layout e1) (widgets e1) (data_element_id n)) by (rewrite Hl, Hw; exact Hex).
  destruct (run_moves e1 _ _ _ _ ms Hc1 Hd Hex1) as (Hc2 & Hd2 & Hex2).
  rewrite (step_move _ pid p r Hc2). rewrite Hd in Hd2.
  destruct (onPointerMove_active _ _ _ _ _ p r Hd2 Hex2) as (_ & _ & Hget).
  rewrite Hget. split; [reflexivity|]. apply drag_position_in_bounds.
Qed.

(** ** Save *)

Lemma exitEditMode_save (e : Editor) :
  let e' := exitEditMode e true in
  user e' = set_banner (user e) (Some (layout e)) (Some (widgets e)) /\
  ls_currentUser (storage e') = Some (user e') /\
  ls_database (storage e') =
    match ls_database (storage e) with
    | Some db => match user_index db (id (user e)) with
                 | Some i => Some (set_user_at db i (user e'))
                 | None => Some db
                 end
    | None => None
    end.
Proof.
  cbn. split; [reflexivity|].
  destruct (ls_database (storage e)) as [db|] eqn:Hdb; [|split; simpl; rewrite ?Hdb; reflexivity].
  destruct (user_index db (id (user e))); split; simpl; rewrite ?Hdb; reflexivity.
Qed.

Lemma loadLayout_saved (u : User) (l : BannerLayout) ws :
  ~ version l == 0 -> loadLayout (set_banner u (Some l) ws) = l.
Proof.
  intros Hv. unfold loadLayout. simpl. destruct (Qeq_bool (version l) 0) eqn:E; [|reflexivity].
  apply Qeq_bool_iff in E. contradiction.
Qed.

(** Saving writes a user record from which [loadLayout] and the widget
    load of [init] give back the layout and widgets being saved, in
    [mesaCurrentUser] and, when the user is in [mesaDatabase], there too. *)
Lemma save_roundtrip (e : Editor) :
  crashed e = false -> ~ version (layout e) == 0 ->
  let e' := step e EvSave in
  ls_currentUser (storage e') = Some (user e') /\
  loadLayout (user e') = layout e /\ loadWidgets (user e') = widgets e /\
  (forall db, ls_database (storage e) = Some db -> is_Some (user_index db (id (user e))) ->
     exists db', ls_database (storage e') = Some db' /\ find_user db' (id (user e)) = Some (user e')).
Proof.
  intros Hc Hv. cbv zeta. rewrite (step_live e EvSave Hc).
  destruct (exitEditMode_save e) as (Hu & Hcur & Hdb). rewrite Hu in *.
  split; [exact Hcur|]. split; [apply loadLayout_saved, Hv|]. split; [reflexivity|].
  intros db Hdb0 [i Hi]. rewrite Hdb, Hdb0, Hi. eexists; split; [reflexivity|].
  rewrite <- (set_banner_id (user e) (Some (layout e)) (Some (widgets e))) at 1.
  apply find_user_set_user_at. rewrite set_banner_id. exact Hi.
Qed.


Lemma setElementPosition_version (l : BannerLayout) ws eid pos :
  version (fst (setElementPosition l ws eid pos)) = version l.
Proof. unfold setElementPosition. repeat case_match; reflexivity. Qed.

Lemma setElementPosition_length (l : BannerLayout) ws eid pos :
  length (snd (setElementPosition l ws eid pos)) = length ws.
Proof. unfold setElementPosition. repeat case_match; simpl; rewrite ?length_update_first; reflexivity. Qed.

Ltac handlers_tac :=
  unfold resetLayout, addTextWidget, addGifWidget, addStickerWidget, addWidget,
    deleteSelectedElement, changeWidgetScale, changeWidgetStretch, changeTextStyle,
    changeTextFontSize, restyle, onPointerDown, onPointerMove, onPointerUp.

Lemma version_in_session (e : Editor) ev : in_session ev = true ->
  version (layout (step e ev)) = version (layout e) \/ layout (step e ev) = DEFAULT_BANNER_LAYOUT.
Proof.
  intros Hev. unfold step. destruct (crashed e); [left; reflexivity|].
  destruct ev; try discriminate; simpl; handlers_tac;
    repeat (case_match || (progress simpl)); auto;
    match goal with
    | H : setElementPosition ?l ?ws ?eid ?pos = (?l', _) |- _ =>
        left; pose proof (setElementPosition_version l ws eid pos) as Hv;
        rewrite H in Hv; exact Hv
    end.
Qed.

Lemma DEFAULT_version : ~ version DEFAULT_BANNER_LAYOUT == 0.
Proof. simpl. discriminate. Qed.

Lemma version_ok_init u d ls : version_ok (init u d ls).
Proof.
  split; [|discriminate]. simpl. unfold loadLayout.
  destruct (bannerLayout u) as [l|]; [|apply DEFAULT_version].
  destruct (Qeq_bool (version l) 0) eqn:E; [apply DEFAULT_version|].
  intros H. apply Qeq_bool_iff in H. congruence.
Qed.

Lemma exit_snapshot (e : Editor) save : layoutSnapshot (exitEditMode e save) = layoutSnapshot e.
Proof. unfold exitEditMode. destruct save; cbn; [reflexivity|]. case_match; cbn; congruence. Qed.

Lemma exit_layout (e : Editor) save :
  layout (exitEditMode e save) =
    if save then layout e else match layoutSnapshot e with Some s => s | None => layout e end.
Proof. unfold exitEditMode. destruct save; cbn; [reflexivity|]. case_match; cbn; congruence. Qed.

Lemma version_ok_exit (e : Editor) save : version_ok e -> version_ok (exitEditMode e save).
Proof.
  intros [Hl Hs]. split.
  - rewrite exit_layout. destruct save; [exact Hl|].
    destruct (layoutSnapshot e) eqn:E; [apply Hs; reflexivity | exact Hl].
  - rewrite exit_snapshot. exact Hs.
Qed.

Lemma version_ok_step (e : Editor) ev : version_ok e -> version_ok (step e ev).
Proof.
  intros Hok. destruct (in_session ev) eqn:Hev.
  - destruct Hok as [Hl Hs].
    pose proof (frame_step e ev Hev) as Hf. unfold frame in Hf. injection Hf as Hsnap _ _ _.
    split; [|rewrite Hsnap; exact Hs].
    destruct (version_in_session e ev Hev) as [-> | ->]; [exact Hl | apply DEFAULT_version].
  - unfold step. destruct (crashed e); [exact Hok|].
    destruct ev; try discriminate.
    + unfold toggleEditMode. destruct (isEditMode e); [apply version_ok_exit, Hok|].
      destruct Hok as [Hl Hs]. split; [exact Hl|]. intros l [= <-]. exact Hl.
    + apply version_ok_exit, Hok.
    + apply version_ok_exit, Hok.
Qed.

Lemma reachable_version_ok (e : Editor) : reachable e -> version_ok e.
Proof. induction 1; [apply version_ok_init | apply version_ok_step; assumption]. Qed.

(** C3: For every editor reachable from [init], saving writes a user
    record (to [mesaCurrentUser], and over the user's entry in
    [mesaDatabase] when there is one) from which loading gives back the
    layout and widget list that were saved. *)
Theorem save_load_roundtrip (e : Editor) :
  reachable e -> crashed e = false ->
  let e' := step e EvSave in
  ls_currentUser (storage e') = Some (user e') /\
  loadLayout (user e') = layout e /\ loadWidgets (user e') = widgets e /\
  (forall db, ls_database (storage e) = Some db -> is_Some (user_index db (id (user e))) ->
     exists db', ls_database (storage e') = Some db' /\ find_user db' (id (user e)) = Some (user e')).
Proof.
  intros Hr Hc. apply save_roundtrip; [exact Hc|]. apply (proj1 (reachable_version_ok e Hr)).
Qed.

(** ** The widget cap *)

(** C4: With six widgets or more, adding a sticker changes nothing but
    the [alert] shown: the widget list and the DOM stay as they were. *)
Theorem sticker_rejected_at_cap (e : Editor) (now key : string) :
  crashed e = false -> (MAX_WIDGETS <= length (widgets e))%nat ->
  step e (EvSticker now key) = with_alert e WIDGET_LIMIT_MESSAGE.
Proof.
  intros Hc Hcap. unfold step. rewrite Hc. simpl. unfold addStickerWidget, addWidget.
  apply Nat.leb_le in Hcap. rewrite Hcap. reflexivity.
Qed.


Lemma cap_in_session (e : Editor) ev : in_session ev = true ->
  (length (widgets e) <= MAX_WIDGETS)%nat -> (length (widgets (step e ev)) <= MAX_WIDGETS)%nat.
Proof.
  intros Hev Hcap. unfold step. destruct (crashed e); [exact Hcap|].
  destruct ev; try discriminate; simpl; handlers_tac;
    repeat (case_match || (progress simpl)); rewrite ?length_update_first; auto.
  all: try (rewrite length_app; simpl;
            match goal with H : Nat.leb _ _ = false |- _ => apply Nat.leb_gt in H end; lia).
  all: try (match goal with |- context [List.filter ?f ?l] =>
              pose proof (filter_length_le f l); lia end).
  all: try (match goal with H : setElementPosition ?l ?ws ?eid ?pos = (_, _) |- _ =>
              pose proof (setElementPosition_length l ws eid pos) as Hlen;
              rewrite H in Hlen; simpl in Hlen; lia end).
  all: lia.
Qed.

Lemma cap_ok_step (e : Editor) ev : cap_ok e -> cap_ok (step e ev).
Proof.
  intros [Hw Hs]. destruct (in_session ev) eqn:Hev.
  - pose proof (frame_step e ev Hev) as Hf. unfold frame in Hf. injection Hf as _ Hsnap _ _.
    split; [apply cap_in_session; assumption|]. rewrite Hsnap. exact Hs.
  - unfold step. destruct (crashed e); [split; assumption|].
    destruct ev; try discriminate.
    + unfold toggleEditMode. destruct (isEditMode e).
      * unfold exitEditMode. cbn. destruct (layoutSnapshot e); cbn; split; assumption.
      * split; assumption.
    + split; assumption.
    + unfold exitEditMode. cbn. destruct (layoutSnapshot e); cbn; split; assumption.
Qed.

(** C5: Starting from a user record with at most six widgets, no sequence
    of events ever takes the editor above six widgets. *)
Theorem widget_cap_invariant (u : User) (d : Dom) (ls : LocalStorage) (evs : list Event) :
  (length (loadWidgets u) <= MAX_WIDGETS)%nat ->
  (length (widgets (run (init u d ls) evs)) <= MAX_WIDGETS)%nat.
Proof.
  intros Hu. assert (H : cap_ok (init u d ls)) by (split; simpl; [exact Hu | unfold MAX_WIDGETS; lia]).
  revert H. generalize (init u d ls). induction evs as [|ev evs IH]; intros e He.
  - exact (proj1 He).
  - simpl. apply IH, cap_ok_step, He.
Qed.

(** ** Scale *)

Lemma selected_resizable_spec (e : Editor) (sel : string) (w : ProfileWidget) :
  selected_resizable e = Some (sel, w) ->
  selectedElementId e = Some sel /\ is_widget_element sel = true /\
  find_widget (widgets e) (widget_id_of sel) = Some w /\ resizable w = true.
Proof.
  unfold selected_resizable. repeat case_match; intros Hres; try discriminate.
  injection Hres as <- <-. auto.
Qed.

Lemma step_scale (e : Editor) up : crashed e = false ->
  step e (EvScale up) = changeWidgetScale e (if up then 0.1 else -0.1).
Proof. intros H. unfold step. rewrite H. reflexivity. Qed.

(** One scale click on a selected sticker or GIF: the widget gets the
    stepped scale, and stays selected. *)
Lemma changeWidgetScale_selected (e : Editor) (sel : string) (w : ProfileWidget) (delta : Q) :
  selected_resizable e = Some (sel, w) ->
  let e' := changeWidgetScale e delta in
  selected_resizable e' = Some (sel, scaled delta w) /\ crashed e' = crashed e.
Proof.
  intros Hs. pose proof (selected_resizable_spec e sel w Hs) as (Hsel & Hw & Hf & Hr).
  unfold changeWidgetScale. rewrite Hs. cbn zeta. split; [|reflexivity].
  unfold selected_resizable. simpl. rewrite Hsel, Hw. unfold find_widget in *.
  rewrite (find_update_first_same _ _ _ w) by (reflexivity || exact Hf).
  unfold resizable, scaled, set_scale in *. simpl. rewrite Hr. reflexivity.
Qed.

(** C6: After any non-empty sequence of scale clicks on a selected
    sticker or GIF, its scale is set and lies in [[0.3, 3]], whatever it
    was before. *)
Theorem scale_clicks_bounded (e : Editor) (sel : string) (w : ProfileWidget) (ups : list bool) :
  crashed e = false -> selected_resizable e = Some (sel, w) -> ups <> [] ->
  exists w' s, find_widget (widgets (run e (map EvScale ups))) (widget_id_of sel) = Some w' /\
    scale w' = Some s /\ 0.3 <= s <= 3.
Proof.
  intros Hc Hs Hne. destruct ups as [|up ups]; [congruence|]. clear Hne.
  revert e w up Hc Hs. induction ups as [|up' ups IH]; intros e w up Hc Hs.
  - simpl. rewrite step_scale by exact Hc.
    destruct (changeWidgetScale_selected e sel w (if up then 0.1 else -0.1) Hs) as [Hs' _].
    apply selected_resizable_spec in Hs' as (_ & _ & Hf & _).
    do 2 eexists. split; [exact Hf|]. split; [reflexivity|]. apply scale_step_bounds.
  - rewrite map_cons, run_cons, step_scale by exact Hc.
    destruct (changeWidgetScale_selected e sel w (if up then 0.1 else -0.1) Hs) as [Hs' Hc'].
    apply (IH _ (scaled (if up then 0.1 else -0.1) w) up'); [congruence | exact Hs'].
Qed.


(** ** Delete *)

Lemma find_filter_out {A} (p : A -> bool) (l : list A) :
  List.find p (List.filter (fun a => negb (p a)) l) = None.
Proof.
  induction l as [|a l IH]; simpl; [reflexivity|].
  destruct (p a) eqn:Ha; simpl; [exact IH|]. rewrite Ha. exact IH.
Qed.

Lemma node_removed (c : list Node) (h : nat) :
  List.find (fun n => Nat.eqb (handle n) h)
    (map (set_selected false) (List.filter (fun n => negb (Nat.eqb (handle n) h)) c)) = None.
Proof.
  induction c as [|n c IH]; simpl; [reflexivity|].
  destruct (Nat.eqb (handle n) h) eqn:Hn; simpl; [exact IH|]. rewrite Hn. exact IH.
Qed.

(** C7: Deleting while a widget is selected removes every widget with
    that id from the list, removes its node from the canvas, and clears
    the selection. *)
Theorem delete_selected_widget (e : Editor) (sel : string) :
  crashed e = false -> selectedElementId e = Some sel -> is_widget_element sel = true ->
  let e' := step e EvDeleteSelected in
  widgets e' = List.filter (fun w => negb (String.eqb (w_id w) (widget_id_of sel))) (widgets e) /\
  find_widget (widgets e') (widget_id_of sel) = None /\
  selectedElementId e' = None /\
  (forall n, query (dom e) sel = Some n -> node_of_handle (dom e') (handle n) = None).
Proof.
  intros Hc Hsel Hw. cbv zeta. unfold step. rewrite Hc. simpl.
  unfold deleteSelectedElement. rewrite Hsel, Hw.
  split; [reflexivity|]. split; [apply find_filter_out|]. split; [reflexivity|].
  intros n Hq. simpl. rewrite Hq. apply node_removed.
Qed.

(** Deleting while a core element (avatar, username, subtitle, stats)
    is selected changes nothing. *)
Theorem delete_core_noop (e : Editor) (sel : string) :
  selectedElementId e = Some sel -> is_widget_element sel = false ->
  step e EvDeleteSelected = e.
Proof.
  intros Hsel Hw. unfold step. destruct (crashed e); [reflexivity|].
  simpl. unfold deleteSelectedElement. rewrite Hsel, Hw. reflexivity.
Qed.

End Editor.
