(* ===== verification/Projector.v ===== *)
(** * The render projector of the banner editor (src/src/banner-editor.ts)

    The spec (section 4.4) asks that rendering be a function of the model
    and idempotent: [removeWidgetElements(); applyLayout();
    renderAllWidgets()], the sequence [exitEditMode] runs on Cancel, run
    twice on the same layout and widgets gives what it gives once.  The
    widget nodes are created anew each time, so the nodes are compared
    with the identity of the widget nodes (their handles) and the handle
    counter erased.

    [applyLayout] finds each element's node with [querySelector] (the
    first node with that [data-element-id]) and overwrites its display,
    position and z-index, and the style of its text child; with distinct
    element ids in the layout and on the canvas, each node is written by
    at most one element, and writing twice is writing once. *)

From S2P Require Import Prelude Types Geometry Widgets Dom Editor.

Module Projector.
Import Dom Editor.

(** [removeWidgetElements(); applyLayout(); renderAllWidgets()]. *)
Definition project (l : BannerLayout) (ws : list ProfileWidget) (d : Dom) : Dom :=
  renderAllWidgets ws (applyLayout l (removeWidgetElements d)).

(** The body of [applyLayout]'s loop on the node found for [elDef]. *)
Definition elementNode (elDef : BannerElement) (n : Node) : Node :=
  let n1 := set_position (position elDef) (zIndex elDef) (set_display_none (negb (visible elDef)) n) in
  if is_text_type (el_type elDef) then
    match textStyle elDef with
    | Some ts => applyTextStyleToElement n1 ts (el_type elDef)
    | None => n1
    end
  else n1.

(** A node with the identity of a widget node forgotten. *)
Definition erase_handle (n : Node) : Node :=
  if is_widget_node n then
    mkNode 0 (data_element_id n) true (display_none n) (left n) (top n) (z_index n)
      (selected n) (dragging n) (textEl n) (widgetContent n)
  else n.

(** What the page shows: the DOM with the widget nodes' identity and the
    handle counter forgotten. *)
Definition view (d : Dom) : Dom :=
  mkDom (map erase_handle (canvas d)) 0 (bannerEditMode d) (toolbar d) (stickerPickerShown d)
    (gifInputShown d) (textInputShown d) (textValue d) (gifUrl d).

Definition id_is (k : string) (n : Node) : bool := String.eqb (data_element_id n) k.

(** The canvas nodes that are not widgets, what [removeWidgetElements]
    keeps, and their ids. *)
Definition core (c : list Node) : list Node := List.filter (fun n => negb (is_widget_node n)) c.

Definition core_ids (d : Dom) : list string := map data_element_id (core (canvas d)).

(** The writes of the elements [es] whose id is the node's, in order. *)
Definition layoutNode (es : list BannerElement) (n : Node) : Node :=
  fold_left (fun n e => if id_is (el_id e) n then elementNode e n else n) es n.

(** ** Lemmas *)


Lemma applyElement_node (d : Dom) (elDef : BannerElement) :
  applyElement d elDef = with_canvas d (update_first (id_is (el_id elDef)) (elementNode elDef) (canvas d)).
Proof. reflexivity. Qed.

Lemma elementNode_id (elDef : BannerElement) (n : Node) :
  data_element_id (elementNode elDef n) = data_element_id n /\ is_widget_node (elementNode elDef n) = is_widget_node n.
Proof.
  unfold elementNode, applyTextStyleToElement. repeat case_match; cbn; auto.
Qed.

(** Writing an element twice is writing it once. *)
Lemma elementNode_idem (elDef : BannerElement) (n : Node) :
  elementNode elDef (elementNode elDef n) = elementNode elDef n.
Proof.
  destruct n as [h eid w dn l t z s dr te wc]. unfold elementNode, applyTextStyleToElement.
  destruct (is_text_type (el_type elDef)), (textStyle elDef) as [ts|]; cbn; try reflexivity.
  destruct te as [te|]; cbn; [|reflexivity].
  destruct (String.eqb (t_class te) (text_class_for (el_type elDef))) eqn:E; cbn; rewrite ?E; reflexivity.
Qed.

(** [update_first] on a list whose ids are distinct is a [map]. *)
Lemma update_first_unique (k : string) (f : Node -> Node) (c : list Node) :
  NoDup (map data_element_id c) ->
  update_first (id_is k) f c = map (fun n => if id_is k n then f n else n) c.
Proof.
  induction c as [|n c IH]; intros Hnd; [reflexivity|]. inversion Hnd as [|? ? Hn Hc]; subst.
  cbn. destruct (id_is k n) eqn:E; [|rewrite IH by exact Hc; reflexivity].
  f_equal. symmetry. transitivity (map (fun m : Node => m) c); [|apply map_id].
  apply map_ext_in. intros m Hm. destruct (id_is k m) eqn:Em; [|reflexivity].
  exfalso. apply Hn, list_elem_of_In. unfold id_is in E, Em. apply String.eqb_eq in E, Em. rewrite E, <- Em.
  apply in_map, Hm.
Qed.

Lemma layoutNode_id (es : list BannerElement) (n : Node) :
  data_element_id (layoutNode es n) = data_element_id n /\ is_widget_node (layoutNode es n) = is_widget_node n.
Proof.
  revert n. induction es as [|e es IH]; intros n; [auto|]. cbn [layoutNode fold_left].
  fold (layoutNode es (if id_is (el_id e) n then elementNode e n else n)).
  destruct (IH (if id_is (el_id e) n then elementNode e n else n)) as [-> ->].
  destruct (id_is (el_id e) n); [apply elementNode_id | auto].
Qed.

(** [applyLayout] on a canvas whose ids are distinct writes every node
    with the elements of its id. *)
Lemma applyLayout_spec (l : BannerLayout) (d : Dom) :
  NoDup (map data_element_id (canvas d)) ->
  applyLayout l d = with_canvas d (map (layoutNode (elements l)) (canvas d)).
Proof.
  unfold applyLayout. generalize (elements l) as es. intros es. revert d.
  induction es as [|e es IH]; intros d Hnd.
  - destruct d; cbn. rewrite map_id. reflexivity.
  - cbn [fold_left]. rewrite applyElement_node, update_first_unique by exact Hnd. rewrite IH.
    + destruct d; cbn. rewrite map_map. reflexivity.
    + cbn. rewrite map_map.
      replace (map (fun x => data_element_id (if id_is (el_id e) x then elementNode e x else x)) (canvas d))
        with (map data_element_id (canvas d)); [exact Hnd|].
      apply map_ext. intros n. destruct (id_is _ _); [symmetry; apply elementNode_id | reflexivity].
Qed.

Lemma layoutNode_none (es : list BannerElement) (n : Node) :
  Forall (fun e => id_is (el_id e) n = false) es -> layoutNode es n = n.
Proof. induction 1 as [|e es He _ IH]; [reflexivity|]. cbn. rewrite He. exact IH. Qed.

(** With distinct element ids, a node is written by the one element of its
    id, if any. *)
Lemma layoutNode_find (es : list BannerElement) (n : Node) :
  NoDup (map el_id es) ->
  layoutNode es n = match List.find (fun e => id_is (el_id e) n) es with Some e => elementNode e n | None => n end.
Proof.
  revert n. induction es as [|e es IH]; intros n Hnd; [reflexivity|]. inversion Hnd as [|? ? He Hes]; subst.
  cbn [List.find layoutNode fold_left]. fold (layoutNode es (if id_is (el_id e) n then elementNode e n else n)).
  destruct (id_is (el_id e) n) eqn:E; [|apply IH, Hes].
  apply layoutNode_none, Forall_forall. intros e' He'. unfold id_is in *.
  rewrite (proj1 (elementNode_id e n)). apply String.eqb_neq. intros Heq. apply String.eqb_eq in E.
  apply He, list_elem_of_In. rewrite <- E, Heq. apply in_map, He'.
Qed.

Lemma layoutNode_idem (es : list BannerElement) (n : Node) :
  NoDup (map el_id es) -> layoutNode es (layoutNode es n) = layoutNode es n.
Proof.
  intros Hnd.
  assert (Hf : List.find (fun e => id_is (el_id e) (layoutNode es n)) es = List.find (fun e => id_is (el_id e) n) es).
  { unfold id_is. rewrite (proj1 (layoutNode_id es n)). reflexivity. }
  rewrite (layoutNode_find es (layoutNode es n)), Hf, (layoutNode_find es n) by exact Hnd.
  destruct (List.find (fun e => id_is (el_id e) n) es); [apply elementNode_idem | reflexivity].
Qed.

(** [renderAllWidgets] appends one new node per widget, with the next
    handles. *)
Lemma renderAllWidgets_spec (ws : list ProfileWidget) (d : Dom) :
  renderAllWidgets ws d =
  mkDom (canvas d ++ imap (fun i w => widgetNode w (nextHandle d + i)) ws) (nextHandle d + length ws)
    (bannerEditMode d) (toolbar d) (stickerPickerShown d) (gifInputShown d) (textInputShown d)
    (textValue d) (gifUrl d).
Proof.
  revert d. induction ws as [|w ws IH]; intros d.
  - destruct d; cbn. rewrite app_nil_r, Nat.add_0_r. reflexivity.
  - unfold renderAllWidgets. cbn [fold_left]. fold (renderAllWidgets ws (renderWidgetOnCanvas d w)).
    rewrite IH. destruct d as [c nh em tb sp gi ti tv gu]; cbn. rewrite <- app_assoc. cbn [app]. rewrite Nat.add_0_r.
    rewrite (imap_ext _ (fun i w => widgetNode w (nh + S i))) by (intros i w' _; apply (f_equal (widgetNode w')); lia).
    f_equal. lia.
Qed.

Lemma imap_shift (ws : list ProfileWidget) (h : nat) :
  imap ((fun i w => widgetNode w (h + i)) ∘ S) ws = imap (fun i w => widgetNode w (S h + i)) ws.
Proof. apply imap_ext. intros i w _. apply (f_equal (widgetNode w)). lia. Qed.

Lemma erase_widget_nodes (ws : list ProfileWidget) (h : nat) :
  map erase_handle (imap (fun i w => widgetNode w (h + i)) ws) = map (fun w => widgetNode w 0) ws.
Proof.
  revert h. induction ws as [|w ws IH]; intros h; [reflexivity|]. cbn [imap map].
  rewrite imap_shift, IH. reflexivity.
Qed.

Lemma filter_widget_nodes (ws : list ProfileWidget) (h : nat) :
  List.filter (fun n => negb (is_widget_node n)) (imap (fun i w => widgetNode w (h + i)) ws) = [].
Proof.
  revert h. induction ws as [|w ws IH]; intros h; [reflexivity|]. cbn [imap List.filter].
  rewrite imap_shift. apply IH.
Qed.

Lemma filter_layoutNode (es : list BannerElement) (c : list Node) :
  List.filter (fun n => negb (is_widget_node n)) (map (layoutNode es) (List.filter (fun n => negb (is_widget_node n)) c)) =
  map (layoutNode es) (List.filter (fun n => negb (is_widget_node n)) c).
Proof.
  induction c as [|n c IH]; [reflexivity|]. cbn. destruct (is_widget_node n) eqn:E; cbn; [exact IH|].
  rewrite (proj2 (layoutNode_id es n)), E. cbn. f_equal. exact IH.
Qed.

Lemma core_ids_layout (es : list BannerElement) (c : list Node) :
  map data_element_id (map (layoutNode es) c) = map data_element_id c.
Proof. rewrite map_map. apply map_ext. intros n. apply layoutNode_id. Qed.

(** The projector on a page whose core ids are distinct: the core nodes
    written by the layout, then the widgets with fresh handles. *)
Lemma project_spec (l : BannerLayout) (ws : list ProfileWidget) (d : Dom) :
  NoDup (core_ids d) ->
  project l ws d =
  mkDom (map (layoutNode (elements l)) (core (canvas d)) ++ imap (fun i w => widgetNode w (nextHandle d + i)) ws)
    (nextHandle d + length ws) (bannerEditMode d) (toolbar d) (stickerPickerShown d) (gifInputShown d)
    (textInputShown d) (textValue d) (gifUrl d).
Proof.
  intros Hnd. unfold project. rewrite applyLayout_spec by exact Hnd. rewrite renderAllWidgets_spec.
  destruct d; reflexivity.
Qed.

(** The core of a projected page is its core written by the layout. *)
Lemma core_project (l : BannerLayout) (ws : list ProfileWidget) (d : Dom) :
  NoDup (core_ids d) -> core (canvas (project l ws d)) = map (layoutNode (elements l)) (core (canvas d)).
Proof.
  intros Hnd. rewrite project_spec by exact Hnd. cbn [canvas]. unfold core.
  rewrite List.filter_app, filter_widget_nodes, app_nil_r. apply filter_layoutNode.
Qed.

Lemma core_ids_project (l : BannerLayout) (ws : list ProfileWidget) (d : Dom) :
  NoDup (core_ids d) -> core_ids (project l ws d) = core_ids d.
Proof. intros Hnd. unfold core_ids. rewrite core_project by exact Hnd. apply core_ids_layout. Qed.

(** C37: The projector is idempotent (spec section 4.4): with distinct
    element ids in the layout and among the page's non-widget nodes,
    [removeWidgetElements(); applyLayout(); renderAllWidgets()] run a
    second time with the same layout and widgets shows the same page as
    once: the same nodes with the same styles, the widget nodes equal up
    to their fresh identities. *)
Theorem project_idempotent (l : BannerLayout) (ws : list ProfileWidget) (d : Dom) :
  NoDup (map el_id (elements l)) -> NoDup (core_ids d) ->
  view (project l ws (project l ws d)) = view (project l ws d).
Proof.
  intros Hes Hnd. pose proof (core_ids_project l ws d Hnd) as Hids.
  rewrite (project_spec l ws (project l ws d)) by (rewrite Hids; exact Hnd).
  rewrite core_project, (map_map (layoutNode (elements l))) by exact Hnd.
  erewrite (map_ext (fun n => layoutNode _ (layoutNode _ n))) by (intros n; apply layoutNode_idem, Hes).
  rewrite (project_spec l ws d Hnd). unfold view. cbn [canvas]. rewrite !map_app, !erase_widget_nodes. reflexivity.
Qed.

End Projector.
