(* ===== verification/EditorChrome.v ===== *)
(** * The editor's font selector and sticker grid (src/src/banner-editor.ts)

    [init] fills two parts of the toolbar once: [populateFontSelector]
    appends one [<option>] per entry of [BANNER_FONTS] to the font select
    (its value the whole font list, its text the first family), and
    [populateStickerGrid] appends one button per entry of [STICKERS], in
    the order of [Object.entries] (the insertion order, no key being an
    array index), showing the glyph and adding the sticker of its key when
    clicked.  Either does nothing when the page lacks its container.

    The click on a grid button is the [EvSticker] event of [Editor.step];
    [grid_button_renders_glyph] shows that every button draws, on the
    canvas, the glyph it shows.  A font option chosen in the select is
    stored on the selected text element and shown again by the select
    when the element is selected again ([font_option_roundtrip]). *)

From S2P Require Import Prelude Types Geometry Widgets Storage Auth Header Settings Dom Editor.
From Stdlib Require Import Ascii Lia.

Module EditorChrome.
Import Widgets Dom Editor Settings.

(** [s.split(',')[0]]: the text before the first comma. *)
Fixpoint split_first (s : string) : string :=
  match s with
  | EmptyString => EmptyString
  | String c s' => if Ascii.eqb c ","%char then EmptyString else String c (split_first s')
  end.

Record FontOption := mkFontOption {
  fo_value : string;          (** [option.value] *)
  fo_text : string;           (** [option.textContent] *)
  fo_fontFamily : string;     (** [option.style.fontFamily] *)
}.

(** The body of [populateFontSelector]'s loop. *)
Definition fontOption (font : string) : FontOption :=
  mkFontOption font (trim (split_first font)) font.

(** [populateFontSelector()] on the options of [#toolbarFontFamily], if
    the page has it. *)
Definition populateFontSelector (sel : option (list FontOption)) : option (list FontOption) :=
  match sel with
  | None => None
  | Some os => Some (os ++ map fontOption BANNER_FONTS)
  end.

Record StickerButton := mkStickerButton {
  sb_type : string;           (** [btn.type] *)
  sb_class : string;          (** [btn.className] *)
  sb_text : string;           (** [btn.textContent] *)
  sb_key : string;            (** the key its click listener passes to [addStickerWidget] *)
}.

(** The body of [populateStickerGrid]'s loop on [[key, emoji]]. *)
Definition stickerButton (kv : string * string) : StickerButton :=
  mkStickerButton "button" "sticker-btn" (snd kv) (fst kv).

(** [populateStickerGrid()] on the buttons of [#bannerStickerGrid]. *)
Definition populateStickerGrid (grid : option (list StickerButton)) : option (list StickerButton) :=
  match grid with
  | None => None
  | Some bs => Some (bs ++ map stickerButton STICKERS)
  end.

(** The click listener of a grid button, at time [now]. *)
Definition onStickerButton (e : Editor) (now : string) (b : StickerButton) : Editor :=
  step e (EvSticker now (sb_key b)).

(** The change listener of the font select, on the option [o]. *)
Definition onFontOption (e : Editor) (o : FontOption) : Editor :=
  step e (EvFontFamily (fo_value o)).

(** The option the select shows after [fontSelect.value = v]. *)
Definition shown_font (os : list FontOption) (v : string) : string :=
  sel_value (select_assign (mkSelect (map fo_value os) "") v).

(** The text of the widget content of each canvas node. *)
Definition canvas_texts (d : Dom) : list (option string) :=
  map (fun n => option_map c_text (widgetContent n)) (canvas d).

(** ** Lemmas *)

Lemma assoc_NoDup_In (k v : string) (l : list (string * string)) :
  NoDup (map fst l) -> In (k, v) l -> assoc k l = Some v.
Proof.
  induction l as [|[k' v'] l IH]; intros Hnd Hin; [destruct Hin|]. inversion Hnd as [|? ? Hk Hl]; subst.
  cbn [assoc]. destruct Hin as [[= <- <-] | Hin].
  - rewrite String.eqb_refl. reflexivity.
  - destruct (String.eqb k k') eqn:E.
    + apply String.eqb_eq in E as ->. exfalso. apply Hk, list_elem_of_In.
      apply (in_map fst _ _ Hin).
    + apply IH; assumption.
Qed.

Lemma STICKERS_keys_NoDup : NoDup (map fst STICKERS).
Proof. apply (bool_decide_unpack _). vm_compute. reflexivity. Qed.

Lemma BANNER_FONTS_nonempty : Forall (fun f => f <> "") BANNER_FONTS.
Proof. repeat constructor; discriminate. Qed.

(** The button of a [STICKERS] entry shows the glyph its key renders as. *)
Lemma stickerButton_glyph (b : StickerButton) :
  In b (map stickerButton STICKERS) -> stickerGlyph (sb_key b) = sb_text b.
Proof.
  intros Hb. apply in_map_iff in Hb as ([k g] & <- & Hin). cbn.
  apply (proj1 (stickerGlyph_spec k)), assoc_NoDup_In; [exact STICKERS_keys_NoDup | exact Hin].
Qed.

(** Below the cap, adding a widget appends it and its node, and closes
    the popovers. *)
Lemma addWidget_below_cap (e : Editor) (w : ProfileWidget) :
  (length (widgets e) < MAX_WIDGETS)%nat ->
  addWidget e w hideAllPopovers =
  with_dom (with_model e (layout e) (widgets e ++ [w]))
    (hideAllPopovers (renderWidgetOnCanvas (dom e) w)).
Proof.
  intros Hlt. unfold addWidget. replace (Nat.leb MAX_WIDGETS (length (widgets e))) with false
    by (symmetry; apply Nat.leb_gt; exact Hlt). reflexivity.
Qed.

Lemma find_core_restyle (e : Editor) (sel : string) (elDef : BannerElement) (ty : BannerElementType)
    (style : TextStyle) :
  find_core (layout e) sel = Some elDef ->
  find_core (layout (restyle e sel ty style)) sel = Some (set_el_textStyle style elDef).
Proof. intros H. apply find_update_first_same; [reflexivity | exact H]. Qed.

(** A font option chosen in the select stores its value as the element's
    font family. *)
Lemma onFontOption_style (e : Editor) (sel : string) (elDef : BannerElement) (o : FontOption) :
  crashed e = false -> selected_text_element e = Some (sel, elDef) -> fo_value o <> "" ->
  find_core (layout (onFontOption e o)) sel =
  Some (set_el_textStyle (mkTextStyle (color (style_or_empty elDef)) (Some (fo_value o))
                                      (fontSize (style_or_empty elDef))) elDef).
Proof.
  intros Hc Hsel Hne. assert (Hv : js_str_or_undef (fo_value o) = Some (fo_value o)).
  { unfold js_str_or_undef. destruct (String.eqb (fo_value o) "") eqn:Eo; [|reflexivity].
    apply String.eqb_eq in Eo. contradiction. }
  unfold onFontOption, step. rewrite Hc. unfold changeTextStyle. rewrite Hsel, Hv.
  apply find_core_restyle. unfold selected_text_element in Hsel.
  destruct (selectedElementId e) as [s|]; [|discriminate].
  destruct (_ || _)%bool; [|discriminate]. destruct (find_core (layout e) s) eqn:E; [|discriminate].
  injection Hsel as -> ->. exact E.
Qed.

Lemma In_font_option (os : list FontOption) (o : FontOption) :
  populateFontSelector (Some []) = Some os -> In o os -> fo_value o <> "" /\ fo_value o ∈ map fo_value os.
Proof.
  intros H Ho. assert (os = map fontOption BANNER_FONTS) as -> by (injection H; auto). split; [|apply list_elem_of_In, in_map, Ho].
  apply in_map_iff in Ho as (f & <- & Hf). exact (proj1 (Forall_forall _ _) BANNER_FONTS_nonempty f Hf).
Qed.

(** C11: Every button the sticker grid gets shows the glyph it draws:
    clicked below the widget cap, it appends a sticker widget of its key
    to the model and, on the canvas, one node whose content is the very
    text the button shows, and it closes the sticker picker. *)
Theorem grid_button_renders_glyph (e : Editor) (now : string) (grid : list StickerButton) (b : StickerButton) :
  crashed e = false -> (length (widgets e) < MAX_WIDGETS)%nat ->
  populateStickerGrid (Some []) = Some grid -> In b grid ->
  let e' := onStickerButton e now b in
  widgets e' = widgets e ++ [newStickerWidget now (sb_key b)] /\
  canvas_texts (dom e') = canvas_texts (dom e) ++ [Some (sb_text b)] /\
  stickerPickerShown (dom e') = false.
Proof.
  intros Hc Hlt Hg Hb. assert (grid = map stickerButton STICKERS) as -> by (injection Hg; auto). cbv zeta.
  unfold onStickerButton, step. rewrite Hc. unfold addStickerWidget. rewrite addWidget_below_cap by exact Hlt.
  split; [reflexivity | split; [|reflexivity]]. unfold canvas_texts. cbn [dom with_dom hideAllPopovers with_popovers
    renderWidgetOnCanvas append_node canvas]. rewrite map_app. cbn. rewrite (stickerButton_glyph b Hb). reflexivity.
Qed.

(** A font option of the toolbar's select, chosen for the selected
    text element, is stored as its font family, and when the element is
    selected again the select shows that option. *)
Theorem font_option_roundtrip (e : Editor) (sel : string) (elDef : BannerElement) (os : list FontOption)
    (o : FontOption) (t : Toolbar) :
  crashed e = false -> selected_text_element e = Some (sel, elDef) ->
  populateFontSelector (Some []) = Some os -> In o os ->
  shown_font os (fontValue (updateTextStyleDisplay (layout (onFontOption e o)) sel t)) = fo_value o.
Proof.
  intros Hc Hsel Hos Ho. destruct (In_font_option os o Hos Ho) as [Hne Hin].
  unfold updateTextStyleDisplay. rewrite (onFontOption_style e sel elDef o Hc Hsel Hne). cbn.
  unfold shown_font, select_assign. cbn. replace (String.eqb (fo_value o) "") with false
    by (symmetry; apply String.eqb_neq, Hne). rewrite bool_decide_true by exact Hin. reflexivity.
Qed.

(** The option texts are the first families of [BANNER_FONTS]. *)
Example font_option_labels :
  map fo_text (map fontOption BANNER_FONTS) =
  ["Inter"; "Georgia"; "Courier New"; "Impact"; "Comic Sans MS"; "Trebuchet MS"; "Arial Black"; "Palatino"].
Proof. vm_compute. reflexivity. Qed.

End EditorChrome.
