(* ===== verification/Dashboard.v ===== *)
(** * The dashboard (src/src/dashboard.ts)

    [initDashboard] checks the sign-in flag, applies the stored theme,
    parses ['mesaCurrentUser'] into [userData], fills the statistics, runs
    the header's status write, sets up the notification drop-down and
    creates the banner editor.  [userData] is one object: the banner
    editor keeps it as [this.user] and the notification closures as
    [currentUser], and each mutates it ([saveLayout] sets its banner,
    accepting a request sets its friends).  The page state keeps that
    object once ([d_user]) and the one [localStorage] ([d_browser]); each
    event hands both to the component it is for and takes them back, so
    the components see each other's writes as the code's do. *)

From stdpp Require Import pretty.
From S2P Require Import Prelude Types Storage Auth Header Friends Notifications Dom Editor.
Import Auth Friends Notifications.

Module Dashboard.

(** ** Sign-in and user data *)

(** [checkDashboardAuth()]. *)
Definition checkDashboardAuth (b : Browser) : Browser * bool :=
  match ls_loggedIn (local b) with
  | Some flag => if String.eqb flag "true" then (b, true) else (redirect b "login.html", false)
  | None => (redirect b "login.html", false)
  end.

(** The background [loadUserData] puts into [.profile-banner-bg]. *)
Inductive BannerBackground :=
| BG_none
| BG_video (src : string)
| BG_gif (src : string)
| BG_image (url : string).

(** The video test of [loadUserData]: the extension on the lower-cased
    URL, the [data:] prefix on the URL as it is. *)
Definition is_video_banner (url : string) : bool :=
  let lower := toLowerCase url in
  (ends_with ".mp4" lower || ends_with ".webm" lower || ends_with ".mov" lower ||
   String.prefix "data:video/" url)%bool.

Definition bannerBackground (u : User) : BannerBackground :=
  match bannerVideo u with
  | Some url =>
      if String.eqb url "" then
        match bannerImage u with
        | Some i => if String.eqb i "" then BG_none else BG_image i
        | None => BG_none
        end
      else if is_video_banner url then BG_video url else BG_gif url
  | None =>
      match bannerImage u with
      | Some i => if String.eqb i "" then BG_none else BG_image i
      | None => BG_none
      end
  end.

(** [loadUserData()]: the user, or the login page when none is stored. *)
Definition loadUserData (b : Browser) : Browser * option User :=
  match ls_currentUser (local b) with
  | Some u => (b, Some u)
  | None => (redirect b "login.html", None)
  end.

(** ** Statistics *)

Record Stats := mkStats {
  st_elo : Q;
  st_wins : Q;
  st_winRate : Q;          (** the percentage shown *)
  st_friends : nat;
  st_groups : nat;
  st_subscribers : nat;
}.

(** [totalGames > 0 ? Math.round((wins / totalGames) * 100) : 0]. *)
Definition winRate (u : User) : Q :=
  let totalGames := wins u + losses u in
  if Qlt_le_dec 0 totalGames then math_round (wins u / totalGames * 100) else 0.

(** [generateMockStats(userData)]: the subscriber count is the length of
    the scan the friends page lists ([Friends.subscribers]). *)
Definition generateMockStats (ls : LocalStorage) (u : User) : Stats :=
  let subCount := match ls_database ls with
                  | Some db => length (Friends.subscribers db (id u))
                  | None => 0%nat
                  end in
  mkStats (elo u) (wins u) (winRate u) (length (js_list_or (friends u)))
    (length (js_list_or (groups u))) subCount.

(** [formatTimeAgo(isoDate)], given [Date.now() - new Date(isoDate).getTime()]
    in milliseconds (an invalid date, which gives [NaN], is not
    modelled). *)
Definition formatTimeAgo (diff : Z) : string :=
  let mins := Z.div diff 60000 in
  if Z.ltb mins 1 then "Только что"
  else if Z.ltb mins 60 then String.append (pretty mins) " мин. назад"
  else
    let hours := Z.div mins 60 in
    if Z.ltb hours 24 then String.append (pretty hours) " ч. назад"
    else String.append (pretty (Z.div hours 24)) " дн. назад".

(** ** Buttons *)

Definition SEARCH_GAME_ALERT : string :=
  String.concat EmptyString ["Поиск игры начат!"; nl; nl;
    "Это демо-функция. В реальной версии здесь будет запущен матчмейкинг."].

Definition LOBBY_ALERT : string :=
  String.concat EmptyString ["Создание лобби"; nl; nl;
    "Это демо-функция. В реальной версии вы сможете создать свое лобби и пригласить друзей."].

Definition TOURNAMENT_JOINED : string := "Вы успешно зарегистрированы в турнире!".

(** A play option whose heading is [title] ([setupPlayOptions]). *)
Definition onPlayOption (b : Browser) (title : string) : Browser :=
  if Friends.str_includes "Поиск игры" title then alert b SEARCH_GAME_ALERT
  else if Friends.str_includes "Турниры" title then redirect b "index.html#tournaments"
  else if Friends.str_includes "лобби" title then alert b LOBBY_ALERT
  else b.

(** A tournament's join button, with the answer to its [confirm]. *)
Definition onJoinTournament (b : Browser) (ok : bool) : Browser :=
  if ok then alert b TOURNAMENT_JOINED else b.

(** [logout()]: the same steps as the header's. *)
Definition logout (ok : bool) (b : Browser) : Browser := Header.logout ok b.

(** ** The page *)

Record DashboardPage := mkDashboard {
  d_browser : Browser;
  d_user : User;           (** [userData], shared by the editor and the panel *)
  d_name : string;         (** [#userName] and [#userNameHeader] *)
  d_background : BannerBackground;
  d_stats : Stats;
  d_online : bool;
  d_theme : option string;
  d_panel : Panel;
  d_editor : Editor.Editor;
}.

(** [initDashboard()] on a page whose banner is [d0] and whose
    [data-theme] is [th]. *)
Definition initDashboard (b : Browser) (d0 : Dom.Dom) (th : option string) : Browser * option DashboardPage :=
  match checkDashboardAuth b with
  | (b', false) => (b', None)
  | (b', true) =>
      let th' := Header.applyTheme (local b') th in
      match loadUserData b' with
      | (b'', None) => (b'', None)
      | (b'', Some u) =>
          let stats := generateMockStats (local b'') u in
          let '(ls1, online) := Header.setupProfileDropdown (local b'') in
          let np := Notifications.refreshNotifications (mkPanel ls1 u None [] false) in
          let e := Editor.init u d0 ls1 in
          (Auth.with_local b'' ls1,
           Some (mkDashboard (Auth.with_local b'' ls1) u (js_str_or (Some (nickname u)) "Player")
                   (bannerBackground u) stats online th' np e))
      end
  end.

Inductive DashboardEvent :=
| DE_editor (ev : Editor.Event)
| DE_notificationButton
| DE_notificationAction (notifId action : string) (fromUserId : option string) (nowId nowIso : string)
| DE_status (checked : bool)
| DE_logout (ok : bool)
| DE_playOption (title : string)
| DE_tournament (ok : bool)
| DE_avatarClick.

(** The editor and the panel as they stand for the next event: the shared
    object and the one storage. *)
Definition editor_of (st : DashboardPage) : Editor.Editor :=
  Editor.with_user_storage (d_editor st) (d_user st) (local (d_browser st)).

Definition panel_of (st : DashboardPage) : Panel :=
  mkPanel (local (d_browser st)) (d_user st) (np_badge (d_panel st)) (np_list (d_panel st))
    (np_open (d_panel st)).

Definition after_editor (st : DashboardPage) (e : Editor.Editor) : DashboardPage :=
  mkDashboard (Auth.with_local (d_browser st) (Editor.storage e)) (Editor.user e) (d_name st) (d_background st)
    (d_stats st) (d_online st) (d_theme st) (d_panel st) e.

Definition after_panel (st : DashboardPage) (np : Panel) : DashboardPage :=
  mkDashboard (Auth.with_local (d_browser st) (np_local np)) (np_currentUser np) (d_name st)
    (d_background st) (d_stats st) (d_online st) (d_theme st) np (d_editor st).

Definition with_browser (st : DashboardPage) (b : Browser) : DashboardPage :=
  mkDashboard b (d_user st) (d_name st) (d_background st) (d_stats st) (d_online st)
    (d_theme st) (d_panel st) (d_editor st).

(** One listener of the page.  A click on the banner's avatar opens the
    profile view unless the banner is in edit mode. *)
Definition dash_step (st : DashboardPage) (ev : DashboardEvent) : DashboardPage :=
  match ev with
  | DE_editor e => after_editor st (Editor.step (editor_of st) e)
  | DE_notificationButton => after_panel st (Notifications.onNotificationButton (panel_of st))
  | DE_notificationAction n a f i t =>
      after_panel st (Notifications.handleNotificationAction (panel_of st) n a f i t)
  | DE_status c =>
      let '(ls, online) := Header.onStatusChange (local (d_browser st)) c in
      mkDashboard (Auth.with_local (d_browser st) ls) (d_user st) (d_name st) (d_background st)
        (d_stats st) online (d_theme st) (d_panel st) (d_editor st)
  | DE_logout ok => with_browser st (logout ok (d_browser st))
  | DE_playOption t => with_browser st (onPlayOption (d_browser st) t)
  | DE_tournament ok => with_browser st (onJoinTournament (d_browser st) ok)
  | DE_avatarClick =>
      if Dom.bannerEditMode (Editor.dom (d_editor st)) then st
      else with_browser st (redirect (d_browser st) "user-profile-view.html")
  end.

Definition dash_run (st : DashboardPage) (evs : list DashboardEvent) : DashboardPage :=
  fold_left dash_step evs st.

(** ** Lemmas *)

(** A save of the banner editor on the dashboard writes the shared object,
    with its banner set, over its record: the friendships of the other
    records are untouched and its own are those of the shared object. *)
Lemma editor_save_friends (st : DashboardPage) (dbx : Database) (uid : string) (u2 : User) :
  Editor.crashed (d_editor st) = false -> id (d_user st) = uid ->
  ls_database (local (d_browser st)) = Some dbx -> find_user dbx uid = Some u2 ->
  let st' := dash_step st (DE_editor Editor.EvSave) in
  let db' := getDatabase (local (d_browser st')) in
  find_user db' uid = ls_currentUser (local (d_browser st')) /\
  (forall a, is_friend db' uid a = includes a (friends_of (d_user st))) /\
  (forall a b, a <> uid -> is_friend db' a b = is_friend dbx a b).
Proof.
  intros Hc Hid Hdb Hf. cbv zeta. simpl.
  assert (Hc' : Editor.crashed (editor_of st) = false) by exact Hc.
  rewrite (Editor.step_live _ _ Hc').
  destruct (Editor.exitEditMode_save (editor_of st)) as (Hu & Hcur & Hdb').
  cbn [Editor.user editor_of Editor.with_user_storage Editor.storage] in Hu, Hdb'.
  rewrite Hdb, Hid in Hdb'. destruct (user_index_Some dbx uid u2 Hf) as [i Hi]. rewrite Hi in Hdb'.
  unfold getDatabase. rewrite Hdb', Hcur, Hu.
  assert (Hid' : id (set_banner (d_user st) (Some (Editor.layout (editor_of st)))
                     (Some (Editor.widgets (editor_of st)))) = uid) by exact Hid.
  rewrite <- Hid' in Hi |- * at 1.
  split; [|split].
  - rewrite Hid'. rewrite <- Hid' at 1. apply find_user_set_user_at. exact Hi.
  - intros a. unfold is_friend. rewrite <- Hid' at 1. rewrite find_user_set_user_at by exact Hi. reflexivity.
  - intros a b Ha. unfold is_friend. rewrite find_user_set_other by (exact Hi || congruence). reflexivity.
Qed.

(** ** Properties *)

(** the win rate shown is a percentage: for non-negative win and
    loss counts, [Math.round(wins / total * 100)] lies in [0, 100], and
    is 0 before the first game. *)
Theorem winRate_bounds (u : User) :
  0 <= wins u -> 0 <= losses u -> 0 <= winRate u <= 100.
Proof.
  intros Hw Hl. unfold winRate. destruct (Qlt_le_dec 0 (wins u + losses u)) as [Ht|Ht]; [|lra].
  assert (H1 : 0 <= wins u / (wins u + losses u)) by (apply Qle_shift_div_l; lra).
  assert (H2 : wins u / (wins u + losses u) <= 1) by (apply Qle_shift_div_r; lra).
  assert (H3 : inject_Z 0 <= wins u / (wins u + losses u) * 100 <= inject_Z 100)
    by (change (inject_Z 0) with 0; change (inject_Z 100) with 100; lra).
  exact (math_round_between 0 100 _ H3).
Qed.

(** C38: on the dashboard, accepting a friend request and then saving the
    banner keeps the friendship.  The editor's [this.user] and the
    drop-down's [currentUser] are the same object, so the friends the
    accept put on it are in the record the editor writes: both users
    still list each other, and ['mesaCurrentUser'] is the database
    record.  (The profile form, which writes a copy taken at load, loses
    them: C36.) *)
Theorem dashboard_accept_then_save (st : DashboardPage) (db : Database) (user r : User)
    (notifId from nowId nowIso : string) :
  ls_currentUser (local (d_browser st)) = Some user -> ls_database (local (d_browser st)) = Some db ->
  id (d_user st) = id user -> is_Some (find_user db (id user)) -> find_user db from = Some r ->
  from <> id user -> from <> "" -> Editor.crashed (d_editor st) = false ->
  let st' := dash_run st [DE_notificationAction notifId "accept" (Some from) nowId nowIso;
                          DE_editor Editor.EvSave] in
  let db' := getDatabase (local (d_browser st')) in
  is_friend db' (id user) from = true /\ is_friend db' from (id user) = true /\
  ls_currentUser (local (d_browser st')) = find_user db' (id user).
Proof.
  intros Hu Hdb Hid Hrec Hr Hne Hempty Hc. cbv zeta. unfold dash_run. cbn [fold_left].
  set (np := panel_of st).
  destruct (accept_outcome np db user r notifId from nowId nowIso Hu Hdb Hrec Hr Hne Hempty)
    as (user2 & _ & Hf2 & _ & F1 & F2 & Hfr & _ & _).
  set (st1 := dash_step st _).
  assert (Hl1 : local (d_browser st1) =
                np_local (Notifications.handleNotificationAction np notifId "accept" (Some from) nowId nowIso))
    by reflexivity.
  destruct (ls_database (local (d_browser st1))) as [dbx|] eqn:Hdbx.
  2:{ unfold getDatabase in Hf2. rewrite <- Hl1, Hdbx in Hf2. discriminate. }
  assert (Hf2' : find_user dbx (id user) = Some user2) by (unfold getDatabase in Hf2; rewrite <- Hl1, Hdbx in Hf2; exact Hf2).
  assert (Hfx1 : is_friend dbx (id user) from = true) by (unfold getDatabase in F1; rewrite <- Hl1, Hdbx in F1; exact F1).
  assert (Hfx2 : is_friend dbx from (id user) = true) by (unfold getDatabase in F2; rewrite <- Hl1, Hdbx in F2; exact F2).
  assert (Hid1 : id (d_user st1) = id user) by (rewrite <- Hid; apply id_handleNotificationAction).
  destruct (editor_save_friends st1 dbx (id user) user2 Hc Hid1 Hdbx Hf2') as (Hcur & Hown & Hother).
  split; [|split].
  - rewrite Hown. unfold is_friend in Hfx1. rewrite Hf2' in Hfx1. unfold friends_of in *.
    change (d_user st1) with (np_currentUser (Notifications.handleNotificationAction np notifId "accept"
                                                (Some from) nowId nowIso)).
    rewrite Hfr. exact Hfx1.
  - rewrite Hother by exact Hne. exact Hfx2.
  - symmetry. exact Hcur.
Qed.

End Dashboard.
