(* ===== verification/ProfileRender.v ===== *)
(** * Rendering of the profile view (src/src/user-profile-view.ts)

    What [init] draws for the profile it shows, after the header and the
    notification drop-down of [ProfileView]: the header line
    ([loadHeader]), the banner ([renderBanner] with [createBannerElement],
    [applyTextStyle] and [createWidgetElement]), the account statistics
    and the games list ([loadStats], [loadGamesPlayedList]), the game
    selector with its per-game statistics ([setupGameSelector],
    [selectGame], [loadGameStats]), the bio ([loadBio]), the mock match
    history ([generateMockMatchHistory], [renderMatchHistory]), the
    header search ([setupSearch]), the sidebar logout and the share
    button.

    A rendered element is the data the code writes into it (text, inline
    position and z-index, style, image source), not its HTML.  The
    successive values of [Math.random()] are a stream [rand : nat -> Q]
    read in the order of the calls; [Number.prototype.toFixed] is rounding
    half away from zero at the given number of decimals, and the string
    it returns is kept as the number it denotes.  Dates ([new Date],
    [toLocaleDateString]) and the SVG icons are not modelled.  The Russian
    literals of this file are stored double-encoded in the source and are
    kept as its bytes. *)

From Stdlib Require Import ZArith Lia Ascii.
From stdpp Require Import pretty.
From S2P Require Import Prelude Types Storage Auth Header Widgets Dom Friends Notifications ProfileView Editor Dashboard.

Module ProfileRender.
Import Auth Widgets Dom.

(** ** Header *)

(** [loadHeader(user)]: the name, the level and, for a truthy avatar,
    the image source ([None] leaves the page's default image). *)
Record HeaderView := mkHeaderView {
  hv_name : string;
  hv_level : Q;
  hv_avatar : option string;
}.

Definition loadHeader (u : User) : HeaderView :=
  mkHeaderView (nickname u) (level u)
    (match avatar u with Some a => if String.eqb a "" then None else Some a | None => None end).

(** ** The banner *)

(** The video test of [renderBanner]. *)
Definition isVideo (url : string) : bool :=
  let lower := toLowerCase url in
  (ends_with ".mp4" lower || ends_with ".webm" lower || ends_with ".mov" lower ||
   String.prefix "data:video/" url)%bool.

(** Step 1 of [renderBanner]: the background of [#viewBannerBg]. *)
Definition viewBackground (u : User) : Dashboard.BannerBackground :=
  match bannerVideo u with
  | Some url =>
      if String.eqb url "" then
        match bannerImage u with
        | Some i => if String.eqb i "" then Dashboard.BG_none else Dashboard.BG_image i
        | None => Dashboard.BG_none
        end
      else if isVideo url then Dashboard.BG_video url else Dashboard.BG_gif url
  | None =>
      match bannerImage u with
      | Some i => if String.eqb i "" then Dashboard.BG_none else Dashboard.BG_image i
      | None => Dashboard.BG_none
      end
  end.

(** Step 2: the user's layout when it has a truthy [version], else the
    default one. *)
Definition viewLayout (u : User) : BannerLayout :=
  match bannerLayout u with
  | Some l => if Qeq_bool (version l) 0 then DEFAULT_BANNER_LAYOUT else l
  | None => DEFAULT_BANNER_LAYOUT
  end.

(** [applyTextStyle(el, style)]: each truthy property is written. *)
Definition applyTextStyle (t : TextEl) (style : TextStyle) : TextEl :=
  let t1 := match color style with
            | Some c => if String.eqb c "" then t
                        else mkTextEl (t_class t) true c (t_fontFamily t) (t_fontSize t)
            | None => t
            end in
  let t2 := match fontFamily style with
            | Some f => if String.eqb f "" then t1
                        else mkTextEl (t_class t1) (t_customColor t1) (t_color t1) f (t_fontSize t1)
            | None => t1
            end in
  match Editor.js_num_truthy (fontSize style) with
  | Some n => mkTextEl (t_class t2) (t_customColor t2) (t_color t2) (t_fontFamily t2) (Some n)
  | None => t2
  end.

(** A new [h1]/[p] of class [cls] with no inline style. *)
Definition freshText (cls : string) : TextEl := mkTextEl cls false "" "" None.

(** [(u.subscriptions || []).includes(user.id)] over the users of
    ['mesaDatabase'], counted; 0 without a database. *)
Definition subscriberCount (ls : LocalStorage) (u : User) : nat :=
  match ls_database ls with
  | Some db => length (List.filter (fun v => includes (id u) (Friends.js_list_or (subscriptions v))) (users db))
  | None => 0%nat
  end.

(** The numbers of the [stats] element. *)
Definition statsMini (ls : LocalStorage) (u : User) : Dashboard.Stats :=
  let totalGames := wins u + losses u in
  let winRate := if Qlt_le_dec 0 totalGames then math_round (wins u / totalGames * 100) else 0 in
  Dashboard.mkStats (elo u) (wins u) winRate (length (Friends.js_list_or (friends u)))
    (length (Friends.js_list_or (groups u))) (subscriberCount ls u).

(** The content [createBannerElement] puts into a core element's
    wrapper. *)
Inductive CoreContent :=
| CC_avatar (src : string) (levelNumber : Q)
| CC_text (t : TextEl) (text : string)
| CC_stats (s : Dashboard.Stats).

Definition styled (o : option TextStyle) (t : TextEl) : TextEl :=
  match o with Some ts => applyTextStyle t ts | None => t end.

(** [createBannerElement(el, user)]: the wrapper's content; a [widget]
    typed element has no case and gets an empty wrapper ([None]). *)
Definition createBannerElement (ls : LocalStorage) (el : BannerElement) (u : User) : option CoreContent :=
  match el_type el with
  | ET_avatar => Some (CC_avatar (js_str_or (avatar u) "https://via.placeholder.com/120") (level u))
  | ET_username =>
      Some (CC_text (styled (textStyle el) (freshText "profile-name"))
              (if String.eqb (nickname u) "" then "Player" else nickname u))
  | ET_subtitle =>
      Some (CC_text (styled (textStyle el) (freshText "profile-subtitle")) (js_str_or (bio u) "Warcraft III Player"))
  | ET_stats => Some (CC_stats (statsMini ls u))
  | ET_widget => None
  end.

(** [createWidgetElement(widget)]: the [.profile-widget] content with its
    transform. *)
Definition createWidgetElement (w : ProfileWidget) : Content :=
  let text := match w_type w with
              | WT_text => content w
              | WT_sticker => stickerGlyph (content w)
              | WT_gif => content w
              end in
  let s := js_num_or (scale w) 1 in
  let sx := js_num_or (stretchX w) 1 in
  let sy := js_num_or (stretchY w) 1 in
  mkContent (w_type w) text
    (if negb (Qeq_bool s 1) || negb (Qeq_bool sx 1) || negb (Qeq_bool sy 1)
     then Some (s * sx, s * sy) else None).

(** A child of [#viewBannerCanvas]: its [data-element-id], inline
    [left]/[top] (percent) and [zIndex], and its content. *)
Record ViewNode := mkViewNode {
  vn_id : string;
  vn_left : Q;
  vn_top : Q;
  vn_zIndex : Q;
  vn_core : option CoreContent;
  vn_widget : option Content;
}.

(** Step 3, one visible core element. *)
Definition coreNode (ls : LocalStorage) (u : User) (el : BannerElement) : ViewNode :=
  mkViewNode (el_id el) (x (position el)) (y (position el)) (zIndex el) (createBannerElement ls el u) None.

(** Step 4, one widget. *)
Definition widgetView (w : ProfileWidget) : ViewNode :=
  let pos := match canvasPosition w with Some p => p | None => mkPos 50 50 end in
  mkViewNode (widget_element_id w) (x pos) (y pos) (js_num_or (w_zIndex w) 20) None
    (Some (createWidgetElement w)).

(** [renderBanner(user)] on a page that has [#viewBannerBg] and
    [#viewBannerCanvas]: the background and the canvas children in
    order. *)
Definition renderBanner (ls : LocalStorage) (u : User) : Dashboard.BannerBackground * list ViewNode :=
  let layout := viewLayout u in
  (viewBackground u,
   map (coreNode ls u) (List.filter visible (elements layout)) ++
   map widgetView (Friends.js_list_or (profileWidgets u))).

(** ** Statistics *)

(** The account block of [loadStats]; [as_registeredAt] is the raw date
    when truthy (its formatting is not modelled). *)
Record AccountStats := mkAccountStats {
  as_level : Q;
  as_friends : nat;
  as_subscribers : nat;
  as_groups : nat;
  as_registeredAt : option string;
  as_achievements : nat;
}.

Definition accountStats (ls : LocalStorage) (u : User) : AccountStats :=
  mkAccountStats (level u) (length (Friends.js_list_or (friends u))) (subscriberCount ls u)
    (length (Friends.js_list_or (groups u)))
    (if String.eqb (registeredAt u) "" then None else Some (registeredAt u))
    (length (Friends.js_list_or (achievements u))).

(** [getRankInfo(elo)] of [loadGamesPlayedList]. *)
Inductive Rank := R_bronze | R_silver | R_gold | R_platinum.

Definition getRankInfo (elo : Q) : Rank :=
  if Qle_bool 2000 elo then R_platinum
  else if Qle_bool 1500 elo then R_gold
  else if Qle_bool 1000 elo then R_silver
  else R_bronze.

Definition rank_name (r : Rank) : string :=
  match r with
  | R_platinum => "–ü–ª–∞—Ç–∏–Ω–æ–≤—ã–π"
  | R_gold => "–ó–æ–ª–æ—Ç–æ–π"
  | R_silver => "–°–µ—Ä–µ–±—Ä—è–Ω—ã–π"
  | R_bronze => "–ë—Ä–æ–Ω–∑–æ–≤—ã–π"
  end.

Definition rank_class (r : Rank) : string :=
  match r with R_platinum => "platinum" | R_gold => "gold" | R_silver => "silver" | R_bronze => "bronze" end.

(** [GAMES_DATA] without the icons: [(id, name)]. *)
Definition GAMES_DATA : list (string * string) :=
  [("warcraft3", "Warcraft III"); ("starwars", "Star Wars: EaW"); ("coh", "Company of Heroes")].

(** [x.toFixed(f)], as the number its string denotes: round half away
    from zero at [f] decimals. *)
Definition toFixed (v : Q) (f : nat) : Q :=
  let p := inject_Z (10 ^ Z.of_nat f) in
  if Qlt_le_dec v 0 then - (math_round (- v * p) / p) else math_round (v * p) / p.

(** One card of the games list. *)
Record GameStat := mkGameStat {
  gs_id : string;
  gs_name : string;
  gs_elo : Q;
  gs_rank : Rank;
  gs_monthsAgo : Z;
  gs_hoursPerDay : Q;
  gs_hoursPerWeek : Q;
  gs_hoursPerMonth : Q;
}.

(** The [GAMES_DATA.map] callback, reading three values of
    [Math.random()]: for the rating, the start month and the hours. *)
Definition gameStat (u : User) (g : string * string) (r1 r2 r3 : Q) : GameStat :=
  let e := elo u + inject_Z (Qfloor (r1 * 200 - 100)) in
  let monthsAgo := (Qfloor (r2 * 36) + 1)%Z in
  let hoursPerDay := toFixed (r3 * 5 + (1 # 2)) 1 in
  mkGameStat (fst g) (snd g) e (getRankInfo e) monthsAgo hoursPerDay
    (toFixed (hoursPerDay * 7) 0) (toFixed (hoursPerDay * 30) 0).

(** [loadGamesPlayedList(user)], with the random values from position
    [k] of the stream. *)
Definition loadGamesPlayedList (u : User) (rand : nat -> Q) (k : nat) : list GameStat :=
  imap (fun i g => gameStat u g (rand (k + 3 * i)%nat) (rand (k + 3 * i + 1)%nat) (rand (k + 3 * i + 2)%nat))
    GAMES_DATA.

(** The per-game block [loadGameStats] writes into [#statsGame]. *)
Record GameDetail := mkGameDetail {
  gd_name : string;
  gd_elo : Q;
  gd_wins : Z;
  gd_losses : Z;
  gd_winRate : Q;
}.

(** [loadGameStats(gameId, user)] with two values of [Math.random()];
    [old] is what [#statsGame] held (kept for an unknown game). *)
Definition loadGameStats (gameId : string) (u : User) (r1 r2 : Q) (old : option GameDetail) : option GameDetail :=
  match List.find (fun g => String.eqb (fst g) gameId) GAMES_DATA with
  | None => old
  | Some g =>
      let games := (Qfloor (gamesPlayed u / inject_Z (Z.of_nat (length GAMES_DATA))) + Qfloor (r1 * 10))%Z in
      let w := Qfloor (inject_Z games * (52 # 100)) in
      let l := (games - w)%Z in
      let winRate := if Z.ltb 0 games then math_round (inject_Z w / inject_Z games * 100) else 0 in
      let e := elo u + inject_Z (Qfloor (r2 * 200 - 100)) in
      Some (mkGameDetail (snd g) e w l winRate)
  end.

(** The statistics panel: the selector drop-down, the active option, the
    selector's text ([None]: as in the page's HTML), which of the two
    blocks is hidden, and the per-game block. *)
Record StatsPanel := mkStatsPanel {
  sp_dropdownShown : bool;
  sp_activeOption : option string;
  sp_selectorText : option string;
  sp_accountHidden : bool;
  sp_gameHidden : bool;
  sp_game : option GameDetail;
}.

Definition ACCOUNT_TEXT : string := "–ê–∫–∫–∞—É–Ω—Ç".

(** [selectGame(gameId, user)]. *)
Definition selectGame (gameId : string) (u : User) (r1 r2 : Q) (p : StatsPanel) : StatsPanel :=
  if String.eqb gameId "account" then
    mkStatsPanel (sp_dropdownShown p) (Some gameId) (Some ACCOUNT_TEXT) false true (sp_game p)
  else
    let text := match List.find (fun g => String.eqb (fst g) gameId) GAMES_DATA with
                | Some g => Some (snd g)
                | None => sp_selectorText p
                end in
    mkStatsPanel (sp_dropdownShown p) (Some gameId) text true false
      (loadGameStats gameId u r1 r2 (sp_game p)).

Definition with_dropdown (p : StatsPanel) (b : bool) : StatsPanel :=
  mkStatsPanel b (sp_activeOption p) (sp_selectorText p) (sp_accountHidden p) (sp_gameHidden p) (sp_game p).

(** The clicks the panel listens to: the selector button (it stops the
    click), anywhere else in the document, an option of the drop-down
    and a card of the games list ([gameId] is the [data-game] attribute;
    the two last bubble to the document). *)
Inductive StatsEvent :=
| SE_button
| SE_document
| SE_option (gameId : string) (r1 r2 : Q)
| SE_card (gameId : string) (r1 r2 : Q).

Definition stats_step (u : User) (p : StatsPanel) (ev : StatsEvent) : StatsPanel :=
  match ev with
  | SE_button => with_dropdown p (negb (sp_dropdownShown p))
  | SE_document => with_dropdown p false
  | SE_option gameId r1 r2 =>
      let p1 := if String.eqb gameId "" then p else with_dropdown (selectGame gameId u r1 r2 p) false in
      with_dropdown p1 false
  | SE_card gameId r1 r2 =>
      let p1 := if String.eqb gameId "" then p else selectGame gameId u r1 r2 p in
      with_dropdown p1 false
  end.

Definition stats_run (u : User) (p : StatsPanel) (evs : list StatsEvent) : StatsPanel :=
  fold_left (stats_step u) evs p.

(** ** Bio *)

Definition NO_BIO_TEXT : string := "–ù–µ—Ç –æ–ø–∏—Å–∞–Ω–∏—è".

(** [loadBio(user)]: the bio text and the level. *)
Definition loadBio (u : User) : string * Q := (js_str_or (bio u) NO_BIO_TEXT, level u).

(** ** Match history *)

(** [MatchResult] and [Game] of types.ts. *)
Inductive MatchResult := MR_win | MR_loss | MR_draw | MR_live.
Inductive Game := G_warcraft | G_starwars | G_coh | G_all.

Definition result_text (r : MatchResult) : string :=
  match r with MR_win => "win" | MR_loss => "loss" | MR_draw => "draw" | MR_live => "live" end.

Definition game_text (g : Game) : string :=
  match g with
  | G_warcraft => "Warcraft III" | G_starwars => "Star Wars: EaW"
  | G_coh => "Company of Heroes" | G_all => "All"
  end.

(** The arrays of [generateMockMatchHistory]. *)
Definition opponents : list string := [ "Grubby"; "Happy"; "Lyn"; "TH000"; "Moon"; "Infi"; "Foggy"; "Hitman"; "Lawliet"; "Sok"; "ReMinD"; "Chaemiko" ].
Definition games : list Game := [G_warcraft; G_starwars; G_coh].
Definition dates : list string := [ "–¢–æ–ª—å–∫–æ —á—Ç–æ"; "30 –º–∏–Ω—É—Ç –Ω–∞–∑–∞–¥"; "2 —á–∞—Å–∞ –Ω–∞–∑–∞–¥"; "5 —á–∞—Å–æ–≤ –Ω–∞–∑–∞–¥"; "–í—á–µ—Ä–∞"; "–í—á–µ—Ä–∞"; "2 –¥–Ω—è –Ω–∞–∑–∞–¥"; "3 –¥–Ω—è –Ω–∞–∑–∞–¥"; "4 –¥–Ω—è –Ω–∞–∑–∞–¥"; "5 –¥–Ω–µ–π –Ω–∞–∑–∞–¥"; "–ù–∞ –ø—Ä–æ—à–ª–æ–π –Ω–µ–¥–µ–ª–µ"; "–ù–∞ –ø—Ä–æ—à–ª–æ–π –Ω–µ–¥–µ–ª–µ" ].
Definition scores : list string := [ "2-0"; "2-1"; "1-2"; "0-2"; "3-1"; "1-3"; "2-0"; "2-1" ].
Definition durations : list string := [ "12 –º–∏–Ω"; "18 –º–∏–Ω"; "22 –º–∏–Ω"; "24 –º–∏–Ω"; "28 –º–∏–Ω"; "31 –º–∏–Ω"; "35 –º–∏–Ω"; "38 –º–∏–Ω"; "42 –º–∏–Ω"; "45 –º–∏–Ω" ].

(** A [MockMatch] as the loop builds it.  Reading an array out of its
    range gives [undefined] ([None]): the declared type says [string],
    which the compiler does not check for array reads. *)
Record MockMatch := mkMockMatch {
  mm_id : string;
  mm_opponent : option string;
  mm_result : MatchResult;
  mm_game : option Game;
  mm_eloChange : Z;
  mm_date : option string;
  mm_score : option string;
  mm_duration : option string;
}.

(** Iteration [i] of the loop, reading [Math.random()] at position
    [k + i] of the stream. *)
Definition mockMatch (rand : nat -> Q) (k i : nat) : MockMatch :=
  let isWin := negb (Nat.eqb (i mod 3) 2) in
  let eloChange :=
    if isWin then (Qfloor (rand (k + i)%nat * 20) + 15)%Z
    else (- (Qfloor (rand (k + i)%nat * 16) + 12))%Z in
  mkMockMatch (pretty (S i)) (nth_error opponents (i mod length opponents))
    (if isWin then MR_win else MR_loss) (nth_error games (i mod length games)) eloChange
    (nth_error dates i)
    (if isWin then nth_error scores (i mod 4)
     else Some (js_str_or (nth_error scores (i mod 4 + 4)) "1-2"))
    (nth_error durations (i mod length durations)).

(** [generateMockMatchHistory(user)]: [for (let i = 0; i < 12; i++)]. *)
Definition generateMockMatchHistory (rand : nat -> Q) (k : nat) : list MockMatch :=
  map (mockMatch rand k) (seq 0 12).

(** A [${x}] of an [undefined] value. *)
Definition js_template (o : option string) : string :=
  match o with Some s => s | None => "undefined" end.

Definition WIN_LABEL : string := "–ü–û–ë–ï–î–ê".
Definition LOSS_LABEL : string := "–ü–û–†–ê–ñ–ï–ù–ò–ï".
Definition MATCHES_SUFFIX : string := " –º–∞—Ç—á–µ–π".

(** One [.match-history-row]: its class suffix, the result label, the
    game and score, the opponent, duration, date and rating change. *)
Record MatchRow := mkMatchRow {
  mr_class : string;
  mr_label : string;
  mr_game : string;
  mr_score : string;
  mr_opponent : string;
  mr_duration : string;
  mr_date : string;
  mr_elo : string;
}.

Definition eloText (e : Z) : string := String.append (if Z.ltb 0 e then "+" else "") (pretty e).

Definition renderRow (m : MockMatch) : MatchRow :=
  mkMatchRow (result_text (mm_result m))
    (match mm_result m with MR_win => WIN_LABEL | _ => LOSS_LABEL end)
    (js_template (option_map game_text (mm_game m))) (js_template (mm_score m))
    (js_template (mm_opponent m)) (js_template (mm_duration m)) (js_template (mm_date m))
    (eloText (mm_eloChange m)).

(** [renderMatchHistory(matches)]: the count text and the rows. *)
Definition renderMatchHistory (ms : list MockMatch) : string * list MatchRow :=
  (String.append (pretty (length ms)) MATCHES_SUFFIX, map renderRow ms).

(** ** Header search *)

(** The filter of this page's [setupSearch]. *)
Definition viewSearchMatch (query : string) (cur u : User) : bool :=
  (negb (String.eqb (id u) (id cur)) &&
   ((negb (String.eqb (nickname u) "") && Friends.str_includes query (toLowerCase (nickname u))) ||
    match login u with
    | Some l => negb (String.eqb l "") && Friends.str_includes query (toLowerCase l)
    | None => false
    end))%bool.

(** The input listener of [setupSearch]. *)
Definition onSearchInput (ls : LocalStorage) (cur : User) (value : string) : Friends.SearchResults :=
  let query := toLowerCase (trim value) in
  if Nat.ltb (js_length query) 2 then Friends.SR_closed
  else match ls_database ls with
  | None => Friends.SR_unchanged
  | Some db => Friends.SR_open (firstn 8 (List.filter (viewSearchMatch query cur) (users db)))
  end.

Definition LEVEL_PREFIX : string := "–£—Ä. ".

(** One [.search-result-item]: the profile it links to, the avatar, the
    name, the [@login] line for a truthy login, the level text. *)
Record SearchItem := mkSearchItem {
  si_id : string;
  si_avatar : string;
  si_name : string;
  si_login : option string;
  si_levelPrefix : string;
  si_level : Q;
}.

Definition searchItem (u : User) : SearchItem :=
  mkSearchItem (id u) (js_str_or (avatar u) "https://via.placeholder.com/40") (nickname u)
    (match login u with Some l => if String.eqb l "" then None else Some l | None => None end)
    LEVEL_PREFIX (level u).

(** ** Sidebar and share button *)

(** The [.logout-btn] listener of [setupSidebar], [ok] the answer to
    [confirm]. *)
Definition sidebarLogout (ok : bool) (b : Browser) : Browser :=
  if ok then
    redirect (with_session (with_local b (clear_currentUser (set_loggedIn (local b) None)))
                (mkSessionStorage None None)) "index.html"
  else b.

Definition SHARE_COPIED : string := "–°—Å—ã–ª–∫–∞ –Ω–∞ –ø—Ä–æ—Ñ–∏–ª—å —Å–∫–æ–ø–∏—Ä–æ–≤–∞–Ω–∞!".
Definition SHARE_PREFIX : string := "–°—Å—ã–ª–∫–∞: ".

(** [setupShareButton]: [copied] says whether [navigator.clipboard.writeText]
    resolved. *)
Definition onShare (copied : bool) (url : string) (b : Browser) : Browser :=
  if copied then alert b SHARE_COPIED else alert b (String.append SHARE_PREFIX url).

(** ** The page *)

(** What [init] draws for the profile it shows. *)
Record Rendered := mkRendered {
  r_header : HeaderView;
  r_background : Dashboard.BannerBackground;
  r_canvas : list ViewNode;
  r_account : AccountStats;
  r_games : list GameStat;
  r_bio : string * Q;
  r_matchCount : string;
  r_matches : list MatchRow;
}.

(** The rendering calls of [init] after the drop-down and notification
    setup, on the storage they leave: [loadHeader], [renderBanner],
    [loadStats] (nine random values), [loadBio],
    [generateMockMatchHistory] (twelve more) and [renderMatchHistory]. *)
Definition render (ls : LocalStorage) (cur pu : User) (rand : nat -> Q) : Rendered :=
  let banner := renderBanner ls pu in
  let history := renderMatchHistory (generateMockMatchHistory rand 9) in
  mkRendered (loadHeader cur) (fst banner) (snd banner) (accountStats ls pu)
    (loadGamesPlayedList pu rand 0) (loadBio pu) (fst history) (snd history).

(** [init()]: the state of [ProfileView.init] and what the page draws. *)
Definition viewPage (ls : LocalStorage) (viewId : option string) (rand : nat -> Q)
    : option (ProfileView.ProfileView * Rendered) :=
  match ProfileView.init ls viewId with
  | Some pv => Some (pv, render (ProfileView.pv_local pv) (ProfileView.pv_currentUser pv)
                            (ProfileView.pv_profileUser pv) rand)
  | None => None
  end.

(** ** Observations *)

(** A view node draws a widget as an editor canvas node does: same
    element id, position, z-index and content. *)
Definition widget_agrees (v : ViewNode) (n : Node) : Prop :=
  vn_id v = data_element_id n /\ Some (vn_left v) = left n /\ Some (vn_top v) = top n /\
  Some (vn_zIndex v) = z_index n /\ vn_widget v = widgetContent n.

(** The TypeScript type [MockMatch] of a runtime value: no [string] or
    [Game] field is [undefined]. *)
Inductive match_typed : MockMatch -> Prop :=
| match_typed_intro i o r g e d sc du :
    match_typed (mkMockMatch i (Some o) r (Some g) e (Some d) (Some sc) (Some du)).

(** The range the rating change of a row has, by its result. *)
Definition elo_in_range (m : MockMatch) : Prop :=
  match mm_result m with
  | MR_win => (15 <= mm_eloChange m <= 34)%Z
  | MR_loss => (-27 <= mm_eloChange m <= -12)%Z
  | _ => False
  end.

(** Who won by a score ["a-b"] of one digit each side. *)
Definition score_winner (sc : string) : option bool :=
  match sc with
  | String a (String "-"%char (String b EmptyString)) =>
      Some (Nat.ltb (Ascii.nat_of_ascii b) (Ascii.nat_of_ascii a))
  | _ => None
  end.

(** A row's score agrees with its result. *)
Definition score_agrees (m : MockMatch) : bool :=
  match mm_score m, mm_result m with
  | Some sc, MR_win => match score_winner sc with Some w => w | None => true end
  | Some sc, MR_loss => match score_winner sc with Some w => negb w | None => true end
  | _, _ => true
  end.

(** ** Lemmas *)

Lemma applyTextStyle_fresh (cls : string) (ts : TextStyle) :
  applyTextStyle (freshText cls) ts = Editor.styled_text ts (freshText cls).
Proof.
  destruct ts as [c f sz]. unfold applyTextStyle, Editor.styled_text; simpl.
  destruct c as [c|]; [destruct (String.eqb_spec c "") as [->|Hc]|];
  destruct f as [f|]; try destruct (String.eqb_spec f "") as [->|Hf];
  destruct (Editor.js_num_truthy sz); simpl;
  repeat match goal with H : ?a <> "" |- _ => rewrite (proj2 (String.eqb_neq a "") H); clear H end;
  reflexivity.
Qed.

Lemma widgetView_agrees (w : ProfileWidget) (h : nat) : widget_agrees (widgetView w) (Editor.widgetNode w h).
Proof.
  unfold widget_agrees, widgetView, Editor.widgetNode. simpl.
  repeat split.
Qed.

Lemma exitEditMode_loggedIn (e : Editor.Editor) :
  ls_loggedIn (Editor.storage (Editor.exitEditMode e true)) = ls_loggedIn (Editor.storage e).
Proof.
  cbn. destruct (ls_database (Editor.storage e)) as [db|] eqn:Hdb; simpl; rewrite ?Hdb; [|reflexivity].
  destruct (user_index db (id (Editor.user e))); reflexivity.
Qed.

(** On a signed-in browser the page shows the current user's own profile
    when no other id is asked for. *)
Lemma viewPage_own (ls : LocalStorage) (u : User) (rand : nat -> Q) :
  ls_loggedIn ls = Some "true" -> ls_currentUser ls = Some u ->
  exists pv, viewPage ls None rand =
    Some (pv, render (ProfileView.pv_local pv) (ProfileView.pv_currentUser pv) u rand) /\
    ProfileView.pv_profileUser pv = u.
Proof.
  intros Hl Hc. unfold viewPage.
  destruct (ProfileView.init ls None) as [pv|] eqn:E;
    unfold ProfileView.init, ProfileView.checkAuth in E; rewrite Hl, Hc in E; simpl in E;
    destruct (Header.setupProfileDropdown ls); [|discriminate].
  injection E as <-. eexists. split; reflexivity.
Qed.

(** [Math.floor(Math.random() * n)] lies in [[0, n - 1]]. *)
Lemma floor_draw (r : Q) (n : Z) :
  0 <= r < 1 -> (0 < n)%Z -> (0 <= Qfloor (r * (n # 1)) < n)%Z.
Proof.
  intros [H0 H1] Hn. change (n # 1) with (inject_Z n).
  assert (Hn' : 0 < inject_Z n) by (change 0 with (inject_Z 0); rewrite <- Zlt_Qlt; exact Hn).
  apply Qfloor_range.
  - apply Qmult_le_0_compat; [exact H0 | apply Qlt_le_weak, Hn'].
  - rewrite <- (Qmult_1_l (inject_Z n)) at 2. apply Qmult_lt_r; assumption.
Qed.

Lemma mockMatch_typed (rand : nat -> Q) (k i : nat) :
  (forall n, 0 <= rand n < 1) -> (i < 12)%nat ->
  match_typed (mockMatch rand k i) /\ elo_in_range (mockMatch rand k i).
Proof.
  intros Hr Hi. unfold mockMatch.
  destruct (nth_error_mod_Some opponents i) as [o Ho]; [discriminate|].
  destruct (nth_error_mod_Some games i) as [g Hg]; [discriminate|].
  destruct (nth_error_mod_Some durations i) as [du Hdu]; [discriminate|].
  destruct (nth_error dates i) as [d|] eqn:Hd; [|apply nth_error_None in Hd; simpl in Hd; lia].
  destruct (nth_error scores (i mod 4)) as [sc|] eqn:Hs;
    [|apply nth_error_None in Hs; simpl in Hs; pose proof (Nat.mod_upper_bound i 4); lia].
  rewrite Ho, Hg, Hdu.
  pose proof (floor_draw (rand (k + i)%nat) 20 (Hr _) eq_refl) as Hw.
  pose proof (floor_draw (rand (k + i)%nat) 16 (Hr _) eq_refl) as Hl.
  destruct (Nat.eqb (i mod 3) 2); cbn -[Qfloor]; (split; [constructor | unfold elo_in_range; cbn -[Qfloor]; lia]).
Qed.

(** The profile view draws each part of the banner as the component
    that owns it does: the background and the statistics as the
    dashboard, the text styles and widget nodes as the banner editor;
    and its search lists what the friends page's search lists. *)
Theorem view_draws_like_owners (ls : LocalStorage) (u cur : User) (i : string) (p : BannerPosition)
    (z : Q) (vis : bool) (st : option TextStyle) (cls : string) (ts : TextStyle)
    (w : ProfileWidget) (h : nat) (value : string) :
  viewBackground u = Dashboard.bannerBackground u /\
  createBannerElement ls (mkElement i ET_stats p z vis st) u = Some (CC_stats (Dashboard.generateMockStats ls u)) /\
  applyTextStyle (freshText cls) ts = Editor.styled_text ts (freshText cls) /\
  widget_agrees (widgetView w) (Editor.widgetNode w h) /\
  onSearchInput ls cur value = Friends.onSearchInput ls cur value.
Proof.
  split; [reflexivity|]. split; [reflexivity|]. split; [apply applyTextStyle_fresh|].
  split; [apply widgetView_agrees | reflexivity].
Qed.

(** C8: After a Save in any editor reachable from [init], the profile page
    the same signed-in browser opens shows the saved banner: exactly the
    visible elements of the editor's layout, in order and at their
    positions, then the editor's widgets, each drawn as the editor draws
    it. *)
Theorem own_profile_shows_saved_banner (e : Editor.Editor) (rand : nat -> Q) :
  Editor.reachable e -> Editor.crashed e = false -> ls_loggedIn (Editor.storage e) = Some "true" ->
  let e' := Editor.step e Editor.EvSave in
  exists pv r, viewPage (Editor.storage e') None rand = Some (pv, r) /\
    ProfileView.pv_profileUser pv = Editor.user e' /\
    r_canvas r = map (coreNode (ProfileView.pv_local pv) (Editor.user e'))
                   (List.filter visible (elements (Editor.layout e))) ++
                 map widgetView (Editor.widgets e) /\
    (forall w h, In w (Editor.widgets e) -> widget_agrees (widgetView w) (Editor.widgetNode w h)).
Proof.
  intros Hr Hc Hl. cbv zeta.
  destruct (Editor.save_roundtrip e Hc (proj1 (Editor.reachable_version_ok e Hr))) as (Hcur & Hlay & Hws & _).
  assert (Hl' : ls_loggedIn (Editor.storage (Editor.step e Editor.EvSave)) = Some "true").
  { rewrite (Editor.step_live e Editor.EvSave Hc), exitEditMode_loggedIn. exact Hl. }
  destruct (viewPage_own _ _ rand Hl' Hcur) as (pv & Hv & Hpu).
  eexists pv, _. split; [exact Hv|]. split; [exact Hpu|]. split; [|intros w h _; apply widgetView_agrees].
  unfold render, renderBanner. cbn [r_canvas fst snd].
  change (viewLayout ?u) with (Editor.loadLayout u). rewrite Hlay.
  unfold Editor.loadWidgets in Hws. unfold Friends.js_list_or. rewrite Hws. reflexivity.
Qed.

(** C9: Every match of the mock history is a value of the declared type
    [MockMatch]: all twelve rows have their strings and game (every
    array read is in range), distinct ids, and a rating change of 15 to
    34 for a win and of -27 to -12 for a loss. *)
Theorem match_history_typed (rand : nat -> Q) (k : nat) :
  (forall n, 0 <= rand n < 1) ->
  let ms := generateMockMatchHistory rand k in
  length ms = 12%nat /\ NoDup (map mm_id ms) /\ Forall (fun m => match_typed m /\ elo_in_range m) ms.
Proof.
  intros Hr ms. split; [reflexivity|]. split.
  - unfold ms, generateMockMatchHistory. rewrite map_map. simpl mm_id.
    apply NoDup_fmap_2; [|apply NoDup_seq].
    intros a b Hab. apply (inj pretty) in Hab. congruence.
  - apply Forall_forall. intros m Hm. apply in_map_iff in Hm as (i & <- & Hi).
    apply in_seq in Hi. apply mockMatch_typed; [exact Hr | lia].
Qed.

(** Seven of the twelve rows show a score that contradicts their result
    (a win 0-2, a loss 2-0, ...), whatever [Math.random()] returns: the
    score is chosen by [i % 4] while the result is chosen by [i % 3]. *)
Theorem mock_scores_contradict_results (rand : nat -> Q) (k : nat) :
  map mm_id (List.filter (fun m => negb (score_agrees m)) (generateMockMatchHistory rand k)) =
    ["3"; "4"; "7"; "8"; "9"; "11"; "12"].
Proof. reflexivity. Qed.

(** [toFixed] of a value between two integers stays between them. *)
Lemma toFixed_between (v : Q) (f : nat) (lo hi : Z) :
  inject_Z lo <= v <= inject_Z hi -> (0 <= lo)%Z -> inject_Z lo <= toFixed v f <= inject_Z hi.
Proof.
  intros [H1 H2] Hlo. unfold toFixed.
  assert (Hv : 0 <= v) by (eapply Qle_trans; [|exact H1]; change 0 with (inject_Z 0); rewrite <- Zle_Qle; exact Hlo).
  destruct (Qlt_le_dec v 0) as [Hneg|_]; [exfalso; apply (Qlt_not_le _ _ Hneg Hv)|].
  set (p := inject_Z (10 ^ Z.of_nat f)).
  assert (Hp : 0 < p).
  { unfold p. change 0 with (inject_Z 0). rewrite <- Zlt_Qlt. apply Z.pow_pos_nonneg; lia. }
  assert (Hr : inject_Z (lo * 10 ^ Z.of_nat f) <= math_round (v * p) <= inject_Z (hi * 10 ^ Z.of_nat f)).
  { apply math_round_between. rewrite !inject_Z_mult. fold p.
    split; apply Qmult_le_compat_r; (assumption || apply Qlt_le_weak, Hp). }
  rewrite !inject_Z_mult in Hr. fold p in Hr. destruct Hr as [Hr1 Hr2]. split.
  - apply Qle_shift_div_l; assumption.
  - apply Qle_shift_div_r; assumption.
Qed.

(** [user.elo + Math.floor(Math.random() * 200 - 100)] is within 100 of
    the user's rating. *)
Lemma elo_draw (e r : Q) :
  0 <= r < 1 -> e - 100 <= e + inject_Z (Qfloor (r * 200 - 100)) < e + 100.
Proof.
  intros Hr.
  pose proof (Qfloor_range (r * 200 - 100) (-100) 100
                ltac:(change (inject_Z (-100)) with (-100); lra)
                ltac:(change (inject_Z 100) with 100; lra)) as He.
  rewrite Zle_Qle, Zlt_Qlt in He. change (inject_Z (-100)) with (-100) in He.
  change (inject_Z 100) with 100 in He. lra.
Qed.

(** The card of a game in the games list: a rating within 100 of the
    user's, a start 1 to 36 months ago, 0.5 to 5.5 hours a day. *)
Lemma gameStat_bounds (u : User) (g : string * string) (r1 r2 r3 : Q) :
  0 <= r1 < 1 -> 0 <= r2 < 1 -> 0 <= r3 < 1 ->
  let s := gameStat u g r1 r2 r3 in
  elo u - 100 <= gs_elo s < elo u + 100 /\ (1 <= gs_monthsAgo s <= 36)%Z /\
  1 # 2 <= gs_hoursPerDay s <= 11 # 2.
Proof.
  intros H1 H2 H3 s. unfold s, gameStat. cbn [gs_elo gs_monthsAgo gs_hoursPerDay].
  pose proof (elo_draw (elo u) r1 H1) as He.
  pose proof (floor_draw r2 36 H2 eq_refl) as Hm.
  assert (Hh : inject_Z 5 <= toFixed (r3 * 5 + (1 # 2)) 1 * 10 <= inject_Z 55).
  { unfold toFixed. destruct (Qlt_le_dec (r3 * 5 + (1 # 2)) 0) as [Hn|_]; [lra|].
    change (inject_Z (10 ^ Z.of_nat 1)) with 10.
    assert (Hr : inject_Z 5 <= math_round ((r3 * 5 + (1 # 2)) * 10) <= inject_Z 55)
      by (apply math_round_between; change (inject_Z 5) with 5; change (inject_Z 55) with 55; lra).
    assert (E : math_round ((r3 * 5 + (1 # 2)) * 10) / 10 * 10 == math_round ((r3 * 5 + (1 # 2)) * 10))
      by field.
    rewrite E. exact Hr. }
  change (inject_Z 5) with 5 in Hh. change (inject_Z 55) with 55 in Hh.
  split; [exact He|]. split; [lia | lra].
Qed.

(** The panel keeps exactly one of its two blocks shown. *)
Definition one_block (p : StatsPanel) : Prop := sp_accountHidden p = negb (sp_gameHidden p).

Lemma selectGame_one_block (gameId : string) (u : User) (r1 r2 : Q) (p : StatsPanel) :
  one_block (selectGame gameId u r1 r2 p).
Proof. unfold one_block, selectGame. destruct (String.eqb gameId "account"); reflexivity. Qed.

Lemma stats_step_one_block (u : User) (p : StatsPanel) (ev : StatsEvent) :
  one_block p -> one_block (stats_step u p ev).
Proof.
  intros H. destruct ev as [| |g r1 r2|g r1 r2]; simpl; try exact H;
    destruct (String.eqb g ""); try exact H; apply selectGame_one_block.
Qed.

(** [Math.round(w / g * 100)] of [0 <= w <= 0.52 g] lies in [[0, 52]]. *)
Lemma winRate_52 (w g : Z) :
  (0 < g)%Z -> (0 <= w)%Z -> inject_Z w <= inject_Z g * (52 # 100) ->
  0 <= math_round (inject_Z w / inject_Z g * 100) <= 52.
Proof.
  intros Hg Hw H.
  assert (Hg' : 0 < inject_Z g) by (change 0 with (inject_Z 0); rewrite <- Zlt_Qlt; exact Hg).
  assert (Hw' : 0 <= inject_Z w) by (change 0 with (inject_Z 0); rewrite <- Zle_Qle; exact Hw).
  assert (E : inject_Z w / inject_Z g * 100 == inject_Z w * 100 / inject_Z g)
    by (field; intros Z; rewrite Z in Hg'; discriminate).
  rewrite E. change 0 with (inject_Z 0). change 52 with (inject_Z 52).
  apply math_round_between. split.
  - apply Qle_shift_div_l; [exact Hg'|]. change (inject_Z 0) with 0. lra.
  - apply Qle_shift_div_r; [exact Hg'|]. change (inject_Z 52) with 52. lra.
Qed.

(** The games count of the per-game block is never negative for a user
    whose [gamesPlayed] is not. *)
Lemma games_nonneg (u : User) (r1 : Q) :
  0 <= gamesPlayed u -> 0 <= r1 < 1 ->
  (0 <= Qfloor (gamesPlayed u / inject_Z (Z.of_nat (length GAMES_DATA))) + Qfloor (r1 * 10))%Z.
Proof.
  intros Hgp Hr. pose proof (floor_draw r1 10 Hr eq_refl).
  assert (0 <= Qfloor (gamesPlayed u / inject_Z 3))%Z.
  { change 0%Z with (Qfloor 0). apply Qfloor_resp_le, Qle_shift_div_l; [reflexivity|].
    rewrite Qmult_0_l. exact Hgp. }
  change (Z.of_nat (length GAMES_DATA)) with 3%Z. lia.
Qed.

(** For a user whose [gamesPlayed] is not negative, selecting a game
    of the list shows its name, a rating within 100 of the user's,
    non-negative wins and losses and a win rate between 0 and 52 percent,
    whatever the account's own wins and losses: the games are split 52 to
    48 ([Math.floor(games * 0.52)]) for every user. *)
Theorem game_stats_bounds (gameId : string) (u : User) (r1 r2 : Q) (old : option GameDetail) (g : string * string) :
  0 <= gamesPlayed u -> 0 <= r1 < 1 -> 0 <= r2 < 1 ->
  List.find (fun g => String.eqb (fst g) gameId) GAMES_DATA = Some g ->
  exists d, loadGameStats gameId u r1 r2 old = Some d /\ gd_name d = snd g /\
    (0 <= gd_wins d)%Z /\ (0 <= gd_losses d)%Z /\
    elo u - 100 <= gd_elo d < elo u + 100 /\ 0 <= gd_winRate d <= 52.
Proof.
  intros Hgp H1 H2 Hg. unfold loadGameStats. rewrite Hg.
  eexists. split; [reflexivity|]. cbn [gd_name gd_wins gd_losses gd_elo gd_winRate].
  pose proof (games_nonneg u r1 Hgp H1) as Hn.
  revert Hn. generalize (Qfloor (gamesPlayed u / inject_Z (Z.of_nat (length GAMES_DATA))) + Qfloor (r1 * 10))%Z.
  intros n Hn.
  assert (Hq : 0 <= inject_Z n) by (change 0 with (inject_Z 0); rewrite <- Zle_Qle; exact Hn).
  assert (Hw0 : (0 <= Qfloor (inject_Z n * (52 # 100)))%Z).
  { change 0%Z with (Qfloor 0). apply Qfloor_resp_le. apply Qmult_le_0_compat; [exact Hq | discriminate]. }
  assert (Hwq : inject_Z (Qfloor (inject_Z n * (52 # 100))) <= inject_Z n * (52 # 100)) by apply Qfloor_le.
  assert (Hwn : (Qfloor (inject_Z n * (52 # 100)) <= n)%Z) by (rewrite Zle_Qle; lra).
  split; [reflexivity|]. split; [exact Hw0|]. split; [lia|]. split; [apply elo_draw, H2|].
  destruct (Z.ltb_spec 0 n) as [Hpos|_]; [apply winRate_52; assumption | split; discriminate].
Qed.

(** [Rank] in the order of the thresholds. *)
Definition rank_level (r : Rank) : nat :=
  match r with R_bronze => 0 | R_silver => 1 | R_gold => 2 | R_platinum => 3 end.

Lemma Qle_bool_mono (t a b : Q) : a <= b -> Qle_bool t a = true -> Qle_bool t b = true.
Proof. intros H Ha. apply Qle_bool_iff in Ha. apply Qle_bool_iff. lra. Qed.

(** A higher rating never gets a lower rank. *)
Lemma getRankInfo_mono (a b : Q) : a <= b -> (rank_level (getRankInfo a) <= rank_level (getRankInfo b))%nat.
Proof.
  intros H. unfold getRankInfo.
  destruct (Qle_bool 2000 b) eqn:B1; [destruct (Qle_bool 2000 a), (Qle_bool 1500 a), (Qle_bool 1000 a); simpl; lia|].
  destruct (Qle_bool 2000 a) eqn:A1; [rewrite (Qle_bool_mono _ _ _ H A1) in B1; discriminate|].
  destruct (Qle_bool 1500 b) eqn:B2; [destruct (Qle_bool 1500 a), (Qle_bool 1000 a); simpl; lia|].
  destruct (Qle_bool 1500 a) eqn:A2; [rewrite (Qle_bool_mono _ _ _ H A2) in B2; discriminate|].
  destruct (Qle_bool 1000 b) eqn:B3; [destruct (Qle_bool 1000 a); simpl; lia|].
  destruct (Qle_bool 1000 a) eqn:A3; [rewrite (Qle_bool_mono _ _ _ H A3) in B3; discriminate|].
  simpl. lia.
Qed.

(** The name of a game of [GAMES_DATA] by id. *)
Definition known_game (g : string) : option string :=
  option_map snd (List.find (fun x => String.eqb (fst x) g) GAMES_DATA).

(** The last option or card clicked with a non-empty [data-game]. *)
Definition select_of (acc : option string) (ev : StatsEvent) : option string :=
  match ev with
  | SE_option g _ _ | SE_card g _ _ => if String.eqb g "" then acc else Some g
  | _ => acc
  end.

Definition last_selected (evs : list StatsEvent) : option string := fold_left select_of evs None.

(** The panel shows the selection [g]: its option is active, the account
    block for ["account"], the game's block with its name for a game of
    the list. *)
Definition shown_for (p : StatsPanel) (g : string) : Prop :=
  sp_activeOption p = Some g /\
  (g = "account" -> sp_selectorText p = Some ACCOUNT_TEXT /\ sp_accountHidden p = false) /\
  (forall name, known_game g = Some name ->
     sp_selectorText p = Some name /\ sp_gameHidden p = false /\
     exists d, sp_game p = Some d /\ gd_name d = name).

Lemma selectGame_shown (g : string) (u : User) (r1 r2 : Q) (p : StatsPanel) :
  shown_for (selectGame g u r1 r2 p) g.
Proof.
  unfold shown_for, selectGame, known_game, loadGameStats.
  destruct (String.eqb_spec g "account") as [->|Hne].
  - split; [reflexivity|]. split; [intros _; split; reflexivity | discriminate].
  - split; [reflexivity|]. split; [intros E; contradiction|].
    intros name. destruct (List.find _ GAMES_DATA) as [x|]; [|discriminate]. simpl. intros [= <-].
    split; [reflexivity|]. split; [reflexivity|]. eexists. split; reflexivity.
Qed.

Lemma with_dropdown_shown (p : StatsPanel) (b : bool) (g : string) :
  shown_for p g -> shown_for (with_dropdown p b) g.
Proof. tauto. Qed.

Lemma with_dropdown_one_block (p : StatsPanel) (b : bool) : one_block p -> one_block (with_dropdown p b).
Proof. tauto. Qed.

Definition panel_ok (p : StatsPanel) (acc : option string) : Prop :=
  one_block p /\ forall g, acc = Some g -> shown_for p g.

Lemma stats_step_ok (u : User) (p : StatsPanel) (acc : option string) (ev : StatsEvent) :
  panel_ok p acc -> panel_ok (stats_step u p ev) (select_of acc ev).
Proof.
  intros [Hb Hs]. split; [apply stats_step_one_block, Hb|].
  destruct ev as [| |g r1 r2|g r1 r2]; simpl; [intros; apply with_dropdown_shown; auto ..| |];
    destruct (String.eqb g ""); intros g' Hg;
    solve [apply with_dropdown_shown; auto | injection Hg as <-; repeat apply with_dropdown_shown; apply selectGame_shown].
Qed.

(** Whatever clicks reach the statistics panel (the selector
    button, the document, options and cards of the games list), a panel
    showing one of its two blocks keeps showing exactly one, and after
    the last selection [g] the option [g] is active and the panel shows
    the account block for ["account"], or the block of [g] with its name
    for a game of the list. *)
Theorem stats_panel_select (u : User) (p : StatsPanel) (evs : list StatsEvent) :
  one_block p ->
  one_block (stats_run u p evs) /\
  forall g, last_selected evs = Some g -> shown_for (stats_run u p evs) g.
Proof.
  intros Hb. assert (H : panel_ok p None) by (split; [exact Hb | discriminate]). clear Hb.
  unfold stats_run, last_selected. revert H. generalize (@None string). revert p.
  induction evs as [|ev evs IH]; intros p acc H; [exact H|]. apply IH, stats_step_ok, H.
Qed.

End ProfileRender.
