(* ===== verification/Menus.v ===== *)
(** * The header menus (src/src/dashboard.ts, src/src/user-profile-view.ts)

    The header of the dashboard and of the profile view has three menus:
    the profile drop-down ([setupProfileDropdown]), the search results
    ([setupSearch]) and the notification drop-down ([setupNotifications]).
    Each is opened by its own control and closed by a listener on
    [document] when a click lands outside it; the profile toggle, its
    status row and the bell call [stopPropagation], so their clicks never
    reach those document listeners.  The model dispatches a click as the
    DOM does: the listener of the element hit, then, unless it stopped the
    event, the document listeners in the order [initDashboard] registers
    them (profile drop-down, search, notifications).

    The state is the notification panel of [Notifications] (which holds
    the page's [localStorage] and [currentUser]) with the two other open
    flags; the search reads the storage and user the panel holds, the
    status checkbox writes the storage through [Header.updateStatus]. *)

From S2P Require Import Prelude Types Storage Auth Header Friends Notifications.

Module Menus.
Import Notifications.

(** Where a click lands, as the listeners tell targets apart
    ([closest(...)] tests). *)
Inductive Target :=
| T_profileToggle   (** [#userProfileToggle], not in a [.dropdown-item] *)
| T_dropdownItem    (** a [.dropdown-item] of the drop-down *)
| T_statusRow       (** [#onlineStatusToggle] *)
| T_bell            (** [#notificationBtn] *)
| T_notifInside     (** elsewhere inside [#navNotifications] *)
| T_search          (** inside [.nav-search] *)
| T_elsewhere.      (** anywhere else *)

Definition in_notifications (t : Target) : bool :=
  match t with T_bell | T_notifInside => true | _ => false end.

Definition in_search (t : Target) : bool :=
  match t with T_search => true | _ => false end.

Record Menus := mkMenus {
  m_panel : Panel;          (** the notification drop-down, [open] included *)
  m_profileOpen : bool;     (** [open] class of [#profileDropdown] *)
  m_searchOpen : bool;      (** [open] class of [#searchResults] *)
}.

Definition with_panel (m : Menus) (np : Panel) : Menus := mkMenus np (m_profileOpen m) (m_searchOpen m).
Definition with_profileOpen (m : Menus) (b : bool) : Menus := mkMenus (m_panel m) b (m_searchOpen m).
Definition with_searchOpen (m : Menus) (b : bool) : Menus := mkMenus (m_panel m) (m_profileOpen m) b.

(** ** Listeners *)

(** The click listener of [#userProfileToggle]: a click on a
    [.dropdown-item] returns at once (and goes on to [document]); any
    other stops the event and toggles the drop-down.  The result says
    whether the event goes on. *)
Definition onProfileToggle (m : Menus) (t : Target) : Menus * bool :=
  match t with
  | T_dropdownItem => (m, true)
  | _ => (with_profileOpen m (negb (m_profileOpen m)), false)
  end.

(** [document.addEventListener('click', () => dropdown.classList.remove('open'))]. *)
Definition onProfileDocument (m : Menus) : Menus := with_profileOpen m false.

(** The document listener of [setupSearch]. *)
Definition onSearchDocument (m : Menus) (t : Target) : Menus :=
  if in_search t then m else with_searchOpen m false.

(** The document listener of [setupNotifications]. *)
Definition onNotifDocument (m : Menus) (t : Target) : Menus :=
  if in_notifications t then m else with_panel m (with_open (m_panel m) false).

(** The listener of the element hit, and whether the event goes on. *)
Definition element_listener (m : Menus) (t : Target) : Menus * bool :=
  match t with
  | T_profileToggle | T_dropdownItem => onProfileToggle m t
  | T_statusRow => (m, false)
  | T_bell => (with_panel m (onNotificationButton (m_panel m)), false)
  | _ => (m, true)
  end.

Definition document_listeners (m : Menus) (t : Target) : Menus :=
  onNotifDocument (onSearchDocument (onProfileDocument m) t) t.

(** A click on [t]. *)
Definition click (m : Menus) (t : Target) : Menus :=
  let '(m1, goesOn) := element_listener m t in
  if goesOn then document_listeners m1 t else m1.

(** The input listener of [setupSearch] (the code of every page; see
    [Friends.onSearchInput]): fewer than two characters close the
    results, no database leaves them, a search opens them. *)
Definition onSearchInput (m : Menus) (value : string) : Menus :=
  match Friends.onSearchInput (np_local (m_panel m)) (np_currentUser (m_panel m)) value with
  | Friends.SR_closed => with_searchOpen m false
  | Friends.SR_unchanged => m
  | Friends.SR_open _ => with_searchOpen m true
  end.

(** The [change] listener of the status checkbox. *)
Definition onStatusChange (m : Menus) (checked : bool) : Menus :=
  let np := m_panel m in
  with_panel m (Notifications.with_local np (fst (Header.onStatusChange (np_local np) checked))).

Inductive MenuEvent :=
| ME_click (t : Target)
| ME_action (notifId action : string) (fromUserId : option string) (nowId nowIso : string)
| ME_searchInput (value : string)
| ME_statusChange (checked : bool).

(** An accept/decline button stops its click and runs the action. *)
Definition menu_step (m : Menus) (ev : MenuEvent) : Menus :=
  match ev with
  | ME_click t => click m t
  | ME_action notifId action fromUserId nowId nowIso =>
      with_panel m (handleNotificationAction (m_panel m) notifId action fromUserId nowId nowIso)
  | ME_searchInput value => onSearchInput m value
  | ME_statusChange checked => onStatusChange m checked
  end.

Definition menu_run (m : Menus) (evs : list MenuEvent) : Menus := fold_left menu_step evs m.

(** The number of menus open. *)
Definition open_count (m : Menus) : nat :=
  ((if np_open (m_panel m) then 1 else 0) + (if m_profileOpen m then 1 else 0) +
   (if m_searchOpen m then 1 else 0))%nat.

(** ** Lemmas *)

Lemma np_open_markAllRead (np : Panel) : np_open (markAllRead np) = np_open np.
Proof.
  unfold markAllRead. destruct (ls_currentUser (np_local np)) as [u|]; [|reflexivity].
  destruct (notifications u) as [[|n ns]|]; try reflexivity.
  destruct (negb (existsb _ _)); [reflexivity|].
  destruct (ls_database _) as [db|]; [destruct (user_index db _)|]; reflexivity.
Qed.

(** The bell flips the notification drop-down. *)
Lemma np_open_onNotificationButton (np : Panel) :
  np_open (onNotificationButton np) = negb (np_open np).
Proof.
  unfold onNotificationButton. destruct (np_open np); simpl; [reflexivity|].
  rewrite np_open_markAllRead. reflexivity.
Qed.

(** A click that reaches [document] (on anything but the profile
    toggle, its status row and the bell) closes the profile drop-down,
    keeps the notification drop-down open only when it lands inside it
    and the search results only when it lands in the search box: after
    it at most one menu is open. *)
Theorem propagating_click_closes_others (m : Menus) (t : Target) :
  snd (element_listener m t) = true ->
  let m' := click m t in
  m_profileOpen m' = false /\
  np_open (m_panel m') = (in_notifications t && np_open (m_panel m))%bool /\
  m_searchOpen m' = (in_search t && m_searchOpen m)%bool /\ (open_count m' <= 1)%nat.
Proof.
  intros H. destruct t; simpl in H; try discriminate; cbn;
    (split; [reflexivity|]; split; [reflexivity|]; split; [reflexivity|]);
    unfold open_count; cbn; destruct (np_open (m_panel m)), (m_searchOpen m); simpl; lia.
Qed.

(** C12: The profile toggle and the bell stop their click, so no
    document listener closes the other menus: on a page whose search
    results are open, a click on the bell and one on the profile toggle
    leave all three menus open at once. *)
Theorem three_menus_open (m : Menus) :
  m_searchOpen m = true -> m_profileOpen m = false -> np_open (m_panel m) = false ->
  let m' := menu_run m [ME_click T_bell; ME_click T_profileToggle] in
  np_open (m_panel m') = true /\ m_profileOpen m' = true /\ m_searchOpen m' = true /\
  open_count m' = 3%nat.
Proof.
  intros Hs Hp Hn. destruct m as [np po so]. cbn in Hs, Hp, Hn. subst po so.
  unfold menu_run, open_count. cbn [fold_left menu_step click element_listener onProfileToggle].
  cbn [m_panel m_profileOpen m_searchOpen with_panel with_profileOpen].
  rewrite np_open_onNotificationButton, Hn. repeat split.
Qed.

End Menus.
