(* ===== verification/DashboardNav.v ===== *)
(** * Navigation of the dashboard (src/src/dashboard.ts)

    The listeners of the dashboard that do not touch the user record: the
    side bar ([setupSidebar]), the game cards ([setupGameCards]), the chat
    and match buttons ([setupChat], [setupMatches]) and the mobile menu
    ([createMobileMenuToggle], run by [initDashboard] and on every
    [resize]).  The side bar and the game cards share one pattern: every
    item loses the [active] class and the one clicked gets it; it is
    [activate] here, with its lemma.  The mobile menu keeps the number of
    menu buttons created, each with its own click listener, so that the
    guard [!menuBtn] is what the model checks. *)

From S2P Require Import Prelude Types Storage Auth Header Friends Notifications Dom Editor Dashboard.

Module DashboardNav.
Import Auth.

(** ** Active items *)

(** [items.forEach(i => i.classList.remove('active'));
    target.classList.add('active')] for the item at index [i]. *)
Definition activate (active : list bool) (i : nat) : list bool :=
  imap (fun j _ => Nat.eqb j i) active.

(** The number of items with the [active] class. *)
Definition active_count (active : list bool) : nat := length (List.filter (fun a : bool => a) active).

(** The side bar: for each [.sidebar-item], whether it is the
    [.logout-btn], and which items are [active]. *)
Record Sidebar := mkSidebar {
  sb_logout : list bool;
  sb_active : list bool;
}.

(** The click listener of side bar item [i]; [ok] answers the logout's
    [confirm]. *)
Definition onSidebarClick (sb : Sidebar) (b : Browser) (i : nat) (ok : bool) : Sidebar * Browser :=
  match nth_error (sb_logout sb) i with
  | Some true => (sb, Dashboard.logout ok b)
  | Some false => (mkSidebar (sb_logout sb) (activate (sb_active sb) i), b)
  | None => (sb, b)
  end.

(** The click listener of game card [i] (the game's name only goes to
    the console). *)
Definition onGameCardClick (active : list bool) (i : nat) : list bool :=
  match nth_error active i with Some _ => activate active i | None => active end.

(** ** Demo alerts *)

(** [text || 'Unknown'] of a [querySelector(...)?.textContent]. *)
Definition text_or_unknown (o : option string) : string := js_str_or o "Unknown".

(** [setupChat]: the alert of a friend's chat button. *)
Definition chatAlert (name : option string) : string :=
  let friendName := text_or_unknown name in
  String.concat EmptyString ["Открыть чат с "; friendName; nl; nl; "Это демо-функция. В реальной версии откроется окно чата."].

(** [setupMatches]: the alert of a match row. *)
Definition matchAlert (opp res : option string) : string :=
  let opponent := text_or_unknown opp in
  let result := text_or_unknown res in
  String.concat EmptyString ["Детали матча"; nl; nl; "Против: "; opponent; nl; "Результат: "; result; nl; nl; "Это демо-функция. В реальной версии откроется полная статистика матча."].

(** ** Mobile menu *)

(** The mobile menu: the [.mobile-menu-btn] buttons created (each with its
    click listener) and the [open] class of [.dashboard-sidebar]. *)
Record MobileMenu := mkMobileMenu {
  mm_buttons : nat;
  mm_sidebarOpen : bool;
}.

(** [createMobileMenuToggle()] at window width [width], [hasHeader]
    telling whether [.header .nav] exists. *)
Definition createMobileMenuToggle (mm : MobileMenu) (width : Z) (hasHeader : bool) : MobileMenu :=
  if Z.leb width 968 then
    if Nat.eqb (mm_buttons mm) 0%nat && hasHeader then mkMobileMenu (S (mm_buttons mm)) (mm_sidebarOpen mm) else mm
  else mm.

(** A click on a menu button runs its one listener. *)
Definition onMenuButton (mm : MobileMenu) : MobileMenu :=
  match mm_buttons mm with
  | O => mm
  | _ => mkMobileMenu (mm_buttons mm) (negb (mm_sidebarOpen mm))
  end.

Inductive MenuEvent := MM_resize (width : Z) | MM_click.

Definition mobile_step (hasHeader : bool) (mm : MobileMenu) (ev : MenuEvent) : MobileMenu :=
  match ev with
  | MM_resize w => createMobileMenuToggle mm w hasHeader
  | MM_click => onMenuButton mm
  end.

(** [initDashboard] calls [createMobileMenuToggle] once at width [w0];
    then the events come. *)
Definition mobile_run (hasHeader : bool) (w0 : Z) (evs : list MenuEvent) : MobileMenu :=
  fold_left (mobile_step hasHeader) evs (createMobileMenuToggle (mkMobileMenu 0%nat false) w0 hasHeader).

(** ** Lemmas *)

Lemma length_activate (active : list bool) (i : nat) : length (activate active i) = length active.
Proof. unfold activate. apply length_imap. Qed.

Lemma lookup_activate (active : list bool) (i j : nat) :
  (j < length active)%nat -> activate active i !! j = Some (Nat.eqb j i).
Proof.
  intros Hj. unfold activate. rewrite list_lookup_imap.
  destruct (lookup_lt_is_Some_2 active j Hj) as [a ->]. reflexivity.
Qed.

Lemma active_count_imap_eqb (i : nat) (l : list bool) : forall k,
  active_count (imap (fun j _ => Nat.eqb (k + j) i) l) =
    if (k <=? i)%nat && (i <? k + length l)%nat then 1%nat else 0%nat.
Proof.
  unfold active_count. induction l as [|a l IH]; intros k; cbn [imap length].
  - destruct (k <=? i)%nat eqn:E1, (i <? k + 0)%nat eqn:E2; simpl; try reflexivity.
    apply Nat.leb_le in E1. apply Nat.ltb_lt in E2. lia.
  - cbn [List.filter].
    rewrite (imap_ext _ (fun j _ => Nat.eqb (S k + j) i)) by (intros; simpl; rewrite Nat.add_succ_r; reflexivity).
    rewrite Nat.add_0_r.
    destruct (Nat.eqb_spec k i) as [->|Hk]; cbn [length]; rewrite IH.
    + destruct (S i <=? i)%nat eqn:E; [apply Nat.leb_le in E; lia|]. rewrite Nat.leb_refl.
      destruct (i <? i + S (length l))%nat eqn:E2; [reflexivity|]. apply Nat.ltb_ge in E2. lia.
    + destruct (S k <=? i)%nat eqn:E1, (k <=? i)%nat eqn:E3, (i <? S k + length l)%nat eqn:E2,
               (i <? k + S (length l))%nat eqn:E4; simpl; try reflexivity;
      rewrite ?Nat.leb_le, ?Nat.leb_gt, ?Nat.ltb_lt, ?Nat.ltb_ge in *; lia.
Qed.

(** After [activate] exactly the clicked item is active. *)
Lemma activate_one (active : list bool) (i : nat) :
  (i < length active)%nat -> active_count (activate active i) = 1%nat /\ activate active i !! i = Some true.
Proof.
  intros Hi. split.
  - pose proof (active_count_imap_eqb i active 0) as H. simpl in H.
    unfold activate. rewrite H. destruct (i <? length active)%nat eqn:E; [reflexivity|].
    apply Nat.ltb_ge in E. lia.
  - rewrite lookup_activate by exact Hi. rewrite Nat.eqb_refl. reflexivity.
Qed.

Definition narrow (hasHeader : bool) (ev : MenuEvent) : bool :=
  match ev with MM_resize w => hasHeader && Z.leb w 968 | MM_click => false end.

Lemma mobile_step_buttons (hasHeader : bool) (mm : MobileMenu) (ev : MenuEvent) :
  (mm_buttons mm <= 1)%nat ->
  mm_buttons (mobile_step hasHeader mm ev) = if Nat.eqb (mm_buttons mm) 1 || narrow hasHeader ev then 1%nat else 0%nat.
Proof.
  intros H. destruct mm as [[|[|n]] o]; simpl in *; [| |lia];
    destruct ev as [w|]; simpl; try reflexivity; unfold createMobileMenuToggle; simpl;
    destruct (Z.leb w 968), hasHeader; reflexivity.
Qed.

(** C14: However the window is resized and the menu clicked, the
    dashboard has at most one mobile menu button, and it has one exactly
    when the page has a header and the window was 968 pixels wide or
    less at load or at some resize: the [!menuBtn] guard keeps resizes
    from adding buttons. *)
Theorem mobile_menu_single_button (hasHeader : bool) (w0 : Z) (evs : list MenuEvent) :
  mm_buttons (mobile_run hasHeader w0 evs) =
    if (hasHeader && Z.leb w0 968) || existsb (narrow hasHeader) evs then 1%nat else 0%nat.
Proof.
  unfold mobile_run.
  assert (H0 : mm_buttons (createMobileMenuToggle (mkMobileMenu 0%nat false) w0 hasHeader) =
               if hasHeader && Z.leb w0 968 then 1%nat else 0%nat).
  { unfold createMobileMenuToggle. destruct (Z.leb w0 968), hasHeader; reflexivity. }
  revert H0. generalize (createMobileMenuToggle (mkMobileMenu 0%nat false) w0 hasHeader).
  generalize (hasHeader && Z.leb w0 968). induction evs as [|ev evs IH]; intros b0 mm H0; simpl.
  - rewrite orb_false_r. exact H0.
  - rewrite (IH (b0 || narrow hasHeader ev)).
    + rewrite orb_assoc. reflexivity.
    + rewrite mobile_step_buttons by (rewrite H0; destruct b0; lia).
      rewrite H0. destruct b0; reflexivity.
Qed.

(** A click on side bar item [i] that is not the logout makes it the one
    active item; a logout click keeps the side bar as it is. *)
Lemma onSidebarClick_spec (sb : Sidebar) (b : Browser) (i : nat) (ok : bool) :
  length (sb_active sb) = length (sb_logout sb) ->
  match nth_error (sb_logout sb) i with
  | Some false => active_count (sb_active (fst (onSidebarClick sb b i ok))) = 1%nat /\
                  sb_active (fst (onSidebarClick sb b i ok)) !! i = Some true
  | _ => fst (onSidebarClick sb b i ok) = sb
  end.
Proof.
  intros Hl. unfold onSidebarClick. destruct (nth_error (sb_logout sb) i) as [[|]|] eqn:E; try reflexivity.
  apply activate_one. rewrite Hl. apply nth_error_Some. congruence.
Qed.

End DashboardNav.
