(* ===== verification/Message.v ===== *)
(** * The form message and its hide timer

    Every form page shows its feedback in [#formMessage] through a
    [showMessage(text, type)] that sets the text, sets the class to
    [form-message <type> show] and schedules [classList.remove('show')]
    five seconds later: verify.ts (the same text in profile.ts and
    settings.ts) returns when the page has no such element, and
    auth.service.ts creates it, before the [.auth-form] when there is one.
    [Auth.showMessage] keeps the text and the type a page shows; this file
    adds what the user sees over time.

    The state is the element (its text, its class list and whether it is
    in the document), the clock in milliseconds and the due times of the
    pending [setTimeout] callbacks.  Waiting runs the callbacks that fall
    due in their order; they all remove the same class.  A message shown
    while an earlier one's timer is pending is hidden by that timer:
    [second_message_cut_short]. *)

From S2P Require Import Prelude Types.
From Stdlib Require Import ZArith NArith Lia.

Module Message.
Local Open Scope Z_scope.

Record MessageDiv := mkMessageDiv {
  md_text : string;          (** [textContent] *)
  md_class : list string;    (** the tokens of [className] *)
  md_attached : bool;        (** the element is in the document *)
}.

Record MessageState := mkMessageState {
  ms_div : option MessageDiv;   (** [document.getElementById('formMessage')] *)
  ms_now : Z;                   (** [Date.now()] *)
  ms_timers : list Z;           (** due times of the pending hide callbacks *)
}.

Definition HIDE_DELAY : Z := 5000.

Definition type_name (ty : MessageType) : string :=
  match ty with MT_success => "success" | MT_error => "error" | MT_info => "info" end.

(** [messageDiv.className = 'form-message ' + type + ' show']. *)
Definition shown_class (ty : MessageType) : list string := ["form-message"; type_name ty; "show"].

(** [classList.remove(tok)]. *)
Definition classList_remove (tok : string) (cls : list string) : list string :=
  List.filter (fun c => negb (String.eqb c tok)) cls.

(** The callback [() => messageDiv.classList.remove('show')]. *)
Definition hide (d : option MessageDiv) : option MessageDiv :=
  option_map (fun d => mkMessageDiv (md_text d) (classList_remove "show" (md_class d)) (md_attached d)) d.

(** Set the text and class of [d] and schedule the hide callback. *)
Definition show_on (st : MessageState) (d : MessageDiv) (text : string) (ty : MessageType) : MessageState :=
  mkMessageState (Some (mkMessageDiv text (shown_class ty) (md_attached d))) (ms_now st)
    (ms_timers st ++ [ms_now st + HIDE_DELAY]).

(** [showMessage] of verify.ts, profile.ts and settings.ts. *)
Definition showMessage (st : MessageState) (text : string) (ty : MessageType) : MessageState :=
  match ms_div st with
  | None => st
  | Some d => show_on st d text ty
  end.

(** [showMessage] of auth.service.ts: an absent element is created with
    the class [form-message], in the document when the page has an
    [.auth-form] with a parent. *)
Definition authShowMessage (hasForm : bool) (st : MessageState) (text : string) (ty : MessageType)
    : MessageState :=
  let d := match ms_div st with Some d => d | None => mkMessageDiv "" ["form-message"] hasForm end in
  show_on st d text ty.

(** [dt] milliseconds pass: the callbacks due by then run, in due order. *)
Definition wait (st : MessageState) (dt : N) : MessageState :=
  let t := (ms_now st + Z.of_N dt)%Z in
  let due := List.filter (fun x => Z.leb x t) (ms_timers st) in
  mkMessageState (fold_left (fun d _ => hide d) due (ms_div st)) t
    (List.filter (fun x => Z.ltb t x) (ms_timers st)).

Inductive MessageEvent :=
| MsgShow (text : string) (ty : MessageType)
| MsgAuthShow (hasForm : bool) (text : string) (ty : MessageType)
| MsgWait (dt : N).

Definition message_step (st : MessageState) (ev : MessageEvent) : MessageState :=
  match ev with
  | MsgShow text ty => showMessage st text ty
  | MsgAuthShow hasForm text ty => authShowMessage hasForm st text ty
  | MsgWait dt => wait st dt
  end.

Definition message_run (st : MessageState) (evs : list MessageEvent) : MessageState :=
  fold_left message_step evs st.

(** The element has the [show] class. *)
Definition has_show (d : option MessageDiv) : bool :=
  match d with Some d => existsb (String.eqb "show") (md_class d) | None => false end.

(** The message is on screen: the element is in the document and has the
    [show] class. *)
Definition visible (st : MessageState) : bool :=
  match ms_div st with
  | Some d => md_attached d && has_show (Some d)
  | None => false
  end.

(** Every pending callback is due in the future. *)
Definition timers_ok (st : MessageState) : Prop := Forall (fun x => ms_now st < x)%Z (ms_timers st).

Definition waits_total (dts : list N) : Z := fold_right (fun dt acc => Z.of_N dt + acc)%Z 0%Z dts.

Definition waits (dts : list N) : list MessageEvent := map MsgWait dts.

(** ** Lemmas *)

Lemma has_show_hide (d : option MessageDiv) : has_show (hide d) = false.
Proof.
  destruct d as [d|]; [|reflexivity]. cbn [has_show hide option_map md_class]. destruct (existsb _ _) eqn:E; [|reflexivity].
  apply existsb_exists in E as (c & Hc & Heq). apply String.eqb_eq in Heq as <-.
  unfold classList_remove in Hc. apply filter_In in Hc as [_ Hc]. discriminate.
Qed.

Lemma hides_absent (l : list Z) (d : option MessageDiv) :
  has_show d = false -> has_show (fold_left (fun d _ => hide d) l d) = false.
Proof.
  revert d. induction l as [|x l IH]; intros d Hd; [exact Hd|]. apply IH, has_show_hide.
Qed.

Lemma hides_fire (l : list Z) (d : option MessageDiv) :
  l <> [] -> has_show (fold_left (fun d _ => hide d) l d) = false.
Proof. destruct l as [|x l]; [congruence|]. intros _. cbn [fold_left]. apply hides_absent, has_show_hide. Qed.

Lemma hides_text (l : list Z) (d : option MessageDiv) :
  option_map md_text (fold_left (fun d _ => hide d) l d) = option_map md_text d.
Proof. revert d. induction l as [|x l IH]; intros d; [reflexivity|]. cbn. rewrite IH. destruct d; reflexivity. Qed.

Lemma wait_now (st : MessageState) (dt : N) : ms_now (wait st dt) = (ms_now st + Z.of_N dt)%Z.
Proof. reflexivity. Qed.

Lemma wait_timers_ok (st : MessageState) (dt : N) : timers_ok (wait st dt).
Proof.
  unfold timers_ok. apply Forall_forall. intros x Hx. cbn in Hx. apply filter_In in Hx as [_ Hx].
  rewrite wait_now. lia.
Qed.

Lemma show_on_timers_ok (st : MessageState) (d : MessageDiv) (text : string) (ty : MessageType) :
  timers_ok st -> timers_ok (show_on st d text ty).
Proof.
  unfold timers_ok, show_on, HIDE_DELAY. cbn. intros H. apply Forall_app. split; [exact H|].
  constructor; [lia | constructor].
Qed.

(** A pending callback either stays pending or has hidden the message. *)
Lemma wait_pending (st : MessageState) (dt : N) (x : Z) :
  In x (ms_timers st) ->
  (x <= ms_now st + Z.of_N dt -> has_show (ms_div (wait st dt)) = false)%Z /\
  (ms_now st + Z.of_N dt < x -> In x (ms_timers (wait st dt)))%Z.
Proof.
  intros Hx. split; intros Hle; cbn.
  - apply hides_fire. intros Hnil. assert (Hin : In x (List.filter (fun x => Z.leb x (ms_now st + Z.of_N dt)) (ms_timers st))).
    { apply filter_In. split; [exact Hx | apply Z.leb_le; lia]. }
    rewrite Hnil in Hin. destruct Hin.
  - apply filter_In. split; [exact Hx | apply Z.ltb_lt; lia].
Qed.

(** Callbacks not yet due leave the element alone. *)
Lemma wait_early (st : MessageState) (dt : N) :
  Forall (fun x => ms_now st + Z.of_N dt < x)%Z (ms_timers st) ->
  wait st dt = mkMessageState (ms_div st) (ms_now st + Z.of_N dt) (ms_timers st).
Proof.
  destruct st as [d now ts]. cbn. intros H. unfold wait; cbn [ms_div ms_now ms_timers].
  assert (Hd : List.filter (fun x => Z.leb x (now + Z.of_N dt)) ts = []).
  { induction H as [|x l Hx _ IH]; [reflexivity|]. cbn [List.filter]. destruct (Z.leb_spec x (now + Z.of_N dt)); [lia | exact IH]. }
  assert (Hp : List.filter (fun x => Z.ltb (now + Z.of_N dt) x) ts = ts).
  { clear Hd. induction H as [|x l Hx _ IH]; [reflexivity|]. cbn [List.filter]. destruct (Z.ltb_spec (now + Z.of_N dt) x); [|lia].
    rewrite IH. reflexivity. }
  rewrite Hd, Hp. reflexivity.
Qed.

Lemma visible_has_show (st : MessageState) : has_show (ms_div st) = false -> visible st = false.
Proof. unfold visible. destruct (ms_div st) as [d|]; [|reflexivity]. intros ->. apply andb_false_r. Qed.

Lemma waits_total_nonneg (dts : list N) : (0 <= waits_total dts)%Z.
Proof. unfold waits_total. induction dts as [|dt dts IH]; cbn [fold_right]; lia. Qed.

Lemma waits_total_cons (dt : N) (dts : list N) : waits_total (dt :: dts) = (Z.of_N dt + waits_total dts)%Z.
Proof. reflexivity. Qed.

Lemma run_waits_cons (st : MessageState) (dt : N) (dts : list N) :
  message_run st (waits (dt :: dts)) = message_run (wait st dt) (waits dts).
Proof. reflexivity. Qed.

Lemma run_waits_now (st : MessageState) (dts : list N) :
  ms_now (message_run st (waits dts)) = (ms_now st + waits_total dts)%Z.
Proof.
  revert st. induction dts as [|dt dts IH]; intros st; [cbn; lia|]. rewrite waits_total_cons.
  rewrite run_waits_cons, IH, wait_now. lia.
Qed.

(** Once hidden, a message stays hidden while time passes. *)
Lemma waits_text (st : MessageState) (dts : list N) :
  option_map md_text (ms_div (message_run st (waits dts))) = option_map md_text (ms_div st).
Proof.
  revert st. induction dts as [|dt dts IH]; intros st; [reflexivity|].
  rewrite run_waits_cons, IH. apply hides_text.
Qed.

Lemma waits_hidden (st : MessageState) (dts : list N) :
  has_show (ms_div st) = false -> has_show (ms_div (message_run st (waits dts))) = false.
Proof.
  revert st. induction dts as [|dt dts IH]; intros st H; [exact H|].
  rewrite run_waits_cons. apply IH. cbn. apply hides_absent, H.
Qed.

(** A pending callback has hidden the message once its time has come. *)
Lemma waits_fire (st : MessageState) (dts : list N) (x : Z) :
  timers_ok st -> In x (ms_timers st) -> (x <= ms_now st + waits_total dts)%Z ->
  has_show (ms_div (message_run st (waits dts))) = false.
Proof.
  revert st. induction dts as [|dt dts IH]; intros st Hok Hx Hle.
  - unfold timers_ok in Hok. rewrite Forall_forall in Hok. specialize (Hok x Hx). cbn in Hle. lia.
  - rewrite run_waits_cons. rewrite waits_total_cons in Hle.
    destruct (Z.le_gt_cases x (ms_now st + Z.of_N dt)) as [Hfire|Hlater].
    + apply waits_hidden, (wait_pending st dt x Hx), Hfire.
    + apply IH; [apply wait_timers_ok | apply (wait_pending st dt x Hx), Hlater | rewrite wait_now; lia].
Qed.

(** Waits that end before every pending callback change only the clock. *)
Lemma waits_early (st : MessageState) (dts : list N) :
  Forall (fun x => ms_now st + waits_total dts < x)%Z (ms_timers st) ->
  message_run st (waits dts) = mkMessageState (ms_div st) (ms_now st + waits_total dts) (ms_timers st).
Proof.
  revert st. induction dts as [|dt dts IH]; intros st H.
  - destruct st; cbn. f_equal. lia.
  - rewrite run_waits_cons. rewrite waits_total_cons in H. pose proof (waits_total_nonneg dts).
    rewrite wait_early by (eapply Forall_impl; [|exact H]; cbn; intros; lia).
    rewrite IH by (cbn; eapply Forall_impl; [|exact H]; cbn; intros; lia). rewrite waits_total_cons. cbn. f_equal. lia.
Qed.

(** Every event keeps the pending callbacks in the future. *)
Lemma message_step_timers_ok (st : MessageState) (ev : MessageEvent) :
  timers_ok st -> timers_ok (message_step st ev).
Proof.
  intros H. destruct ev as [text ty|hasForm text ty|dt]; cbn [message_step].
  - unfold showMessage. destruct (ms_div st); [apply show_on_timers_ok|]; exact H.
  - apply show_on_timers_ok, H.
  - apply wait_timers_ok.
Qed.

Lemma run_show (st : MessageState) (dv : MessageDiv) (m : string) (ty : MessageType) (evs : list MessageEvent) :
  ms_div st = Some dv -> message_run st (MsgShow m ty :: evs) = message_run (show_on st dv m ty) evs.
Proof. intros H. unfold message_run. cbn [fold_left message_step]. unfold showMessage. rewrite H. reflexivity. Qed.

Lemma show_on_visible (st : MessageState) (d : MessageDiv) (text : string) (ty : MessageType) :
  md_attached d = true -> visible (show_on st d text ty) = true.
Proof. intros H. unfold visible. cbn. rewrite H. destruct ty; reflexivity. Qed.

(** C13: A message shown when no hide callback is pending stays on screen
    for exactly [HIDE_DELAY] milliseconds; but every [showMessage]
    schedules its own callback and none cancels the earlier one, so a
    second message shown [d] milliseconds after the first (with
    [0 < d < 5000]) is hidden by the first message's callback after only
    [5000 - d] milliseconds. *)
Theorem second_message_cut_short (st : MessageState) (dv : MessageDiv) (m1 m2 : string)
    (ty1 ty2 : MessageType) :
  ms_div st = Some dv -> md_attached dv = true -> ms_timers st = [] ->
  (forall dts, (waits_total dts < HIDE_DELAY)%Z ->
     visible (message_run st (MsgShow m1 ty1 :: waits dts)) = true) /\
  (forall dts, (HIDE_DELAY <= waits_total dts)%Z ->
     visible (message_run st (MsgShow m1 ty1 :: waits dts)) = false) /\
  (forall d : N, (0 < Z.of_N d < HIDE_DELAY)%Z ->
     let st' := message_run st [MsgShow m1 ty1; MsgWait d; MsgShow m2 ty2; MsgWait (5000 - d)] in
     option_map md_text (ms_div st') = Some m2 /\ visible st' = false).
Proof.
  intros Hdiv Hatt Hnil.
  assert (Hok : timers_ok (show_on st dv m1 ty1)) by (apply show_on_timers_ok; unfold timers_ok; rewrite Hnil; constructor).
  assert (Hin : In (ms_now st + HIDE_DELAY)%Z (ms_timers (show_on st dv m1 ty1))) by (cbn; rewrite Hnil; left; reflexivity).
  split; [|split].
  - intros dts Hlt. rewrite (run_show _ dv) by exact Hdiv. rewrite waits_early.
    + apply (show_on_visible st dv m1 ty1 Hatt).
    + cbn. rewrite Hnil. constructor; [lia | constructor].
  - intros dts Hge. apply visible_has_show. rewrite (run_show _ dv) by exact Hdiv.
    apply (waits_fire _ _ _ Hok Hin). cbn. lia.
  - intros d Hd st'.
    set (dv1 := mkMessageDiv m1 (shown_class ty1) (md_attached dv)).
    assert (Hw : wait (show_on st dv m1 ty1) d =
                 mkMessageState (Some dv1) (ms_now st + Z.of_N d) [ms_now st + HIDE_DELAY]%Z).
    { rewrite wait_early; cbn; rewrite ?Hnil; [reflexivity | constructor; [lia | constructor]]. }
    set (st1 := show_on (wait (show_on st dv m1 ty1) d) dv1 m2 ty2).
    assert (Hst' : st' = message_run st1 (waits [(5000 - d)%N])).
    { subst st'. rewrite (run_show _ dv) by exact Hdiv.
      change (message_run (wait (show_on st dv m1 ty1) d) [MsgShow m2 ty2; MsgWait (5000 - d)] = message_run st1 (waits [(5000 - d)%N])).
      rewrite (run_show _ dv1) by (rewrite Hw; reflexivity). reflexivity. }
    rewrite Hst'. split.
    + rewrite waits_text. reflexivity.
    + apply visible_has_show, (waits_fire st1 _ (ms_now st + HIDE_DELAY)).
      * apply show_on_timers_ok. rewrite Hw. constructor; [cbn; lia | constructor].
      * subst st1. rewrite Hw. cbn. left; reflexivity.
      * subst st1. rewrite Hw. cbn. unfold HIDE_DELAY in *. lia.
Qed.

End Message.
