(* ===== verification/Markup.v ===== *)
(** * The HTML the social features write into [innerHTML]

    The friends page (src/src/friends.ts) builds its cards, empty states
    and search results, and the notification drop-down of the dashboard
    (src/src/dashboard.ts) its items, as template literals assigned to
    [innerHTML]; the definitions here are those templates, character for
    character ([nl] is a newline, [dq] a double quote).  A number
    interpolated into a template goes through [Number.prototype.toString],
    a parameter [num_text] of the section; the time text of an item is
    [Dashboard.formatTimeAgo] of the elapsed time [elapsed createdAt].

    No template escapes what it interpolates: a user's nickname, login or
    avatar URL and a notification's [fromUserName] become markup of every
    page that lists them.  [markup_embeds_nickname] proves it for the
    search results, the friend cards and the notification items. *)

From S2P Require Import Prelude Types Storage Auth Header Friends Notifications Dom Editor Dashboard DashboardNav.

Module Markup.
Import Auth Friends.

(** The double quote, which a string literal here does not contain. *)
Definition dq : string := String (Ascii.ascii_of_nat 34) EmptyString.

Definition PLACEHOLDER_40 : string := "https://via.placeholder.com/40".

(** The [ICONS] paths. *)
Definition ICON_friends : string := "M16 11c1.66 0 2.99-1.34 2.99-3S17.66 5 16 5c-1.66 0-3 1.34-3 3s1.34 3 3 3zm-8 0c1.66 0 2.99-1.34 2.99-3S9.66 5 8 5C6.34 5 5 6.34 5 8s1.34 3 3 3zm0 2c-2.33 0-7 1.17-7 3.5V19h14v-2.5c0-2.33-4.67-3.5-7-3.5zm8 0c-.29 0-.62.02-.97.05 1.16.84 1.97 1.97 1.97 3.45V19h6v-2.5c0-2.33-4.67-3.5-7-3.5z".
Definition ICON_bell : string := "M12 22c1.1 0 2-.9 2-2h-4c0 1.1.89 2 2 2zm6-6v-5c0-3.07-1.64-5.64-4.5-6.32V4c0-.83-.67-1.5-1.5-1.5s-1.5.67-1.5 1.5v.68C7.63 5.36 6 7.92 6 11v5l-2 2v1h16v-1l-2-2z".
Definition ICON_star : string := "M12 17.27L18.18 21l-1.64-7.03L22 9.24l-7.19-.61L12 2 9.19 8.63 2 9.24l5.46 4.73L5.82 21z".
Definition ICON_groups : string := "M12 12.75c1.63 0 3.07.39 4.24.9 1.08.48 1.76 1.56 1.76 2.73V18H6v-1.61c0-1.18.68-2.26 1.76-2.73 1.17-.52 2.61-.91 4.24-.91zM4 13c1.1 0 2-.9 2-2s-.9-2-2-2-2 .9-2 2 .9 2 2 2zm1.13 1.1c-.37-.06-.74-.1-1.13-.1-.99 0-1.93.21-2.78.58A2.01 2.01 0 000 16.43V18h4.5v-1.61c0-.83.23-1.61.63-2.29zM20 13c1.1 0 2-.9 2-2s-.9-2-2-2-2 .9-2 2 .9 2 2 2zm4 3.43c0-.81-.48-1.53-1.22-1.85A6.95 6.95 0 0020 14c-.39 0-.76.04-1.13.1.4.68.63 1.46.63 2.29V18H24v-1.57zM12 6c1.66 0 3 1.34 3 3s-1.34 3-3 3-3-1.34-3-3 1.34-3 3-3z".

Section Templates.
(** [Number.prototype.toString]. *)
Variable num_text : Q -> string.
(** The milliseconds from an item's [createdAt] to [Date.now()]. *)
Variable elapsed : string -> Z.

(** [${user.login ? `<span class="friend-login">@${user.login}</span>` : ''}]. *)
Definition login_line (u : User) : string :=
  match login u with
  | Some l => if String.eqb l "" then EmptyString else
    String.concat EmptyString
    ["<span class="; dq; "friend-login"; dq; ">@"; l; "</span>"]
  | None => EmptyString
  end.

(** [renderFriendCard(user, actionHtml)]. *)
Definition renderFriendCard (u : User) (actionHtml : string) : string :=
  String.concat EmptyString
    [nl;
     "    <div class="; dq; "friend-card"; dq; ">"; nl;
     "      <a href="; dq; "user-profile-view.html?id="; (id u); dq; " class="; dq; "friend-card-link"; dq; ">"; nl;
     "        <img src="; dq; (js_str_or (avatar u) PLACEHOLDER_40); dq; " alt="; dq; dq; " class="; dq; "friend-avatar"; dq; ">"; nl;
     "        <div class="; dq; "friend-info"; dq; ">"; nl;
     "          <span class="; dq; "friend-name"; dq; ">"; (nickname u); "</span>"; nl;
     "          "; (login_line u); nl;
     "        </div>"; nl;
     "      </a>"; nl;
     "      <span class="; dq; "friend-level-badge "; (getLevelBadgeClass (level u)); dq; ">"; (num_text (level u)); "</span>"; nl;
     "      "; actionHtml; nl;
     "    </div>"; nl;
     "  "].

(** [renderEmptyState(svgPath, title, hint)]. *)
Definition renderEmptyState (svgPath title hint : string) : string :=
  String.concat EmptyString
    [nl;
     "    <div class="; dq; "friends-empty"; dq; ">"; nl;
     "      <div class="; dq; "empty-icon-box"; dq; ">"; nl;
     "        <svg viewBox="; dq; "0 0 24 24"; dq; " fill="; dq; "currentColor"; dq; "><path d="; dq; svgPath; dq; "/></svg>"; nl;
     "      </div>"; nl;
     "      <p>"; title; "</p>"; nl;
     "      <span class="; dq; "empty-hint"; dq; ">"; hint; "</span>"; nl;
     "    </div>"; nl;
     "  "].

(** The remove button [loadFriends] passes to [renderFriendCard]. *)
Definition removeFriendAction (u : User) : string :=
  String.concat EmptyString
    [nl;
     "      <button class="; dq; "friend-action"; dq; " data-user-id="; dq; (id u); dq; " data-action="; dq; "remove-friend"; dq; ">"; nl;
     "        Удалить"; nl;
     "      </button>"; nl;
     "    "].

(** The unsubscribe button of [loadSubscriptions]. *)
Definition unsubscribeAction (u : User) : string :=
  String.concat EmptyString
    [nl;
     "      <button class="; dq; "friend-action"; dq; " data-user-id="; dq; (id u); dq; " data-action="; dq; "unsubscribe"; dq; ">"; nl;
     "        Отписаться"; nl;
     "      </button>"; nl;
     "    "].

(** What the four lists write into their [innerHTML]; [None] leaves it. *)
Definition friendsListHtml (lv : ListView) : option string :=
  match lv with
  | LV_empty => Some (renderEmptyState ICON_friends "У вас пока нет друзей" "Найдите игроков через поиск и добавьте их в друзья")
  | LV_unchanged => None
  | LV_users us => Some (String.concat EmptyString (map (fun u => renderFriendCard u (removeFriendAction u)) us))
  end.

Definition subscribersListHtml (lv : ListView) : option string :=
  match lv with
  | LV_empty => Some (renderEmptyState ICON_bell "У вас пока нет подписчиков" "Когда кто-то подпишется на вас, они появятся здесь")
  | LV_unchanged => None
  | LV_users us => Some (String.concat EmptyString (map (fun u => renderFriendCard u EmptyString) us))
  end.

Definition subscriptionsListHtml (lv : ListView) : option string :=
  match lv with
  | LV_empty => Some (renderEmptyState ICON_star "Вы пока ни на кого не подписаны" "Подпишитесь на интересных игроков")
  | LV_unchanged => None
  | LV_users us => Some (String.concat EmptyString (map (fun u => renderFriendCard u (unsubscribeAction u)) us))
  end.

Definition groupsListHtml : string := renderEmptyState ICON_groups "Вы не состоите ни в одной группе" "Группы появятся в будущих обновлениях".

(** The login line of a search result. *)
Definition search_login_line (u : User) : string :=
  match login u with
  | Some l => if String.eqb l "" then EmptyString else
    String.concat EmptyString
    ["<span class="; dq; "search-result-login"; dq; ">@"; l; "</span>"]
  | None => EmptyString
  end.

(** One search result of the friends page. *)
Definition searchItemHtml (u : User) : string :=
  String.concat EmptyString
    [nl;
     "          <a href="; dq; "user-profile-view.html?id="; (id u); dq; " class="; dq; "search-result-item"; dq; ">"; nl;
     "            <img src="; dq; (js_str_or (avatar u) PLACEHOLDER_40); dq; " alt="; dq; dq; " class="; dq; "search-result-avatar"; dq; ">"; nl;
     "            <div class="; dq; "search-result-info"; dq; ">"; nl;
     "              <span class="; dq; "search-result-name"; dq; ">"; (nickname u); "</span>"; nl;
     "              "; (search_login_line u); nl;
     "            </div>"; nl;
     "            <span class="; dq; "search-result-level "; (getLevelBadgeClass (level u)); dq; ">"; (num_text (level u)); "</span>"; nl;
     "          </a>"; nl;
     "        "].

Definition NO_RESULTS_HTML : string :=
  String.concat EmptyString ["<div class="; dq; "search-no-results"; dq; ">"; "Ничего не найдено"; "</div>"].

(** The [innerHTML] of [#searchResults] for a search that found [found]. *)
Definition searchResultsHtml (found : list User) : string :=
  match found with
  | [] => NO_RESULTS_HTML
  | _ => String.concat EmptyString (map searchItemHtml found)
  end.

(** One search result of the header search of the dashboard (the same
    text in profile.ts and settings.ts): the level as [Ур. n], without
    the badge class. *)
Definition headerSearchItemHtml (u : User) : string :=
  String.concat EmptyString
    [nl;
     "        <a href="; dq; "user-profile-view.html?id="; id u; dq; " class="; dq; "search-result-item"; dq; ">"; nl;
     "          <img src="; dq; (js_str_or (avatar u) PLACEHOLDER_40); dq; " alt="; dq; dq; " class="; dq; "search-result-avatar"; dq; ">"; nl;
     "          <div class="; dq; "search-result-info"; dq; ">"; nl;
     "            <span class="; dq; "search-result-name"; dq; ">"; nickname u; "</span>"; nl;
     "            "; search_login_line u; nl;
     "          </div>"; nl;
     "          <span class="; dq; "search-result-level"; dq; ">Ур. "; num_text (level u); "</span>"; nl;
     "        </a>"; nl;
     "      "].

(** The [innerHTML] of the header's [#searchResults]. *)
Definition headerSearchResultsHtml (found : list User) : string :=
  match found with
  | [] => NO_RESULTS_HTML
  | _ => String.concat EmptyString (map headerSearchItemHtml found)
  end.

(** The text of a notification item, by type. *)
Definition notificationText (n : UserNotification) : string :=
  match n_type n with
  | NT_subscription => String.concat EmptyString
    ["<strong>"; (fromUserName n); "</strong> подписался на вас"]
  | NT_friend_request => String.concat EmptyString
    ["<strong>"; (fromUserName n); "</strong> хочет добавить вас в друзья"]
  | NT_friend_accepted => String.concat EmptyString
    ["<strong>"; (fromUserName n); "</strong> принял вашу заявку в друзья"]
  end.

(** The accept/decline buttons of a friend request. *)
Definition notificationActions (n : UserNotification) : string :=
  match n_type n with
  | NT_friend_request => String.concat EmptyString
    [nl;
     "          <div class="; dq; "notification-item-actions"; dq; ">"; nl;
     "            <button class="; dq; "btn-accept"; dq; " data-action="; dq; "accept"; dq; " data-id="; dq; (n_id n); dq; " data-from="; dq; (fromUserId n); dq; ">Добавить</button>"; nl;
     "            <button class="; dq; "btn-decline"; dq; " data-action="; dq; "decline"; dq; " data-id="; dq; (n_id n); dq; ">Отклонить</button>"; nl;
     "          </div>"; nl;
     "        "]
  | _ => EmptyString
  end.

(** One [.notification-item] of the dashboard's drop-down. *)
Definition notificationItemHtml (n : UserNotification) : string :=
  String.concat EmptyString
    [nl;
     "        <div class="; dq; "notification-item "; (if read n then EmptyString else "unread"); dq; " data-notif-id="; dq; (n_id n); dq; ">"; nl;
     "          <img src="; dq; (js_str_or (fromUserAvatar n) PLACEHOLDER_40); dq; " alt="; dq; dq; " class="; dq; "notification-item-avatar"; dq; ">"; nl;
     "          <div class="; dq; "notification-item-body"; dq; ">"; nl;
     "            <div class="; dq; "notification-item-text"; dq; ">"; (notificationText n); "</div>"; nl;
     "            <div class="; dq; "notification-item-time"; dq; ">"; (Dashboard.formatTimeAgo (elapsed (n_createdAt n))); "</div>"; nl;
     "            "; (notificationActions n); nl;
     "          </div>"; nl;
     "        </div>"; nl;
     "      "].

Definition NO_NOTIFICATIONS_HTML : string :=
  String.concat EmptyString ["<div class="; dq; "notification-empty"; dq; ">"; "Нет уведомлений"; "</div>"].

(** The [innerHTML] of [#notificationList] for the list [ns]. *)
Definition notificationListHtml (ns : list UserNotification) : string :=
  match ns with
  | [] => NO_NOTIFICATIONS_HTML
  | _ => String.concat EmptyString (map notificationItemHtml ns)
  end.

(** ** What the templates interpolate *)

Lemma searchItemHtml_nickname (u : User) : occurs_in (nickname u) (searchItemHtml u).
Proof. unfold searchItemHtml. occurs_elem (nickname u). Qed.

Lemma headerSearchItemHtml_nickname (u : User) : occurs_in (nickname u) (headerSearchItemHtml u).
Proof. unfold headerSearchItemHtml. occurs_elem (nickname u). Qed.

Lemma renderFriendCard_nickname (u : User) (a : string) : occurs_in (nickname u) (renderFriendCard u a).
Proof. unfold renderFriendCard. occurs_elem (nickname u). Qed.

Lemma notificationItemHtml_fromUserName (n : UserNotification) :
  occurs_in (fromUserName n) (notificationItemHtml n).
Proof.
  apply (occurs_trans _ (notificationText n)).
  - unfold notificationText. destruct (n_type n); occurs_elem (fromUserName n).
  - unfold notificationItemHtml. occurs_elem (notificationText n).
Qed.

(** What occurs in the item of an element of [xs] occurs in the list's
    HTML. *)
Lemma items_occurs {A} (item : A -> string) (xs : list A) (a : A) (s : string) :
  In a xs -> occurs_in s (item a) -> occurs_in s (String.concat "" (map item xs)).
Proof. intros Hin Hc. apply (occurs_concat _ (item a)); [apply in_map, Hin | exact Hc]. Qed.

End Templates.

(** C30: No template escapes what it interpolates: the nickname of every
    user a search lists (on the friends page and in the header of the
    other pages), of every card of the friends, subscribers and
    subscriptions lists, and the [fromUserName] of every notification
    item occur verbatim in the [innerHTML] written, so markup saved as a
    nickname becomes markup of every page that lists its user. *)
Theorem markup_embeds_names (num_text : Q -> string) (elapsed : string -> Z) :
  (forall found u, In u found ->
     occurs_in (nickname u) (searchResultsHtml num_text found) /\
     occurs_in (nickname u) (headerSearchResultsHtml num_text found)) /\
  (forall us u h, In u us ->
     In (Some h) [friendsListHtml num_text (LV_users us); subscribersListHtml num_text (LV_users us);
                  subscriptionsListHtml num_text (LV_users us)] ->
     occurs_in (nickname u) h) /\
  (forall ns n, In n ns -> occurs_in (fromUserName n) (notificationListHtml elapsed ns)).
Proof.
  split; [|split].
  - intros [|v vs] u Hin; [destruct Hin|]. unfold searchResultsHtml, headerSearchResultsHtml; cbv iota.
    split; apply (items_occurs _ _ u); auto using searchItemHtml_nickname, headerSearchItemHtml_nickname.
  - intros us u h Hin Hh. cbn [friendsListHtml subscribersListHtml subscriptionsListHtml In] in Hh.
    destruct Hh as [Hh|[Hh|[Hh|[]]]]; injection Hh as <-;
      apply (items_occurs _ _ u); auto using renderFriendCard_nickname.
  - intros [|m ms] n Hin; [destruct Hin|]. unfold notificationListHtml; cbv iota.
    apply (items_occurs _ _ n); [exact Hin | apply notificationItemHtml_fromUserName].
Qed.

End Markup.

(** * The friends page's tabs, menus and lists (src/src/friends.ts) *)

Module FriendsUI.
Import Auth Friends Markup.

(** The [.friends-tab] buttons (their [data-tab] and [active] class) and
    the [[data-tab-content]] panes (their name and [hidden] class), in
    document order. *)
Record Tabs := mkTabs {
  tb_names : list (option string);
  tb_active : list bool;
  tb_contents : list (option string);
  tb_hidden : list bool;
}.

(** [(content as HTMLElement).dataset.tabContent === targetTab]. *)
Definition shows (target : string) (c : option string) : bool :=
  match c with Some n => String.eqb n target | None => false end.

(** The click listener [setupTabs] gives tab [i]: a tab without a
    [data-tab] returns; otherwise the clicked tab alone is active and a
    pane is shown exactly when it is named after it. *)
Definition onTabClick (t : Tabs) (i : nat) : Tabs :=
  match nth_error (tb_names t) i with
  | Some (Some target) =>
      if String.eqb target "" then t
      else mkTabs (tb_names t) (DashboardNav.activate (tb_active t) i) (tb_contents t)
             (map (fun c => negb (shows target c)) (tb_contents t))
  | _ => t
  end.

Definition tabs_run (t : Tabs) (clicks : list nat) : Tabs := fold_left onTabClick clicks t.

(** Where a click lands on the friends page. *)
Inductive FTarget := FT_toggle | FT_search | FT_elsewhere.

(** The [open] classes of [#profileDropdown] and [#searchResults], and
    the [innerHTML] of the results. *)
Record FriendsMenus := mkFriendsMenus {
  fm_profileOpen : bool;
  fm_searchOpen : bool;
  fm_results : string;
}.

(** The document listener of [setupProfileDropdown]. *)
Definition onProfileDocument (m : FriendsMenus) (t : FTarget) : FriendsMenus :=
  match t with
  | FT_toggle => m
  | _ => mkFriendsMenus false (fm_searchOpen m) (fm_results m)
  end.

(** The document listener of [setupSearch]. *)
Definition onSearchDocument (m : FriendsMenus) (t : FTarget) : FriendsMenus :=
  match t with
  | FT_search => m
  | _ => mkFriendsMenus (fm_profileOpen m) false (fm_results m)
  end.

(** A click: the toggle's listener stops it and flips the drop-down;
    any other click reaches the two document listeners in the order
    [init] registers them. *)
Definition friends_click (m : FriendsMenus) (t : FTarget) : FriendsMenus :=
  match t with
  | FT_toggle => mkFriendsMenus (negb (fm_profileOpen m)) (fm_searchOpen m) (fm_results m)
  | _ => onSearchDocument (onProfileDocument m t) t
  end.

Section Page.
Variable num_text : Q -> string.

(** The input listener of [setupSearch], with what it writes into
    [#searchResults]. *)
Definition friends_search_input (ls : LocalStorage) (cur : User) (m : FriendsMenus) (value : string)
    : FriendsMenus :=
  match Friends.onSearchInput ls cur value with
  | SR_closed => mkFriendsMenus (fm_profileOpen m) false EmptyString
  | SR_unchanged => m
  | SR_open found => mkFriendsMenus (fm_profileOpen m) true (searchResultsHtml num_text found)
  end.

(** The [innerHTML] the four [load*] calls of [init] give the friends,
    subscribers, subscriptions and groups lists ([None]: left as in the
    page). *)
Definition listsHtml (p : FriendsPage) : list (option string) :=
  [friendsListHtml num_text (snd (fp_friends p)); subscribersListHtml num_text (snd (fp_subscribers p));
   subscriptionsListHtml num_text (snd (fp_subscriptions p));
   match snd (fp_groups p) with LV_empty => Some groupsListHtml | _ => None end].

End Page.

(** ** Lemmas *)

(** A tab with a [data-tab] makes itself the only active tab and shows
    the panes named after it. *)
Lemma onTabClick_spec (t : Tabs) (i : nat) (target : string) :
  nth_error (tb_names t) i = Some (Some target) -> target <> "" ->
  length (tb_active t) = length (tb_names t) ->
  let t' := onTabClick t i in
  DashboardNav.active_count (tb_active t') = 1%nat /\ tb_active t' !! i = Some true /\
  tb_hidden t' = map (fun c => negb (shows target c)) (tb_contents t).
Proof.
  intros Hi Hne Hlen. unfold onTabClick. rewrite Hi.
  apply String.eqb_neq in Hne. rewrite Hne. cbn [tb_active tb_hidden].
  assert (Hlt : (i < length (tb_active t))%nat) by (rewrite Hlen; apply nth_error_Some; congruence).
  destruct (DashboardNav.activate_one _ _ Hlt). auto.
Qed.

End FriendsUI.
