(* ===== verification/ViewMarkup.v ===== *)
(** * The HTML of the profile view (src/src/user-profile-view.ts)

    The markup the profile view writes into [innerHTML] that
    [ProfileRender] keeps as data: the rank medal ([getRankMedalSVG] of
    [loadGamesPlayedList]), the cards of the games list, the items of the
    notification drop-down, and the actions bar of [setupActionsBar].
    The file user-profile-view.ts is stored with its Cyrillic text
    decoded twice (see [ProfileView]); the literals here are its bytes as
    they are.  A date's month text ([toLocaleDateString]), a number's
    [toString] and [toLocaleString] are parameters of the section. *)

From stdpp Require Import pretty.
From S2P Require Import Prelude Types Storage Auth Header Friends Notifications ProfileView Dom Editor Dashboard ProfileRender Markup.

Module ViewMarkup.
Import Auth ProfileView ProfileRender Markup.

(** The [colors] table of [getRankMedalSVG]: two gradients and a stroke
    colour per rank class. *)
Record MedalColors := mkMedalColors { mc_bronze : string; mc_gold : string; mc_stroke : string }.

Definition colors_table : list (string * MedalColors) :=
  [("bronze", mkMedalColors "linear-gradient(135deg, #b8862f 0%, #d4a854 50%, #b8862f 100%)" "linear-gradient(135deg, #fffef0 0%, #f5d794 50%, #d4a854 100%)" "#8b6530");
   ("silver", mkMedalColors "linear-gradient(135deg, #a8a8a8 0%, #c0c0c0 50%, #a8a8a8 100%)" "linear-gradient(135deg, #f0f0f0 0%, #e0e0e0 50%, #c0c0c0 100%)" "#909090");
   ("gold", mkMedalColors "linear-gradient(135deg, #d4a017 0%, #ffd700 50%, #d4a017 100%)" "linear-gradient(135deg, #fffef0 0%, #ffe55c 50%, #ffd700 100%)" "#b8860b");
   ("platinum", mkMedalColors "linear-gradient(135deg, #0284c7 0%, #0ea5e9 50%, #0284c7 100%)" "linear-gradient(135deg, #e0f2fe 0%, #7dd3fc 50%, #38bdf8 100%)" "#0369a1")].

(** [colors[rankClass]], [undefined] for any other key. *)
Definition colors (rankClass : string) : option MedalColors :=
  option_map snd (List.find (fun kv => String.eqb (fst kv) rankClass) colors_table).

(** The nested conditional [rankClass === 'bronze' ? b : rankClass ===
    'silver' ? s : rankClass === 'gold' ? g : p] of the gradient stops. *)
Definition by_class (rankClass b s g p : string) : string :=
  if String.eqb rankClass "bronze" then b
  else if String.eqb rankClass "silver" then s
  else if String.eqb rankClass "gold" then g
  else p.

(** [getRankMedalSVG(rankClass)]; [None] is the [TypeError] of
    [color.stroke] on a class the table does not have. *)
Definition getRankMedalSVG (rankClass : string) : option string :=
  match colors rankClass with
  | None => None
  | Some color => Some (
  String.concat EmptyString
    [nl;
     "      <svg viewBox="; dq; "0 0 200 200"; dq; " style="; dq; "width: 32px; height: 32px;"; dq; ">"; nl;
     "        <defs>"; nl;
     "          <linearGradient id="; dq; rankClass; "-bronze"; dq; " x1="; dq; "0%"; dq; " y1="; dq; "0%"; dq; " x2="; dq; "100%"; dq; " y2="; dq; "100%"; dq; ">"; nl;
     "            <stop offset="; dq; "0%"; dq; " style="; dq; "stop-color:"; (by_class rankClass "#b8862f" "#a8a8a8" "#d4a017" "#0284c7"); dq; "/>"; nl;
     "            <stop offset="; dq; "50%"; dq; " style="; dq; "stop-color:"; (by_class rankClass "#d4a854" "#c0c0c0" "#ffd700" "#0ea5e9"); dq; "/>"; nl;
     "            <stop offset="; dq; "100%"; dq; " style="; dq; "stop-color:"; (by_class rankClass "#b8862f" "#a8a8a8" "#d4a017" "#0284c7"); dq; "/>"; nl;
     "          </linearGradient>"; nl;
     "          <linearGradient id="; dq; rankClass; "-gold"; dq; " x1="; dq; "0%"; dq; " y1="; dq; "0%"; dq; " x2="; dq; "100%"; dq; " y2="; dq; "100%"; dq; ">"; nl;
     "            <stop offset="; dq; "0%"; dq; " style="; dq; "stop-color:"; (by_class rankClass "#fffef0" "#f0f0f0" "#fffef0" "#e0f2fe"); dq; "/>"; nl;
     "            <stop offset="; dq; "50%"; dq; " style="; dq; "stop-color:"; (by_class rankClass "#f5d794" "#e0e0e0" "#ffe55c" "#7dd3fc"); dq; "/>"; nl;
     "            <stop offset="; dq; "100%"; dq; " style="; dq; "stop-color:"; (by_class rankClass "#d4a854" "#c0c0c0" "#ffd700" "#38bdf8"); dq; "/>"; nl;
     "          </linearGradient>"; nl;
     "        </defs>"; nl;
     "        <circle cx="; dq; "100"; dq; " cy="; dq; "100"; dq; " r="; dq; "96"; dq; " fill="; dq; "url(#"; rankClass; "-bronze)"; dq; " stroke="; dq; (mc_stroke color); dq; " stroke-width="; dq; "1"; dq; "/>"; nl;
     "        <circle cx="; dq; "100"; dq; " cy="; dq; "100"; dq; " r="; dq; "93"; dq; " fill="; dq; "#4a3d1f"; dq; " stroke="; dq; "url(#"; rankClass; "-gold)"; dq; " stroke-width="; dq; "2.5"; dq; "/>"; nl;
     "        <circle cx="; dq; "100"; dq; " cy="; dq; "100"; dq; " r="; dq; "91"; dq; " fill="; dq; "none"; dq; " stroke="; dq; (mc_stroke color); dq; " stroke-width="; dq; "0.8"; dq; " opacity="; dq; "0.6"; dq; "/>"; nl;
     "        <circle cx="; dq; "100"; dq; " cy="; dq; "100"; dq; " r="; dq; "89.5"; dq; " fill="; dq; "none"; dq; " stroke="; dq; "url(#"; rankClass; "-gold)"; dq; " stroke-width="; dq; "1.5"; dq; " opacity="; dq; "0.8"; dq; "/>"; nl;
     "        <circle cx="; dq; "100"; dq; " cy="; dq; "100"; dq; " r="; dq; "87"; dq; " fill="; dq; "none"; dq; " stroke="; dq; (mc_stroke color); dq; " stroke-width="; dq; "1"; dq; "/>"; nl;
     "        <circle cx="; dq; "100"; dq; " cy="; dq; "100"; dq; " r="; dq; "83"; dq; " fill="; dq; "url(#"; rankClass; "-bronze)"; dq; "/>"; nl;
     "        <g transform="; dq; "translate(100, 100)"; dq; ">"; nl;
     "          <polygon points="; dq; "0,-32 10,-10 34,-10 15,5 22,28 0,14 -22,28 -15,5 -34,-10 -10,-10"; dq; " fill="; dq; "url(#"; rankClass; "-bronze)"; dq; " stroke="; dq; (mc_stroke color); dq; " stroke-width="; dq; "2"; dq; "/>"; nl;
     "          <polygon points="; dq; "0,-28 8.5,-8 29,-8 13,4 19,24 0,12 -19,24 -13,4 -29,-8 -8.5,-8"; dq; " fill="; dq; "url(#"; rankClass; "-gold)"; dq; " stroke="; dq; "#fffef0"; dq; " stroke-width="; dq; "1.5"; dq; "/>"; nl;
     "          <polygon points="; dq; "0,-22 7,-6.5 23,-6.5 10.5,3 15,19 0,9.5 -15,19 -10.5,3 -23,-6.5 -7,-6.5"; dq; " fill="; dq; "#fffef0"; dq; " opacity="; dq; "0.9"; dq; "/>"; nl;
     "          <polygon points="; dq; "0,-16 5,-4.5 16.5,-4.5 7.5,2 10.5,13.5 0,7 -10.5,13.5 -7.5,2 -16.5,-4.5 -5,-4.5"; dq; " fill="; dq; "#fff"; dq; "/>"; nl;
     "          <circle cx="; dq; "0"; dq; " cy="; dq; "0"; dq; " r="; dq; "3"; dq; " fill="; dq; "#fff"; dq; "/>"; nl;
     "        </g>"; nl;
     "      </svg>"; nl;
     "    "])
  end.

(** The [icon] of a rank, as [getRankInfo] builds it. *)
Definition rank_icon (r : Rank) : string :=
  match getRankMedalSVG (rank_class r) with Some s => s | None => EmptyString end.

(** The [icon] of each entry of [GAMES_DATA], by [id]. *)
Definition GAME_ICONS : list (string * string) :=
  [("warcraft3", String.concat EmptyString ["<svg viewBox="; dq; "0 0 24 24"; dq; " fill="; dq; "currentColor"; dq; "><path d="; dq; "M6.92 5H5l7 8 7-8h-1.92l-5.08 5.8L6.92 5zM5 19h14v-2H5v2z"; dq; "/></svg>"]);
   ("starwars", String.concat EmptyString ["<svg viewBox="; dq; "0 0 24 24"; dq; " fill="; dq; "currentColor"; dq; "><path d="; dq; "M9.4 16.6L4.8 12l4.6-4.6L8 6l-6 6 6 6 1.4-1.4zm5.2 0l4.6-4.6-4.6-4.6L16 6l6 6-6 6-1.4-1.4z"; dq; "/></svg>"]);
   ("coh", String.concat EmptyString ["<svg viewBox="; dq; "0 0 24 24"; dq; " fill="; dq; "currentColor"; dq; "><path d="; dq; "M12 2C6.48 2 2 6.48 2 12s4.48 10 10 10 10-4.48 10-10S17.52 2 12 2zm-1 17.93c-3.95-.49-7-3.85-7-7.93 0-.62.08-1.21.21-1.79L9 15v1c0 1.1.9 2 2 2v1.93zm6.9-2.54c-.26-.81-1-1.39-1.9-1.39h-1v-3c0-.55-.45-1-1-1H8v-2h2c.55 0 1-.45 1-1V7h2c1.1 0 2-.9 2-2v-.41c2.93 1.19 5 4.06 5 7.41 0 2.08-.8 3.97-2.1 5.39z"; dq; "/></svg>"])].

Definition game_icon (gid : string) : string :=
  match List.find (fun kv => String.eqb (fst kv) gid) GAME_ICONS with Some kv => snd kv | None => EmptyString end.

Section Templates.
Variable month_text : Z -> string.        (** [startDate.toLocaleDateString('ru-RU', ...)] *)
Variable num_text : Q -> string.          (** [Number.prototype.toString] *)
Variable locale_text : Q -> string.       (** [Number.prototype.toLocaleString] *)
Variable elapsed : string -> Z.           (** [Date.now() - new Date(createdAt).getTime()] *)

Let medal_or_empty := rank_icon.

(** The [innerHTML] of [#gamesPlayedList]. *)
Definition gamesListHtml (gameStats : list GameStat) : string :=
  String.concat EmptyString (map (fun game =>
  String.concat EmptyString
    [nl;
     "    <div class="; dq; "favorite-game-card"; dq; " data-game="; dq; (gs_id game); dq; ">"; nl;
     "      <div class="; dq; "favorite-game-header"; dq; ">"; nl;
     "        <div class="; dq; "favorite-game-icon"; dq; ">"; (game_icon (gs_id game)); "</div>"; nl;
     "        <div class="; dq; "favorite-game-title-info"; dq; ">"; nl;
     "          <span class="; dq; "favorite-game-name"; dq; ">"; (gs_name game); "</span>"; nl;
     "          <span class="; dq; "favorite-game-started"; dq; ">–ò–≥—Ä–∞—é —Å "; (month_text (gs_monthsAgo game)); "</span>"; nl;
     "        </div>"; nl;
     "        <div class="; dq; "favorite-game-rank "; (rank_class (gs_rank game)); dq; ">"; nl;
     "          <span class="; dq; "rank-icon"; dq; ">"; (medal_or_empty (gs_rank game)); "</span>"; nl;
     "          <span class="; dq; "rank-name"; dq; ">"; (rank_name (gs_rank game)); "</span>"; nl;
     "        </div>"; nl;
     "      </div>"; nl;
     "      <div class="; dq; "favorite-game-stats"; dq; ">"; nl;
     "        <div class="; dq; "favorite-stat"; dq; ">"; nl;
     "          <div class="; dq; "favorite-stat-label"; dq; ">–ß–∞—Å–æ–≤ –≤ –¥–µ–Ω—å</div>"; nl;
     "          <div class="; dq; "favorite-stat-value"; dq; ">"; (num_text (gs_hoursPerDay game)); "—á</div>"; nl;
     "        </div>"; nl;
     "        <div class="; dq; "favorite-stat"; dq; ">"; nl;
     "          <div class="; dq; "favorite-stat-label"; dq; ">–ß–∞—Å–æ–≤ –≤ –Ω–µ–¥–µ–ª—é</div>"; nl;
     "          <div class="; dq; "favorite-stat-value"; dq; ">"; (num_text (gs_hoursPerWeek game)); "—á</div>"; nl;
     "        </div>"; nl;
     "        <div class="; dq; "favorite-stat"; dq; ">"; nl;
     "          <div class="; dq; "favorite-stat-label"; dq; ">–ß–∞—Å–æ–≤ –≤ –º–µ—Å—è—Ü</div>"; nl;
     "          <div class="; dq; "favorite-stat-value"; dq; ">"; (num_text (gs_hoursPerMonth game)); "—á</div>"; nl;
     "        </div>"; nl;
     "        <div class="; dq; "favorite-stat highlight"; dq; ">"; nl;
     "          <div class="; dq; "favorite-stat-label"; dq; ">–†–µ–π—Ç–∏–Ω–≥</div>"; nl;
     "          <div class="; dq; "favorite-stat-value"; dq; ">"; (locale_text (gs_elo game)); "</div>"; nl;
     "        </div>"; nl;
     "      </div>"; nl;
     "    </div>"; nl;
     "  "]) gameStats).

(** [formatTimeAgo(isoDate)] of this file, with its own literals. *)
Definition viewFormatTimeAgo (diff : Z) : string :=
  let mins := (diff / 60000)%Z in
  if Z.ltb mins 1 then "–¢–æ–ª—å–∫–æ —á—Ç–æ"
  else if Z.ltb mins 60 then String.append (pretty mins) " –º–∏–Ω. –Ω–∞–∑–∞–¥"
  else let hours := (mins / 60)%Z in
  if Z.ltb hours 24 then String.append (pretty hours) " —á. –Ω–∞–∑–∞–¥"
  else String.append (pretty (hours / 24)%Z) " –¥–Ω. –Ω–∞–∑–∞–¥".

Definition viewNotificationText (n : UserNotification) : string :=
  match n_type n with
  | NT_subscription => String.concat EmptyString
    ["<strong>"; (fromUserName n); "</strong> –ø–æ–¥–ø–∏—Å–∞–ª—Å—è –Ω–∞ –≤–∞—Å"]
  | NT_friend_request => String.concat EmptyString
    ["<strong>"; (fromUserName n); "</strong> —Ö–æ—á–µ—Ç –¥–æ–±–∞–≤–∏—Ç—å –≤–∞—Å –≤ –¥—Ä—É–∑—å—è"]
  | NT_friend_accepted => String.concat EmptyString
    ["<strong>"; (fromUserName n); "</strong> –ø—Ä–∏–Ω—è–ª –≤–∞—à—É –∑–∞—è–≤–∫—É –≤ –¥—Ä—É–∑—å—è"]
  end.

Definition viewNotificationActions (n : UserNotification) : string :=
  match n_type n with
  | NT_friend_request => String.concat EmptyString
    [nl;
     "          <div class="; dq; "notification-item-actions"; dq; ">"; nl;
     "            <button class="; dq; "btn-accept"; dq; " data-action="; dq; "accept"; dq; " data-id="; dq; (n_id n); dq; " data-from="; dq; (fromUserId n); dq; ">–î–æ–±–∞–≤–∏—Ç—å</button>"; nl;
     "            <button class="; dq; "btn-decline"; dq; " data-action="; dq; "decline"; dq; " data-id="; dq; (n_id n); dq; ">–û—Ç–∫–ª–æ–Ω–∏—Ç—å</button>"; nl;
     "          </div>"; nl;
     "        "]
  | _ => EmptyString
  end.

Definition viewNotificationItemHtml (n : UserNotification) : string :=
  String.concat EmptyString
    [nl;
     "        <div class="; dq; "notification-item "; (if read n then EmptyString else "unread"); dq; " data-notif-id="; dq; (n_id n); dq; ">"; nl;
     "          <img src="; dq; (js_str_or (fromUserAvatar n) PLACEHOLDER_40); dq; " alt="; dq; dq; " class="; dq; "notification-item-avatar"; dq; ">"; nl;
     "          <div class="; dq; "notification-item-body"; dq; ">"; nl;
     "            <div class="; dq; "notification-item-text"; dq; ">"; (viewNotificationText n); "</div>"; nl;
     "            <div class="; dq; "notification-item-time"; dq; ">"; (viewFormatTimeAgo (elapsed (n_createdAt n))); "</div>"; nl;
     "            "; (viewNotificationActions n); nl;
     "          </div>"; nl;
     "        </div>"; nl;
     "      "].

(** The [innerHTML] of the view's [#notificationList]. *)
Definition viewNotificationListHtml (ns : list UserNotification) : string :=
  match ns with
  | [] => String.concat EmptyString ["<div class="; dq; "notification-empty"; dq; ">"; "–ù–µ—Ç —É–≤–µ–¥–æ–º–ª–µ–Ω–∏–π"; "</div>"]
  | _ => String.concat EmptyString (map viewNotificationItemHtml ns)
  end.

End Templates.

(** ** The double encoding of this file's text *)

(** The characters of Mac OS Roman bytes [0x80]-[0xFF], as UTF-8. *)
Definition mac_roman_high : list string :=
    ["Ä"; "Å"; "Ç"; "É"; "Ñ"; "Ö"; "Ü"; "á"; "à"; "â"; "ä"; "ã"; "å"; "ç"; "é"; "è"; "ê"; 
     "ë"; "í"; "ì"; "î"; "ï"; "ñ"; "ó"; "ò"; "ô"; "ö"; "õ"; "ú"; "ù"; "û"; "ü"; "†"; "°"; 
     "¢"; "£"; "§"; "•"; "¶"; "ß"; "®"; "©"; "™"; "´"; "¨"; "≠"; "Æ"; "Ø"; "∞"; "±"; "≤"; 
     "≥"; "¥"; "µ"; "∂"; "∑"; "∏"; "π"; "∫"; "ª"; "º"; "Ω"; "æ"; "ø"; "¿"; "¡"; "¬"; "√"; 
     "ƒ"; "≈"; "∆"; "«"; "»"; "…"; " "; "À"; "Ã"; "Õ"; "Œ"; "œ"; "–"; "—"; "“"; "”"; "‘"; 
     "’"; "÷"; "◊"; "ÿ"; "Ÿ"; "⁄"; "€"; "‹"; "›"; "ﬁ"; "ﬂ"; "‡"; "·"; "‚"; "„"; "‰"; "Â"; 
     "Ê"; "Á"; "Ë"; "È"; "Í"; "Î"; "Ï"; "Ì"; "Ó"; "Ô"; ""; "Ò"; "Ú"; "Û"; "Ù"; "ı"; "ˆ"; 
     "˜"; "¯"; "˘"; "˙"; "˚"; "¸"; "˝"; "˛"; "ˇ"].

(** The bytes of a UTF-8 string read as Mac OS Roman and written back as
    UTF-8. *)
Fixpoint utf8_read_as_mac_roman (s : string) : string :=
  match s with
  | EmptyString => EmptyString
  | String c s' =>
      let n := Ascii.nat_of_ascii c in
      String.append (if Nat.ltb n 128 then String c EmptyString else nth (n - 128) mac_roman_high EmptyString)
        (utf8_read_as_mac_roman s')
  end.

Lemma utf8_read_append (a b : string) :
  utf8_read_as_mac_roman (String.append a b) = String.append (utf8_read_as_mac_roman a) (utf8_read_as_mac_roman b).
Proof.
  induction a as [|c a IH]; [reflexivity|]. rewrite string_append_cons. cbn [utf8_read_as_mac_roman].
  rewrite IH, string_append_assoc. reflexivity.
Qed.

Lemma utf8_read_digit (k : N) (s : string) : (k < 10)%N ->
  utf8_read_as_mac_roman (String (pretty_N_char k) s) = String (pretty_N_char k) (utf8_read_as_mac_roman s).
Proof.
  intros Hk. assert (H10 : k = 0%N \/ k = 1%N \/ k = 2%N \/ k = 3%N \/ k = 4%N \/
                  k = 5%N \/ k = 6%N \/ k = 7%N \/ k = 8%N \/ k = 9%N) by lia.
  destruct H10 as [E|[E|[E|[E|[E|[E|[E|[E|[E|E]]]]]]]]]; subst k; reflexivity.
Qed.

(** Digits are ASCII, so [pretty] is left as it is. *)
Lemma utf8_read_pretty_N_go (x : N) (s : string) :
  utf8_read_as_mac_roman (pretty_N_go x s) = pretty_N_go x (utf8_read_as_mac_roman s).
Proof.
  revert s. induction (N.lt_wf_0 x) as [x _ IH]; intros s.
  destruct (N.eq_dec x 0%N) as [->|Hx]; [rewrite !pretty_N_go_0; reflexivity|].
  rewrite (pretty_N_go_step x s), (pretty_N_go_step x (utf8_read_as_mac_roman s)) by lia.
  rewrite IH by (apply N.div_lt; lia).
  f_equal. apply utf8_read_digit, N.mod_lt. lia.
Qed.

Lemma utf8_read_pretty_Z (z : Z) : utf8_read_as_mac_roman (pretty z) = pretty z.
Proof.
  assert (HN : forall p : positive, utf8_read_as_mac_roman (pretty (Npos p)) = pretty (Npos p)).
  { intros p. unfold pretty, pretty_N. destruct (decide (Npos p = 0%N)); [reflexivity|].
    apply utf8_read_pretty_N_go. }
  destruct z as [|p|p]; [reflexivity | apply HN |].
  change (pretty (Zneg p)) with (String.append "-" (pretty (Npos p))).
  rewrite utf8_read_append, HN. reflexivity.
Qed.

(** The [innerHTML] of [#profileActions] on one's own profile. *)
Definition OWN_ACTIONS_HTML : string :=
  String.concat EmptyString
    [nl;
     "      <a href="; dq; "profile.html"; dq; " class="; dq; "btn-primary"; dq; ">"; nl;
     "        ‚úèÔ∏è –†–µ–¥–∞–∫—Ç–∏—Ä–æ–≤–∞—Ç—å –ø—Ä–æ—Ñ–∏–ª—å"; nl;
     "      </a>"; nl;
     "      <button class="; dq; "btn-secondary"; dq; " id="; dq; "shareProfileBtn"; dq; ">"; nl;
     "        üîó –ü–æ–¥–µ–ª–∏—Ç—å—Å—è"; nl;
     "      </button>"; nl;
     "    "].

(** The [innerHTML] of [#profileActions] on another user's profile. *)
Definition otherActionsHtml (fb : FriendButton) (subscribed : bool) : string :=
  String.concat EmptyString
    [nl;
     "      <button class="; dq; (friendButtonClass fb); dq; " id="; dq; "friendBtn"; dq; ">"; nl;
     "        "; (friendButtonText fb); nl;
     "      </button>"; nl;
     "      <button class="; dq; "btn-subscribe "; (if subscribed then "subscribed" else EmptyString); dq; " id="; dq; "subscribeBtn"; dq; ">"; nl;
     "        "; (if subscribed then SUBSCRIBED_TEXT else SUBSCRIBE_TEXT); nl;
     "      </button>"; nl;
     "      <button class="; dq; "btn-secondary"; dq; " id="; dq; "shareProfileBtn"; dq; ">"; nl;
     "        üîó –ü–æ–¥–µ–ª–∏—Ç—å—Å—è"; nl;
     "      </button>"; nl;
     "    "].

(** [setupActionsBar(currentUser, profileUser)]: what it writes. *)
Definition actionsBarHtml (cur profile : User) : string :=
  if String.eqb (id cur) (id profile) then OWN_ACTIONS_HTML
  else otherActionsHtml (friendButtonFor cur profile) (includes (id profile) (Friends.subscriptions_of cur)).

(** ** Lemmas *)

(** [getRankMedalSVG] is only called with the classes of [getRankInfo],
    which the table has: it never throws, and a rank's icon is its SVG. *)
Lemma getRankMedalSVG_rank (r : Rank) : getRankMedalSVG (rank_class r) = Some (rank_icon r).
Proof. unfold rank_icon. destruct r; reflexivity. Qed.

Lemma view_notifications_embed_senders (elapsed : string -> Z) (ns : list UserNotification) (n : UserNotification) :
  In n ns -> occurs_in (fromUserName n) (viewNotificationListHtml elapsed ns).
Proof.
  destruct ns as [|m ms]; [intros []|]. intros Hin. unfold viewNotificationListHtml; cbv iota.
  apply (items_occurs _ _ n); [exact Hin|]. apply (occurs_trans _ (viewNotificationText n)).
  - unfold viewNotificationText. destruct (n_type n); occurs_elem (fromUserName n).
  - unfold viewNotificationItemHtml. occurs_elem (viewNotificationText n).
Qed.

(** On another user's profile the actions bar shows the label and class
    of the friend button's state and of the subscription. *)
Lemma actionsBar_labels (cur profile : User) :
  id cur <> id profile ->
  let fb := friendButtonFor cur profile in
  let sub := includes (id profile) (Friends.subscriptions_of cur) in
  occurs_in (friendButtonText fb) (actionsBarHtml cur profile) /\
  occurs_in (friendButtonClass fb) (actionsBarHtml cur profile) /\
  occurs_in (if sub then SUBSCRIBED_TEXT else SUBSCRIBE_TEXT) (actionsBarHtml cur profile).
Proof.
  intros Hne fb sub. unfold actionsBarHtml. apply String.eqb_neq in Hne. rewrite Hne.
  unfold otherActionsHtml. fold fb sub.
  split; [|split]; [occurs_elem (friendButtonText fb) | occurs_elem (friendButtonClass fb) |
                    occurs_elem (if sub then SUBSCRIBED_TEXT else SUBSCRIBE_TEXT)].
Qed.

(** C32: The profile view's copy of [formatTimeAgo] computes what the
    dashboard's computes, for every elapsed time, but shows it double
    encoded: its literals are the UTF-8 bytes of the dashboard's read as
    Mac OS Roman, and the number it prints is ASCII. *)
Theorem viewFormatTimeAgo_double_encoded (diff : Z) :
  viewFormatTimeAgo diff = utf8_read_as_mac_roman (Dashboard.formatTimeAgo diff).
Proof.
  unfold viewFormatTimeAgo, Dashboard.formatTimeAgo.
  destruct (Z.ltb (diff / 60000) 1); [reflexivity|].
  destruct (Z.ltb (diff / 60000) 60); [|destruct (Z.ltb (diff / 60000 / 60) 24)];
    rewrite utf8_read_append, utf8_read_pretty_Z; reflexivity.
Qed.

End ViewMarkup.
