(* ===== verification/HeaderStatus.v ===== *)
(** * The status switch of the profile drop-down, as the page shows it

    [setupProfileDropdown] of dashboard.ts fills the drop-down with the
    user's avatar and nickname and defines [updateStatus(online)], which
    sets the class of the two status dots, the status text, the icon of
    the status row and the check box, then writes [onlineStatus] into
    ['mesaSettings'] ([Header.updateStatus], the storage part).  It runs
    on load with the stored status, and on every [change] of the check
    box.  Each element is written only when the page has it.

    settings.ts and profile.ts carry the same code; user-profile-view.ts
    carries it with its literals stored double-encoded ([ViewMarkup]), so
    the profile view shows the status text and icon as UTF-8 read as Mac
    OS Roman ([view_status_double_encoded]).  [status_switch_consistent]
    shows that the display always agrees with the stored status. *)

From S2P Require Import Prelude Types Storage Auth Header Friends Notifications ProfileView Dom Editor Dashboard ProfileRender Markup ViewMarkup.

Module HeaderStatus.
Import Auth Header ViewMarkup.

Record StatusTexts := mkStatusTexts {
  st_online : string;
  st_offline : string;
  st_icon_online : string;
  st_icon_offline : string;
}.

(** The literals of [updateStatus] in dashboard.ts. *)
Definition pageTexts : StatusTexts := mkStatusTexts "В сети" "Не в сети" "🟢" "⚫".

(** The same literals in user-profile-view.ts, as the file stores them. *)
Definition viewTexts : StatusTexts := mkStatusTexts "–í —Å–µ—Ç–∏" "–ù–µ –≤ —Å–µ—Ç–∏" "üü¢" "‚ö´".

(** The elements [updateStatus] writes, each [None] when the page lacks
    it: the classes of [#headerStatusDot] and [#dropdownStatusDot], the
    text of [#dropdownStatusText] and of the row's icon, and [checked]. *)
Record StatusView := mkStatusView {
  sv_headerDot : option string;
  sv_dropdownDot : option string;
  sv_text : option string;
  sv_icon : option string;
  sv_checked : option bool;
}.

(** [#dropdownAvatar]'s [src] and [#dropdownUserName]'s text. *)
Record DropdownView := mkDropdownView {
  dv_avatar : option string;
  dv_name : option string;
}.

Record HeaderPage := mkHeaderPage {
  hp_local : LocalStorage;
  hp_dropdown : DropdownView;
  hp_status : StatusView;
}.

(** [if (el) el.prop = v]. *)
Definition set_if {A} (el : option A) (v : A) : option A := option_map (fun _ => v) el.

(** ['status-dot ' + (online ? 'online' : 'offline')]. *)
Definition status_class (online : bool) : string :=
  String.append "status-dot " (if online then "online" else "offline").

(** The display part of [updateStatus(online)]. *)
Definition showStatus (tx : StatusTexts) (v : StatusView) (online : bool) : StatusView :=
  mkStatusView (set_if (sv_headerDot v) (status_class online)) (set_if (sv_dropdownDot v) (status_class online))
    (set_if (sv_text v) (if online then st_online tx else st_offline tx))
    (set_if (sv_icon v) (if online then st_icon_online tx else st_icon_offline tx))
    (set_if (sv_checked v) online).

(** [updateStatus(online)]: the display, then the write of ['mesaSettings']. *)
Definition updateStatus (tx : StatusTexts) (h : HeaderPage) (online : bool) : HeaderPage :=
  mkHeaderPage (fst (Header.updateStatus (hp_local h) online)) (hp_dropdown h) (showStatus tx (hp_status h) online).

(** [if (dropdownAvatar && user.avatar) ...; if (dropdownUserName) ...]. *)
Definition populateDropdown (u : User) (dv : DropdownView) : DropdownView :=
  mkDropdownView
    (match dv_avatar dv, avatar u with
     | Some _, Some a => if String.eqb a "" then dv_avatar dv else Some a
     | _, _ => dv_avatar dv
     end)
    (set_if (dv_name dv) (nickname u)).

(** [setupProfileDropdown(user)] on a page whose toggle and drop-down
    exist: the drop-down is filled and [updateStatus(isOnline)] runs. *)
Definition setupProfileDropdown (tx : StatusTexts) (u : User) (h : HeaderPage) : HeaderPage :=
  let h1 := mkHeaderPage (hp_local h) (populateDropdown u (hp_dropdown h)) (hp_status h) in
  updateStatus tx h1 (isOnline (stored_settings (hp_local h1))).

(** A click on the check box: it flips and its [change] listener runs
    [updateStatus(checkbox.checked)]. *)
Definition onCheckboxClick (tx : StatusTexts) (h : HeaderPage) : HeaderPage :=
  match sv_checked (hp_status h) with
  | Some c => updateStatus tx h (negb c)
  | None => h
  end.

(** The status ['mesaSettings'] holds, as [settings.onlineStatus !== false]. *)
Definition stored_online (h : HeaderPage) : bool := isOnline (stored_settings (hp_local h)).

(** Every element the page has shows the stored status. *)
Definition consistent (tx : StatusTexts) (h : HeaderPage) : Prop :=
  showStatus tx (hp_status h) (stored_online h) = hp_status h.

(** ** Lemmas *)

Lemma set_if_set_if {A} (el : option A) (v w : A) : set_if (set_if el v) w = set_if el w.
Proof. destruct el; reflexivity. Qed.

Lemma showStatus_showStatus (tx : StatusTexts) (v : StatusView) (o o' : bool) :
  showStatus tx (showStatus tx v o) o' = showStatus tx v o'.
Proof. unfold showStatus. cbn. rewrite !set_if_set_if. reflexivity. Qed.

Lemma stored_online_updateStatus (tx : StatusTexts) (h : HeaderPage) (o : bool) :
  stored_online (updateStatus tx h o) = o.
Proof. unfold stored_online, updateStatus, Header.updateStatus. cbn [hp_local fst]. rewrite stored_settings_set. apply isOnline_with. Qed.

(** [updateStatus] leaves the page consistent. *)
Lemma updateStatus_consistent (tx : StatusTexts) (h : HeaderPage) (o : bool) :
  consistent tx (updateStatus tx h o).
Proof.
  unfold consistent. rewrite stored_online_updateStatus. cbn [hp_status updateStatus].
  apply showStatus_showStatus.
Qed.

(** The check box of a consistent page shows the stored status. *)
Lemma consistent_checked (tx : StatusTexts) (h : HeaderPage) (c : bool) :
  consistent tx h -> sv_checked (hp_status h) = Some c -> c = stored_online h.
Proof.
  unfold consistent. intros Hc Hs. apply (f_equal sv_checked) in Hc. cbn in Hc. rewrite Hs in Hc.
  cbn in Hc. congruence.
Qed.

(** A click on the check box of a consistent page keeps it consistent
    and, when the page has the box, flips the stored status. *)
Lemma onCheckboxClick_step (tx : StatusTexts) (h : HeaderPage) :
  consistent tx h ->
  consistent tx (onCheckboxClick tx h) /\
  (sv_checked (hp_status h) <> None ->
   sv_checked (hp_status (onCheckboxClick tx h)) <> None /\
   stored_online (onCheckboxClick tx h) = negb (stored_online h)).
Proof.
  intros Hc. unfold onCheckboxClick. destruct (sv_checked (hp_status h)) as [c|] eqn:E.
  - pose proof (consistent_checked _ _ _ Hc E) as ->. split; [apply updateStatus_consistent|]. intros _. split.
    + cbn. rewrite E. discriminate.
    + apply stored_online_updateStatus.
  - split; [exact Hc | intros []; reflexivity].
Qed.

Lemma viewTexts_encoded :
  viewTexts = mkStatusTexts (utf8_read_as_mac_roman (st_online pageTexts)) (utf8_read_as_mac_roman (st_offline pageTexts))
    (utf8_read_as_mac_roman (st_icon_online pageTexts)) (utf8_read_as_mac_roman (st_icon_offline pageTexts)).
Proof. vm_compute. reflexivity. Qed.

(** The storage effect is the one the page modules use: the display part
    refines [Header.setupProfileDropdown] and [Header.onStatusChange]. *)
Lemma setupProfileDropdown_local (tx : StatusTexts) (u : User) (h : HeaderPage) :
  hp_local (setupProfileDropdown tx u h) = fst (Header.setupProfileDropdown (hp_local h)).
Proof. reflexivity. Qed.

Lemma onCheckboxClick_local (tx : StatusTexts) (h : HeaderPage) (c : bool) :
  sv_checked (hp_status h) = Some c ->
  hp_local (onCheckboxClick tx h) = fst (Header.onStatusChange (hp_local h) (negb c)).
Proof. intros E. unfold onCheckboxClick. rewrite E. reflexivity. Qed.

(** C26: On every page with the header, after [setupProfileDropdown] and
    any number of clicks on the status check box, every status element
    the page has (the two dots, the text, the icon, the box) shows the
    status ['mesaSettings'] holds, and when the page has the box each
    click flips the stored status. *)
Theorem status_switch_consistent (tx : StatusTexts) (u : User) (h : HeaderPage) (n : nat) :
  consistent tx (Nat.iter n (onCheckboxClick tx) (setupProfileDropdown tx u h)) /\
  (sv_checked (hp_status h) <> None ->
   stored_online (Nat.iter n (onCheckboxClick tx) (setupProfileDropdown tx u h)) =
   xorb (Nat.odd n) (stored_online (setupProfileDropdown tx u h))).
Proof.
  set (h0 := setupProfileDropdown tx u h).
  assert (H : consistent tx (Nat.iter n (onCheckboxClick tx) h0) /\
              (sv_checked (hp_status h) <> None ->
               sv_checked (hp_status (Nat.iter n (onCheckboxClick tx) h0)) <> None /\
               stored_online (Nat.iter n (onCheckboxClick tx) h0) = xorb (Nat.odd n) (stored_online h0))).
  { induction n as [|n [IHc IHs]].
    - split; [apply updateStatus_consistent|]. intros Hne. split; [|reflexivity].
      cbn. destruct (sv_checked (hp_status h)); [discriminate | contradiction].
    - rewrite Nat.iter_succ. destruct (onCheckboxClick_step tx _ IHc) as [Hc Hs]. split; [exact Hc|].
      intros Hne. destruct (IHs Hne) as [Hn Heq]. destruct (Hs Hn) as [Hn' ->]. split; [exact Hn'|].
      rewrite Heq, Nat.odd_succ, <- Nat.negb_odd. destruct (Nat.odd n), (stored_online h0); reflexivity. }
  split; [apply H | intros Hne; apply H, Hne].
Qed.

(** The profile view writes the same classes and check box state as the
    other pages, and the text and icon of the other pages read as Mac OS
    Roman. *)
Theorem view_status_double_encoded (v : StatusView) (online : bool) :
  sv_text (showStatus viewTexts v online) = option_map utf8_read_as_mac_roman (sv_text (showStatus pageTexts v online)) /\
  sv_icon (showStatus viewTexts v online) = option_map utf8_read_as_mac_roman (sv_icon (showStatus pageTexts v online)) /\
  sv_headerDot (showStatus viewTexts v online) = sv_headerDot (showStatus pageTexts v online) /\
  sv_dropdownDot (showStatus viewTexts v online) = sv_dropdownDot (showStatus pageTexts v online) /\
  sv_checked (showStatus viewTexts v online) = sv_checked (showStatus pageTexts v online).
Proof.
  rewrite viewTexts_encoded. destruct v as [hd dd t i c]; cbn.
  repeat split; destruct online, t, i; reflexivity.
Qed.

End HeaderStatus.
