(* ===== verification/PageHeader.v ===== *)
(** * The header of the settings and profile pages (src/src/settings.ts)

    settings.ts and profile.ts carry the same header code, after the
    dashboard's: [setupProfileDropdown] (the status switch of
    [HeaderStatus], the toggle, the status row that stops its clicks, a
    document listener that closes the drop-down, the logout item) and
    [setupSearch] (the input listener and a document listener that closes
    the results unless the click is in [.nav-search]); settings.ts adds
    the logout button of the side bar.  This file composes them into the
    header of one page, a state and a step per event, as settings.ts
    registers them.  The drop-down's logout item is a [.dropdown-item] of
    the toggle, as the toggle's [closest('.dropdown-item')] test expects.

    [header_keeps_account] shows that no header event but a confirmed
    logout touches the account: the database, the signed-in flag, the
    current user, the session and the location stay as they were; the
    header writes ['mesaSettings'] only. *)

From S2P Require Import Prelude Types Storage Auth Header Friends Notifications ProfileView Dom Editor Dashboard ProfileRender Markup ViewMarkup HeaderStatus.

Module PageHeader.
Import Auth Header Markup HeaderStatus.

(** [#searchResults]: its [open] class and its [innerHTML]. *)
Record SearchBox := mkSearchBox {
  sb_open : bool;
  sb_html : string;
}.

Record PageHeader := mkPageHeader {
  ph_browser : Browser;
  ph_user : User;                (** the user [checkAuth] returned *)
  ph_dropdown : DropdownView;
  ph_status : StatusView;
  ph_profileOpen : bool;         (** [open] class of [#profileDropdown] *)
  ph_search : SearchBox;
}.

(** Where a click lands, as the listeners tell targets apart. *)
Inductive PTarget :=
| PT_toggle          (** [#userProfileToggle], not in a [.dropdown-item] *)
| PT_dropdownItem    (** a [.dropdown-item] of the drop-down *)
| PT_statusRow       (** [#onlineStatusToggle] *)
| PT_search          (** inside [.nav-search] *)
| PT_elsewhere.

Inductive HeaderEvent :=
| HE_click (t : PTarget)
| HE_checkbox                    (** a click on the status check box, in the status row *)
| HE_search (value : string)     (** [input] on [#searchInput] with this value *)
| HE_dropdownLogout (ok : bool)  (** [#dropdownLogout]; [ok] answers [confirm] *)
| HE_sidebarLogout (ok : bool).  (** [.logout-btn] of the side bar *)

(** The header page the status switch works on. *)
Definition status_page (ph : PageHeader) : HeaderPage :=
  mkHeaderPage (local (ph_browser ph)) (ph_dropdown ph) (ph_status ph).

Definition with_status_page (ph : PageHeader) (h : HeaderPage) : PageHeader :=
  mkPageHeader (with_local (ph_browser ph) (hp_local h)) (ph_user ph) (hp_dropdown h) (hp_status h)
    (ph_profileOpen ph) (ph_search ph).

Definition with_profileOpen (ph : PageHeader) (o : bool) : PageHeader :=
  mkPageHeader (ph_browser ph) (ph_user ph) (ph_dropdown ph) (ph_status ph) o (ph_search ph).

Definition with_search (ph : PageHeader) (sb : SearchBox) : PageHeader :=
  mkPageHeader (ph_browser ph) (ph_user ph) (ph_dropdown ph) (ph_status ph) (ph_profileOpen ph) sb.

Definition with_browser (ph : PageHeader) (b : Browser) : PageHeader :=
  mkPageHeader b (ph_user ph) (ph_dropdown ph) (ph_status ph) (ph_profileOpen ph) (ph_search ph).

Section Header.

(** [user.level]'s text in a search result ([toString]). *)
Variable num_text : Q -> string.

(** The input listener of [setupSearch]. *)
Definition searchInput (ls : LocalStorage) (cur : User) (sb : SearchBox) (value : string) : SearchBox :=
  match Friends.onSearchInput ls cur value with
  | Friends.SR_closed => mkSearchBox false ""
  | Friends.SR_unchanged => sb
  | Friends.SR_open found => mkSearchBox true (headerSearchResultsHtml num_text found)
  end.

(** The document listener of [setupSearch]. *)
Definition onSearchDocument (sb : SearchBox) (t : PTarget) : SearchBox :=
  match t with
  | PT_search => sb
  | _ => mkSearchBox false (sb_html sb)
  end.

(** The document listeners, in the order [init] registers them: the
    drop-down's, then the search's. *)
Definition document_listeners (ph : PageHeader) (t : PTarget) : PageHeader :=
  with_search (with_profileOpen ph false) (onSearchDocument (ph_search ph) t).

(** The click listener of the toggle, and whether the click goes on. *)
Definition onToggle (ph : PageHeader) (t : PTarget) : PageHeader * bool :=
  match t with
  | PT_dropdownItem => (ph, true)
  | _ => (with_profileOpen ph (negb (ph_profileOpen ph)), false)
  end.

(** A click on [t]: the listener of the element hit, then, unless it
    stopped the event, the document listeners. *)
Definition header_click (ph : PageHeader) (t : PTarget) : PageHeader :=
  match t with
  | PT_toggle | PT_dropdownItem =>
      let '(ph1, goesOn) := onToggle ph t in
      if goesOn then document_listeners ph1 t else ph1
  | PT_statusRow => ph
  | PT_search | PT_elsewhere => document_listeners ph t
  end.

(** The logout item: its listener, then the toggle and the document. *)
Definition onDropdownLogout (ph : PageHeader) (ok : bool) : PageHeader :=
  header_click (with_browser ph (Header.logout ok (ph_browser ph))) PT_dropdownItem.

(** The side bar's logout button; its click reaches the document. *)
Definition onSidebarLogout (ph : PageHeader) (ok : bool) : PageHeader :=
  document_listeners (with_browser ph (Header.logout ok (ph_browser ph))) PT_elsewhere.

Definition header_step (ph : PageHeader) (ev : HeaderEvent) : PageHeader :=
  match ev with
  | HE_click t => header_click ph t
  | HE_checkbox => with_status_page ph (onCheckboxClick pageTexts (status_page ph))
  | HE_search value => with_search ph (searchInput (local (ph_browser ph)) (ph_user ph) (ph_search ph) value)
  | HE_dropdownLogout ok => onDropdownLogout ph ok
  | HE_sidebarLogout ok => onSidebarLogout ph ok
  end.

Definition header_run (ph : PageHeader) (evs : list HeaderEvent) : PageHeader := fold_left header_step evs ph.

(** [loadHeader(user); setupProfileDropdown(user); setupSearch(user)] of
    [init], on a browser whose sign-in check returned [u]. *)
Definition setupHeader (b : Browser) (u : User) (dv : DropdownView) (sv : StatusView) : PageHeader :=
  let h := HeaderStatus.setupProfileDropdown pageTexts u (mkHeaderPage (local b) dv sv) in
  mkPageHeader (with_local b (hp_local h)) u (hp_dropdown h) (hp_status h) false (mkSearchBox false "").

(** The event is not a confirmed logout. *)
Definition keeps_session (ev : HeaderEvent) : bool :=
  match ev with HE_dropdownLogout true | HE_sidebarLogout true => false | _ => true end.

(** What the header must not change: the account keys, the session and
    the location. *)
Definition account (b : Browser) : option Database * option User * option string * SessionStorage * option string :=
  (ls_database (local b), ls_currentUser (local b), ls_loggedIn (local b), session b, location b).

(** ** Lemmas *)

Lemma header_click_browser (ph : PageHeader) (t : PTarget) : ph_browser (header_click ph t) = ph_browser ph.
Proof. destruct t; reflexivity. Qed.

Lemma header_step_account (ph : PageHeader) (ev : HeaderEvent) :
  keeps_session ev = true -> account (ph_browser (header_step ph ev)) = account (ph_browser ph).
Proof.
  destruct ev as [t| |value|[]|[]]; intros Hk; try discriminate; cbn [header_step].
  - rewrite header_click_browser. reflexivity.
  - unfold onCheckboxClick. cbn. destruct (sv_checked (ph_status ph)); reflexivity.
  - reflexivity.
  - unfold onDropdownLogout. rewrite header_click_browser. reflexivity.
  - reflexivity.
Qed.

(** C27: No header event but a confirmed logout touches the account:
    after any clicks, status switches, searches and cancelled logouts,
    the database, the current user, the signed-in flag, the session and
    the location are those the page started with. *)
Theorem header_keeps_account (ph : PageHeader) (evs : list HeaderEvent) :
  forallb keeps_session evs = true -> account (ph_browser (header_run ph evs)) = account (ph_browser ph).
Proof.
  unfold header_run. revert ph. induction evs as [|ev evs IH]; intros ph Hk; [reflexivity|].
  cbn in Hk. apply andb_true_iff in Hk as [Hev Hk]. cbn [fold_left].
  rewrite IH by exact Hk. apply header_step_account, Hev.
Qed.

End Header.

End PageHeader.
