(* ===== verification/Landing.v ===== *)
(** * The landing page (src/src/main.ts)

    The page's state lives in the DOM: the tournament cards' inline
    styles, the active filter button and link, and the callbacks queued
    with [setTimeout].  The filter handler changes some styles at once and
    queues the rest (showing a card 10 ms later, hiding it 300 ms later);
    the model keeps the queue as a list of timers with their due times
    and fires them as the browser does, earliest due time first and, at
    equal times, in the order they were queued.  Time is an integer
    number of milliseconds.  The scroll animations write the same inline
    styles: [init] hides every card and the observer shows a card when it
    scrolls into view.  The anchors' smooth scrolling, the scroll spy's
    reading of the offset and the tournament cards' listeners are in
    [LandingNav]. *)

From S2P Require Import Prelude Auth Friends.

Module Landing.
Import Auth Friends.

(** ** The cards and the timer queue *)

(** A [.tournament-card]: the text of its [.tournament-game] tag and the
    inline styles the handlers write. *)
Record Card := mkCard {
  gameTag : string;
  display : string;
  opacity : string;
  transform : string;
}.

Definition with_display (c : Card) (d : string) : Card :=
  mkCard (gameTag c) d (opacity c) (transform c).

Definition with_fade (c : Card) (o t : string) : Card :=
  mkCard (gameTag c) (display c) o t.

(** The callbacks the filter handler passes to [setTimeout], by card
    index. *)
Inductive Callback :=
| CB_show (i : nat)      (** [opacity = '1'; transform = 'translateY(0)'] *)
| CB_hide (i : nat).     (** [display = 'none'] *)

Record Timer := mkTimer { due : Z; cb : Callback }.

#[export] Instance Card_eq_dec : EqDecision Card.
Proof. solve_decision. Defined.
#[export] Instance Callback_eq_dec : EqDecision Callback.
Proof. solve_decision. Defined.
#[export] Instance Timer_eq_dec : EqDecision Timer.
Proof. solve_decision. Defined.

Record Page := mkPage {
  cards : list Card;
  activeFilter : option string;   (** the text of the [.filter-btn] with [active] *)
  clock : Z;                      (** [Date.now()] *)
  timers : list Timer;            (** pending, in the order queued *)
}.

(** Run one callback. *)
Definition run_callback (cs : list Card) (c : Callback) : list Card :=
  match c with
  | CB_show i => alter (fun cd => with_fade cd "1" "translateY(0)") i cs
  | CB_hide i => alter (fun cd => with_display cd "none") i cs
  end.

(** The index of the timer that fires next by time [t]: the earliest due
    time not after [t], the first queued among equals. *)
Fixpoint earliest_from (ts : list Timer) (t : Z) (k : nat) (best : option (nat * Z)) : option (nat * Z) :=
  match ts with
  | [] => best
  | tm :: ts' =>
      let best' :=
        if Z.leb (due tm) t then
          match best with
          | Some (_, d) => if Z.ltb (due tm) d then Some (k, due tm) else best
          | None => Some (k, due tm)
          end
        else best in
      earliest_from ts' t (S k) best'
  end.

Definition earliest (ts : list Timer) (t : Z) : option nat :=
  option_map fst (earliest_from ts t 0 None).

(** Fire the timers due by [t], one per unit of fuel. *)
Fixpoint fire (fuel : nat) (cs : list Card) (ts : list Timer) (t : Z) : list Card * list Timer :=
  match fuel with
  | O => (cs, ts)
  | S f =>
      match earliest ts t with
      | None => (cs, ts)
      | Some k =>
          match ts !! k with
          | Some tm => fire f (run_callback cs (cb tm)) (delete k ts) t
          | None => (cs, ts)
          end
      end
  end.

(** Let time pass until [t]: every timer due by then fires.  One unit of
    fuel per pending timer is enough (see [fire_drains]). *)
Definition advance (p : Page) (t : Z) : Page :=
  let '(cs, ts) := fire (length (timers p)) (cards p) (timers p) t in
  mkPage cs (activeFilter p) t ts.

(** ** The filter buttons *)

(** The match test of [setupTournamentFilters]. *)
Definition filter_matches (filterText tag : string) : bool :=
  (String.eqb tag filterText || str_includes filterText tag ||
   (String.eqb filterText "Warcraft III" && str_includes "Warcraft" tag) ||
   (String.eqb filterText "Star Wars: EaW" && str_includes "Star Wars" tag) ||
   (String.eqb filterText "Company of Heroes" && str_includes "Company" tag))%bool.

Definition ALL_FILTER : string := "Все".

(** What the handler does to card [i] now, and the timer it queues. *)
Definition filter_card (now : Z) (filterText : string) (i : nat) (c : Card) : Card * Timer :=
  if String.eqb filterText ALL_FILTER then (with_display c "block", mkTimer (now + 10) (CB_show i))
  else if filter_matches filterText (gameTag c) then (with_display c "block", mkTimer (now + 10) (CB_show i))
  else (with_fade c "0" "translateY(20px)", mkTimer (now + 300) (CB_hide i)).

Fixpoint filter_cards (now : Z) (filterText : string) (i : nat) (cs : list Card) : list Card * list Timer :=
  match cs with
  | [] => ([], [])
  | c :: cs' =>
      let '(c', tm) := filter_card now filterText i c in
      let '(cs'', tms) := filter_cards now filterText (S i) cs' in
      (c' :: cs'', tm :: tms)
  end.

(** The [click] listener of a filter button whose trimmed text is
    [filterText]. *)
Definition onFilterClick (p : Page) (filterText : string) : Page :=
  let '(cs, tms) := filter_cards (clock p) filterText 0 (cards p) in
  mkPage cs (Some filterText) (clock p) (timers p ++ tms).

(** ** The other listeners *)

(** [setupActiveNav]: the last section whose top, less 200, is not below
    the scroll offset gives the active link ([''] when none does). *)
Fixpoint currentSection (sections : list (string * Z)) (y : Z) (cur : string) : string :=
  match sections with
  | [] => cur
  | (sid, top) :: rest => currentSection rest y (if Z.leb (top - 200) y then sid else cur)
  end.

Definition activeLinks (links : list string) (sections : list (string * Z)) (y : Z) : list bool :=
  let current := currentSection sections y "" in
  map (fun href => String.eqb href (String.append "#" current)) links.

(** The join button of a card titled [title]. *)
Definition joinAlert (title : string) : string :=
  String.concat EmptyString ["Вы присоединились к турниру: "; title; nl;
    nl; "Это демо-функционал. В реальной версии здесь будет форма регистрации."].

(** [setupLiveIndicator]: every second each live status toggles its
    opacity between ['0.7'] and ['1']. *)
Definition live_tick (o : string) : string := if String.eqb o "0.7" then "1" else "0.7".

(** The opacity of a live status after [n] ticks from [o]. *)
Definition live_after (n : nat) (o : string) : string := Nat.iter n live_tick o.

(** ** Scroll animations *)

(** [setupScrollAnimations]: every tournament card starts hidden and
    lowered (the [transition] is not modelled). *)
Definition setupScrollAnimations (cs : list Card) : list Card :=
  map (fun c => with_fade c "0" "translateY(30px)") cs.

(** The observer's callback for an entry of card [i] that is
    intersecting; a card with [display: none] has no box and is never
    reported as intersecting. *)
Definition onIntersect (cs : list Card) (i : nat) : list Card :=
  match cs !! i with
  | Some c => if String.eqb (display c) "none" then cs else alter (fun cd => with_fade cd "1" "translateY(0)") i cs
  | None => cs
  end.

(** [init()] on a page whose cards are [cs]: the listeners are set up and
    the scroll animations hide the cards. *)
Definition landing_init (cs : list Card) (now : Z) : Page :=
  mkPage (setupScrollAnimations cs) None now [].

(** ** Events *)

Inductive LandingEvent :=
| LE_filter (filterText : string) (time : Z)   (** a click at [time] *)
| LE_wait (until : Z)                         (** time passes *)
| LE_intersect (i : nat) (time : Z).          (** card [i] scrolls into view *)

Definition landing_step (p : Page) (ev : LandingEvent) : Page :=
  match ev with
  | LE_filter text t => onFilterClick (advance p t) text
  | LE_wait t => advance p t
  | LE_intersect i t =>
      let p1 := advance p t in
      mkPage (onIntersect (cards p1) i) (activeFilter p1) (clock p1) (timers p1)
  end.

Definition landing_run (p : Page) (evs : list LandingEvent) : Page := fold_left landing_step evs p.

(** The index of the card a callback writes. *)
Definition cb_index (c : Callback) : nat := match c with CB_show i | CB_hide i => i end.

(** What the filter [X] asks of a card once its transition is over: a
    card it keeps is displayed, opaque and in place; any other is
    faded, lowered and hidden. *)
Definition settled (X : string) (c : Card) : Card :=
  if (String.eqb X ALL_FILTER || filter_matches X (gameTag c))%bool
  then with_fade (with_display c "block") "1" "translateY(0)"
  else with_display (with_fade c "0" "translateY(20px)") "none".

(** ** The live indicator *)

(** From the page's unset opacity the live statuses blink: ['0.7'] after
    an odd number of seconds, ['1'] after an even number. *)
Lemma live_after_blinks (n : nat) :
  live_after (S n) "" = if Nat.odd (S n) then "0.7" else "1".
Proof.
  induction n as [|n IH]; [reflexivity|].
  unfold live_after in *. rewrite Nat.iter_succ, IH.
  rewrite (Nat.odd_succ (S n)), <- Nat.negb_odd.
  destruct (Nat.odd (S n)); reflexivity.
Qed.

(** ** Lemmas on the timer queue *)

Definition display_at (cs : list Card) (i : nat) : option string := option_map display (cs !! i).

Lemma earliest_from_none (ts : list Timer) (t : Z) (k : nat) (best : option (nat * Z)) :
  earliest_from ts t k best = None -> best = None /\ Forall (fun tm => (t < due tm)%Z) ts.
Proof.
  revert k best. induction ts as [|tm ts IH]; intros k best H; simpl in H; [auto|].
  destruct (IH _ _ H) as [Hb Hts]. destruct (Z.leb_spec (due tm) t) as [Hle|Hgt].
  - destruct best as [[? ?]|]; [destruct (Z.ltb _ _)|]; discriminate.
  - split; [exact Hb|]. constructor; [exact Hgt | exact Hts].
Qed.

Lemma earliest_from_some (ts : list Timer) (t : Z) (k0 : nat) (best : option (nat * Z)) (k : nat) (d : Z) :
  earliest_from ts t k0 best = Some (k, d) ->
  best = Some (k, d) \/ (k0 <= k)%nat /\ exists tm, ts !! (k - k0)%nat = Some tm /\ (due tm <= t)%Z.
Proof.
  revert k0 best. induction ts as [|tm ts IH]; intros k0 best H; simpl in H; [auto|].
  assert (Hstep : forall b', earliest_from ts t (S k0) b' = Some (k, d) ->
            (b' = Some (k, d) -> best = Some (k, d) \/ (k0 <= k)%nat /\ exists tm', (tm :: ts) !! (k - k0)%nat = Some tm' /\ (due tm' <= t)%Z) ->
            best = Some (k, d) \/ (k0 <= k)%nat /\ exists tm', (tm :: ts) !! (k - k0)%nat = Some tm' /\ (due tm' <= t)%Z).
  { intros b' Hb' Hcase. destruct (IH _ _ Hb') as [E | (Hk & tm' & Htm' & Hd)]; [exact (Hcase E)|].
    right. split; [lia|]. exists tm'. replace (k - k0)%nat with (S (k - S k0)) by lia. split; assumption. }
  apply (Hstep _ H). destruct (Z.leb_spec (due tm) t) as [Hle|Hgt].
  - destruct best as [[k1 d1]|].
    + destruct (Z.ltb (due tm) d1); [|auto]. intros [= <- <-]. right. rewrite Nat.sub_diag. eauto.
    + intros [= <- <-]. right. rewrite Nat.sub_diag. eauto.
  - auto.
Qed.

Lemma earliest_none (ts : list Timer) (t : Z) :
  earliest ts t = None -> Forall (fun tm => (t < due tm)%Z) ts.
Proof.
  unfold earliest. destruct (earliest_from ts t 0 None) eqn:E; [discriminate|].
  intros _. exact (proj2 (earliest_from_none _ _ _ _ E)).
Qed.

Lemma earliest_some (ts : list Timer) (t : Z) (k : nat) :
  earliest ts t = Some k -> exists tm, ts !! k = Some tm /\ (due tm <= t)%Z.
Proof.
  unfold earliest. destruct (earliest_from ts t 0 None) as [[k' d]|] eqn:E; [|discriminate].
  intros [= <-]. destruct (earliest_from_some _ _ _ _ _ _ E) as [H | (_ & tm & Htm & Hd)]; [discriminate|].
  rewrite Nat.sub_0_r in Htm. eauto.
Qed.

(** A timer not yet due is never fired. *)
Lemma fire_keeps_future (n : nat) (cs : list Card) (ts : list Timer) (t : Z) (tm : Timer) :
  tm ∈ ts -> (t < due tm)%Z -> tm ∈ snd (fire n cs ts t).
Proof.
  revert cs ts. induction n as [|n IH]; intros cs ts Hin Hlt; simpl; [exact Hin|].
  destruct (earliest ts t) as [k|] eqn:Ek; [|exact Hin].
  destruct (earliest_some _ _ _ Ek) as (tm' & Htm' & Hd). rewrite Htm'.
  apply IH; [|exact Hlt]. apply (delete_Permutation ts k tm') in Htm'.
  rewrite Htm' in Hin. apply elem_of_cons in Hin as [->|Hin]; [lia | exact Hin].
Qed.

Lemma length_run_callback (cs : list Card) (c : Callback) :
  length (run_callback cs c) = length cs.
Proof. destruct c; apply length_alter. Qed.

Lemma lookup_run_callback_Some (cs : list Card) (c : Callback) (i : nat) :
  is_Some (cs !! i) -> is_Some (run_callback cs c !! i).
Proof. intros H. apply lookup_lt_is_Some_2. rewrite length_run_callback. apply lookup_lt_is_Some_1, H. Qed.

Lemma display_at_run_callback (cs : list Card) (c : Callback) (i : nat) :
  display_at cs i = Some "none" -> display_at (run_callback cs c) i = Some "none".
Proof.
  unfold display_at. intros H. destruct c as [j|j]; simpl; rewrite list_lookup_alter;
    destruct (decide (j = i)) as [->|]; simpl; auto; destruct (cs !! i); simpl in *; congruence.
Qed.

(** Once a hide timer of card [i] is due, firing everything due hides the
    card, whatever else fires: no callback sets [display] back. *)
Lemma fire_hides (n : nat) (cs : list Card) (ts : list Timer) (t : Z) (i : nat) :
  (length ts <= n)%nat -> is_Some (cs !! i) ->
  (display_at cs i = Some "none" \/ exists tm, tm ∈ ts /\ cb tm = CB_hide i /\ (due tm <= t)%Z) ->
  display_at (fst (fire n cs ts t)) i = Some "none".
Proof.
  revert cs ts. induction n as [|n IH]; intros cs ts Hlen [c Hc] Hcase; simpl.
  - destruct ts; [|simpl in Hlen; lia]. destruct Hcase as [H | (tm & Hin & _)]; [exact H|].
    apply elem_of_nil in Hin. contradiction.
  - destruct (earliest ts t) as [k|] eqn:Ek.
    + destruct (earliest_some _ _ _ Ek) as (tm' & Htm' & Hd). rewrite Htm'.
      apply IH.
      * rewrite length_delete by eauto. lia.
      * apply lookup_run_callback_Some. eauto.
      * destruct Hcase as [H | (tm & Hin & Hcb & Hdue)]; [left; apply display_at_run_callback, H|].
        destruct (decide (cb tm' = CB_hide i)) as [Eq|Ne].
        -- left. rewrite Eq. unfold display_at. simpl. rewrite list_lookup_alter_eq, Hc. reflexivity.
        -- right. exists tm. split; [|auto]. pose proof (delete_Permutation ts k tm' Htm') as P.
           rewrite P in Hin. apply elem_of_cons in Hin as [->|Hin]; [congruence | exact Hin].
    + destruct Hcase as [H | (tm & Hin & _ & Hdue)]; [exact H|].
      apply earliest_none in Ek. rewrite Forall_forall in Ek. specialize (Ek tm (proj1 (list_elem_of_In _ _) Hin)). lia.
Qed.

Lemma fire_drains_gen (n : nat) (cs : list Card) (ts : list Timer) (t : Z) :
  (length ts <= n)%nat -> Forall (fun tm => (t < due tm)%Z) (snd (fire n cs ts t)).
Proof.
  revert cs ts. induction n as [|n IH]; intros cs ts Hlen; simpl.
  - destruct ts; [constructor | simpl in Hlen; lia].
  - destruct (earliest ts t) as [k|] eqn:Ek; [|apply earliest_none, Ek].
    destruct (earliest_some _ _ _ Ek) as (tm' & Htm' & _). rewrite Htm'.
    apply IH. rewrite length_delete by eauto. lia.
Qed.

Lemma length_fire (n : nat) (cs : list Card) (ts : list Timer) (t : Z) :
  length (fst (fire n cs ts t)) = length cs.
Proof.
  revert cs ts. induction n as [|n IH]; intros cs ts; simpl; [reflexivity|].
  destruct (earliest ts t); [|reflexivity]. destruct (ts !! _); [|reflexivity].
  rewrite IH. apply length_run_callback.
Qed.

Lemma advance_fields (p : Page) (t : Z) :
  cards (advance p t) = fst (fire (length (timers p)) (cards p) (timers p) t) /\
  timers (advance p t) = snd (fire (length (timers p)) (cards p) (timers p) t) /\
  activeFilter (advance p t) = activeFilter p /\ clock (advance p t) = t.
Proof. unfold advance. destruct (fire _ _ _ _). auto. Qed.

Lemma filter_cards_lookup (now : Z) (X : string) (k : nat) (cs : list Card) (j : nat) :
  fst (filter_cards now X k cs) !! j = option_map (fun c => fst (filter_card now X (k + j) c)) (cs !! j) /\
  snd (filter_cards now X k cs) !! j = option_map (fun c => snd (filter_card now X (k + j) c)) (cs !! j).
Proof.
  revert k j. induction cs as [|c cs IH]; intros k j; simpl; [auto|].
  destruct (filter_card now X k c) as [c' tm] eqn:Ec.
  destruct (filter_cards now X (S k) cs) as [cs'' tms] eqn:Er. simpl.
  destruct j as [|j]; simpl.
  - rewrite Nat.add_0_r, Ec. auto.
  - destruct (IH (S k) j) as [H1 H2]. rewrite Er in H1, H2. simpl in H1, H2.
    replace (k + S j)%nat with (S k + j)%nat by lia. auto.
Qed.

Lemma onFilterClick_fields (p : Page) (X : string) :
  let r := filter_cards (clock p) X 0 (cards p) in
  cards (onFilterClick p X) = fst r /\ timers (onFilterClick p X) = timers p ++ snd r /\
  activeFilter (onFilterClick p X) = Some X.
Proof. unfold onFilterClick. destruct (filter_cards _ _ _ _). auto. Qed.

Lemma run_callback_other (cs : list Card) (c : Callback) (i : nat) :
  cb_index c <> i -> run_callback cs c !! i = cs !! i.
Proof. destruct c; cbn; intros H; apply list_lookup_alter_ne, H. Qed.

Lemma run_callback_commute (cs : list Card) (c c' : Callback) :
  cb_index c' <> cb_index c ->
  run_callback (run_callback cs c') c !! cb_index c = run_callback cs c !! cb_index c.
Proof. intros H. destruct c; cbn in *; rewrite !list_lookup_alter_eq, run_callback_other by exact H; reflexivity. Qed.

(** With every timer due and at most one per card, firing runs each
    card's callback on it and empties the queue, in whatever order the
    timers fire. *)
Lemma fire_all (n : nat) (cs : list Card) (ts : list Timer) (t : Z) :
  (length ts <= n)%nat -> Forall (fun tm => (due tm <= t)%Z) ts -> NoDup (map (fun tm => cb_index (cb tm)) ts) ->
  snd (fire n cs ts t) = [] /\
  (forall i, Forall (fun tm => cb_index (cb tm) <> i) ts -> fst (fire n cs ts t) !! i = cs !! i) /\
  (forall tm, In tm ts -> fst (fire n cs ts t) !! cb_index (cb tm) = run_callback cs (cb tm) !! cb_index (cb tm)).
Proof.
  revert cs ts. induction n as [|n IH]; intros cs ts Hlen Hdue Hnd.
  - destruct ts; [|cbn in Hlen; lia]. split; [reflexivity | split; [reflexivity | intros tm []]].
  - cbn [fire]. destruct (earliest ts t) as [k|] eqn:Ek.
    + destruct (earliest_some _ _ _ Ek) as (tm' & Htm' & _). rewrite Htm'.
      pose proof (delete_Permutation ts k tm' Htm') as P.
      pose proof (Permutation_map (fun tm => cb_index (cb tm)) P) as Pm. rewrite Pm in Hnd.
      inversion Hnd as [|? ? Hnot Hnd1]; subst.
      assert (Hin1 : forall x, In x (delete k ts) -> In x ts)
        by (intros x Hx; apply (Permutation_in _ (Permutation_sym P)); right; exact Hx).
      assert (Htm'in : In tm' ts) by (apply (Permutation_in _ (Permutation_sym P)); left; reflexivity).
      destruct (IH (run_callback cs (cb tm')) (delete k ts)) as (H1 & H2 & H3).
      * rewrite length_delete by eauto. lia.
      * apply Forall_forall. intros x Hx. exact (proj1 (Forall_forall _ _) Hdue x (Hin1 x Hx)).
      * exact Hnd1.
      * split; [exact H1 | split].
        -- intros i Hi. rewrite H2.
           ++ apply run_callback_other. exact (proj1 (Forall_forall _ _) Hi tm' Htm'in).
           ++ apply Forall_forall. intros x Hx. exact (proj1 (Forall_forall _ _) Hi x (Hin1 x Hx)).
        -- intros tm Hin. apply (Permutation_in _ P) in Hin as [<- | Hin].
           ++ rewrite H2; [reflexivity|]. apply Forall_forall. intros x Hx Heq. apply Hnot.
              rewrite <- Heq. apply list_elem_of_In, (in_map (fun tm => cb_index (cb tm))), Hx.
           ++ rewrite H3 by exact Hin. apply run_callback_commute. intros Heq. apply Hnot.
              rewrite Heq. apply list_elem_of_In, (in_map (fun tm => cb_index (cb tm))), Hin.
    + destruct ts as [|tm ts]; [split; [reflexivity | split; [reflexivity | intros tm []]]|].
      apply earliest_none in Ek. inversion Ek. inversion Hdue. lia.
Qed.

Lemma filter_card_index (now : Z) (X : string) (i : nat) (c : Card) :
  cb_index (cb (snd (filter_card now X i c))) = i /\ (due (snd (filter_card now X i c)) <= now + 300)%Z.
Proof. unfold filter_card. repeat case_match; cbn; split; auto; lia. Qed.

Lemma filter_cards_timers (now : Z) (X : string) (k : nat) (cs : list Card) :
  map (fun tm => cb_index (cb tm)) (snd (filter_cards now X k cs)) = seq k (length cs) /\
  Forall (fun tm => (due tm <= now + 300)%Z) (snd (filter_cards now X k cs)).
Proof.
  revert k. induction cs as [|c cs IH]; intros k; [split; [reflexivity | constructor]|]. cbn [filter_cards].
  destruct (filter_card now X k c) as [c' tm] eqn:Ec. destruct (filter_cards now X (S k) cs) as [cs'' tms] eqn:Er.
  destruct (IH (S k)) as [Hi Hd]. rewrite Er in Hi, Hd. pose proof (filter_card_index now X k c) as [Hk Hdk].
  rewrite Ec in Hk, Hdk. cbn in *. rewrite Hi, Hk. split; [reflexivity | constructor; assumption].
Qed.

(** The callback a card's click queues brings it to its settled state. *)
Lemma filter_card_settles (now : Z) (X : string) (cs : list Card) (i : nat) (c : Card) :
  cs !! i = Some (fst (filter_card now X i c)) ->
  run_callback cs (cb (snd (filter_card now X i c))) !! i = Some (settled X c).
Proof.
  unfold filter_card, settled. intros H.
  destruct (String.eqb X ALL_FILTER), (filter_matches X (gameTag c)); cbn [run_callback cb snd fst orb] in *;
    rewrite list_lookup_alter_eq, H; reflexivity.
Qed.

(** ** Properties *)

(** Letting time pass fires every timer that is due and only those:
    with one unit of fuel per pending timer, no due timer is left in the
    queue, and every timer not yet due is still there. *)
Theorem fire_drains (p : Page) (t : Z) :
  Forall (fun tm => (t < due tm)%Z) (timers (advance p t)) /\
  (forall tm, tm ∈ timers p -> (t < due tm)%Z -> tm ∈ timers (advance p t)).
Proof.
  destruct (advance_fields p t) as (_ & Ht & _). rewrite Ht. split.
  - apply fire_drains_gen. lia.
  - intros tm Hin Hlt. apply fire_keeps_future; assumption.
Qed.

(** C39: A click on a filter settles: on a page with no callback
    pending, a click on the filter [X] followed by a wait of at least
    300 ms runs every callback the click queued, and each card ends in
    the state the filter asks for: every card whose game tag matches
    [X] (every card for [Все]) displayed, opaque and in place, every
    other card faded, lowered and hidden. *)
Theorem filter_settles (p : Page) (X : string) (t0 t : Z) :
  timers p = [] -> (t0 + 300 <= t)%Z ->
  let p' := landing_run p [LE_filter X t0; LE_wait t] in
  timers p' = [] /\ activeFilter p' = Some X /\ cards p' = map (settled X) (cards p).
Proof.
  intros Hts Ht. cbv zeta. unfold landing_run. cbn [fold_left landing_step].
  set (p0 := advance p t0). set (p1 := onFilterClick p0 X).
  destruct (advance_fields p t0) as (Hc0 & Ht0 & _ & Hk0). fold p0 in Hc0, Ht0, Hk0.
  rewrite Hts in Hc0, Ht0. cbn in Hc0, Ht0.
  destruct (onFilterClick_fields p0 X) as (Hc1 & Ht1 & Ha1). fold p1 in Hc1, Ht1, Ha1.
  rewrite Ht0 in Ht1. cbn [app] in Ht1. rewrite Hk0, Hc0 in Hc1, Ht1.
  destruct (filter_cards_timers t0 X 0 (cards p)) as [Hidx Hdue].
  destruct (advance_fields p1 t) as (Hc2 & Ht2 & Ha2 & _).
  destruct (fire_all (length (timers p1)) (cards p1) (timers p1) t) as (Hnil & _ & Hrun).
  - lia.
  - rewrite Ht1. eapply Forall_impl; [|exact Hdue]. cbn. intros tm Htm. lia.
  - rewrite Ht1, Hidx. apply NoDup_seq.
  - split; [rewrite Ht2; exact Hnil|]. split; [rewrite Ha2; exact Ha1|]. rewrite Hc2.
    apply list_eq. intros i. change (map (settled X) (cards p)) with (settled X <$> cards p).
    rewrite list_lookup_fmap. destruct (filter_cards_lookup t0 X 0 (cards p) i) as [Hl1 Hl2].
    destruct (cards p !! i) as [c|] eqn:Hc; cbn in Hl1, Hl2.
    + assert (Hin : In (snd (filter_card t0 X i c)) (timers p1))
        by (rewrite Ht1; apply list_elem_of_In, list_elem_of_lookup_2 with i; exact Hl2).
      pose proof (Hrun _ Hin) as Hr. rewrite (proj1 (filter_card_index t0 X i c)) in Hr. rewrite Hr.
      apply filter_card_settles. rewrite Hc1. exact Hl1.
    + apply lookup_ge_None_2. rewrite length_fire, Hc1. apply lookup_ge_None_1. exact Hl1.
Qed.

(** C40: a card filtered out, then shown by [Все] within 300 ms, ends up
    hidden.  The first click queues [display = 'none'] for the card 300
    ms later; the click on [Все] sets [display = 'block'] at once but
    does not cancel that timer, which fires afterwards: the active
    filter is [Все] and the card is not displayed. *)
Theorem filter_all_race (p : Page) (i : nat) (c : Card) (X : string) (t0 t1 t2 : Z) :
  timers p = [] -> cards p !! i = Some c -> X <> ALL_FILTER -> filter_matches X (gameTag c) = false ->
  (t0 <= t1 < t0 + 300)%Z -> (t0 + 300 <= t2)%Z ->
  let p' := landing_run p [LE_filter X t0; LE_filter ALL_FILTER t1; LE_wait t2] in
  activeFilter p' = Some ALL_FILTER /\ display_at (cards p') i = Some "none".
Proof.
  intros Hts Hc HX Hm Ht1 Ht2. cbv zeta. unfold landing_run. cbn [fold_left landing_step].
  set (p0 := advance p t0). set (p1 := onFilterClick p0 X).
  set (p2 := onFilterClick (advance p1 t1) ALL_FILTER).
  destruct (advance_fields p t0) as (Hc0 & Ht0 & _ & Hk0). fold p0 in Hc0, Ht0, Hk0.
  rewrite Hts in Hc0, Ht0. simpl in Hc0, Ht0.
  destruct (onFilterClick_fields p0 X) as (Hc1 & Ht1' & _). fold p1 in Hc1, Ht1'.
  destruct (advance_fields p1 t1) as (Hc1a & Ht1a & _ & _).
  destruct (onFilterClick_fields (advance p1 t1) ALL_FILTER) as (Hc2 & Ht2' & Ha2). fold p2 in Hc2, Ht2', Ha2.
  destruct (advance_fields p2 t2) as (Hc3 & _ & Ha3 & _).
  split; [rewrite Ha3; exact Ha2|].
  rewrite Hc3. apply fire_hides; [lia| |].
  - rewrite Hc2. apply lookup_lt_is_Some_2.
    destruct (filter_cards_lookup (clock (advance p1 t1)) ALL_FILTER 0 (cards (advance p1 t1)) i) as [H _].
    apply lookup_lt_is_Some_1. rewrite H, Hc1a.
    assert (Hlt : (i < length (cards p1))%nat).
    { rewrite Hc1. apply lookup_lt_is_Some_1.
      destruct (filter_cards_lookup (clock p0) X 0 (cards p0) i) as [H' _]. rewrite H', Hc0, Hc. eauto. }
    destruct (lookup_lt_is_Some_2 (fst (fire (length (timers p1)) (cards p1) (timers p1) t1)) i)
      as [x Hx]; [rewrite length_fire; exact Hlt|]. rewrite Hx. eauto.
  - right. exists (mkTimer (t0 + 300) (CB_hide i)). split; [|split; [reflexivity | simpl; lia]].
    rewrite Ht2'. apply elem_of_app. left. rewrite Ht1a. apply fire_keeps_future; [|simpl; lia].
    rewrite Ht1', Ht0. simpl. apply list_elem_of_lookup.  exists i.
    destruct (filter_cards_lookup (clock p0) X 0 (cards p0) i) as [_ H']. rewrite H', Hc0, Hc, Hk0. simpl.
    unfold filter_card. rewrite (proj2 (String.eqb_neq X ALL_FILTER) HX), Hm. reflexivity.
Qed.

End Landing.
