(* ===== verification/LandingNav.v ===== *)
(** * The landing page's anchors, scroll spy and tournament actions (src/src/main.ts)

    [setupSmoothScrolling] gives every [a[href^="#"]] a click listener
    that cancels the jump and scrolls [document.querySelector(href)] to
    the top of the window; [setupActiveNav] gives the window a [scroll]
    listener that marks the [.nav-link] of the last section whose top,
    less 200, is not below the scroll offset ([Landing.activeLinks]).
    The two interact through the scroll offset: a click scrolls, the
    browser fires [scroll] when the offset changes, and the spy marks a
    link.  The window cannot scroll past [scrollHeight - innerHeight]
    ([np_maxScroll]), so a section that starts more than 200 pixels
    below that offset is never marked, even right after a click on its
    own link ([short_section_never_marked]).

    [querySelector] is given the fragment as an id selector: a fragment
    that cannot start a CSS identifier (empty, a digit first, a lone
    [-] or [-] then a digit) is a [SyntaxError], thrown out of the
    listener after [preventDefault]; any other fragment is taken as an
    identifier (the page's fragments hold letters, digits, [-] and [_]
    only; escapes and other characters are not modelled).  Smooth scrolling is modelled by its end: the
    spy's classes after the last [scroll] event are those of the final
    offset.

    [setupTournamentActions] gives each join button of a card a listener
    that stops the click and alerts, and each card a listener that logs
    the card's title unless the click was on one of its buttons. *)

From S2P Require Import Prelude Auth Friends Landing.
From Stdlib Require Import Ascii ZArith Lia.

Module LandingNav.
Import Auth Landing.
Local Open Scope Z_scope.

(** ** Anchors and the scroll spy *)

(** An element of the page with an id: its id, its [offsetTop], and
    whether it is a [section]. *)
Record Target := mkTarget {
  t_id : string;
  t_top : Z;
  t_section : bool;
}.

Record NavPage := mkNavPage {
  np_targets : list Target;     (** the elements with an id, in document order *)
  np_links : list string;       (** the [href] of each [.nav-link] *)
  np_maxScroll : Z;             (** [scrollHeight - innerHeight] *)
  np_scrollY : Z;               (** [pageYOffset] *)
  np_active : list bool;        (** the [active] class of each [.nav-link] *)
  np_errors : list string;      (** the exceptions thrown out of listeners *)
}.

(** The result of [document.querySelector(href)]. *)
Inductive Query :=
| Q_found (t : option Target)
| Q_syntax_error.

(** The [section[id]] elements with their tops, as [setupActiveNav]
    reads them. *)
Definition sections (ts : list Target) : list (string * Z) :=
  map (fun t => (t_id t, t_top t)) (List.filter t_section ts).

(** [document.querySelector(href)] for [href = '#' + frag]: the first
    element whose id is [frag]. *)
Definition id_fragment (frag : string) : bool :=
  match frag with
  | EmptyString => false
  | String c rest =>
      if is_ascii_digit c then false
      else if Ascii.eqb c "-"%char then
        match rest with
        | EmptyString => false
        | String c' _ => negb (is_ascii_digit c')
        end
      else true
  end.

Definition querySelector_hash (ts : list Target) (frag : string) : Query :=
  if id_fragment frag then Q_found (List.find (fun t => String.eqb (t_id t) frag) ts)
  else Q_syntax_error.

(** The offset [scrollIntoView({block: 'start'})] ends at. *)
Definition scroll_target (p : NavPage) (top : Z) : Z := Z.max 0 (Z.min (np_maxScroll p) top).

(** The window scrolls to [y]: when the offset changes, the [scroll]
    listener runs. *)
Definition scrollTo (p : NavPage) (y : Z) : NavPage :=
  if Z.eqb y (np_scrollY p) then p
  else mkNavPage (np_targets p) (np_links p) (np_maxScroll p) y
         (activeLinks (np_links p) (sections (np_targets p)) y) (np_errors p).

(** The click listener of an anchor whose [href] is ['#' + frag]. *)
Definition onAnchorClick (p : NavPage) (frag : string) : NavPage :=
  match querySelector_hash (np_targets p) frag with
  | Q_syntax_error =>
      mkNavPage (np_targets p) (np_links p) (np_maxScroll p) (np_scrollY p) (np_active p)
        (np_errors p ++ ["SyntaxError"])
  | Q_found None => p
  | Q_found (Some t) => scrollTo p (scroll_target p (t_top t))
  end.

Inductive NavEvent :=
| NE_click (frag : string)     (** a click on an anchor with [href = '#' + frag] *)
| NE_scroll (y : Z).           (** the user scrolls to [y] *)

Definition nav_step (p : NavPage) (ev : NavEvent) : NavPage :=
  match ev with
  | NE_click frag => onAnchorClick p frag
  | NE_scroll y => scrollTo p (Z.max 0 (Z.min (np_maxScroll p) y))
  end.

Definition nav_run (p : NavPage) (evs : list NavEvent) : NavPage := fold_left nav_step evs p.

(** A [.nav-link] to [#frag] is marked active. *)
Definition marked (p : NavPage) (frag : string) : Prop :=
  exists i, np_links p !! i = Some (String.append "#" frag) /\ np_active p !! i = Some true.

(** The offset stays in the window's range. *)
Definition in_range (p : NavPage) : Prop := 0 <= np_scrollY p <= np_maxScroll p.

(** ** Tournament actions *)

(** Where a click inside a [.tournament-card] lands. *)
Inductive CardTarget :=
| CT_join                      (** its [.btn-primary], which has the join listener *)
| CT_secondary                 (** its [.btn-secondary] *)
| CT_other.                    (** anywhere else in the card *)

Record Output := mkOutput {
  out_alerts : list string;
  out_console : list string;
}.

(** [card.querySelector('.tournament-title')?.textContent || 'Unknown']. *)
Definition card_title (title : option string) : string :=
  match title with Some t => if String.eqb t "" then "Unknown" else t | None => "Unknown" end.

Definition detailsLog (title : string) : string := String.append "Открыть детали турнира: " title.

(** The card's own listener, for a click whose target is [tgt]. *)
Definition onCardClick (o : Output) (title : option string) (tgt : CardTarget) : Output :=
  match tgt with
  | CT_join | CT_secondary => o
  | CT_other => mkOutput (out_alerts o) (out_console o ++ [detailsLog (card_title title)])
  end.

(** A click in a card: the join button's listener runs first and stops
    the click; otherwise it bubbles to the card. *)
Definition card_click (o : Output) (title : option string) (tgt : CardTarget) : Output :=
  match tgt with
  | CT_join => mkOutput (out_alerts o ++ [joinAlert (card_title title)]) (out_console o)
  | _ => onCardClick o title tgt
  end.

(** ** Lemmas *)

Lemma scroll_target_range (p : NavPage) (top : Z) :
  0 <= np_maxScroll p -> 0 <= scroll_target p top <= np_maxScroll p.
Proof. unfold scroll_target. lia. Qed.

Lemma scrollTo_range (p : NavPage) (y : Z) :
  in_range p -> 0 <= y <= np_maxScroll p -> in_range (scrollTo p y).
Proof. unfold scrollTo, in_range. destruct (Z.eqb_spec y (np_scrollY p)); cbn; lia. Qed.

(** The offset never leaves the window's range. *)
Lemma nav_run_range (p : NavPage) (evs : list NavEvent) : in_range p -> in_range (nav_run p evs).
Proof.
  unfold nav_run. revert p. induction evs as [|ev evs IH]; intros p Hp; [exact Hp|]. cbn [fold_left].
  apply IH. assert (Hm : 0 <= np_maxScroll p) by (unfold in_range in Hp; lia).
  destruct ev as [frag|y]; cbn [nav_step].
  - unfold onAnchorClick. destruct (querySelector_hash _ _) as [[t|]|]; [| exact Hp | exact Hp].
    apply scrollTo_range, scroll_target_range; assumption.
  - apply scrollTo_range; [exact Hp | lia].
Qed.

(** The spy marks the last section whose threshold the offset reaches. *)
Lemma currentSection_app (pre post : list (string * Z)) (sid : string) (top y : Z) (cur : string) :
  top - 200 <= y -> Forall (fun st => y < snd st - 200) post ->
  currentSection (pre ++ (sid, top) :: post) y cur = sid.
Proof.
  intros Hle Hpost. revert cur. induction pre as [|[s t] pre IH]; intros cur; cbn [app currentSection].
  - replace (Z.leb (top - 200) y) with true by (symmetry; apply Z.leb_le; lia).
    clear Hle. generalize sid as c. induction Hpost as [|[s t] post Hst _ IHp]; intros c; [reflexivity|].
    cbn [currentSection]. cbn in Hst. replace (Z.leb (t - 200) y) with false by (symmetry; apply Z.leb_gt; lia).
    apply IHp.
  - apply IH.
Qed.

(** A section below every offset the window reaches is never current. *)
Lemma currentSection_never (secs : list (string * Z)) (sid : string) (y : Z) (cur : string) :
  cur <> sid -> Forall (fun st => fst st = sid -> y < snd st - 200) secs ->
  currentSection secs y cur <> sid.
Proof.
  revert cur. induction secs as [|[s t] secs IH]; intros cur Hcur Hall; [exact Hcur|].
  inversion Hall as [|? ? Hst Hrest]; subst. cbn [currentSection]. apply IH; [|exact Hrest].
  destruct (Z.leb_spec (t - 200) y); [|exact Hcur]. intros ->. cbn in Hst. specialize (Hst eq_refl). lia.
Qed.

Lemma find_after (pre post : list Target) (t : Target) (frag : string) :
  t_id t = frag -> Forall (fun u => t_id u <> frag) pre ->
  List.find (fun u => String.eqb (t_id u) frag) (pre ++ t :: post) = Some t.
Proof.
  intros Ht. induction 1 as [|u pre Hu _ IH]; cbn.
  - rewrite Ht, String.eqb_refl. reflexivity.
  - apply String.eqb_neq in Hu. rewrite Hu. exact IH.
Qed.

Lemma sections_app (pre post : list Target) (sid : string) (top : Z) :
  sections (pre ++ mkTarget sid top true :: post) = sections pre ++ (sid, top) :: sections post.
Proof. unfold sections. rewrite List.filter_app, map_app. reflexivity. Qed.

Lemma Forall_sections (P : string * Z -> Prop) (ts : list Target) :
  Forall (fun t => t_section t = true -> P (t_id t, t_top t)) ts -> Forall P (sections ts).
Proof.
  induction 1 as [|t ts Ht _ IH]; [constructor|]. unfold sections in *. cbn.
  destruct (t_section t) eqn:E; cbn; [constructor; [apply Ht; reflexivity | exact IH] | exact IH].
Qed.

(** The link entries of the spy's classes: the links to the current
    section. *)
Lemma activeLinks_lookup (links : list string) (secs : list (string * Z)) (y : Z) (i : nat) (frag : string) :
  links !! i = Some (String.append "#" frag) ->
  activeLinks links secs y !! i = Some (String.eqb (currentSection secs y "") frag).
Proof.
  intros Hi. unfold activeLinks. rewrite list_lookup_fmap, Hi. cbn [fmap option_fmap option_map]. f_equal.
  destruct (String.eqb_spec (String.append "#" frag) (String.append "#" (currentSection secs y ""))) as [E|E];
    destruct (String.eqb_spec (currentSection secs y "") frag) as [E'|E']; try reflexivity.
  - cbv [String.append] in E. injection E as E. congruence.
  - rewrite E' in E. contradiction.
Qed.

(** C29: A click on the anchor of a section that the window can scroll
    to the top, with no section below it starting within 200 pixels of
    it, scrolls to that section and marks exactly the navigation links
    to it. *)
Theorem nav_click_marks_section (p : NavPage) (pre post : list Target) (frag : string) (top : Z) :
  np_targets p = pre ++ mkTarget frag top true :: post ->
  Forall (fun t => t_id t <> frag) pre -> id_fragment frag = true ->
  0 <= top <= np_maxScroll p -> top <> np_scrollY p ->
  Forall (fun t => t_section t = true -> top < t_top t - 200) post ->
  let p' := onAnchorClick p frag in
  np_scrollY p' = top /\
  np_active p' = map (fun href => String.eqb href (String.append "#" frag)) (np_links p).
Proof.
  intros Ht Hpre Hf Htop Hne Hpost p'. subst p'. unfold onAnchorClick, querySelector_hash.
  rewrite Hf, Ht, (find_after pre post (mkTarget frag top true) frag eq_refl Hpre). cbn [t_top].
  replace (scroll_target p top) with top by (unfold scroll_target; lia).
  unfold scrollTo. replace (Z.eqb top (np_scrollY p)) with false by (symmetry; apply Z.eqb_neq, Hne).
  split; [reflexivity|]. cbn [np_active np_targets]. unfold activeLinks. rewrite Ht, sections_app.
  rewrite (currentSection_app _ _ frag top top "") by (lia || exact (Forall_sections _ _ Hpost)). reflexivity.
Qed.

(** C24: A section that starts more than 200 pixels below the furthest
    offset the window can scroll to is never marked: whatever anchors
    are clicked (its own included) and however the page is scrolled, no
    navigation link to it becomes active. *)
Theorem short_section_never_marked (p : NavPage) (frag : string) (evs : list NavEvent) :
  in_range p -> frag <> "" ->
  Forall (fun st => fst st = frag -> np_maxScroll p < snd st - 200) (sections (np_targets p)) ->
  ~ marked p frag -> ~ marked (nav_run p evs) frag.
Proof.
  unfold nav_run. revert p. induction evs as [|ev evs IH]; intros p Hp Hne Hsec Hm; [exact Hm|].
  cbn [fold_left]. assert (Hstep : forall y, 0 <= y <= np_maxScroll p -> ~ marked (scrollTo p y) frag).
  { intros y Hy. unfold scrollTo. destruct (Z.eqb _ _); [exact Hm|]. intros (i & Hi & Ha). cbn in Hi, Ha.
    rewrite (activeLinks_lookup _ _ _ _ _ Hi) in Ha. injection Ha as Ha. apply String.eqb_eq in Ha. revert Ha.
    apply currentSection_never; [congruence|]. eapply Forall_impl; [|exact Hsec]. cbn. intros st Hst Heq.
    specialize (Hst Heq). lia. }
  assert (Hm0 : 0 <= np_maxScroll p) by (unfold in_range in Hp; lia).
  destruct ev as [f|y]; cbn [nav_step].
  - unfold onAnchorClick. destruct (querySelector_hash _ _) as [[t|]|].
    + pose proof (scroll_target_range p (t_top t) Hm0). apply IH; cbn [np_maxScroll scrollTo];
        [apply scrollTo_range; assumption | exact Hne | | apply Hstep; assumption];
        unfold scrollTo; destruct (Z.eqb _ _); exact Hsec.
    + apply IH; assumption.
    + apply IH; [exact Hp | exact Hne | exact Hsec | exact Hm].
  - assert (Hy : 0 <= Z.max 0 (Z.min (np_maxScroll p) y) <= np_maxScroll p) by lia.
    apply IH; [apply scrollTo_range; assumption | exact Hne | | apply Hstep; exact Hy].
    unfold scrollTo; destruct (Z.eqb _ _); exact Hsec.
Qed.

End LandingNav.
