(* ===== verification/Scenarios.v ===== *)
(** * Concrete editor sessions

    A concrete page for the editor: a user with no saved banner, the four
    core nodes the dashboard's HTML gives the canvas ([avatar],
    [username] with its [.profile-name] text, [subtitle] with its
    [.profile-subtitle] text, [stats]), and a database holding the user.
    The spec's example scenarios run on it by computation, and the
    witnesses of the editor theorems instantiate them on it. *)

From S2P Require Import Prelude Types Geometry Widgets Storage Dom Editor Projector EditorChrome.
Import Geometry Widgets Dom Editor Projector EditorChrome.

Module Scenarios.

Definition coreNode (h : nat) (eid : string) (t : option TextEl) : Node :=
  mkNode h eid false false None None None false false t None.

Definition toolbar0 : Toolbar := mkToolbar true false false 100 100 100 "" "" 32.

Definition page0 : Dom :=
  mkDom [ coreNode 0 "avatar" None;
          coreNode 1 "username" (Some (mkTextEl "profile-name" false "" "" None));
          coreNode 2 "subtitle" (Some (mkTextEl "profile-subtitle" false "" "" None));
          coreNode 3 "stats" None ]
    4 false toolbar0 false false false "" "".

Definition player : User :=
  mkUser "user_1" "Player" None "player@example.com" "secret123" 1 1000 0 0 0
    "2024-01-01T00:00:00.000Z" true None None None None None None None None None None None.

Definition storage0 : LocalStorage :=
  mkLocal (Some (mkDatabase [player] [])) (Some player) (Some "true") None.

Definition editor0 : Editor := init player page0 storage0.

(** Editing: select the username, two font-size increases. *)
Definition font_session : list Event :=
  [ EvPointerDown (PT_node 1) 1 (mkPoint 100 100); EvPointerUp 1; EvFontSize true; EvFontSize true ].

Definition username_font_size (e : Editor) : option Q :=
  match find_core (layout e) "username" with
  | Some el => match textStyle el with Some s => fontSize s | None => None end
  | None => None
  end.

(** The editor after the gear button: in edit mode. *)
Definition editing0 : Editor := step editor0 EvToggleEdit.

Definition avatar_node0 : Node :=
  match node_of_handle (dom editing0) 0 with Some n => n | None => coreNode 0 "avatar" None end.

(** Six stickers added in one session. *)
Definition six_stickers : list Event :=
  [ EvSticker "1" "trophy"; EvSticker "2" "fire"; EvSticker "3" "star";
    EvSticker "4" "crown"; EvSticker "5" "gem"; EvSticker "6" "heart" ].

Definition full0 : Editor := run editing0 six_stickers.

(** A sticker added, then selected by a pointer-down on its node (handle 4). *)
Definition sticker_selected0 : Editor :=
  run editing0 [EvSticker "7" "trophy"; EvPointerDown (PT_node 4) 1 (mkPoint 0 0); EvPointerUp 1].

(** The username selected by a click in edit mode. *)
Definition username_selected0 : Editor :=
  run editing0 [EvPointerDown (PT_node 1) 1 (mkPoint 100 100); EvPointerUp 1].

(** The text node a sticker widget is rendered with. *)
Definition rendered_text (e : Editor) (wid : string) : option string :=
  match query (dom e) (String.append WIDGET_PREFIX wid) with
  | Some n => match widgetContent n with Some c => Some (c_text c) | None => None end
  | None => None
  end.

(** ** The spec's example scenarios *)

(** Spec scenario 6: the default layout has [username] at (18,52)
    with font size 32; two "increase font size" clicks give 36, and
    cancelling the session gives 32 back. *)
Example font_size_scenario :
  find_core (layout editor0) "username" <> None /\
  getElementPosition (layout editor0) (widgets editor0) "username" = mkPos 18 52 /\
  username_font_size editor0 = Some 32 /\
  username_font_size (run editing0 font_session) = Some 36 /\
  username_font_size (run editing0 (font_session ++ [EvCancel])) = Some 32.
Proof. vm_compute. repeat split; discriminate || reflexivity. Qed.

(** ** Witnesses *)

Lemma drag_final_position_witness :
  let ms := [(2%Z, mkPoint 5000 5000, mkRect 800 400)] in
  let e' := run editing0 (EvPointerDown (PT_node 0) 1 (mkPoint 0 0) :: map mv ms ++
                          [EvPointerMove 1 (mkPoint 80 (-40)) (mkRect 800 400)]) in
  pos_eq (getElementPosition (layout e') (widgets e') "avatar") (mkPos 13 25) /\
  in_bounds (getElementPosition (layout e') (widgets e') "avatar").
Proof.
  cbv zeta.
  destruct (drag_final_position editing0 0 avatar_node0 1 1 (mkPoint 0 0) (mkPoint 80 (-40))
              (mkRect 800 400) [(2%Z, mkPoint 5000 5000, mkRect 800 400)]
              eq_refl eq_refl eq_refl) as [H1 H2].
  - left. vm_compute. eexists. reflexivity.
  - change "avatar" with (data_element_id avatar_node0).
    split; [rewrite H1; vm_compute; split; reflexivity | exact H2].
Defined.

Lemma drag_position_onto_witness :
  0 < width (mkRect 800 400) /\ 0 < height (mkRect 800 400) /\ in_bounds (mkPos 13 25) /\
  pos_eq (drag_position (mkPoint 0 0) (mkPos 3 35) (mkRect 800 400)
            (mkPoint (clientX (mkPoint 0 0) + (x (mkPos 13 25) - x (mkPos 3 35)) * width (mkRect 800 400) / 100)
                     (clientY (mkPoint 0 0) + (y (mkPos 13 25) - y (mkPos 3 35)) * height (mkRect 800 400) / 100)))
         (mkPos 13 25).
Proof.
  assert (Hw : 0 < width (mkRect 800 400)) by reflexivity.
  assert (Hh : 0 < height (mkRect 800 400)) by reflexivity.
  assert (Hb : in_bounds (mkPos 13 25)) by (vm_compute; repeat split; discriminate).
  split; [exact Hw|]. split; [exact Hh|]. split; [exact Hb|].
  apply (drag_position_onto (mkRect 800 400) Hw Hh), Hb.
Defined.

Lemma cancel_restores_witness :
  let evs := [EvSticker "1" "fire"; EvPointerDown (PT_node 0) 1 (mkPoint 0 0);
              EvPointerMove 1 (mkPoint 400 0) (mkRect 800 400); EvPointerUp 1; EvReset true] in
  let e' := step (run (step editor0 EvToggleEdit) evs) EvCancel in
  layout e' = layout editor0 /\ widgets e' = widgets editor0 /\
  selectedElementId e' = None /\ isEditMode e' = false /\ crashed e' = false.
Proof.
  cbv zeta. apply cancel_restores; [reflexivity | reflexivity | repeat constructor].
Defined.

Lemma save_load_roundtrip_witness :
  let e := run editing0 [EvSticker "1" "fire"] in
  reachable e /\ crashed e = false /\
  loadLayout (user (step e EvSave)) = layout e /\ loadWidgets (user (step e EvSave)) = widgets e.
Proof.
  cbv zeta.
  assert (Hr : reachable (run editing0 [EvSticker "1" "fire"]))
    by (repeat constructor).
  destruct (save_load_roundtrip _ Hr eq_refl) as (_ & H2 & H3 & _).
  split; [exact Hr|]. split; [reflexivity|]. split; [exact H2 | exact H3].
Defined.

Lemma sticker_rejected_at_cap_witness :
  (MAX_WIDGETS <= length (widgets full0))%nat /\
  step full0 (EvSticker "7" "rocket") = with_alert full0 WIDGET_LIMIT_MESSAGE.
Proof.
  assert (H : (MAX_WIDGETS <= length (widgets full0))%nat) by (vm_compute; lia).
  split; [exact H|]. apply sticker_rejected_at_cap; [reflexivity | exact H].
Defined.

Lemma widget_cap_invariant_witness :
  (length (loadWidgets player) <= MAX_WIDGETS)%nat /\
  (length (widgets (run editor0 (EvToggleEdit :: six_stickers ++ [EvSticker "7" "rocket"])))
     <= MAX_WIDGETS)%nat.
Proof.
  assert (H : (length (loadWidgets player) <= MAX_WIDGETS)%nat) by (vm_compute; lia).
  split; [exact H|]. apply widget_cap_invariant, H.
Defined.

Lemma scale_clicks_bounded_witness :
  exists w' s, find_widget (widgets (run sticker_selected0 (map EvScale [true; true; false])))
                 (widget_id_of "widget-7") = Some w' /\ scale w' = Some s /\ 0.3 <= s <= 3.
Proof.
  apply (scale_clicks_bounded sticker_selected0 "widget-7"
           (newStickerWidget "7" "trophy")); [reflexivity | reflexivity | discriminate].
Defined.

Lemma delete_selected_widget_witness :
  let e' := step sticker_selected0 EvDeleteSelected in
  widgets e' = [] /\ selectedElementId e' = None.
Proof.
  cbv zeta.
  destruct (delete_selected_widget sticker_selected0 "widget-7" eq_refl eq_refl eq_refl)
    as (H1 & _ & H3 & _).
  split; [rewrite H1; reflexivity | exact H3].
Defined.

Lemma delete_core_noop_witness :
  let e := run editing0 [EvPointerDown (PT_node 0) 1 (mkPoint 0 0); EvPointerUp 1] in
  selectedElementId e = Some "avatar" /\ step e EvDeleteSelected = e.
Proof.
  cbv zeta. split; [reflexivity|]. apply (delete_core_noop _ "avatar"); reflexivity.
Defined.

Lemma stickerGlyph_spec_witness :
  stickerGlyph "trophy" = "🏆" /\ stickerGlyph "unknown_key" = "unknown_key".
Proof.
  split.
  - apply (proj1 (stickerGlyph_spec "trophy")). reflexivity.
  - apply (proj2 (stickerGlyph_spec "unknown_key")); [reflexivity | discriminate | reflexivity].
Defined.

(** Spec scenario 7: adding the sticker ["trophy"] renders the glyph
    🏆, adding the sticker ["unknown_key"] renders the key itself. *)
Lemma project_idempotent_witness :
  view (project (layout full0) (widgets full0) (project (layout full0) (widgets full0) (dom full0))) =
  view (project (layout full0) (widgets full0) (dom full0)).
Proof.
  apply project_idempotent; apply (bool_decide_unpack _); vm_compute; reflexivity.
Defined.

Lemma grid_button_renders_glyph_witness :
  let e' := onStickerButton editing0 "9" (stickerButton ("fire", "🔥")) in
  widgets e' = widgets editing0 ++ [newStickerWidget "9" "fire"] /\
  canvas_texts (dom e') = canvas_texts (dom editing0) ++ [Some "🔥"] /\
  stickerPickerShown (dom e') = false.
Proof.
  apply (grid_button_renders_glyph editing0 "9" (map stickerButton STICKERS)).
  - reflexivity.
  - apply Nat.ltb_lt. vm_compute. reflexivity.
  - reflexivity.
  - apply in_map. right. left. reflexivity.
Defined.

Lemma font_option_roundtrip_witness :
  shown_font (map fontOption BANNER_FONTS)
    (fontValue (updateTextStyleDisplay (layout (onFontOption username_selected0 (fontOption "Georgia, serif")))
                 "username" toolbar0)) = "Georgia, serif".
Proof.
  eapply (font_option_roundtrip _ _ _ (map fontOption BANNER_FONTS)).
  - reflexivity.
  - reflexivity.
  - reflexivity.
  - apply in_map. right. left. reflexivity.
Defined.

Example sticker_render_scenario :
  rendered_text (run editing0 [EvSticker "7" "trophy"]) "7" = Some "🏆" /\
  rendered_text (run editing0 [EvSticker "8" "unknown_key"]) "8" = Some "unknown_key".
Proof. vm_compute. split; reflexivity. Qed.

(** ** What the model shows beyond the spec *)

(** The drag ignores pointer ids: after pointer 1 grabs the avatar,
    a move of pointer 2 drags it (to x = 13), and a pointer-up of pointer 2
    ends pointer 1's drag (its later moves leave the avatar at x = 3).
    The spec has the drag follow only the pointer holding the capture. *)
Example drag_ignores_pointer_id :
  x (getElementPosition
       (layout (run editing0 [EvPointerDown (PT_node 0) 1 (mkPoint 0 0);
                              EvPointerMove 2 (mkPoint 80 0) (mkRect 800 400)]))
       [] "avatar") == 13 /\
  x (getElementPosition
       (layout (run editing0 [EvPointerDown (PT_node 0) 1 (mkPoint 0 0); EvPointerUp 2;
                              EvPointerMove 1 (mkPoint 80 0) (mkRect 800 400)]))
       [] "avatar") == 3.
Proof. vm_compute. split; reflexivity. Qed.

(** Widget ids are [Date.now()] strings, so two widgets added in the
    same millisecond share an id.  Deleting the selected one then removes
    both from the widget list, while only the first node leaves the
    canvas: the second sticker is still displayed but no longer in the
    model, and the next save drops it. *)
Example duplicate_widget_ids :
  let e := run editing0 [EvSticker "5" "fire"; EvSticker "5" "star";
                         EvPointerDown (PT_node 4) 1 (mkPoint 0 0); EvPointerUp 1;
                         EvDeleteSelected] in
  widgets e = [] /\ map handle (List.filter is_widget_node (canvas (dom e))) = [5%nat].
Proof. vm_compute. split; reflexivity. Qed.

(** [exitEditMode] does not check [isEditMode]: a Cancel after the
    session was saved restores the snapshot of that session's start, so
    the editor shows the old layout while storage holds the saved one. *)
Example cancel_after_save_reverts :
  let e := run editing0 [EvPointerDown (PT_node 0) 1 (mkPoint 0 0);
                         EvPointerMove 1 (mkPoint 80 0) (mkRect 800 400); EvPointerUp 1;
                         EvSave; EvCancel] in
  isEditMode e = false /\ layout e = layout editor0 /\
  match ls_currentUser (storage e) with
  | Some u => loadLayout u <> layout editor0
  | None => False
  end.
Proof. vm_compute. split; [reflexivity|]. split; [reflexivity | discriminate]. Qed.

End Scenarios.
