(* ===== verification/AuthScenarios.v ===== *)
(** * Concrete runs of the authentication pages

    A database with three accounts, a browser logged out, and the
    instances of the theorems of [Auth] and [Verify] on them: a
    registration followed by a login, the whole login through the
    verification page, the Steam login that lands in an existing account,
    the expiry of a code. *)

From S2P Require Import Prelude Types Storage Auth Verify VerifyFocus Message.
Import Auth Verify.

Module AuthScenarios.

Definition account (uid nick mail pw : string) (fr : option (list string)) : User :=
  {| id := uid; nickname := nick; login := None; email := mail; password := pw;
     level := 1; elo := 1000; wins := 0; losses := 0; gamesPlayed := 0;
     registeredAt := "2026-01-01"; emailVerified := false; avatar := None; bio := None;
     bannerImage := None; bannerVideo := None; profileWidgets := None; bannerLayout := None;
     friends := fr; subscriptions := None; groups := None; notifications := None;
     achievements := None |}.

Definition alice : User := account "u1" "Alice" "alice@mail.com" "secret123" (Some ["u2"]).
Definition bob : User := account "u2" "Bob" "bob@mail.com" "hunter2x9" (Some ["u1"]).
Definition steamer : User :=
  account "u3" "SteamPlayer7" "steam42@steamcommunity.com" "steam_k3j4h5" None.

Definition db0 : Database := mkDatabase [alice; bob; steamer] [].
Definition ls0 : LocalStorage := mkLocal (Some db0) None None None.
Definition b0 : Browser := mkBrowser ls0 (mkSessionStorage None None) None [] None.

Definition carol_form : RegisterForm :=
  mkRegisterForm " Carol " "Carol@Mail.com " "pass1234x" "pass1234x" true.

(** ** Witnesses *)

Lemma generateVerificationCode_six_digits_witness :
  String.length (generateVerificationCode (1 # 2)) = 6%nat /\
  str_forallb is_ascii_digit (generateVerificationCode (1 # 2)) = true.
Proof. apply generateVerificationCode_six_digits. split; [discriminate | reflexivity]. Defined.

Lemma register_then_login_witness :
  let b2 := onLoginSubmit (onRegisterSubmit b0 carol_form "u4" "2026-11-09") "carol@mail.com"
              (f_password carol_form) (1 # 3) 1000 in
  location b2 = Some "verify.html" /\
  ss_pendingLogin (session b2) = Some (mkPendingLogin "u4" "carol@mail.com").
Proof.
  destruct (register_then_login b0 carol_form "u4" "2026-11-09" "carol@mail.com" (1 # 3) 1000)
    as (H1 & H2 & _); [vm_compute; reflexivity | vm_compute; reflexivity |].
  split; assumption.
Defined.

Lemma steam_login_existing_account_witness :
  ls_currentUser (local (loginWithSteam b0 (21 # 5000) (1 # 2) "zz" "u9" "2026-11-09")) = Some steamer.
Proof.
  apply (steam_login_existing_account b0 (21 # 5000) (1 # 2) "zz" "u9" "2026-11-09" steamer).
  vm_compute. reflexivity.
Defined.

Lemma verifyCode_expired_witness :
  snd (verifyCode (mkSessionStorage (Some (mkVerification "a@b.c" "123456" 100)) None)
         "a@b.c" "123456" 200) = invalid CODE_EXPIRED.
Proof.
  apply (verifyCode_expired _ (mkVerification "a@b.c" "123456" 100) "a@b.c" "123456" "a@b.c" "123456"
           200 300); reflexivity.
Defined.

Lemma flow_emails_unique_witness :
  emails_unique (getDatabase (local (browser
    (flow_run (mkFlow b0 None) [EvRegister carol_form "u4" "2026-11-09";
                                EvSteam (1 # 3) (1 # 2) "qq" "u5" "2026-11-09"])))).
Proof.
  apply flow_emails_unique. unfold emails_unique. apply (bool_decide_unpack _). vm_compute. reflexivity.
Defined.

Lemma flow_step_login_guard_witness :
  let ev := EvSteam (21 # 5000) (1 # 2) "zz" "u9" "t" in
  ls_loggedIn (local (browser (mkFlow b0 None))) <> Some "true" /\
  ls_loggedIn (local (browser (flow_step (mkFlow b0 None) ev))) = Some "true" /\
  ((exists r1 r2 rnd36 uid now, ev = EvSteam r1 r2 rnd36 uid now) \/
   (exists now pg v, ev = EvVerifySubmit now /\ verifyPage (mkFlow b0 None) = Some pg /\
      ss_verification (session (browser (mkFlow b0 None))) = Some v /\ now <= expiresAt v /\
      code v = String.concat EmptyString (codeInputs pg))).
Proof.
  cbv zeta.
  assert (H1 : ls_loggedIn (local (browser (mkFlow b0 None))) <> Some "true") by discriminate.
  assert (H2 : ls_loggedIn (local (browser (flow_step (mkFlow b0 None)
                 (EvSteam (21 # 5000) (1 # 2) "zz" "u9" "t")))) = Some "true") by (vm_compute; reflexivity).
  split; [exact H1|]. split; [exact H2|]. exact (flow_step_login_guard _ _ H1 H2).
Defined.

Lemma login_flow_completes_witness :
  let st := flow_run (mkFlow b0 None)
              ([EvLogin " Alice@mail.com" "secret123" (1 # 2) 0; EvOpenVerify 6] ++
               type_code_from 0 (generateVerificationCode (1 # 2)) ++ [EvVerifySubmit 1000]) in
  ls_currentUser (local (browser st)) = Some alice /\ ls_loggedIn (local (browser st)) = Some "true".
Proof.
  destruct (login_flow_completes b0 " Alice@mail.com" "secret123" alice (1 # 2) 0 1000)
    as (H1 & H2 & _); [vm_compute; reflexivity | reflexivity | vm_compute; reflexivity
                      | split; [discriminate | reflexivity] | discriminate |].
  split; assumption.
Defined.

(** ** The form message *)

(** The verification page's [#formMessage], empty, at time 0. *)
Definition message0 : Message.MessageState :=
  Message.mkMessageState (Some (Message.mkMessageDiv "" ["form-message"] true)) 0%Z [].

(** A wrong code is rejected, and two seconds later the right one logs
    the user in: the success message is hidden 3 seconds after it
    appeared. *)
Lemma second_message_cut_short_witness :
  Message.visible (Message.message_run message0
    (Message.MsgShow WRONG_CODE MT_error :: Message.waits [4999%N])) = true /\
  let st' := Message.message_run message0
    [Message.MsgShow WRONG_CODE MT_error; Message.MsgWait 2000; Message.MsgShow LOGIN_SUCCESS_MESSAGE MT_success;
     Message.MsgWait (5000 - 2000)] in
  option_map Message.md_text (Message.ms_div st') = Some LOGIN_SUCCESS_MESSAGE /\ Message.visible st' = false.
Proof.
  destruct (Message.second_message_cut_short message0 (Message.mkMessageDiv "" ["form-message"] true)
              WRONG_CODE LOGIN_SUCCESS_MESSAGE MT_error MT_success eq_refl eq_refl eq_refl) as (H1 & _ & H3).
  split; [apply H1; vm_compute; reflexivity | apply H3; vm_compute; split; reflexivity].
Defined.

(** ** Typing the code *)

(** Six keys typed on the verification page from its first input, the
    third a letter. *)
Definition keys_12a456 : list Ascii.ascii := list_ascii_of_string "12a456".
Definition pending_alice : PendingLogin := mkPendingLogin "u1" "alice@mail.com".

Lemma letter_leaves_gap_witness :
  let e := VerifyFocus.entry_run
             (VerifyFocus.mkEntry b0 (mkVerifyPage pending_alice (repeat EmptyString 6)) 0)
             (map VerifyFocus.KE_key keys_12a456) in
  (codeInputs (VerifyFocus.e_page e) = map VerifyFocus.key_value keys_12a456 /\ VerifyFocus.e_focus e = 5%nat /\
   (existsb (fun c => negb (is_ascii_digit c)) keys_12a456 = true ->
    formMessage (VerifyFocus.e_browser (VerifyFocus.onSubmit e 0)) = Some (INCOMPLETE_CODE_MESSAGE, MT_error) /\
    codeInputs (VerifyFocus.e_page (VerifyFocus.onSubmit e 0)) = map VerifyFocus.key_value keys_12a456)) /\
  map VerifyFocus.key_value keys_12a456 = ["1"; "2"; ""; "4"; "5"; "6"].
Proof.
  split; [|reflexivity].
  apply VerifyFocus.letter_leaves_gap; [apply (bool_decide_unpack _); vm_compute; reflexivity | reflexivity].
Defined.

End AuthScenarios.
