(* ===== verification/SocialScenarios.v ===== *)
(** * Concrete runs of the social pages

    Two users who are friends, their pages, and the instances of the
    theorems of [Friends] and [ProfileView] on them.  The last part
    checks the encoding of the profile page's labels: every byte of the
    UTF-8 text read as a Mac OS Roman character and written back as UTF-8
    gives exactly the bytes the source holds. *)

From S2P Require Import Prelude Types Storage Auth Friends Notifications ProfileView ViewMarkup.
Import Auth Friends Notifications ProfileView.

Module SocialScenarios.

Definition person (uid nick mail : string) (fr subs : option (list string))
    (ns : option (list UserNotification)) : User :=
  {| id := uid; nickname := nick; login := None; email := mail; password := "pass1234x";
     level := 4; elo := 1200; wins := 3; losses := 1; gamesPlayed := 4;
     registeredAt := "2026-01-01"; emailVerified := true; avatar := None; bio := None;
     bannerImage := None; bannerVideo := None; profileWidgets := None; bannerLayout := None;
     friends := fr; subscriptions := subs; groups := None; notifications := ns;
     achievements := None |}.

Definition request_from_carol : UserNotification :=
  mkNotification "1700000000000_fr" NT_friend_request "u3" "Carol" None false "2026-11-01".

Definition alice : User := person "u1" "Alice" "alice@mail.com" (Some ["u2"]) (Some ["u2"]) (Some [request_from_carol]).
Definition bob : User := person "u2" "Bob" "bob@mail.com" (Some ["u1"]) None None.
Definition carol : User := person "u3" "Carol" "carol@mail.com" None None None.

Definition db0 : Database := mkDatabase [alice; bob; carol] [].
Definition ls0 : LocalStorage := mkLocal (Some db0) (Some alice) (Some "true") None.

Definition friends_page : FriendsPage :=
  mkFriendsPage ls0 alice (loadFriends ls0 alice) (loadSubscribers ls0 alice)
    (loadSubscriptions ls0 alice) (loadGroups alice).

(** Alice looking at Bob's profile. *)
Definition bob_view : ProfileView :=
  mkProfileView ls0 alice bob (friendButtonFor alice bob) false (Some 1%nat) [request_from_carol] false.

(** ** Witnesses *)

Lemma removeFriend_keeps_symmetry_witness :
  let db' := getDatabase (fp_local (removeFriend true friends_page "u2")) in
  friendship_symmetric db' /\ is_friend db' "u1" "u2" = false.
Proof.
  destruct (removeFriend_keeps_symmetry friends_page "u2" db0) as (H1 & H2 & _).
  - reflexivity.
  - reflexivity.
  - discriminate.
  - apply (bool_decide_unpack _). vm_compute. reflexivity.
  - apply friendship_symmetric_b_spec. vm_compute. reflexivity.
  - split; assumption.
Defined.

Lemma search_results_bounded_witness :
  onSearchInput ls0 alice " BO " = SR_open [bob] /\ (length [bob] <= 8)%nat.
Proof.
  assert (H : onSearchInput ls0 alice " BO " = SR_open [bob]) by (vm_compute; reflexivity).
  split; [exact H|]. exact (proj1 (search_results_bounded ls0 alice " BO " [bob] H)).
Defined.

(** Alice looking at Carol's profile, whom she does not follow. *)
Definition carol_view : ProfileView :=
  mkProfileView ls0 alice carol (friendButtonFor alice carol) false (Some 1%nat) [request_from_carol] false.

Lemma unsubscribe_removes_witness :
  includes "u2" (subscriptions_of (fp_user (unsubscribe friends_page "u2"))) = false.
Proof.
  destruct (unsubscribe_removes friends_page "u2" db0) as (_ & H & _);
    [reflexivity | reflexivity | apply (bool_decide_unpack _); vm_compute; reflexivity | exact H].
Defined.

Lemma profile_unfriend_loses_write_witness :
  ~ friendship_symmetric (getDatabase (pv_local (onFriendClick bob_view "1700000000001" "2026-11-09"))).
Proof.
  destruct (profile_unfriend_loses_write bob_view db0 bob "1700000000001" "2026-11-09")
    as (_ & _ & H & _);
    [reflexivity | reflexivity | reflexivity | discriminate | reflexivity
    | apply (bool_decide_unpack _); vm_compute; reflexivity | exact H].
Defined.

Lemma accept_makes_friends_witness :
  let np' := Notifications.handleNotificationAction (panel bob_view) "1700000000000_fr" "accept"
               (Some "u3") "1700000000002" "2026-11-09" in
  is_friend (getDatabase (np_local np')) "u1" "u3" = true /\
  is_friend (getDatabase (np_local np')) "u3" "u1" = true.
Proof.
  destruct (accept_makes_friends (panel bob_view) db0 alice carol "1700000000000_fr" "u3"
              "1700000000002" "2026-11-09") as (H1 & H2 & _);
    [reflexivity | reflexivity | eexists; reflexivity | reflexivity | discriminate | discriminate |].
  split; assumption.
Defined.

Lemma markAllRead_clears_witness :
  np_badge (Notifications.markAllRead (panel bob_view)) = None.
Proof.
  destruct (markAllRead_clears (panel bob_view) alice) as (_ & H); [reflexivity|].
  apply H. vm_compute. lia.
Defined.

Lemma subscribe_twice_restores_witness :
  subscriptions_of (pv_currentUser (onSubscribeClick (onSubscribeClick carol_view "1" "t1") "2" "t2")) =
  ["u2"].
Proof.
  destruct (subscribe_twice_restores carol_view "1" "t1" "2" "t2") as (H & _); [reflexivity|].
  exact H.
Defined.

(** ** The encoding of the profile page's labels *)

(** the labels of the profile page are double-encoded.  The friend
    button's labels and the subscribe button's labels in
    user-profile-view.ts are exactly the UTF-8 bytes of the Russian texts
    (as friends.ts and the other pages spell theirs) read as Mac OS Roman
    characters and encoded again: the page shows this garbled text. *)
Example profile_labels_double_encoded :
  ViewMarkup.utf8_read_as_mac_roman "✓ В друзьях" = FRIEND_ADDED_TEXT /\
  ViewMarkup.utf8_read_as_mac_roman "➕ Добавить в друзья" = FRIEND_ADD_TEXT /\
  ViewMarkup.utf8_read_as_mac_roman "⏳ Запрос отправлен" = FRIEND_PENDING_TEXT /\
  ViewMarkup.utf8_read_as_mac_roman "✓ Вы подписаны" = SUBSCRIBED_TEXT /\
  ViewMarkup.utf8_read_as_mac_roman "🔔 Подписаться" = SUBSCRIBE_TEXT.
Proof. vm_compute. repeat split. Qed.

End SocialScenarios.
