(* ===== verification/PageScenarios.v ===== *)
(** * Concrete runs of the settings, profile and dashboard pages

    Alice's browser of [SocialScenarios] (signed in, friends with Bob, a
    pending friend request from Carol), a settings form, and the
    instances of the theorems of [Settings], [Profile] and [Dashboard] on
    them.  The profile scenario interleaves two tabs of that browser: the
    profile form is opened, the request is accepted in the other tab, and
    the form is then submitted. *)

From stdpp Require Import pretty.
From S2P Require Import Prelude Types Storage Auth Header Friends Notifications Settings Profile Dom Editor Dashboard ProfileRender Menus DashboardNav Markup ViewMarkup HeaderStatus PageHeader Landing LandingNav Scenarios SocialScenarios.
Import Auth Friends Notifications Settings Profile Dashboard ProfileRender HeaderStatus PageHeader Landing LandingNav SocialScenarios.

Module PageScenarios.

Definition b0 : Browser := mkBrowser ls0 (mkSessionStorage None None) None [] None.

(** ** The settings page *)

Definition languages : Select := mkSelect ["ru"; "en"] "ru".
Definition themes : Select := mkSelect ["default"; "dark"; "light"] "default".
Definition visibilities : Select := mkSelect ["all"; "friends"; "nobody"] "all".

Definition form0 : SettingsForm :=
  mkSettingsForm (Some languages) (Some themes) (Some true) (Some true) (Some true) (Some false)
    (Some visibilities) (Some visibilities).

Definition saved_settings : SettingsObject :=
  mkSettings (Some "en") (Some "dark") (Some false) (Some true) (Some true) (Some true)
    (Some "friends") (Some "all") (Some false).

Lemma settings_defaults_lost_witness :
  exists b1 pg, Settings.init b0 form0 = (b1, Some pg) /\
    ls_settings (local (fst (onSave b1 pg))) = Some lostDefaults.
Proof.
  destruct (settings_defaults_lost b0 alice form0) as (b1 & pg & H1 & _ & _ & _ & H2);
    [reflexivity | reflexivity | reflexivity | vm_compute; reflexivity |].
  exists b1, pg. split; assumption.
Defined.

Lemma settings_load_save_identity_witness :
  exists b1 pg, Settings.init (Auth.with_local b0 (set_settings ls0 (Some saved_settings))) form0 = (b1, Some pg) /\
    ls_settings (local (fst (onSave b1 pg))) = Some saved_settings.
Proof.
  exact (settings_load_save_identity (Auth.with_local b0 (set_settings ls0 (Some saved_settings))) alice
           form0 saved_settings eq_refl eq_refl eq_refl ltac:(vm_compute; reflexivity)).
Defined.

Lemma delete_account_keeps_record_witness :
  ss_pendingLogin (session (onLoginSubmit (onDeleteAccount b0 true true) "alice@mail.com" "pass1234x" (1 # 2) 0))
    = Some (mkPendingLogin "u1" "alice@mail.com").
Proof.
  destruct (delete_account_keeps_record b0 "alice@mail.com" "pass1234x" alice (1 # 2) 0)
    as (_ & _ & _ & H); [vm_compute; reflexivity | reflexivity | exact H].
Defined.

(** ** The profile page *)

(** Alice's profile page as [init] opens it. *)
Definition profile0 : ProfilePage := loadProfile alice None PV_blank "".

(** Alice edits her login. *)
Definition profile_edited : ProfilePage :=
  mkProfilePage alice "Alice" " Alice_1 " "gg" 2 None PV_blank "".

Lemma onSubmit_logins_unique_witness :
  NoDup (omap login (users (getDatabase (local (fst (onSubmit b0 profile_edited)))))).
Proof.
  apply (onSubmit_logins_unique b0 profile_edited db0); [reflexivity | | | vm_compute; reflexivity].
  - apply (bool_decide_unpack _). vm_compute. reflexivity.
  - apply (bool_decide_unpack _). vm_compute. reflexivity.
Defined.

(** The other tab accepts Carol's request after the profile page was
    opened. *)
Definition other_tab : Panel :=
  Notifications.handleNotificationAction (mkPanel ls0 alice None [] false) "1700000000000_fr" "accept"
    (Some "u3") "1700000000002" "2026-11-09".

Definition b_after_accept : Browser := Auth.with_local b0 (np_local other_tab).

Lemma profile_submit_writes_snapshot_witness :
  let db' := getDatabase (local (fst (onSubmit b_after_accept profile0))) in
  (exists db'' u', ls_database (local (fst (onSubmit b_after_accept profile0))) = Some db'' /\
     find_user db'' "u1" = Some u' /\ ls_currentUser (local (fst (onSubmit b_after_accept profile0))) = Some u' /\
     friends u' = friends alice /\ subscriptions u' = subscriptions alice /\
     notifications u' = notifications alice /\ nickname u' = "Alice") /\
  is_friend db' "u3" "u1" = true /\ is_friend db' "u1" "u3" = false.
Proof.
  split; [|split; vm_compute; reflexivity].
  exact (profile_submit_writes_snapshot b_after_accept profile0 _ 0%nat eq_refl
           ltac:(vm_compute; reflexivity) ltac:(vm_compute; reflexivity)).
Defined.

(** ** The dashboard *)

Definition dashboard0 : DashboardPage :=
  match snd (initDashboard b0 Scenarios.page0 None) with
  | Some st => st
  | None => mkDashboard b0 alice "" BG_none (generateMockStats ls0 alice) true None
              (mkPanel ls0 alice None [] false) (Editor.init alice Scenarios.page0 ls0)
  end.

Lemma winRate_bounds_witness : 0 <= winRate alice <= 100 /\ winRate alice == 75.
Proof.
  split; [apply winRate_bounds; vm_compute; discriminate | vm_compute; reflexivity].
Defined.

Lemma dashboard_accept_then_save_witness :
  let st' := dash_run dashboard0 [DE_notificationAction "1700000000000_fr" "accept" (Some "u3")
                                    "1700000000002" "2026-11-09"; DE_editor Editor.EvSave] in
  is_friend (getDatabase (local (d_browser st'))) "u1" "u3" = true /\
  is_friend (getDatabase (local (d_browser st'))) "u3" "u1" = true.
Proof.
  destruct (dashboard_accept_then_save dashboard0 db0 alice carol "1700000000000_fr" "u3"
              "1700000000002" "2026-11-09") as (H1 & H2 & _);
    [vm_compute; reflexivity | vm_compute; reflexivity | vm_compute; reflexivity
    | eexists; vm_compute; reflexivity | vm_compute; reflexivity | discriminate | discriminate
    | vm_compute; reflexivity |].
  split; assumption.
Defined.

(** ** The landing page *)

Definition card (tag : string) : Card := mkCard tag "block" "1" "translateY(0)".

Definition landing0 : Page := mkPage [card "Warcraft III"; card "Dota 2"] None 0 [].

Lemma filter_all_race_witness :
  let p' := landing_run landing0 [LE_filter "Dota 2" 0; LE_filter ALL_FILTER 100; LE_wait 400] in
  activeFilter p' = Some ALL_FILTER /\ display_at (cards p') 0 = Some "none" /\
  display_at (cards p') 1 = Some "block".
Proof.
  destruct (filter_all_race landing0 0 (card "Warcraft III") "Dota 2" 0 100 400) as [H1 H2];
    [reflexivity | reflexivity | discriminate | vm_compute; reflexivity | lia | lia |].
  split; [exact H1|]. split; [exact H2|]. vm_compute. reflexivity.
Defined.

Lemma filter_settles_witness :
  let p' := landing_run landing0 [LE_filter "Warcraft III" 0; LE_wait 300] in
  timers p' = [] /\ activeFilter p' = Some "Warcraft III" /\
  cards p' = [mkCard "Warcraft III" "block" "1" "translateY(0)"; mkCard "Dota 2" "none" "0" "translateY(20px)"].
Proof.
  destruct (filter_settles landing0 "Warcraft III" 0 300) as (H1 & H2 & H3); [reflexivity | lia |].
  split; [exact H1|]. split; [exact H2|]. rewrite H3. vm_compute. reflexivity.
Defined.

(** ** The profile view's rendering *)

(** [Math.random()] answering one half every time. *)
Definition rand_half : nat -> Q := fun _ => 1 # 2.

Lemma rand_half_range : forall n, 0 <= rand_half n < 1.
Proof. intros n. split; vm_compute; [discriminate | reflexivity]. Qed.

(** Alice saves the banner of her fresh editor and opens her profile: the
    four default elements are drawn. *)
Lemma own_profile_shows_saved_banner_witness :
  let e := Editor.init alice Scenarios.page0 ls0 in
  exists pv r, viewPage (Editor.storage (Editor.step e Editor.EvSave)) None rand_half = Some (pv, r) /\
    map vn_id (r_canvas r) = ["avatar"; "username"; "subtitle"; "stats"].
Proof.
  destruct (own_profile_shows_saved_banner (Editor.init alice Scenarios.page0 ls0) rand_half
              (Editor.reach_init _ _ _) eq_refl eq_refl) as (pv & r & Hv & _ & Hc & _).
  exists pv, r. split; [exact Hv|]. rewrite Hc. reflexivity.
Defined.

Lemma match_history_typed_witness :
  let ms := generateMockMatchHistory rand_half 9 in
  (length ms = 12%nat /\ NoDup (map mm_id ms) /\ Forall (fun m => match_typed m /\ elo_in_range m) ms) /\
  map mm_eloChange ms = [25; 25; -20; 25; 25; -20; 25; 25; -20; 25; 25; -20]%Z.
Proof.
  split; [exact (match_history_typed rand_half 9 rand_half_range) | vm_compute; reflexivity].
Defined.

Lemma game_stats_bounds_witness :
  exists d, loadGameStats "coh" alice (1 # 2) (1 # 2) None = Some d /\ gd_name d = "Company of Heroes" /\
    (0 <= gd_wins d)%Z /\ (0 <= gd_losses d)%Z /\
    elo alice - 100 <= gd_elo d < elo alice + 100 /\ 0 <= gd_winRate d <= 52.
Proof.
  apply (game_stats_bounds "coh" alice (1 # 2) (1 # 2) None ("coh", "Company of Heroes"));
    [vm_compute; discriminate | split; vm_compute; [discriminate | reflexivity] ..| reflexivity].
Defined.

(** The panel as the page's HTML has it: the account block shown. *)
Definition panel0 : StatsPanel := mkStatsPanel false None None false true None.

Lemma stats_panel_select_witness :
  let evs := [SE_button; SE_card "starwars" (1 # 2) (1 # 2); SE_button; SE_document] in
  (one_block (stats_run alice panel0 evs) /\
   forall g, last_selected evs = Some g -> shown_for (stats_run alice panel0 evs) g) /\
  sp_selectorText (stats_run alice panel0 evs) = Some "Star Wars: EaW".
Proof.
  split; [apply stats_panel_select; reflexivity | reflexivity].
Defined.

(** ** The header menus *)

(** Alice's header with every menu closed. *)
Definition menus0 : Menus.Menus := Menus.mkMenus (mkPanel ls0 alice None [] false) false false.

Lemma propagating_click_closes_others_witness :
  let m := Menus.menu_run menus0 [Menus.ME_searchInput "bo"; Menus.ME_click Menus.T_bell] in
  let m' := Menus.click m Menus.T_search in
  (Menus.m_profileOpen m' = false /\
   np_open (Menus.m_panel m') = (Menus.in_notifications Menus.T_search && np_open (Menus.m_panel m))%bool /\
   Menus.m_searchOpen m' = (Menus.in_search Menus.T_search && Menus.m_searchOpen m)%bool /\
   (Menus.open_count m' <= 1)%nat) /\
  Menus.m_searchOpen m' = true /\ np_open (Menus.m_panel m') = false.
Proof.
  split; [apply Menus.propagating_click_closes_others; reflexivity | split; vm_compute; reflexivity].
Defined.

Lemma three_menus_open_witness :
  let m := Menus.menu_run menus0 [Menus.ME_searchInput "bo"] in
  let m' := Menus.menu_run m [Menus.ME_click Menus.T_bell; Menus.ME_click Menus.T_profileToggle] in
  np_open (Menus.m_panel m') = true /\ Menus.m_profileOpen m' = true /\ Menus.m_searchOpen m' = true /\
  Menus.open_count m' = 3%nat.
Proof. apply Menus.three_menus_open; vm_compute; reflexivity. Defined.

(** ** Markup saved as a nickname *)

(** Carol, signed in on the browser Alice uses, saves markup as her
    nickname; the profile form accepts it (three characters or more). *)
Definition payload : string := "<img src=x onerror=alert(1)>".
Definition carol_browser : Browser :=
  mkBrowser (mkLocal (Some db0) (Some carol) (Some "true") None) (mkSessionStorage None None) None [] None.
Definition carol_form : ProfilePage := mkProfilePage carol payload "" "" 0 None PV_blank "".

(** Alice signs in afterwards and searches for "img". *)
Definition alice_after : LocalStorage := set_currentUser (local (fst (onSubmit carol_browser carol_form))) alice.
Definition level_text (q : Q) : string := pretty (Qnum q).

Lemma markup_embeds_names_witness :
  exists found u, Friends.onSearchInput alice_after alice "img" = SR_open found /\ In u found /\
    nickname u = payload /\ occurs_in payload (Markup.searchResultsHtml level_text found) /\
    exists k, String.index 0 payload (Markup.searchResultsHtml level_text found) = Some k.
Proof.
  set (found := firstn 8 (List.filter (search_match "img" alice) (users (getDatabase (local (fst (onSubmit carol_browser carol_form))))))).
  assert (Hf : Friends.onSearchInput alice_after alice "img" = SR_open found) by (vm_compute; reflexivity).
  destruct found as [|u us] eqn:E; [vm_compute in E; discriminate|].
  assert (Hu : nickname u = payload) by (vm_compute in E; injection E as <- _; reflexivity).
  assert (Hocc : occurs_in payload (Markup.searchResultsHtml level_text (u :: us))).
  { rewrite <- Hu. apply (proj1 (Markup.markup_embeds_names level_text (fun _ => 0%Z))). left; reflexivity. }
  exists (u :: us), u. repeat split; [exact Hf | left; reflexivity | exact Hu | exact Hocc | ].
  exact (occurs_index _ _ Hocc).
Defined.

(** A landing page of four sections, the window able to scroll 1800
    pixels down: [contact] starts 2100 pixels down. *)
Definition landing_nav0 : NavPage :=
  mkNavPage [mkTarget "hero" 0 true; mkTarget "tournaments" 800 true; mkTarget "about" 1400 true;
             mkTarget "contact" 2100 true]
    ["#hero"; "#tournaments"; "#about"; "#contact"] 1800 0 [false; false; false; false] [].

Lemma nav_click_marks_section_witness :
  np_scrollY (onAnchorClick landing_nav0 "about") = 1400%Z /\
  np_active (onAnchorClick landing_nav0 "about") =
  map (fun href => String.eqb href (String.append "#" "about")) (np_links landing_nav0).
Proof.
  apply (nav_click_marks_section landing_nav0 [mkTarget "hero" 0 true; mkTarget "tournaments" 800 true]
           [mkTarget "contact" 2100 true]).
  - reflexivity.
  - repeat constructor; cbn; discriminate.
  - reflexivity.
  - cbn. lia.
  - cbn. lia.
  - repeat constructor; cbn; lia.
Defined.

Lemma short_section_never_marked_witness :
  ~ marked (nav_run landing_nav0 [NE_click "contact"; NE_scroll 5000]) "contact".
Proof.
  apply short_section_never_marked.
  - unfold in_range. cbn. lia.
  - discriminate.
  - repeat constructor; cbn; intros H; (discriminate || lia).
  - intros (i & Hi & Ha). destruct i as [|[|[|[|i]]]]; cbn in Hi, Ha; discriminate.
Defined.

(** A header with every status element, on the editor's storage. *)
Definition header0 : HeaderPage :=
  mkHeaderPage Scenarios.storage0 (mkDropdownView (Some "") (Some ""))
    (mkStatusView (Some "") (Some "") (Some "") (Some "") (Some false)).

Lemma status_switch_consistent_witness :
  consistent pageTexts (Nat.iter 3 (onCheckboxClick pageTexts) (setupProfileDropdown pageTexts Scenarios.player header0)) /\
  stored_online (Nat.iter 3 (onCheckboxClick pageTexts) (setupProfileDropdown pageTexts Scenarios.player header0)) = false.
Proof.
  destruct (status_switch_consistent pageTexts Scenarios.player header0 3) as [Hc Hs]. split; [exact Hc|].
  rewrite Hs by discriminate. reflexivity.
Defined.

Definition header_session : list HeaderEvent :=
  [HE_click PT_toggle; HE_checkbox; HE_search "al"; HE_click PT_search; HE_dropdownLogout false;
   HE_sidebarLogout false].

Lemma header_keeps_account_witness :
  account (ph_browser (header_run level_text (setupHeader carol_browser carol (mkDropdownView None None)
                                                (hp_status header0)) header_session)) =
  account (ph_browser (setupHeader carol_browser carol (mkDropdownView None None) (hp_status header0))).
Proof. apply header_keeps_account. reflexivity. Defined.

End PageScenarios.
